(* ===== verification/_CoqProject ===== *)
-Q . S2P
Prelude.v
Doubles.v
Stimuli.v
Objects.v
Audio.v
Setup.v
Screens.v
Results.v
Generator.v
Timeline.v
Evaluator.v
Exports.v
Ledger.v
Lifecycle.v
Browser.v
Session.v
Conduct.v
Tests.v
