(* ===== verification/Prelude.v ===== *)
(** * A verification development for the Dimensional Change Card Sort timeline

    The program ([src/src/index.ts]) builds the timeline of a jsPsych
    experiment: a welcome screen, instruction screens, colour practice
    trials with feedback, colour and shape test trials, a block of generated
    mixed trials and a results screen.  jsPsych shows the screens in order;
    a trial screen calls [setupTrial] when it loads, which wires the two
    cards of the page to a click listener that scores the answer and
    reports it with [jsPsych.finishTrial]; the results screen reads what
    jsPsych recorded.  The files, in the order of their dependencies:

    - [Prelude] (this file): the JavaScript fragment the program is written
      in.  A [Number] is a rational: the finite values of the counts, the
      random draws and the clock, on which the comparisons and
      [Math.floor] are exact.  Code that reads or writes mutable state and may throw is a value of
      the monad [M S A := S -> result A * S], whose [result] is [Ok],
      [Throw] or [Timeout] (a loop out of fuel).  [for_lt] is the loop
      [for (let i = 0; i < n; i++)], [js_index] is [a[i]], [js_slice0] is
      [a.slice(0, e)], [toUpperCase] the ASCII part of the string method.
      The file also holds the two program logics the components share:
      [ht P m Q] (a state property carried across a computation, also when
      it throws) and [returns m] (no [Timeout]), with their rules, the
      tactics ([unfold_monad], [q_solve], [by_compute], [by_decide]) and
      the hint databases [js] and [js_rw].
    - [Doubles]: the arithmetic of the language.  [JsNumber] adds the
      infinities and NaN; [fl] rounds a rational to the nearest value of
      binary64, ties to even, and [js_div], [js_mul], [js_add], [js_sub]
      are the exact operations rounded by it.  The file proves that [fl]
      returns values of binary64 and keeps them, bounds its error, and
      shows which operations of the program are exact.
    - [Stimuli]: the interfaces [Stimulus], [Trial], [TrialData],
      [GameState], the catalogue [STIMULI] and the three tables of trials;
      [well_posed dim t] says that exactly one choice of [t] agrees with
      its target on [dim] and that [correct] is its index.
    - [Objects]: the same interfaces as types of JavaScript values
      ([StimulusT], [TrialT], [TrialDataT], [GameStateT]), the check
      [assignable] of an object literal against them, and the records of
      [Stimuli] written as literals and read back.
    - [Audio]: the variable [state], [resetState] and [playAudio], over a
      [window] whose speech synthesiser is the list of utterances it was
      given.
    - [Setup]: the two versions of [jest.setup.js]
      ([src/unnamed/part_000], [src/unnamed/part_001]) over a store of
      prototype objects and the value of [Date]: the constructor
      [SpeechSynthesisUtterance], the wrapper [SafeDate], the fallback for
      [toUTCString] and its pattern.
    - [Screens]: [createTrialStimulus] and the eight [create...]
      functions.  A timeline entry is a record [Screen]; the functions it
      holds are data ([Narrate], [SetupTrial], [WelcomeOnFinish],
      [ResultsTable]); the markup is that of the template literals.
    - [Results]: the [stimulus] function of [createResults] over the
      interface [DataCollection] (what the program asks of
      [jsPsych.data.get()]), computed in binary64, and [toFixed];
      [exact_results_stimulus] is the same table in exact arithmetic, its
      specification.
    - [Generator]: [generateMixedTrials] as the source's loop over a random
      source [nat -> Number] (the successive values of [Math.random()]);
      [Generator.Spec] is its specification.  [generateMixedTrials_fuel]
      is the function with its count as a [JsNumber] and the fuel of its
      loop as an argument.
    - [Timeline]: [createTimeline] over the module state, the random
      stream and the array it fills; [Timeline.Layout] is its
      specification.
    - [Evaluator]: [setupTrial] and the three functions it creates (click
      listener, delayed [finishTrial], reminder) as handlers over an
      environment [Env]: clock, DOM of the trial screen, pending timers,
      one [Closure] per call of [setupTrial] (captured variables and the
      latch [responded]) and the host, an instance of the class
      [JsPsych].  The event loop is the relation [step], with the
      executable [step_fn].
    - [Exports]: the exported objects [timelineComponents] and [utils]
      as modules, and [component], the contract of a custom timeline
      built from them.
    - [Ledger]: the invariants of the event loop, proved once for every
      property of the class [LedgerStable], whose seven fields are the
      ways the handlers change the ledger, with the card and the verdict
      they carry; [settled] is the stable property behind the liveness
      theorem.
    - [Lifecycle]: the ledger as a transition system ([ledger_step]), the
      automaton of one trial ([Phase], [phase_step]: absent, waiting,
      pending, reported, stuck), the abstraction [phase_of] and the
      simulation of the event loop by the automaton.
    - [Browser]: between events the browser lets time pass until the
      timer that is due first fires ([fire_earliest]); [wait] lets a
      given time pass and [await] waits for a condition.  A reminder is
      [live] while its trial waits for an answer and [stale] afterwards.
      Modelled from the browser's documented behaviour.
    - [Session]: the timeline run to its end.  [Host] is jsPsych as the
      program sees it (the rows recorded, the [data] of the current trial,
      whether it has ended), an instance of [JsPsych]; [play] is one
      entry from the start of its trial to its end ([page], [load],
      the participant's [Move], [await_end], [finish_screen]) and
      [session] a whole timeline.  [expected_rows] is what a session
      should record, [heard] and [script] what it should say.  The
      host is modelled from its documented behaviour.
    - [Conduct]: the ledger over a session: what [Ledger] and
      [Lifecycle] show of the event loop, for the sessions of any
      timeline and participant, and the reports of a session whose moves
      fit its screens.
    - [Tests]: the Jest suite ([src/unnamed/part_002]) with its mocks and
      its [beforeEach], each test a boolean named after it that calls the
      program through the export objects as the suite does, the object
      literals of the tests of the type exports, and
      [src/jest.config.js] as data.

    What the theorems show.  [Doubles]: every finite result of [fl] is a
    value of binary64 and every value is returned as it is; in the normal
    range the result is within the fraction [2 ^ (-53)] of the number;
    sums of whole numbers below [2 ^ 53], the product of a draw by four
    and the difference of two nearby values are exact.  [Generator]: the
    function refines its
    specification when [Math.random] stays in [0,1), returns [ceil n]
    trials whose dimension alternates with the parity of the index, each
    well posed; it throws a [TypeError] on a draw outside [0,1); for
    every count but [Infinity], NaN included, enough fuel gives its result,
    and for [Infinity] the loop exhausts every fuel; the target of the
    trial an iteration pushes is the one the product of binary64
    selects.  [Timeline]: [createTimeline] refines [Layout]; every
    trial screen is sound (its data and the arguments of [setupTrial]
    agree, its trial is well posed) and every entry is well formed (a
    trial entry takes no key, has no time limit and a page of two cards;
    any other entry has a button); the trials can be read back from the
    entries; the number of screens, and the number of trials of each
    phase for every value of the counts, negative and fractional ones
    included ([slice_count]); the module state is reset on every path.
    [Screens]: the markup of a trial has two choice cards and a feedback
    element; narration follows the checkbox of the welcome screen.
    [Evaluator]: the [rt] a click reports, the difference of two clock
    readings, is the number the program computes in binary64 when the
    clock counts whole milliseconds or the answer comes before the
    starting time has doubled.
    [Evaluator] and [Ledger]: [finishTrial] is called at most once for
    each call of [setupTrial] whatever the order of clicks, timers and
    screens; the latch never reopens; a click reports the index, its
    comparison with [correct] and the elapsed time; on a well-posed trial
    the matching card is the one reported correct; on the feedback path
    the reported time includes the feedback delay; a listener that throws
    leaves its trial unable to finish; an answer on a practice trial is
    reported exactly once in every run that lasts 2500 ms more and has no
    timer overdue, whatever else happens meanwhile.  [Lifecycle] and
    [Conduct]: every run of the event loop is a
    sequence of ledger transitions that moves each trial along its
    automaton, by at most one transition for each transition of the ledger
    and three in all; a report is final; a trial that waits ends up
    reported or pending with the verdict of the click handler for the
    card clicked first, or stuck, and stuck only with feedback; every
    report made or scheduled in a run from the initial environment is
    judged so; in a session of well-formed entries played with fitting
    moves [finishTrial] is called once for each trial screen, in order,
    with the card and the verdict of the move, and each trial ends
    reported.  [Objects] (adequacy of the representation, no property of the
    program): the records are values of their interfaces,
    are read back from their literals, and every value of an interface
    is read as a record when the numbers kept as integers are integers.
    [Setup]: the scan of the pattern is the test of the suffix; the
    fallback prints the ISO form without milliseconds, never the form of
    the native [toUTCString]; after either file every date object
    answers [toUTCString]; the two files are equivalent up to the
    identity of [Date]; both throw when [Date] has no prototype.
    [Results]: for fewer than [2 ^ 44] trials the accuracy cell is an
    integer percentage nearest to the share of correct answers, and for
    reaction times in whole milliseconds the reaction-time cell a tenth of
    a second nearest to their mean; on a tie the cell shows either
    neighbour, as the rounded value falls (23 of 40 shows 57, 5 of 8 shows
    63; a mean of 850 ms shows 0.8 and one of 1250 ms shows 1.3); the table
    is the one of exact arithmetic off the ties, and for at most 39 trials
    in a phase the accuracy cells are the same on ties too; the table
    ignores rows of other screens; an empty phase, or one without a
    correct answer, shows NaN; rows that differ in the representation of
    the reaction time give the same table ([row_eq]).  [Stimuli]: every row
    of the tables is well posed.  [Session]: a timeline of
    [createTimeline] played with moves that fit its screens runs to its
    end and records the expected rows, one for each screen, with reminders
    of earlier trials pending or firing in between; every well-formed
    entry ends; a practice trial whose [correct] is no index of a card never
    ends; a custom timeline built from the exported components within
    their contract ([component]) records its expected rows as well; what
    is said on a screen is the text of [heard] (the cue word,
    the feedback phrase, the reminder exactly when a test trial took five
    seconds), and after [createTimeline] a whole session says exactly the
    [script] when the checkbox of the welcome screen is left ticked, and
    nothing otherwise: a reminder never speaks once its trial was
    answered.  [Tests] (evaluations of the suite on the model, a check of the
    translation and no property of the program):
    of the 43 tests all pass but ['should set
    audio state on finish'], which cannot pass; under the mocked
    [setTimeout] the report is made at the click; the literal of
    ['should export GameState type'] is not a [GameState], and its test
    passes when run, since it reads back what it wrote.

    Bounds and fuel.  [for_lt] takes its fuel as an argument; the generator
    passes [loop_count n = Z.to_nat (Qceiling n)], and
    [for_lt_enough_fuel] shows that this is the number of iterations, so
    [Timeout] is never returned ([for_lt_no_fuel]: less fuel is too
    little).  [generateMixedTrials_fuel] leaves the fuel open:
    [generateMixedTrials_terminates] shows that from [loop_count n] on the
    result is that of [generateMixedTrials], and
    [generateMixedTrials_diverges] that the count [Infinity] exhausts
    every fuel, which is why the finite function is given the fuel
    [loop_count].  The other loops run over lists.  [wait] and [await_end]
    take as fuel the number of pending timers: a callback sets no timer
    ([invoke_frame]), so each firing leaves one timer less, and
    [wait_until_rule] and [await_rule] show that the fuel is enough
    ([wait_until_reminders], [await_finisher]); [await_end] returns
    [None] only for a trial that never ends ([await_reminders]).  [session_reports] and [session_records] show that the sessions of
    well-formed entries played with fitting moves return.  [Trial.correct] and the indices are integers.
    The dates of [Setup] are those of the years 0 to 9999, which
    [toISOString] prints with four digits.  [toFixed] is modelled for
    numbers below 1e21.  The bounds of the theorems on the table,
    [2 ^ 44] trials in a phase and a sum of reaction times below [2 ^ 50]
    ms, keep the rounding errors of the quotients, about [2 ^ (-45)] of a
    percent, below the distance between a fraction of that many trials
    and a half-integer; no session reaches them.  The table of the pairs
    of counts up to 39 behind [cells_agree_39] is evaluated by the kernel.

    Idealisations.  The counts of the options, [Trial.correct] and the
    indices are finite: an option that is NaN or infinite is outside the
    model, except for the count of the generator
    ([generateMixedTrials_fuel]), and [correct] is an integer.  The clock
    and the reaction times of the event loop are rationals and a
    reaction time is the exact difference of two readings
    ([reaction_time_exact] says when the program computes just that).  A
    timer fires at the moment it is due; a browser may fire it later, which
    adds the lateness to the reaction time of a practice trial.  [play]
    returns [None] for a trial that never ends, for a move that does not
    fit the screen and for lack of fuel alike; the theorems that rely on
    [None] say which of them applies.  [classList_add] reads the cards of
    the page as it is, not the list captured by [setupTrial]; the two are
    the same because rendering a page discards the listeners of the
    earlier one.  [toUpperCase] changes the letters a to z only, which
    covers the two dimension names.  The sign of a zero is not kept.

    Not modelled: the features of jsPsych the program does not use
    (nested timelines, preloading, the other columns of the recorded data)
    and how its two plugins draw and collect responses ([play] states only
    when their trial ends); the parsing and layout of the markup by the
    browser ([choice_cards] and [has_feedback] count substrings); speech
    synthesis beyond the list of requests; of the test-suite the
    expectations on the arguments of [document.querySelectorAll]; how
    Jest and ts-jest load, compile and schedule the files (the setup
    files are modelled as programs, not the moment they run); of [Date]
    the construction of a time from the arguments of [new Date], the
    calendar, and the years for which [toISOString] uses six digits; of
    TypeScript everything but the check of an object literal against an
    interface. *)

From Stdlib Require Import ZArith QArith Qround Lia Lqa.
From stdpp Require Import base tactics decidable option list strings.

Set Default Proof Using "Type".

(** ** Results and the state-and-exception monad *)

Inductive JsError : Type :=
| TypeError (msg : string).

Inductive result (A : Type) : Type :=
| Ok (a : A)
| Throw (e : JsError)
| Timeout.
Arguments Ok {A} a.
Arguments Throw {A} e.
Arguments Timeout {A}.

Definition M (S A : Type) : Type := S -> result A * S.

Definition ret {S A} (a : A) : M S A := fun s => (Ok a, s).

Definition bind {S A B} (m : M S A) (f : A -> M S B) : M S B :=
  fun s => match m s with
           | (Ok a, s') => f a s'
           | (Throw e, s') => (Throw e, s')
           | (Timeout, s') => (Timeout, s')
           end.

Definition throw {S A} (e : JsError) : M S A := fun s => (Throw e, s).
Definition timeout {S A} : M S A := fun s => (Timeout, s).
Definition get {S} : M S S := fun s => (Ok s, s).
Definition put {S} (s : S) : M S unit := fun _ => (Ok tt, s).
Definition modify {S} (f : S -> S) : M S unit := fun s => (Ok tt, f s).

Declare Scope js_scope.
Delimit Scope js_scope with js.
Notation "x <- c1 ;; c2" := (bind c1 (fun x => c2))
  (at level 100, c1 at next level, right associativity) : js_scope.
Notation "c1 ;; c2" := (bind c1 (fun _ => c2))
  (at level 100, right associativity) : js_scope.
Open Scope js_scope.

(** Running a computation on a part of the state. *)
Definition zoom {S T A} (proj : S -> T) (upd : T -> S -> S) (m : M T A) : M S A :=
  fun s => let '(r, t) := m (proj s) in (r, upd t s).

Definition when {S} (b : bool) (m : M S unit) : M S unit :=
  if b then m else ret tt.

(** [ht P m Q]: from a state that satisfies [P], the computation [m] ends,
    normally or by an exception, in a state that satisfies [Q]. *)
Definition ht {S A} (P : S -> Prop) (m : M S A) (Q : S -> Prop) : Prop :=
  forall s, P s -> Q (m s).2.

(** [returns m]: the computation ends, normally or by an exception: it does
    not run out of fuel. *)
Definition returns {S A} (m : M S A) : Prop :=
  forall s, (m s).1 <> Timeout.

(** Reading a property of a value that may be [undefined]. *)
Definition member {S A B} (o : option A) (f : A -> B) (what : string) : M S B :=
  match o with
  | Some a => ret (f a)
  | None => throw (TypeError what)
  end.

Definition is_Ok {A} (r : result A) : bool :=
  match r with Ok _ => true | _ => false end.

(** The value a computation returned, if it returned one. *)
Definition value_of {A} (r : result A) : option A :=
  match r with Ok a => Some a | _ => None end.

(** Running the body on each element of a list, in order: the reference
    against which loops are compared. *)
Fixpoint iterM {S A} (body : A -> M S unit) (l : list A) : M S unit :=
  match l with
  | [] => ret tt
  | a :: l' => body a ;; iterM body l'
  end.

(** ** Numbers *)

Abbreviation Number := Q (only parsing).

Definition js_lt (x y : Number) : bool := negb (Qle_bool y x).
Definition js_gt (x y : Number) : bool := js_lt y x.

Definition Math_floor (x : Number) : Z := Qfloor x.

(** [ToIntegerOrInfinity]: truncation toward zero. *)
Definition ToInteger (x : Number) : Z :=
  if Qle_bool 0 x then Qfloor x else Qceiling x.

(** The number of [i = 0, 1, 2, ...] with [i < n]. *)
Definition loop_count (n : Number) : nat := Z.to_nat (Qceiling n).

(** [for (let i = i0; i < n; i++) body(i)], with fuel for the iterations. *)
Fixpoint for_lt {S} (fuel : nat) (i : Z) (n : Number) (body : Z -> M S unit)
  : M S unit :=
  if js_lt (inject_Z i) n then
    match fuel with
    | O => timeout
    | Datatypes.S fuel' => body i ;; for_lt fuel' (i + 1) n body
    end
  else ret tt.

(** The integers [i, i+1, ..., i+k-1]. *)
Definition zrange (i : Z) (k : nat) : list Z :=
  map (fun j => (i + Z.of_nat j)%Z) (seq 0 k).

(** ** Arrays *)

(** [a[i]] for an integer-valued index: [undefined] out of range. *)
Definition js_index {A} (a : list A) (i : Z) : option A :=
  if (i <? 0)%Z then None else a !! Z.to_nat i.

(** [a.slice(0, e)]: a negative end counts from the end of the array. *)
Definition js_slice0 {A} (a : list A) (e : Number) : list A :=
  let len := Z.of_nat (length a) in
  let rel := ToInteger e in
  let final := if (rel <? 0)%Z then Z.max (len + rel) 0 else Z.min rel len in
  take (Z.to_nat final) a.

(** The number of elements of [a.slice(0, e)] for an array of [len]
    elements. *)
Definition slice_count (len : nat) (e : Number) : nat :=
  let k := ToInteger e in
  Z.to_nat (if (k <? 0)%Z then Z.max (Z.of_nat len + k) 0 else Z.min k (Z.of_nat len)).

(** The number of elements that pass a test. *)
Fixpoint count_if {A} (f : A -> bool) (l : list A) : nat :=
  match l with
  | [] => 0
  | a :: l' => (if f a then 1 else 0) + count_if f l'
  end.

(** ** Strings *)

Definition upper_ascii (c : Ascii.ascii) : Ascii.ascii :=
  let n := Ascii.N_of_ascii c in
  if ((97 <=? n) && (n <=? 122))%N then Ascii.ascii_of_N (n - 32) else c.

Fixpoint toUpperCase (s : string) : string :=
  match s with
  | EmptyString => EmptyString
  | String c s' => String (upper_ascii c) (toUpperCase s')
  end.

(** ** Tactics and hints *)

Create HintDb js discriminated.
Create Rewrite HintDb js_rw.

(** Unfold the monad down to its [match]. *)
Ltac unfold_monad :=
  unfold bind, ret, throw, timeout, get, put, modify, member, zoom, when in *.

(** Hide the integer parts that [lra] does not understand. *)
Ltac q_atom z :=
  lazymatch z with
  | Z0 => change (inject_Z z) with (z # 1)%Q in *
  | Zpos _ => change (inject_Z z) with (z # 1)%Q in *
  | Zneg _ => change (inject_Z z) with (z # 1)%Q in *
  | _ => generalize dependent (inject_Z z); intros
  end.

Ltac q_atoms :=
  repeat match goal with
         | |- context [inject_Z ?z] => q_atom z
         | H : context [inject_Z ?z] |- _ => q_atom z
         end.

Ltac q_solve := q_atoms; first [lra | nra].

(** Comparison of rationals is decidable by evaluation. *)
#[export] Instance Qle_dec (x y : Q) : Decision (x <= y)%Q.
Proof.
  refine (cast_if (decide (Is_true (Qle_bool x y))));
    abstract (by rewrite <- Qle_bool_iff, <- Is_true_true in *).
Defined.

(** Evaluate a closed goal. *)
Ltac by_compute := vm_compute; first [reflexivity | exact I | done].

(** Decide a closed decidable proposition by evaluation. *)
Ltac by_decide := apply (bool_decide_unpack _); vm_compute; exact I.

(** ** Lemmas: the monad *)

Section Monad.
Context {S A B C : Type}.

Lemma bind_ret_l (a : A) (f : A -> M S B) s : bind (ret a) f s = f a s.
Proof. reflexivity. Qed.

Lemma bind_ret_r (m : M S A) s : bind m ret s = m s.
Proof. unfold bind, ret. by destruct (m s) as [[]]. Qed.

Lemma bind_assoc (m : M S A) (f : A -> M S B) (g : B -> M S C) s :
  bind (bind m f) g s = bind m (fun a => bind (f a) g) s.
Proof. unfold bind. by destruct (m s) as [[]]. Qed.

Lemma bind_ext (m : M S A) (f g : A -> M S B) s :
  (forall a s', f a s' = g a s') -> bind m f s = bind m g s.
Proof. intros E. unfold bind. destruct (m s) as [[]]; auto. Qed.

(** A computation that returns passes its value and state on. *)
Lemma bind_Ok (m : M S A) (f : A -> M S B) s a s' :
  m s = (Ok a, s') -> bind m f s = f a s'.
Proof. unfold bind. by intros ->. Qed.

Lemma bind_not_Ok (m : M S A) (f : A -> M S B) s :
  is_Ok (m s).1 = false -> (bind m f s).1 = match (m s).1 with
                                             | Throw e => Throw e
                                             | _ => Timeout
                                             end /\ (bind m f s).2 = (m s).2.
Proof. unfold bind. by destruct (m s) as [[] ?]. Qed.

End Monad.

(** ** Lemmas: the rules of [ht] *)

Section Hoare.
Context {S : Type}.
Implicit Types P Q R : S -> Prop.

Lemma ht_conseq {A} P P' Q Q' (m : M S A) :
  ht P m Q -> (forall s, P' s -> P s) -> (forall s, Q s -> Q' s) -> ht P' m Q'.
Proof. unfold ht. auto. Qed.

Lemma ht_ret {A} P (a : A) : ht P (ret a) P.
Proof. by intros s. Qed.

Lemma ht_throw {A} P (e : JsError) : ht P (throw (A := A) e) P.
Proof. by intros s. Qed.

Lemma ht_bind {A B} P R Q (m : M S A) (f : A -> M S B) :
  ht P m R -> (forall a, ht R (f a) Q) -> (forall s, R s -> Q s) ->
  ht P (bind m f) Q.
Proof.
  intros Hm Hf HRQ s Hs. specialize (Hm s Hs). unfold bind.
  destruct (m s) as [[a|e|] s']; simpl in *; auto. by apply Hf.
Qed.

(** The continuation of [get] may use the state it was given. *)
Lemma ht_bind_get {B} P Q (f : S -> M S B) :
  (forall s0, P s0 -> ht (fun s => s = s0) (f s0) Q) -> ht P (bind get f) Q.
Proof. intros Hf s Hs. by apply (Hf s Hs). Qed.

(** The same, when the continuation only needs the precondition back. *)
Lemma ht_bind_get_pre {B} P Q (f : S -> M S B) :
  (forall s0, P s0 -> ht P (f s0) Q) -> ht P (bind get f) Q.
Proof. intros Hf s Hs. by apply (Hf s Hs). Qed.

(** A bind after a computation that only reads the state. *)
Lemma ht_bind_reads {A B} P Q (g : S -> A) (f : A -> M S B) :
  (forall a, ht P (f a) Q) -> ht P (bind (fun s => (Ok (g s), s)) f) Q.
Proof. intros Hf s Hs. exact (Hf (g s) s Hs). Qed.

(** A bind after an update of the state, which does not throw. *)
Lemma ht_bind_modify {B} P R Q (g : S -> S) (f : unit -> M S B) :
  (forall s, P s -> R (g s)) -> ht R (f tt) Q -> ht P (bind (modify g) f) Q.
Proof. intros Hg Hf s Hs. exact (Hf (g s) (Hg s Hs)). Qed.

Lemma ht_modify P Q (f : S -> S) :
  (forall s, P s -> Q (f s)) -> ht P (modify f) Q.
Proof. intros Hf s Hs. by apply Hf. Qed.

Lemma ht_put P Q (s' : S) : Q s' -> ht P (put s') Q.
Proof. by intros HQ s _. Qed.

Lemma ht_if {A} P Q (b : bool) (m1 m2 : M S A) :
  ht P m1 Q -> ht P m2 Q -> ht P (if b then m1 else m2) Q.
Proof. by destruct b. Qed.

Lemma ht_when P (b : bool) (m : M S unit) : ht P m P -> ht P (when b m) P.
Proof. intros Hm. unfold when. apply ht_if; [done|apply ht_ret]. Qed.

Lemma ht_member {A B} P (o : option A) (f : A -> B) what :
  ht P (member (S := S) o f what) P.
Proof. destruct o; [apply ht_ret|apply ht_throw]. Qed.

Lemma ht_zoom {T A} P Q (proj : S -> T) (upd : T -> S -> S) (m : M T A) :
  (forall s t, P s -> Q (upd t s)) -> ht P (zoom proj upd m) Q.
Proof. intros Hu s Hs. unfold zoom. destruct (m (proj s)). by apply Hu. Qed.

Lemma ht_iterM {A} P (body : A -> M S unit) (l : list A) :
  (forall a, ht P (body a) P) -> ht P (iterM body l) P.
Proof.
  intros Hb. induction l as [|a l IH]; [apply ht_ret|].
  by apply (ht_bind P P P).
Qed.

(** An invariant: the special case where every intermediate assertion is
    the invariant itself. *)
Lemma ht_seq {A B} P (m : M S A) (f : A -> M S B) :
  ht P m P -> (forall a, ht P (f a) P) -> ht P (bind m f) P.
Proof. intros. by apply (ht_bind P P P). Qed.
End Hoare.

(** ** Computations that return *)

Section Returns.
Context {S : Type}.

Lemma returns_ret {A} (a : A) : returns (ret (S := S) a).
Proof. by intros s. Qed.

Lemma returns_throw {A} (e : JsError) : returns (throw (S := S) (A := A) e).
Proof. by intros s. Qed.

Lemma returns_get : returns (get (S := S)).
Proof. by intros s. Qed.

Lemma returns_modify (f : S -> S) : returns (modify f).
Proof. by intros s. Qed.

Lemma returns_bind {A B} (m : M S A) (f : A -> M S B) :
  returns m -> (forall a, returns (f a)) -> returns (bind m f).
Proof.
  intros Hm Hf s. specialize (Hm s). unfold bind.
  destruct (m s) as [[a|e|] s']; simpl in *; [apply Hf|done..].
Qed.

Lemma returns_when (b : bool) (m : M S unit) : returns m -> returns (when b m).
Proof. destruct b; [done|]. intros _. apply returns_ret. Qed.

Lemma returns_member {A B} (o : option A) (f : A -> B) what :
  returns (member (S := S) o f what).
Proof. destruct o; [apply returns_ret|apply returns_throw]. Qed.

Lemma returns_zoom {T A} (proj : S -> T) (upd : T -> S -> S) (m : M T A) :
  returns m -> returns (zoom proj upd m).
Proof. intros Hm s. specialize (Hm (proj s)). unfold zoom. by destruct (m (proj s)). Qed.

Lemma returns_iterM {A} (body : A -> M S unit) (l : list A) :
  (forall a, returns (body a)) -> returns (iterM body l).
Proof.
  intros Hb. induction l as [|a l IH]; [apply returns_ret|].
  by apply returns_bind.
Qed.

End Returns.

Lemma iterM_ext {S A} (body body' : A -> M S unit) (l : list A) s :
  (forall a s, a ∈ l -> body a s = body' a s) -> iterM body l s = iterM body' l s.
Proof.
  revert s. induction l as [|a l IH]; intros s Hb; [done|]. cbn [iterM]. unfold bind.
  rewrite Hb by left. destruct (body' a s) as [[] s']; [|done..].
  apply IH. intros; apply Hb. by right.
Qed.

Lemma iterM_app {S A} (body : A -> M S unit) (l1 l2 : list A) s :
  iterM body (l1 ++ l2) s = bind (iterM body l1) (fun _ => iterM body l2) s.
Proof.
  revert s; induction l1 as [|a l1 IH]; intros s; cbn [iterM app]; [done|].
  rewrite bind_assoc. by apply bind_ext.
Qed.

(** ** Lemmas: numbers *)

Lemma js_lt_spec (x y : Number) : js_lt x y = true <-> (x < y)%Q.
Proof.
  unfold js_lt. rewrite negb_true_iff, <- not_true_iff_false, Qle_bool_iff.
  split; [apply Qnot_le_lt | apply Qlt_not_le].
Qed.

Lemma js_lt_false (x y : Number) : js_lt x y = false <-> (y <= x)%Q.
Proof. unfold js_lt. by rewrite negb_false_iff, Qle_bool_iff. Qed.

Lemma js_gt_spec (x y : Number) : js_gt x y = true <-> (y < x)%Q.
Proof. apply js_lt_spec. Qed.

(** An integer is below [n] exactly when it is below the ceiling of [n]. *)
Lemma lt_Qceiling (i : Z) (n : Number) :
  (inject_Z i < n)%Q <-> (i < Qceiling n)%Z.
Proof.
  pose proof (Qle_ceiling n) as Hle. pose proof (Qceiling_lt n) as Hlt.
  split; intros Hi.
  - rewrite Zlt_Qlt. q_solve.
  - assert (i <= Qceiling n - 1)%Z as Hi' by lia.
    rewrite Zle_Qle in Hi'. q_solve.
Qed.

Lemma js_lt_Qceiling (i : Z) (n : Number) :
  js_lt (inject_Z i) n = bool_decide (i < Qceiling n)%Z.
Proof.
  apply eq_true_iff_eq. by rewrite js_lt_spec, bool_decide_eq_true, lt_Qceiling.
Qed.

(** The index [Math.floor(r * k)] computed from a draw [r] in [0,1) is a
    valid index of an array of [k] elements. *)
Lemma Math_floor_scaled_range (r : Number) (k : Z) :
  (0 <= r)%Q -> (r < 1)%Q -> (0 < k)%Z ->
  (0 <= Math_floor (r * inject_Z k) < k)%Z.
Proof.
  intros H0 H1 Hk. unfold Math_floor. rewrite Zlt_Qlt in Hk.
  assert (0 <= r * inject_Z k)%Q as Hlo by q_solve.
  assert (r * inject_Z k < inject_Z k)%Q as Hhi by q_solve.
  pose proof (Qfloor_le (r * inject_Z k)) as Hf. split.
  - change 0%Z with (Qfloor 0). by apply Qfloor_resp_le.
  - apply Z.lt_nge. intros Hc. rewrite Zle_Qle in Hc. q_solve.
Qed.

Lemma ToInteger_inject (z : Z) : ToInteger (inject_Z z) = z.
Proof. unfold ToInteger. rewrite Qfloor_Z, Qceiling_Z. by case_match. Qed.

Lemma loop_count_inject (z : Z) : loop_count (inject_Z z) = Z.to_nat z.
Proof. unfold loop_count. by rewrite Qceiling_Z. Qed.

(** ** Lemmas: the loop *)

Lemma zrange_cons (i : Z) (k : nat) :
  zrange i (Datatypes.S k) = i :: zrange (i + 1) k.
Proof.
  unfold zrange. simpl. rewrite Z.add_0_r. f_equal.
  rewrite <- seq_shift, map_map. apply map_ext. intros; lia.
Qed.

Lemma length_zrange (i : Z) (k : nat) : length (zrange i k) = k.
Proof. unfold zrange. by rewrite length_map, length_seq. Qed.

Lemma lookup_zrange (i : Z) (k j : nat) :
  (j < k)%nat -> zrange i k !! j = Some (i + Z.of_nat j)%Z.
Proof.
  intros Hj. unfold zrange. rewrite list_lookup_fmap, lookup_seq_lt by done.
  reflexivity.
Qed.

Section Loop.
Context {S : Type} (body : Z -> M S unit) (n : Number).

(** With fuel for the remaining iterations the loop is the iteration of
    its body over the remaining indices: it does not time out. *)
Lemma for_lt_enough_fuel (fuel : nat) (i : Z) (s : S) :
  (Z.to_nat (Qceiling n - i) <= fuel)%nat ->
  for_lt fuel i n body s = iterM body (zrange i (Z.to_nat (Qceiling n - i))) s.
Proof.
  revert i s. induction fuel as [|fuel IH]; intros i s Hf; simpl;
    rewrite js_lt_Qceiling; case_bool_decide as Hi.
  - lia.
  - by replace (Z.to_nat (Qceiling n - i)) with 0%nat by lia.
  - replace (Z.to_nat (Qceiling n - i))
      with (Datatypes.S (Z.to_nat (Qceiling n - (i + 1)))) by lia.
    rewrite zrange_cons. simpl. apply bind_ext. intros _ s'. apply IH. lia.
  - by replace (Z.to_nat (Qceiling n - i)) with 0%nat by lia.
Qed.

Lemma for_lt_loop_count (s : S) :
  for_lt (loop_count n) 0 n body s = iterM body (zrange 0 (loop_count n)) s.
Proof.
  unfold loop_count. rewrite for_lt_enough_fuel; rewrite Z.sub_0_r; done.
Qed.

(** The loop returns when its body does. *)
Lemma for_lt_returns : (forall i, returns (body i)) -> returns (for_lt (loop_count n) 0 n body).
Proof. intros Hb s. rewrite for_lt_loop_count. by apply returns_iterM. Qed.

(** Without enough fuel the loop reports [Timeout] unless the body fails
    first: the fuel of [for_lt_enough_fuel] is the least that works. *)
Lemma for_lt_no_fuel (i : Z) (s : S) :
  (i < Qceiling n)%Z -> for_lt 0 i n body s = (Timeout, s).
Proof.
  intros Hi. simpl. rewrite js_lt_Qceiling, bool_decide_eq_true_2; done.
Qed.
End Loop.

(** ** Lemmas: arrays *)

Lemma js_index_Some {A} (a : list A) (i : Z) :
  (0 <= i < Z.of_nat (length a))%Z -> is_Some (js_index a i).
Proof.
  intros Hi. unfold js_index. case_match; [lia|].
  apply lookup_lt_is_Some. lia.
Qed.

Lemma js_index_None {A} (a : list A) (i : Z) :
  (i < 0 \/ Z.of_nat (length a) <= i)%Z -> js_index a i = None.
Proof.
  intros Hi. unfold js_index. case_match; [done|].
  apply lookup_ge_None. lia.
Qed.

Lemma js_index_elem_of {A} (a : list A) (i : Z) (x : A) :
  js_index a i = Some x -> x ∈ a.
Proof.
  unfold js_index. case_match; [done|]. apply list_elem_of_lookup_2.
Qed.

Lemma js_slice0_inject {A} (a : list A) (k : Z) :
  js_slice0 a (inject_Z k) =
  if (k <? 0)%Z then take (length a - Z.to_nat (- k)) a else take (Z.to_nat k) a.
Proof.
  unfold js_slice0. rewrite ToInteger_inject. case_match.
  - f_equal. lia.
  - destruct (decide (k <= Z.of_nat (length a))%Z).
    + f_equal. lia.
    + rewrite !firstn_all2 by lia. done.
Qed.

Lemma length_js_slice0_nonneg {A} (a : list A) (k : Z) :
  (0 <= k)%Z -> length (js_slice0 a (inject_Z k)) = Nat.min (Z.to_nat k) (length a).
Proof.
  intros Hk. rewrite js_slice0_inject. case_match; [lia|]. apply length_take.
Qed.

Lemma length_js_slice0 {A} (a : list A) (e : Number) :
  length (js_slice0 a e) = slice_count (length a) e.
Proof. unfold js_slice0, slice_count. rewrite length_take. case_match; lia. Qed.

(** A count that is not negative is cut to its integer part and to the
    length; a count of -1 or less counts from the end; between -1 and 0
    nothing is taken. *)
Lemma slice_count_cases (len : nat) (e : Number) :
  ((0 <= e)%Q -> slice_count len e = Z.to_nat (Z.min (Qfloor e) (Z.of_nat len))) /\
  ((e <= -1)%Q -> slice_count len e = Z.to_nat (Z.max (Z.of_nat len + Qceiling e) 0)) /\
  ((-1 < e)%Q -> (e < 0)%Q -> slice_count len e = 0%nat).
Proof.
  unfold slice_count, ToInteger. repeat split.
  - intros He. rewrite (proj2 (Qle_bool_iff 0 e) He).
    assert (0 <= Qfloor e)%Z by (by apply (Qfloor_resp_le 0)). case_match; lia.
  - intros He. pose proof (Qceiling_resp_le _ _ He) as Hc. change (Qceiling (-1)) with (-1)%Z in Hc.
    destruct (Qle_bool 0 e) eqn:E; [apply Qle_bool_iff in E; lra|]. case_match; lia.
  - intros H1 H0. destruct (Qle_bool 0 e) eqn:E; [apply Qle_bool_iff in E; lra|].
    assert (Qceiling e = 0)%Z as ->; [|cbn; lia].
    pose proof (Qceiling_resp_le e 0 (Qlt_le_weak _ _ H0)) as Hhi.
    pose proof (Qle_ceiling e) as Hlo. change (Qceiling 0) with 0%Z in Hhi.
    assert (inject_Z (-1) < inject_Z (Qceiling e))%Q as Hc by (change (inject_Z (-1)) with (-1)%Q; lra).
    rewrite <- Zlt_Qlt in Hc. lia.
Qed.

Lemma js_slice0_prefix {A} (a : list A) (e : Number) : js_slice0 a e `prefix_of` a.
Proof. unfold js_slice0. apply prefix_take. Qed.

Lemma Forall_prefix {A} (P : A -> Prop) (l1 l2 : list A) :
  l1 `prefix_of` l2 -> Forall P l2 -> Forall P l1.
Proof. intros [k ->] H. by apply Forall_app in H as [? _]. Qed.

Lemma Forall_imap_intro {A B} (P : A -> Prop) (Q : B -> Prop) (f : nat -> A -> B)
    (l : list A) :
  Forall P l -> (forall i x, P x -> Q (f i x)) -> Forall Q (imap f l).
Proof.
  intros Hl Hf. apply Forall_lookup_2. intros i y (x & Hx & ->)%list_lookup_imap_Some.
  eapply Hf, Forall_lookup_1; eauto.
Qed.

Lemma Forall_imap_all {A B} (Q : B -> Prop) (f : nat -> A -> B) (l : list A) :
  (forall i x, Q (f i x)) -> Forall Q (imap f l).
Proof. intros Hf. apply (Forall_imap_intro (fun _ => True)); [by apply Forall_true|auto]. Qed.

Lemma Forall2_filter_proper {A} (R : relation A) (P : A -> Prop)
    `{forall x, Decision (P x)} (l l' : list A) :
  (forall x y, R x y -> P x <-> P y) ->
  Forall2 R l l' -> Forall2 R (filter P l) (filter P l').
Proof.
  intros HP. induction 1 as [|x y l l' Hxy _ IH]; [constructor|].
  rewrite !filter_cons. destruct (decide (P x)) as [Hx|Hx].
  - rewrite decide_True by by apply (HP x y). by constructor.
  - by rewrite decide_False by by rewrite <- (HP x y).
Qed.

Lemma omap_imap_Some {A B C} (f : B -> option C) (g : nat -> A -> B) (h : nat -> A -> C)
    (l : list A) :
  (forall i x, f (g i x) = Some (h i x)) -> omap f (imap g l) = imap h l.
Proof.
  intros Hf. revert g h Hf. induction l as [|x l IH]; intros g h Hf; [done|].
  rewrite !imap_cons. change (omap f (?x :: ?k)) with (match f x with Some y => y :: omap f k | None => omap f k end).
  rewrite Hf. f_equal. apply IH. intros i y. apply Hf.
Qed.

Lemma omap_imap_None {A B C} (f : B -> option C) (g : nat -> A -> B) (l : list A) :
  (forall i x, f (g i x) = None) -> omap f (imap g l) = [].
Proof.
  intros Hf. revert g Hf. induction l as [|x l IH]; intros g Hf; [done|].
  rewrite imap_cons.
  change (omap f (?x :: ?k))
    with (match f x with Some y => y :: omap f k | None => omap f k end).
  rewrite Hf. apply IH. intros i y. apply Hf.
Qed.

Lemma Qle_bool_add_l (x a b : Q) : Qle_bool (x + a) (x + b) = Qle_bool a b.
Proof. apply eq_true_iff_eq. rewrite !Qle_bool_iff. split; intros; lra. Qed.

Section Filter.
Context {A : Type} (P : A -> Prop) `{forall x, Decision (P x)}.

Lemma filter_Forall_id (l : list A) : Forall P l -> filter P l = l.
Proof. induction 1; [done|]. rewrite filter_cons_True by done. by f_equal. Qed.

Lemma filter_delete_False (l : list A) (k : nat) (a : A) :
  l !! k = Some a -> ~ P a -> filter P (delete k l) = filter P l.
Proof.
  revert k. induction l as [|b l IH]; intros [|k] Hk Ha; simplify_eq/=.
  - by rewrite filter_cons_False.
  - rewrite !filter_cons, (IH k) by done. done.
Qed.
End Filter.

Section CountIf.
Context {A : Type} (f : A -> bool).

Lemma count_if_app (l1 l2 : list A) :
  count_if f (l1 ++ l2) = (count_if f l1 + count_if f l2)%nat.
Proof. induction l1; simpl; lia. Qed.

Lemma count_if_snoc (l : list A) (a : A) :
  count_if f (l ++ [a]) = (count_if f l + if f a then 1 else 0)%nat.
Proof. rewrite count_if_app. simpl. lia. Qed.

Lemma count_if_delete (l : list A) (k : nat) (a : A) :
  l !! k = Some a ->
  count_if f l = (count_if f (delete k l) + if f a then 1 else 0)%nat.
Proof.
  revert k. induction l as [|b l IH]; intros [|k] Hk; simplify_eq/=; [lia|].
  rewrite (IH k Hk). lia.
Qed.

Lemma count_if_none (l : list A) : Forall (fun a => f a = false) l -> count_if f l = 0%nat.
Proof. induction 1 as [|a l Ha _ IH]; simpl; [done|]. by rewrite Ha. Qed.

Lemma count_if_le_length (l : list A) : (count_if f l <= length l)%nat.
Proof. induction l; simpl; [lia|]. case_match; lia. Qed.

Lemma count_if_pos (l : list A) :
  (0 < count_if f l)%nat <-> exists a, a ∈ l /\ f a = true.
Proof.
  induction l as [|b l IH]; simpl.
  - split; [lia|]. by intros (a & ?%elem_of_nil & _).
  - destruct (f b) eqn:Eb.
    + split; [|lia]. intros _. exists b. split; [left|done].
    + rewrite IH. split; intros (a & Ha & Hf); exists a.
      * split; [by right|done].
      * split; [|done]. apply elem_of_cons in Ha as [->|]; [congruence|done].
Qed.
End CountIf.

Section Omap.
Context {A B : Type} (g : A -> option B).

(** The elements that [omap] keeps, counted. *)
Lemma length_omap_count_if (f : A -> bool) (l : list A) :
  (forall a, is_Some (g a) <-> f a = true) ->
  length (omap g l) = count_if f l.
Proof.
  intros Hf. induction l as [|a l IH]; [done|]. cbn. rewrite <- IH.
  specialize (Hf a). destruct (g a), (f a); try done.
  - by destruct Hf as [Hf _]; discriminate Hf.
  - by destruct Hf as [_ [? ?]].
Qed.

Lemma omap_snoc (l : list A) (a : A) :
  omap g (l ++ [a]) = omap g l ++ option_list (g a).
Proof. rewrite omap_app. cbn. by destruct (g a). Qed.

(** [omap] around the element at an index. *)
Lemma omap_lookup (l : list A) (k : nat) (a : A) :
  l !! k = Some a ->
  omap g l = omap g (take k l) ++ option_list (g a) ++ omap g (drop (S k) l).
Proof.
  intros Hk. rewrite <- (take_drop_middle l k a Hk) at 1.
  rewrite omap_app. cbn. by destruct (g a).
Qed.

Lemma omap_delete (l : list A) (k : nat) :
  omap g (delete k l) = omap g (take k l) ++ omap g (drop (S k) l).
Proof. by rewrite delete_take_drop, omap_app. Qed.

Lemma omap_delete_None (l : list A) (k : nat) (a : A) :
  l !! k = Some a -> g a = None -> omap g (delete k l) = omap g l.
Proof. intros Hk Ha. by rewrite omap_delete, (omap_lookup l k a Hk), Ha. Qed.
End Omap.

(** ** Lemmas: strings *)

Lemma toUpperCase_length (s : string) :
  String.length (toUpperCase s) = String.length s.
Proof. induction s; simpl; congruence. Qed.

Lemma upper_ascii_idemp (c : Ascii.ascii) : upper_ascii (upper_ascii c) = upper_ascii c.
Proof. by destruct c as [[] [] [] [] [] [] [] []]. Qed.

Lemma toUpperCase_idemp (s : string) : toUpperCase (toUpperCase s) = toUpperCase s.
Proof. induction s; simpl; [done|]. by rewrite upper_ascii_idemp, IHs. Qed.

#[export] Hint Rewrite @bind_ret_l @bind_ret_r @bind_assoc : js_rw.
#[export] Hint Rewrite js_lt_spec js_lt_false js_gt_spec : js_rw.
#[export] Hint Rewrite length_zrange ToInteger_inject loop_count_inject : js_rw.
#[export] Hint Rewrite @count_if_app @count_if_snoc : js_rw.
#[export] Hint Resolve js_index_Some js_index_elem_of js_slice0_prefix : js.
#[export] Hint Resolve @returns_ret @returns_throw @returns_get @returns_modify
  @returns_member @returns_when @returns_zoom @returns_iterM @returns_bind : js.
#[export] Hint Resolve @ht_ret @ht_throw @ht_member @ht_when @ht_if @ht_seq
  @ht_iterM : js.
