(* ===== verification/Doubles.v ===== *)
(** * Numbers: binary64

    A JavaScript number is a value of IEEE 754 binary64 or one of the
    infinities or NaN.  [JsNumber] carries the finite values as rationals;
    [fl] rounds a rational to the nearest value of binary64, ties to the
    even mantissa, overflowing to an infinity: precision 53, exponents of the
    unit in the last place from -1074 (subnormal numbers included) to 971.
    The operators of the program, [js_div], [js_mul] and [js_add], are the
    exact operations [exact_div] and [exact_mul] and the sum of rationals,
    rounded by [fl]; the zero of a count or of a sum is positive and the sign
    of a zero is not kept, which no digit of the results table shows.

    [is_double] is the set of values; [fl_is_double] and [fl_representable]
    show that [fl] lands in it and leaves its members alone.  The error of
    rounding is at most the fraction [eps = 2 ^ (-53)] of a number of the
    normal range ([fl_relative]); sums of whole numbers below [2 ^ 53]
    ([sum64_whole]), a product by four ([is_double_times4]) and a difference
    of nearby values ([is_double_difference]) are exact.  [nearest_of_close]
    carries a nearest integer from a rounded value to the exact fraction
    it approximates, which the cells of the results table need. *)

From Stdlib Require Import ZArith QArith Qround Qabs Qpower Lia Lqa.
From stdpp Require Import base tactics decidable option list.
From S2P Require Import Prelude.

Open Scope list_scope.

(** ** Numbers *)

Inductive JsNumber : Type :=
| Finite (q : Q)
| Infinity
| NegInfinity
| NaN.

Definition of_count (n : nat) : JsNumber := Finite (inject_Z (Z.of_nat n)).

(** The exact value of [x / y]; the zero of a count or of a sum is
    positive. *)
Definition exact_div (x y : JsNumber) : JsNumber :=
  match x, y with
  | NaN, _ | _, NaN => NaN
  | Finite a, Finite b =>
      if Qeq_bool b 0 then
        (if Qeq_bool a 0 then NaN else if Qle_bool 0 a then Infinity else NegInfinity)
      else Finite (a / b)
  | Finite _, (Infinity | NegInfinity) => Finite 0
  | (Infinity | NegInfinity), (Infinity | NegInfinity) => NaN
  | Infinity, Finite b => if Qle_bool 0 b then Infinity else NegInfinity
  | NegInfinity, Finite b => if Qle_bool 0 b then NegInfinity else Infinity
  end.

Definition negate (x : JsNumber) : JsNumber :=
  match x with
  | Finite q => Finite (- q)
  | Infinity => NegInfinity
  | NegInfinity => Infinity
  | NaN => NaN
  end.

(** An infinity times a finite number. *)
Definition scale_infinity (i : JsNumber) (a : Q) : JsNumber :=
  if Qeq_bool a 0 then NaN else if Qle_bool 0 a then i else negate i.

(** The exact value of [x * y]. *)
Definition exact_mul (x y : JsNumber) : JsNumber :=
  match x, y with
  | NaN, _ | _, NaN => NaN
  | Finite a, Finite b => Finite (a * b)
  | Finite a, Infinity | Infinity, Finite a => scale_infinity Infinity a
  | Finite a, NegInfinity | NegInfinity, Finite a => scale_infinity NegInfinity a
  | Infinity, Infinity | NegInfinity, NegInfinity => Infinity
  | Infinity, NegInfinity | NegInfinity, Infinity => NegInfinity
  end.

(** Two numbers are the same JavaScript number when they are the same
    special value or equal rationals. *)
Definition js_eq (x y : JsNumber) : Prop :=
  match x, y with
  | Finite a, Finite b => (a == b)%Q
  | Infinity, Infinity | NegInfinity, NegInfinity | NaN, NaN => True
  | _, _ => False
  end.

(** ** Rounding *)

(** The number of bits of a mantissa and the least and the greatest
    exponent of a unit in the last place. *)
Definition prec : Z := 53.
Definition emin : Z := -1074.
Definition emax : Z := 971.

(** The values of binary64. *)
Definition is_double (x : Q) : Prop :=
  exists m e : Z,
    (x == inject_Z m * 2 ^ e)%Q /\ (Z.abs m < 2 ^ prec)%Z /\ (emin <= e <= emax)%Z.

(** The exponent of the leading bit of [x > 0]. *)
Definition ilog2 (x : Q) : Z :=
  let k := (Z.log2 (Qnum x) - Z.log2 (Zpos (Qden x)))%Z in
  if Qle_bool (2 ^ k) x then k else (k - 1)%Z.

(** The unit in the last place of the values next to [x]. *)
Definition ulp_exp (x : Q) : Z := Z.max (ilog2 (Qabs x) - (prec - 1)) emin.

Definition ulp (x : Q) : Q := (2 ^ ulp_exp x)%Q.

(** The integer nearest to [x], the even one on a tie. *)
Definition round_half_even (x : Q) : Z :=
  let f := Qfloor x in
  match (x - inject_Z f ?= 1 # 2)%Q with
  | Lt => f
  | Gt => (f + 1)%Z
  | Eq => if Z.even f then f else (f + 1)%Z
  end.

(** The value nearest to [x], overflow apart. *)
Definition rnd (x : Q) : Q := (inject_Z (round_half_even (x / ulp x)) * ulp x)%Q.

(** The value [x] is rounded to: an infinity from [2 ^ 1024] on. *)
Definition fl (x : Q) : JsNumber :=
  let y := rnd x in
  if Qle_bool (2 ^ (emax + prec)) (Qabs y)
  then (if Qle_bool 0 x then Infinity else NegInfinity)
  else Finite y.

(** The unit roundoff: the relative error of rounding is at most [eps]. *)
Definition eps : Q := (2 ^ (- prec))%Q.

(** The result of an operation: the exact one, rounded. *)
Definition to_double (x : JsNumber) : JsNumber :=
  match x with
  | Finite q => fl q
  | _ => x
  end.

Definition js_div (x y : JsNumber) : JsNumber := to_double (exact_div x y).

Definition js_mul (x y : JsNumber) : JsNumber := to_double (exact_mul x y).

(** [sum += value] in the loop of jsPsych's [DataColumn.mean]. *)
Definition js_add (acc : JsNumber) (value : Number) : JsNumber :=
  match acc with
  | Finite a => fl (a + value)
  | _ => acc
  end.

Definition sum64 (values : list Number) : JsNumber := foldl js_add (Finite 0) values.

(** [performance.now() - startTime]. *)
Definition js_sub (x y : Number) : JsNumber := fl (x - y).

(** A whole number (of milliseconds). *)
Definition whole (x : Q) : Prop := (x == inject_Z (Qfloor x))%Q.

Definition total (values : list Number) : Q := foldr Qplus 0%Q values.

(** Reaction times as clocks of millisecond resolution report them. *)
Definition milliseconds (values : list Number) : Prop :=
  Forall (fun v => whole v /\ (0 <= v)%Q) values.

(** ** Lemmas *)

Local Open Scope Q_scope.

#[export] Instance js_eq_equiv : Equivalence js_eq.
Proof.
  split.
  - by intros [].
  - by intros [] [].
  - intros [] [] []; cbn; try done. apply Qeq_trans.
Qed.

Lemma exact_div_finite (a b : Q) :
  ~ b == 0 -> exact_div (Finite a) (Finite b) = Finite (a / b).
Proof.
  intros Hb. cbn. destruct (Qeq_bool b 0) eqn:E; [|done].
  by apply Qeq_bool_eq in E.
Qed.

Lemma inject_count_pos (n : nat) : (0 < n)%nat -> 0 < inject_Z (Z.of_nat n).
Proof. intros Hn. change 0 with (inject_Z 0). rewrite <- Zlt_Qlt. lia. Qed.

(** ** Powers of two *)

Lemma pow2_pos (e : Z) : (0 < 2 ^ e)%Q.
Proof. by apply Qpower_0_lt. Qed.

Lemma pow2_add (a b : Z) : (2 ^ (a + b) == 2 ^ a * 2 ^ b)%Q.
Proof. by apply Qpower_plus. Qed.

Lemma pow2_sub (a b : Z) : (2 ^ (a - b) == 2 ^ a / 2 ^ b)%Q.
Proof. by apply Qpower_minus. Qed.

Lemma pow2_mono (a b : Z) : (a <= b)%Z -> (2 ^ a <= 2 ^ b)%Q.
Proof. intros. by apply Qpower_le_compat_l. Qed.

Lemma pow2_lt_mono (a b : Z) : (a < b)%Z -> 2 ^ a < 2 ^ b.
Proof. intros. by apply Qpower_lt_compat_l. Qed.

Lemma pow2_lt_inv (a b : Z) : (2 ^ a < 2 ^ b)%Q -> (a < b)%Z.
Proof. intros. by eapply Qpower_lt_compat_l_inv. Qed.

Lemma pow2_inject (n : Z) : (0 <= n)%Z -> (2 ^ n == inject_Z (2 ^ n))%Q.
Proof. intros. by rewrite Zpower_Qpower. Qed.

Lemma Qdiv_lt_div (a b c d : Q) :
  (0 < b)%Q -> (0 < d)%Q -> (a * d < c * b)%Q -> (a / b < c / d)%Q.
Proof.
  intros Hb Hd H. apply Qlt_shift_div_r; [done|].
  assert (c / d * b == c * b / d)%Q as -> by (field; lra).
  by apply Qlt_shift_div_l.
Qed.

Lemma Qdiv_le_div (a b c d : Q) :
  (0 < b)%Q -> (0 < d)%Q -> (a * d <= c * b)%Q -> (a / b <= c / d)%Q.
Proof.
  intros Hb Hd H. apply Qle_shift_div_r; [done|].
  assert (c / d * b == c * b / d)%Q as -> by (field; lra).
  by apply Qle_shift_div_l.
Qed.

Lemma ilog2_spec (x : Q) : (0 < x)%Q -> (2 ^ ilog2 x <= x)%Q /\ (x < 2 ^ (ilog2 x + 1))%Q.
Proof.
  destruct x as [n d]. intros Hx. assert (0 < n)%Z as Hn.
  { unfold Qlt in Hx. cbn in Hx. lia. }
  unfold ilog2. cbn [Qnum Qden].
  destruct (Z.log2_spec n Hn) as [Hn1 Hn2].
  destruct (Z.log2_spec (Z.pos d) (Pos2Z.is_pos d)) as [Hd1 Hd2].
  pose proof (Z.log2_nonneg n) as Ha. pose proof (Z.log2_nonneg (Z.pos d)) as Hb.
  set (a := Z.log2 n) in *. set (b := Z.log2 (Z.pos d)) in *.
  rewrite (Qmake_Qdiv n d).
  assert (forall k, 2 ^ (a + k - b) == 2 ^ a * 2 ^ k / 2 ^ b)%Q as Hp.
  { intros k. by rewrite pow2_sub, pow2_add. }
  rewrite Zlt_Qlt in Hn2, Hd2. rewrite Zle_Qle in Hn1, Hd1.
  rewrite <- pow2_inject in Hn2, Hd2 by lia. rewrite <- pow2_inject in Hn1, Hd1 by lia.
  rewrite (pow2_add a 1) in Hn2. rewrite (pow2_add b 1) in Hd2.
  change (2 ^ 1)%Q with 2%Q in *.
  pose proof (pow2_pos a) as HA. pose proof (pow2_pos b) as HB.
  set (A := (2 ^ a)%Q) in *. set (B := (2 ^ b)%Q) in *.
  set (N := inject_Z n) in *. set (D := inject_Z (Z.pos d)) in *.
  assert (0 < (2 * A - N) * B)%Q by (apply Qmult_lt_0_compat; lra).
  assert (0 <= (N - A) * B)%Q by (apply Qmult_le_0_compat; lra).
  assert (0 <= (D - B) * A)%Q by (apply Qmult_le_0_compat; lra).
  assert (0 <= (2 * B - D) * A)%Q by (apply Qmult_le_0_compat; lra).
  destruct (Qle_bool _ _) eqn:E.
  - apply Qle_bool_iff in E. split; [done|].
    replace (a - b + 1)%Z with (a + 1 - b)%Z by lia. rewrite Hp.
    change (2 ^ 1)%Q with 2%Q. apply Qdiv_lt_div; [lra..|].
    clearbody A B N D. lra.
  - split.
    + replace (a - b - 1)%Z with (a + -1 - b)%Z by lia. rewrite Hp.
      change (2 ^ (-1))%Q with (1 # 2)%Q. apply Qdiv_le_div; [lra..|].
      clearbody A B N D. lra.
    + replace (a - b - 1 + 1)%Z with (a - b)%Z by lia.
      apply Qnot_le_lt. intros Hle%Qle_bool_iff. congruence.
Qed.

(** ** Rounding to the nearest integer, ties to even *)

#[export] Instance round_half_even_proper : Proper (Qeq ==> eq) round_half_even.
Proof.
  intros x y E. unfold round_half_even.
  rewrite (Qfloor_comp x y E).
  by rewrite (Qcompare_comp (x - inject_Z (Qfloor y))%Q (y - inject_Z (Qfloor y))%Q
                (ltac:(by rewrite E)) (1 # 2)%Q (1 # 2)%Q (Qeq_refl _)).
Qed.

Lemma round_half_even_nearest (x : Q) :
  (inject_Z (round_half_even x) - (1 # 2) <= x)%Q /\
  (x <= inject_Z (round_half_even x) + (1 # 2))%Q.
Proof.
  unfold round_half_even.
  pose proof (Qfloor_le x) as Hlo. pose proof (Qlt_floor x) as Hhi.
  rewrite inject_Z_plus in Hhi.
  destruct (_ ?= _)%Q eqn:E;
    [apply Qeq_alt in E|apply Qlt_alt in E|apply Qgt_alt in E];
    try case_match; rewrite ?inject_Z_plus; q_solve.
Qed.

Lemma round_half_even_Z (n : Z) : round_half_even (inject_Z n) = n.
Proof.
  unfold round_half_even. rewrite Qfloor_Z.
  assert (inject_Z n - inject_Z n < 1 # 2)%Q as ->%Qlt_alt by q_solve. done.
Qed.

Lemma round_half_even_integral (x : Q) (n : Z) :
  (x == inject_Z n)%Q -> round_half_even x = n.
Proof. intros ->. apply round_half_even_Z. Qed.

(** The nearest integer of a number below an integer bound stays within
    the bound. *)
Lemma round_half_even_bound (x : Q) (b : Z) :
  (- inject_Z b <= x)%Q -> (x <= inject_Z b)%Q -> (Z.abs (round_half_even x) <= b)%Z.
Proof.
  intros Hlo Hhi. destruct (round_half_even_nearest x) as [H1 H2].
  assert (round_half_even x < b + 1)%Z by (rewrite Zlt_Qlt, inject_Z_plus; q_solve).
  assert (- (b + 1) < round_half_even x)%Z
    by (rewrite Zlt_Qlt, inject_Z_opp, inject_Z_plus; q_solve).
  lia.
Qed.

(** ** The exponent of a number *)

Lemma ilog2_unique (x : Q) (k : Z) :
  (2 ^ k <= x)%Q -> (x < 2 ^ (k + 1))%Q -> ilog2 x = k.
Proof.
  intros Hlo Hhi. pose proof (pow2_pos k) as Hk.
  destruct (ilog2_spec x) as [Hlo' Hhi']; [lra|].
  assert (k < ilog2 x + 1)%Z by (apply pow2_lt_inv; lra).
  assert (ilog2 x < k + 1)%Z by (apply pow2_lt_inv; lra).
  lia.
Qed.

Lemma ilog2_proper (x y : Q) : (0 < x)%Q -> (x == y)%Q -> ilog2 x = ilog2 y.
Proof.
  intros Hx E. destruct (ilog2_spec x Hx) as [Hlo Hhi]. symmetry.
  apply ilog2_unique; by rewrite <- E.
Qed.

Lemma Qabs_pos_iff (x : Q) : ~ (x == 0)%Q <-> (0 < Qabs x)%Q.
Proof.
  split.
  - intros Hx. apply Qabs_case; intros; [|assert (~ - x == 0)%Q by lra]; lra.
  - intros H E. rewrite E in H. by apply Qlt_irrefl in H.
Qed.

Lemma ulp_pos (x : Q) : (0 < ulp x)%Q.
Proof. apply pow2_pos. Qed.

Lemma ulp_exp_min (x : Q) : (emin <= ulp_exp x)%Z.
Proof. unfold ulp_exp. lia. Qed.

(** The unit in the last place leaves at most [prec] bits before it. *)
Lemma ulp_exp_upper (x : Q) : ~ (x == 0)%Q -> (Qabs x < 2 ^ (ulp_exp x + prec))%Q.
Proof.
  intros Hx%Qabs_pos_iff. destruct (ilog2_spec _ Hx) as [_ Hhi].
  eapply Qlt_le_trans; [exact Hhi|]. apply pow2_mono. unfold ulp_exp, prec. lia.
Qed.

(** In the normal range it leaves exactly [prec]. *)
Lemma ulp_exp_normal (x : Q) :
  (2 ^ (emin + prec - 1) <= Qabs x)%Q -> (2 ^ (ulp_exp x + prec - 1) <= Qabs x)%Q.
Proof.
  intros Hn. pose proof (pow2_pos (emin + prec - 1)) as Hp.
  destruct (ilog2_spec (Qabs x)) as [Hlo Hhi]; [lra|].
  assert (emin + prec - 1 < ilog2 (Qabs x) + 1)%Z by (apply pow2_lt_inv; lra).
  eapply Qle_trans; [|exact Hlo]. apply pow2_mono. unfold ulp_exp, prec in *. lia.
Qed.

(** Below the normal range it is the least one. *)
Lemma ulp_exp_cases (x : Q) :
  ~ (x == 0)%Q -> ulp_exp x = emin \/ (2 ^ (ulp_exp x + prec - 1) <= Qabs x)%Q.
Proof.
  intros Hx%Qabs_pos_iff. destruct (ilog2_spec _ Hx) as [Hlo _].
  unfold ulp_exp. destruct (Z.max_spec (ilog2 (Qabs x) - (prec - 1)) emin) as [[_ ->]|[_ ->]];
    [by left|right].
  by replace (ilog2 (Qabs x) - (prec - 1) + prec - 1)%Z with (ilog2 (Qabs x)) by lia.
Qed.

Lemma ulp_exp_proper (x y : Q) : ~ (x == 0)%Q -> (x == y)%Q -> ulp_exp x = ulp_exp y.
Proof.
  intros Hx%Qabs_pos_iff E. unfold ulp_exp.
  by rewrite (ilog2_proper (Qabs x) (Qabs y)) by (done || by rewrite E).
Qed.

(** ** Rounding to binary64 *)

Lemma rnd_zero (x : Q) : (x == 0)%Q -> (rnd x == 0)%Q.
Proof.
  intros E. unfold rnd. rewrite (round_half_even_integral _ 0); [ring|].
  unfold Qdiv. rewrite (Qmult_comp x 0 E (/ ulp x) (/ ulp x) (Qeq_refl _)). ring.
Qed.

#[export] Instance rnd_proper : Proper (Qeq ==> Qeq) rnd.
Proof.
  intros x y E. destruct (Qeq_dec x 0) as [Hx|Hx].
  - rewrite !rnd_zero; [done|by rewrite <- E|done].
  - unfold rnd, ulp. rewrite <- (ulp_exp_proper x y Hx E).
    generalize (ulp_exp x). intros e. by rewrite E.
Qed.

#[export] Instance fl_proper : Proper (Qeq ==> js_eq) fl.
Proof.
  intros x y E. unfold fl.
  rewrite (Qleb_comp _ _ (Qeq_refl _) (Qabs (rnd x)) (Qabs (rnd y))) by by rewrite E.
  rewrite (Qleb_comp 0%Q 0%Q (Qeq_refl _) x y E).
  repeat case_match; try done. cbn. by rewrite E.
Qed.

(** The rounded value is within half a unit in the last place. *)
Lemma rnd_error (x : Q) :
  rnd x - ulp x * (1 # 2) <= x /\ x <= rnd x + ulp x * (1 # 2).
Proof.
  pose proof (ulp_pos x) as Hu. unfold rnd.
  destruct (round_half_even_nearest (x / ulp x)) as [Hlo Hhi].
  assert (x == x / ulp x * ulp x)%Q as Hx by (field; lra).
  set (z := (x / ulp x)%Q) in *. set (r := inject_Z (round_half_even z)) in *.
  set (u := ulp x) in *. clearbody r z u.
  assert (0 <= (z - (r - (1 # 2))) * u)%Q by (apply Qmult_le_0_compat; lra).
  assert (0 <= (r + (1 # 2) - z) * u)%Q by (apply Qmult_le_0_compat; lra).
  split; lra.
Qed.

(** ** Scaling by a power of two *)

Lemma Qabs_scaled (x : Q) (e : Z) : Qabs (x * 2 ^ e) == Qabs x * 2 ^ e.
Proof. rewrite Qabs_Qmult, (Qabs_pos (2 ^ e)); [done|]. apply Qlt_le_weak, pow2_pos. Qed.

Lemma Qabs_unscaled (x : Q) (e : Z) : Qabs (x / 2 ^ e) == Qabs x / 2 ^ e.
Proof.
  unfold Qdiv. rewrite Qabs_Qmult, Qabs_Qinv, (Qabs_pos (2 ^ e)); [done|].
  apply Qlt_le_weak, pow2_pos.
Qed.

Lemma unscaled_lt (x : Q) (e k : Z) : Qabs x < 2 ^ (e + k) -> Qabs (x / 2 ^ e) < 2 ^ k.
Proof.
  intros H. rewrite Qabs_unscaled. apply Qlt_shift_div_r; [apply pow2_pos|].
  by rewrite <- pow2_add, Z.add_comm.
Qed.

Lemma unscaled_le (x : Q) (e k : Z) : 2 ^ (e + k) <= Qabs x -> 2 ^ k <= Qabs (x / 2 ^ e).
Proof.
  intros H. rewrite Qabs_unscaled. apply Qle_shift_div_l; [apply pow2_pos|].
  by rewrite <- pow2_add, Z.add_comm.
Qed.

Lemma unscale_scaled (m e0 e : Z) :
  (e <= e0)%Z -> inject_Z m * 2 ^ e0 / 2 ^ e == inject_Z (m * 2 ^ (e0 - e)).
Proof.
  intros He. pose proof (pow2_pos e).
  rewrite inject_Z_mult, <- pow2_inject by lia. rewrite pow2_sub. field. lra.
Qed.

(** ** Nearest integers of large numbers *)

Lemma round_half_even_lower (z : Q) (b : Z) :
  inject_Z b <= Qabs z -> (b <= Z.abs (round_half_even z))%Z.
Proof.
  destruct (round_half_even_nearest z) as [Hlo Hhi]. intros Hb.
  destruct (Qlt_le_dec z 0) as [Hz|Hz].
  - rewrite Qabs_neg in Hb by lra.
    assert (round_half_even z < - b + 1)%Z
      by (rewrite Zlt_Qlt, inject_Z_plus, inject_Z_opp; q_solve).
    lia.
  - rewrite Qabs_pos in Hb by done.
    assert (b - 1 < round_half_even z)%Z
      by (unfold Z.sub; rewrite Zlt_Qlt, inject_Z_plus, inject_Z_opp; q_solve).
    lia.
Qed.

Lemma round_half_even_upper (z : Q) (b : Z) :
  Qabs z <= inject_Z b -> (Z.abs (round_half_even z) <= b)%Z.
Proof.
  intros [Hlo Hhi]%Qabs_Qle_condition. by apply round_half_even_bound.
Qed.

(** ** Values of binary64 *)

Lemma rnd_abs (x : Q) :
  Qabs (rnd x) == inject_Z (Z.abs (round_half_even (x / ulp x))) * ulp x.
Proof. unfold rnd, ulp. by rewrite Qabs_scaled. Qed.

Lemma is_double_abs (x : Q) (m e : Z) :
  x == inject_Z m * 2 ^ e -> (Z.abs m < 2 ^ prec)%Z -> Qabs x < 2 ^ (e + prec).
Proof.
  intros -> Hm. rewrite Qabs_scaled, pow2_add, (Qmult_comm (2 ^ e)).
  apply Qmult_lt_compat_r; [apply pow2_pos|].
  change (Qabs (inject_Z m)) with (inject_Z (Z.abs m)).
  rewrite pow2_inject by done. by rewrite <- Zlt_Qlt.
Qed.

(** The unit in the last place of a value is at most the one it is
    written with. *)
Lemma is_double_ulp (x : Q) (m e : Z) :
  ~ x == 0 -> x == inject_Z m * 2 ^ e -> (Z.abs m < 2 ^ prec)%Z -> (emin <= e)%Z ->
  (ulp_exp x <= e)%Z.
Proof.
  intros Hx E Hm He. destruct (ulp_exp_cases x Hx) as [->|Hlo]; [done|].
  pose proof (is_double_abs x m e E Hm) as Hhi.
  assert (ulp_exp x + prec - 1 < e + prec)%Z by (apply pow2_lt_inv; lra).
  lia.
Qed.

Lemma rnd_representable (x : Q) : is_double x -> rnd x == x.
Proof.
  intros (m & e & E & Hm & He & _). destruct (Qeq_dec x 0) as [Hx|Hx].
  - by rewrite rnd_zero.
  - pose proof (is_double_ulp x m e Hx E Hm He) as Hu. pose proof (ulp_pos x) as Hp.
    unfold rnd. rewrite (round_half_even_integral _ (m * 2 ^ (e - ulp_exp x))).
    + rewrite <- (unscale_scaled m e (ulp_exp x) Hu), <- E. fold (ulp x). field. lra.
    + unfold ulp at 1. rewrite <- (unscale_scaled m e (ulp_exp x) Hu).
      apply Qmult_comp; [done|reflexivity].
Qed.

Lemma fl_finite (x : Q) : Qabs (rnd x) < 2 ^ (emax + prec) -> fl x = Finite (rnd x).
Proof.
  intros H. unfold fl. destruct (Qle_bool _ _) eqn:E; [|done].
  apply Qle_bool_iff in E. lra.
Qed.

Lemma fl_Finite (x y : Q) :
  fl x = Finite y -> y = rnd x /\ Qabs (rnd x) < 2 ^ (emax + prec).
Proof.
  unfold fl. destruct (Qle_bool _ _) eqn:E; [by case_match|].
  intros [= <-]. split; [done|]. apply Qnot_le_lt. by rewrite <- Qle_bool_iff, E.
Qed.

#[export] Instance is_double_proper : Proper (Qeq ==> iff) is_double.
Proof.
  intros x y E. unfold is_double.
  split; intros (m & e & Hx & H); exists m, e; (split; [|done]); by rewrite <- Hx, E.
Qed.

Lemma is_double_zero (x : Q) : x == 0 -> is_double x.
Proof. intros E. exists 0%Z, emin. split; [rewrite E; ring|done]. Qed.

(** A mantissa of [prec + 1] bits that is a power of two is a mantissa of
    one bit less at the next exponent. *)
Lemma is_double_carry (r e : Z) :
  Z.abs r = (2 ^ prec)%Z -> (emin <= e < emax)%Z -> is_double (inject_Z r * 2 ^ e).
Proof.
  intros Hr He. exists (r / 2)%Z, (e + 1)%Z.
  change (2 ^ prec)%Z with 9007199254740992%Z in *. unfold emin, emax in *.
  assert (r = 2 * (r / 2))%Z as Hr2 by (Z.div_mod_to_equations; lia).
  split; [|lia].
  rewrite pow2_add. change (2 ^ 1) with (inject_Z 2).
  rewrite (Qmult_comm (2 ^ e)), Qmult_assoc, <- inject_Z_mult.
  by replace (r / 2 * 2)%Z with r by lia.
Qed.

Lemma is_double_below (x : Q) : is_double x -> Qabs x < 2 ^ (emax + prec).
Proof.
  intros (m & e & E & Hm & _ & He). eapply Qlt_le_trans; [by eapply is_double_abs|].
  apply pow2_mono. lia.
Qed.

(** A rounded mantissa has at most one bit more than [prec]. *)
Lemma rnd_mantissa (x : Q) :
  ~ x == 0 -> (Z.abs (round_half_even (x / ulp x)) <= 2 ^ prec)%Z.
Proof.
  intros Hx%ulp_exp_upper. apply round_half_even_upper.
  rewrite <- pow2_inject by done. by apply Qlt_le_weak, unscaled_lt.
Qed.

(** A finite result has an exponent of binary64. *)
Lemma rnd_exponent (x : Q) :
  ~ x == 0 -> Qabs (rnd x) < 2 ^ (emax + prec) -> (ulp_exp x <= emax)%Z.
Proof.
  intros Hx Hfin. destruct (Z.le_gt_cases (ulp_exp x) emax) as [|Hgt]; [done|exfalso].
  destruct (ulp_exp_cases x Hx) as [He|Hlo]; [unfold emin, emax in *; lia|].
  replace (ulp_exp x + prec - 1)%Z with (ulp_exp x + (prec - 1))%Z in Hlo by lia.
  apply unscaled_le in Hlo. rewrite pow2_inject in Hlo by done.
  apply round_half_even_lower in Hlo. rewrite rnd_abs in Hfin.
  apply (Qlt_irrefl (2 ^ (emax + prec))). eapply Qle_lt_trans; [|exact Hfin].
  replace (emax + prec)%Z with (prec - 1 + (emax + 1))%Z by lia.
  rewrite pow2_add. apply Qmult_le_compat_nonneg.
  - split; [apply Qlt_le_weak, pow2_pos|]. rewrite pow2_inject by done. by rewrite <- Zle_Qle.
  - split; [apply Qlt_le_weak, pow2_pos|]. apply pow2_mono. lia.
Qed.

(** Rounding returns a value of binary64 as it is. *)
Lemma fl_exact (x : Q) : is_double x -> exists y, fl x = Finite y /\ y == x.
Proof.
  intros Hx. pose proof (rnd_representable x Hx) as E. exists (rnd x). split; [|done].
  apply fl_finite. rewrite E. by apply is_double_below.
Qed.

(** ** The error of rounding *)

Lemma eps_pos : 0 < eps.
Proof. apply pow2_pos. Qed.

(** In the normal range half a unit in the last place is at most the
    fraction [eps] of the number. *)
Lemma ulp_relative (x : Q) : 2 ^ (emin + prec - 1) <= x -> ulp x * (1 # 2) <= x * eps.
Proof.
  intros Hn. pose proof (pow2_pos (emin + prec - 1)).
  pose proof (ulp_exp_normal x) as Hu. rewrite (Qabs_pos x) in Hu by lra.
  specialize (Hu Hn). unfold ulp, eps. change (1 # 2) with (2 ^ (-1)).
  rewrite <- pow2_add.
  replace (ulp_exp x + -1)%Z with (ulp_exp x + prec - 1 + - prec)%Z by lia.
  rewrite pow2_add. apply Qmult_le_compat_r; [done|]. apply Qlt_le_weak, pow2_pos.
Qed.

Lemma rnd_relative (x : Q) :
  2 ^ (emin + prec - 1) <= x -> x - x * eps <= rnd x /\ rnd x <= x + x * eps.
Proof.
  intros Hu%ulp_relative. destruct (rnd_error x). split; lra.
Qed.

(** The result of rounding a number of the normal range: finite and
    within the fraction [eps] of the number. *)
Lemma fl_relative (x : Q) :
  2 ^ (emin + prec - 1) <= x -> x <= 2 ^ (emax + prec - 1) ->
  exists y, fl x = Finite y /\ x - x * eps <= y /\ y <= x + x * eps /\ 0 <= y.
Proof.
  intros Hlo Hhi. pose proof (pow2_pos (emin + prec - 1)) as Hp.
  destruct (rnd_relative x Hlo) as [H1 H2]. pose proof eps_pos as He.
  assert (eps <= 1 # 2) as He' by (by apply (pow2_mono (- prec) (-1))).
  assert (0 <= x * ((1 # 2) - eps)) by (apply Qmult_le_0_compat; lra).
  assert (2 ^ (emax + prec) == 2 * 2 ^ (emax + prec - 1)) as Hd by by vm_compute.
  exists (rnd x). split; [|lra]. apply fl_finite. rewrite Hd, Qabs_pos; lra.
Qed.

(** Rounding a number of the normal range that is at most [b] moves it by
    at most [b * eps]. *)
Lemma fl_close (x b : Q) :
  2 ^ (emin + prec - 1) <= x -> x <= b -> b <= 2 ^ (emax + prec - 1) ->
  exists y, fl x = Finite y /\ x - b * eps <= y /\ y <= x + b * eps /\ 0 <= y.
Proof.
  intros Hlo Hb Hhi. pose proof (pow2_pos (emin + prec - 1)) as Hp. pose proof eps_pos as He.
  destruct (fl_relative x) as (y & Hy & H1 & H2 & H3); [lra..|].
  assert (0 <= (b - x) * eps) by (apply Qmult_le_0_compat; lra).
  exists y. split; [done|]. lra.
Qed.

Lemma fl_zero (x : Q) : x == 0 -> exists y, fl x = Finite y /\ y == 0.
Proof.
  intros E. pose proof (rnd_zero x E) as Hr. exists (rnd x). split; [|done].
  apply fl_finite. rewrite Hr. apply pow2_pos.
Qed.

(** ** Nearest integers of nearby numbers *)

(** Move [inject_Z] to the leaves of an integer expression. *)
Ltac push_inject :=
  unfold Z.sub in *;
  repeat first [rewrite inject_Z_plus in * | rewrite inject_Z_mult in *
               | rewrite inject_Z_opp in *].

(** Between the odd multiples of [b] and the even ones there is room for
    less than one. *)
Lemma odd_multiple_le (a b n : Z) :
  (2 * inject_Z n - 1) * inject_Z b < 2 * inject_Z a + 1 ->
  (2 * inject_Z n - 1) * inject_Z b <= 2 * inject_Z a.
Proof.
  intros H. assert ((2 * n - 1) * b < 2 * a + 1)%Z as Hz by (rewrite Zlt_Qlt; by push_inject).
  assert ((2 * n - 1) * b <= 2 * a)%Z as Hz' by lia. clear H Hz.
  rewrite Zle_Qle in Hz'. by push_inject.
Qed.

Lemma odd_multiple_ge (a b n : Z) :
  2 * inject_Z a - 1 < (2 * inject_Z n + 1) * inject_Z b ->
  2 * inject_Z a <= (2 * inject_Z n + 1) * inject_Z b.
Proof.
  intros H. assert (2 * a - 1 < (2 * n + 1) * b)%Z as Hz by (rewrite Zlt_Qlt; by push_inject).
  assert (2 * a <= (2 * n + 1) * b)%Z as Hz' by lia. clear H Hz.
  rewrite Zle_Qle in Hz'. by push_inject.
Qed.

(** An integer nearest to [v] is nearest to a fraction [a / b] close to
    [v]: half-integers apart from [a / b] are at least [1 / (2 b)] away. *)
Lemma nearest_of_close (v delta : Q) (a b n : Z) :
  (0 < b)%Z -> 2 * inject_Z b * delta < 1 ->
  inject_Z a / inject_Z b - delta <= v -> v <= inject_Z a / inject_Z b + delta ->
  inject_Z n - (1 # 2) <= v -> v <= inject_Z n + (1 # 2) ->
  inject_Z n - (1 # 2) <= inject_Z a / inject_Z b /\
  inject_Z a / inject_Z b <= inject_Z n + (1 # 2).
Proof.
  intros Hb Hd H1 H2 H3 H4.
  assert (0 < inject_Z b) as HB by (change 0 with (inject_Z 0); by rewrite <- Zlt_Qlt).
  assert (inject_Z a == inject_Z a / inject_Z b * inject_Z b) as Ha by (field; lra).
  pose proof (odd_multiple_le a b n) as G1. pose proof (odd_multiple_ge a b n) as G2.
  set (s := inject_Z a / inject_Z b) in *. clearbody s.
  assert (0 <= (s + delta - (inject_Z n - (1 # 2))) * inject_Z b)
    by (apply Qmult_le_0_compat; lra).
  assert (0 <= (inject_Z n + (1 # 2) - (s - delta)) * inject_Z b)
    by (apply Qmult_le_0_compat; lra).
  split; apply (Qmult_le_r _ _ (inject_Z b) HB); q_solve.
Qed.

(** ** Exact operations *)

(** A multiple of [2 ^ e] below [2 ^ (e + prec)] is a value of binary64. *)
Lemma is_double_intro (x : Q) (m e : Z) :
  x == inject_Z m * 2 ^ e -> (emin <= e <= emax)%Z -> Qabs x < 2 ^ (e + prec) ->
  is_double x.
Proof.
  intros E He Hx. exists m, e. split; [done|]. split; [|done].
  rewrite E, Qabs_scaled, pow2_add, (Qmult_comm (2 ^ e)) in Hx.
  apply Qmult_lt_r in Hx; [|apply pow2_pos].
  rewrite pow2_inject in Hx by done. by rewrite Zlt_Qlt.
Qed.

(** Two values are multiples of the smaller of their units. *)
Lemma rescale (m e e' : Z) :
  (e' <= e)%Z -> inject_Z m * 2 ^ e == inject_Z (m * 2 ^ (e - e')) * 2 ^ e'.
Proof.
  intros He. rewrite <- (unscale_scaled m e e' He). field.
  pose proof (pow2_pos e'). lra.
Qed.

Lemma is_double_sub (a b : Q) (ma ea mb eb : Z) :
  a == inject_Z ma * 2 ^ ea -> b == inject_Z mb * 2 ^ eb ->
  (emin <= ea <= emax)%Z -> (ea <= eb)%Z -> Qabs (a - b) < 2 ^ (ea + prec) ->
  is_double (a - b).
Proof.
  intros Ea Eb He Hle Hx.
  apply (is_double_intro _ (ma + - (mb * 2 ^ (eb - ea))) ea); [|done..].
  rewrite Ea, Eb, (rescale mb eb ea Hle), inject_Z_plus, inject_Z_opp. ring.
Qed.

Lemma is_double_opp (x : Q) : is_double x -> is_double (- x).
Proof.
  intros (m & e & E & Hm & He). exists (- m)%Z, e. rewrite Z.abs_opp.
  split; [|done]. rewrite E, inject_Z_opp. ring.
Qed.

(** The difference of two values is a value when it is at most each of
    them in absolute value (Sterbenz). *)
Lemma is_double_difference (a b : Q) :
  is_double a -> is_double b -> Qabs (a - b) <= Qabs a -> Qabs (a - b) <= Qabs b ->
  is_double (a - b).
Proof.
  intros (ma & ea & Ea & Hma & Hea) (mb & eb & Eb & Hmb & Heb) Ha Hb.
  pose proof (is_double_abs a ma ea Ea Hma). pose proof (is_double_abs b mb eb Eb Hmb).
  destruct (Z.le_ge_cases ea eb) as [Hle|Hle].
  - apply (is_double_sub a b ma ea mb eb); [done..|lra].
  - assert (a - b == - (b - a)) as -> by ring.
    apply is_double_opp, (is_double_sub b a mb eb ma ea); [done..|lia|].
    rewrite Qabs_Qminus. lra.
Qed.

(** A draw scaled by four is a value: the exponent grows by two. *)
Lemma is_double_times4 (r : Q) : is_double r -> Qabs r < 1 -> is_double (r * 4).
Proof.
  intros (m & e & E & Hm & He) Hr. destruct (Z.eq_dec m 0%Z) as [->|Hm0].
  - apply is_double_zero. rewrite E. ring.
  - exists m, (e + 2)%Z. split; [rewrite E, pow2_add; change (2 ^ 2) with 4; ring|].
    split; [done|]. split; [lia|].
    rewrite E, Qabs_scaled in Hr. change (Qabs (inject_Z m)) with (inject_Z (Z.abs m)) in Hr.
    assert (1 <= inject_Z (Z.abs m)) as H1 by (change 1 with (inject_Z 1); rewrite <- Zle_Qle; lia).
    pose proof (pow2_pos e) as Hp.
    assert (0 <= (inject_Z (Z.abs m) - 1) * 2 ^ e) by (apply Qmult_le_0_compat; lra).
    assert (e < 0)%Z by (apply pow2_lt_inv; change (2 ^ 0) with 1; lra).
    unfold emax. lia.
Qed.

(** ** Sums of whole numbers *)

Lemma whole_inject (n : Z) : whole (inject_Z n).
Proof. unfold whole. by rewrite Qfloor_Z. Qed.

#[export] Instance whole_proper : Proper (Qeq ==> iff) whole.
Proof.
  intros x y E. unfold whole. by rewrite (Qfloor_comp x y E), E.
Qed.

Lemma whole_plus (x y : Q) : whole x -> whole y -> whole (x + y).
Proof.
  unfold whole. intros Hx Hy.
  assert (x + y == inject_Z (Qfloor x + Qfloor y)) as E
    by (rewrite inject_Z_plus, <- Hx, <- Hy; reflexivity).
  by rewrite (Qfloor_comp _ _ E), Qfloor_Z.
Qed.

Lemma whole_minus (x y : Q) : whole x -> whole y -> whole (x - y).
Proof.
  unfold whole. intros Hx Hy.
  assert (x - y == inject_Z (Qfloor x + - Qfloor y)) as E
    by (rewrite inject_Z_plus, inject_Z_opp, <- Hx, <- Hy; reflexivity).
  by rewrite (Qfloor_comp _ _ E), Qfloor_Z.
Qed.

Lemma is_double_whole (x : Q) : whole x -> Qabs x < 2 ^ prec -> is_double x.
Proof.
  intros Hx Hb. apply (is_double_intro x (Qfloor x) 0); [|done..].
  change (2 ^ 0) with 1. by rewrite Qmult_1_r.
Qed.

Lemma sum_nonneg (l : list Q) : Forall (fun x => 0 <= x) l -> 0 <= foldr Qplus 0 l.
Proof. induction 1 as [|x l Hx _ IH]; cbn; [done|]. lra. Qed.

Lemma total_nonneg (values : list Number) : milliseconds values -> 0 <= total values.
Proof. intros H. apply sum_nonneg. eapply Forall_impl; [exact H|]. by intros v [_ Hv]. Qed.

Lemma total_whole (values : list Number) : milliseconds values -> whole (total values).
Proof.
  induction 1 as [|v values [Hv _] _ IH]; [apply (whole_inject 0)|]. by apply whole_plus.
Qed.

(** The loop adds whole numbers without rounding as long as the sum stays
    below [2 ^ 53]. *)
Lemma sum64_whole (values : list Number) (acc : Q) :
  milliseconds values -> whole acc -> 0 <= acc -> acc + total values < 2 ^ prec ->
  exists y, foldl js_add (Finite acc) values = Finite y /\ y == acc + total values.
Proof.
  intros Hv. revert acc. induction Hv as [|v values [Hw Hv] Hvs IH]; intros acc Ha H0 Hb.
  - exists acc. split; [done|]. cbn. ring.
  - pose proof (total_nonneg values Hvs) as Ht. cbn [total foldr] in Hb. fold (total values) in Hb.
    destruct (fl_exact (acc + v)) as (y & Ey & Hy).
    { apply is_double_whole; [by apply whole_plus|]. rewrite Qabs_pos; lra. }
    destruct (IH y) as (z & Ez & Hz); [by rewrite Hy; apply whole_plus|lra|lra|].
    exists z. cbn [foldl js_add]. rewrite Ey, Ez. split; [done|].
    rewrite Hz, Hy. cbn [total foldr]. fold (total values). ring.
Qed.

Lemma sum64_milliseconds (values : list Number) :
  milliseconds values -> total values < 2 ^ prec ->
  exists y, sum64 values = Finite y /\ y == total values.
Proof.
  intros Hv Hb. destruct (sum64_whole values 0 Hv (whole_inject 0)) as (y & Ey & Hy); [lra..|].
  exists y. split; [done|]. rewrite Hy. ring.
Qed.

(** ** Operations up to the representation of rationals *)

#[export] Instance to_double_proper : Proper (js_eq ==> js_eq) to_double.
Proof. intros [a| | |] [b| | |]; cbn; try done. apply fl_proper. Qed.

Lemma js_add_proper (x y : JsNumber) (v w : Q) :
  js_eq x y -> v == w -> js_eq (js_add x v) (js_add y w).
Proof.
  destruct x as [a| | |], y as [b| | |]; cbn; try done.
  intros E E'. apply fl_proper. by rewrite E, E'.
Qed.

Lemma foldl_js_add_proper (l l' : list Q) (x y : JsNumber) :
  Forall2 Qeq l l' -> js_eq x y -> js_eq (foldl js_add x l) (foldl js_add y l').
Proof.
  intros Hl. revert x y. induction Hl as [|v w l l' E _ IH]; intros x y Exy; [done|].
  cbn [foldl]. by apply IH, js_add_proper.
Qed.

Lemma sum64_Forall2 (l l' : list Q) : Forall2 Qeq l l' -> js_eq (sum64 l) (sum64 l').
Proof. intros Hl. by apply foldl_js_add_proper. Qed.

Lemma js_div_by_finite (x y : JsNumber) (c : Q) :
  ~ c == 0 -> js_eq x y -> js_eq (js_div x (Finite c)) (js_div y (Finite c)).
Proof.
  intros Hc E. unfold js_div. apply to_double_proper.
  destruct x as [a| | |], y as [b| | |]; try done.
  rewrite !exact_div_finite by done. cbn [js_eq] in *. by rewrite E.
Qed.

(** The subtraction is exact on two non-negative values of which the
    larger is at most twice the smaller (Sterbenz), and on whole numbers
    below [2 ^ 53]. *)
Lemma js_sub_exact (x y : Q) :
  is_double x -> is_double y -> 0 <= y -> y <= x ->
  x <= 2 * y \/ (whole x /\ whole y /\ x < 2 ^ 53) ->
  js_eq (js_sub x y) (Finite (x - y)).
Proof.
  intros Hx Hy H0 H1 Hc. unfold js_sub.
  destruct (fl_exact (x - y)) as (z & -> & E); [|done].
  destruct Hc as [H2|(Hwx & Hwy & H2)].
  - apply is_double_difference; [done..| |]; rewrite !Qabs_pos; lra.
  - apply is_double_whole; [by apply whole_minus|]. rewrite Qabs_pos; [|lra].
    change (2 ^ prec) with (2 ^ 53). lra.
Qed.

(** ** Theorems *)

(** Rounding leaves the values of binary64 unchanged: the result of an
    operation whose exact value is representable is that value. *)
Theorem fl_representable (x : Q) : is_double x -> js_eq (fl x) (Finite x).
Proof.
  intros (y & -> & E)%fl_exact. exact E.
Qed.

(** Every finite result of rounding is a value of binary64: a mantissa
    below [2 ^ 53] in absolute value at an exponent between [-1074] and
    [971]. *)
Theorem fl_is_double (x y : Q) : fl x = Finite y -> is_double y.
Proof.
  intros [-> Hfin]%fl_Finite. destruct (Qeq_dec x 0) as [Hx|Hx].
  - by apply is_double_zero, rnd_zero.
  - pose proof (rnd_mantissa x Hx) as Hm. pose proof (rnd_exponent x Hx Hfin) as He.
    pose proof (ulp_exp_min x) as He'.
    destruct (Z.eq_dec (Z.abs (round_half_even (x / ulp x))) (2 ^ prec)%Z) as [Hc|Hc].
    + apply is_double_carry; [done|]. split; [done|].
      destruct (Z.eq_dec (ulp_exp x) emax) as [Hmax|]; [exfalso|lia].
      rewrite rnd_abs, Hc in Hfin. unfold ulp in Hfin. rewrite Hmax in Hfin.
      rewrite <- pow2_inject, <- pow2_add, Z.add_comm in Hfin by done.
      by apply Qlt_irrefl in Hfin.
    + exists (round_half_even (x / ulp x)), (ulp_exp x). split; [done|]. lia.
Qed.
