(* ===== verification/Stimuli.v ===== *)
(** * The data model: stimuli, trials and the hand-written trial tables

    The interfaces [Stimulus], [Trial], [TrialData] and [GameState] of
    [src/src/index.ts], the catalogue [STIMULI] and the three constant
    tables of trials.  A trial is well posed for a dimension when exactly
    one of its two choices agrees with the target on that dimension and
    [correct] is the index of that choice; the theorems show that every row
    of the tables is. *)

From Stdlib Require Import ZArith QArith.
From stdpp Require Import base tactics decidable option list strings.
From S2P Require Import Prelude.

Open Scope string_scope.
Open Scope list_scope.

(** ** Types *)

Record Stimulus : Type := {
  img : string;
  name : string;
  shape : string;
  color : string;
}.

Record Trial : Type := {
  target : Stimulus;
  left : Stimulus;
  right : Stimulus;
  correct : Z;
  dimension : option string;
}.

Record TrialData : Type := {
  td_response : Z;
  td_correct : bool;
  td_rt : Number;
  td_phase : string;
  td_dimension : string;
  td_target : string;
}.

Record GameState : Type := {
  audio_enabled : bool;
  current_phase : string;
  trials_completed : Z;
}.

#[export] Instance Stimulus_eq_dec : EqDecision Stimulus.
Proof. solve_decision. Defined.

#[export] Instance Trial_eq_dec : EqDecision Trial.
Proof. solve_decision. Defined.

#[export] Instance GameState_eq_dec : EqDecision GameState.
Proof. solve_decision. Defined.

(** ** The catalogue *)

Module STIMULI.
Definition brownRabbit : Stimulus :=
  {| img := "assets/brown_rabbit.svg"; name := "brown rabbit";
     shape := "rabbit"; color := "brown" |}.
Definition whiteRabbit : Stimulus :=
  {| img := "assets/white_rabbit.svg"; name := "white rabbit";
     shape := "rabbit"; color := "white" |}.
Definition brownBoat : Stimulus :=
  {| img := "assets/brown_boat.svg"; name := "brown boat";
     shape := "boat"; color := "brown" |}.
Definition whiteBoat : Stimulus :=
  {| img := "assets/white_boat.svg"; name := "white boat";
     shape := "boat"; color := "white" |}.
Definition blueBall : Stimulus :=
  {| img := "assets/blue_ball.svg"; name := "blue ball";
     shape := "ball"; color := "blue" |}.
Definition orangeTruck : Stimulus :=
  {| img := "assets/orange_truck.svg"; name := "orange truck";
     shape := "truck"; color := "orange" |}.
Definition blueTruck : Stimulus :=
  {| img := "assets/blue_truck.svg"; name := "blue truck";
     shape := "truck"; color := "blue" |}.
Definition orangeBall : Stimulus :=
  {| img := "assets/orange_ball.svg"; name := "orange ball";
     shape := "ball"; color := "orange" |}.
End STIMULI.

(** The values of the object [STIMULI], in the order of its keys. *)
Definition catalogue : list Stimulus :=
  [ STIMULI.brownRabbit; STIMULI.whiteRabbit; STIMULI.brownBoat;
    STIMULI.whiteBoat; STIMULI.blueBall; STIMULI.orangeTruck;
    STIMULI.blueTruck; STIMULI.orangeBall ].

(** ** The pre-defined trials *)

Definition fixed_trial (t l r : Stimulus) (c : Z) : Trial :=
  {| target := t; left := l; right := r; correct := c; dimension := None |}.

Definition COLOR_PRACTICE_TRIALS : list Trial :=
  [ fixed_trial STIMULI.brownRabbit STIMULI.brownBoat STIMULI.whiteRabbit 0;
    fixed_trial STIMULI.whiteBoat STIMULI.brownBoat STIMULI.whiteRabbit 1;
    fixed_trial STIMULI.brownBoat STIMULI.brownBoat STIMULI.whiteRabbit 0;
    fixed_trial STIMULI.whiteRabbit STIMULI.brownBoat STIMULI.whiteRabbit 1;
    fixed_trial STIMULI.brownRabbit STIMULI.whiteRabbit STIMULI.brownBoat 1 ].

Definition COLOR_TEST_TRIALS : list Trial :=
  [ fixed_trial STIMULI.blueTruck STIMULI.blueBall STIMULI.orangeTruck 0;
    fixed_trial STIMULI.orangeBall STIMULI.blueBall STIMULI.orangeTruck 1;
    fixed_trial STIMULI.blueBall STIMULI.orangeTruck STIMULI.blueBall 1;
    fixed_trial STIMULI.orangeTruck STIMULI.blueBall STIMULI.orangeTruck 1;
    fixed_trial STIMULI.blueTruck STIMULI.orangeTruck STIMULI.blueBall 1 ].

Definition SHAPE_TEST_TRIALS : list Trial :=
  [ fixed_trial STIMULI.orangeBall STIMULI.blueBall STIMULI.orangeTruck 0;
    fixed_trial STIMULI.blueTruck STIMULI.blueBall STIMULI.orangeTruck 1;
    fixed_trial STIMULI.orangeTruck STIMULI.orangeTruck STIMULI.blueBall 0;
    fixed_trial STIMULI.blueBall STIMULI.orangeTruck STIMULI.blueBall 1;
    fixed_trial STIMULI.blueTruck STIMULI.blueBall STIMULI.orangeTruck 1 ].

(** ** Well-posed trials *)

(** Agreement of two stimuli on a dimension: on colour for ["color"], on
    shape for every other label, as the generator's [if ... else] has it. *)
Definition same_on (dim : string) (a b : Stimulus) : bool :=
  if decide (dim = "color") then bool_decide (color a = color b)
  else bool_decide (shape a = shape b).

(** The index of the choice that agrees with the target, when exactly one
    does. *)
Definition matching_index (dim : string) (t : Trial) : option Z :=
  match same_on dim (left t) (target t), same_on dim (right t) (target t) with
  | true, false => Some 0%Z
  | false, true => Some 1%Z
  | _, _ => None
  end.

Definition well_posed (dim : string) (t : Trial) : Prop :=
  matching_index dim t = Some (correct t).

#[export] Instance well_posed_dec dim t : Decision (well_posed dim t).
Proof. unfold well_posed. apply _. Defined.

(** The stimuli a test or mixed trial may show. *)
Definition test_stimuli : list Stimulus :=
  [ STIMULI.blueBall; STIMULI.orangeTruck; STIMULI.blueTruck; STIMULI.orangeBall ].

Definition uses_only (pool : list Stimulus) (t : Trial) : Prop :=
  target t ∈ pool /\ left t ∈ pool /\ right t ∈ pool.

#[export] Instance uses_only_dec pool t : Decision (uses_only pool t).
Proof. unfold uses_only. apply _. Defined.

(** ** Theorems *)

Lemma well_posed_correct_01 (dim : string) (t : Trial) :
  well_posed dim t -> correct t = 0%Z \/ correct t = 1%Z.
Proof.
  unfold well_posed, matching_index. repeat case_match; naive_solver.
Qed.

(** In a well-posed trial the choice at [correct] agrees with the target and
    the other one does not. *)
Lemma well_posed_sides (dim : string) (t : Trial) :
  well_posed dim t ->
  same_on dim (if decide (correct t = 0%Z) then left t else right t) (target t) = true /\
  same_on dim (if decide (correct t = 0%Z) then right t else left t) (target t) = false.
Proof.
  unfold well_posed, matching_index. intros Hw.
  destruct (same_on dim (left t) _) eqn:El, (same_on dim (right t) _) eqn:Er;
    simplify_eq; rewrite <- Hw; simpl; done.
Qed.

Lemma well_posed_unique (dim : string) (t : Trial) (c : Z) :
  well_posed dim t ->
  well_posed dim {| target := target t; left := left t; right := right t;
                    correct := c; dimension := dimension t |} ->
  c = correct t.
Proof. unfold well_posed, matching_index; simpl. congruence. Qed.

(** Every stimulus of the catalogue is named after its colour and shape and
    its image is the file of that name. *)
Lemma catalogue_names :
  Forall (fun s => name s = color s +:+ " " +:+ shape s /\
                   img s = "assets/" +:+ color s +:+ "_" +:+ shape s +:+ ".svg")
         catalogue.
Proof. repeat constructor. Qed.

Lemma catalogue_NoDup : NoDup (name <$> catalogue).
Proof. by_decide. Qed.

Lemma COLOR_PRACTICE_TRIALS_well_posed : Forall (well_posed "color") COLOR_PRACTICE_TRIALS.
Proof. by_decide. Qed.

Lemma COLOR_TEST_TRIALS_well_posed : Forall (well_posed "color") COLOR_TEST_TRIALS.
Proof. by_decide. Qed.

Lemma SHAPE_TEST_TRIALS_well_posed : Forall (well_posed "shape") SHAPE_TEST_TRIALS.
Proof. by_decide. Qed.

(** In every row of the three hand-written tables exactly one choice
    agrees with the target on the table's dimension (colour for the practice
    and colour-test tables, shape for the shape-test table) and [correct]
    is the index of that choice. *)
Theorem fixed_trials_well_posed :
  Forall (well_posed "color") (COLOR_PRACTICE_TRIALS ++ COLOR_TEST_TRIALS) /\
  Forall (well_posed "shape") SHAPE_TEST_TRIALS.
Proof.
  split; [apply Forall_app; split|];
    auto using COLOR_PRACTICE_TRIALS_well_posed, COLOR_TEST_TRIALS_well_posed,
               SHAPE_TEST_TRIALS_well_posed.
Qed.

Lemma test_tables_use_test_stimuli :
  Forall (uses_only test_stimuli) (COLOR_TEST_TRIALS ++ SHAPE_TEST_TRIALS).
Proof. by_decide. Qed.
