(* ===== verification/Objects.v ===== *)
(** * Object literals and the interfaces of the data model

    The interfaces [Stimulus], [Trial], [TrialData] and [GameState] of
    [src/src/index.ts] as types of JavaScript values, and the records of
    [Stimuli] as the values of these types.  A [JsValue] is what an object
    literal of the program or of the test-suite denotes; [assignable] is
    the check that TypeScript makes when such a literal is given an
    interface as its type: every required property is there with a value of
    its type, an optional one may be missing or undefined, no property is
    written twice and none is unknown to the interface.

    [of_Stimulus], [of_Trial], [of_TrialData] and [of_GameState] write a
    record as the literal with the properties in the order of the
    interface, and [to_Stimulus] and the like read a value back.

    The lemmas of this file are about the representation, not about what
    the program does: the records are values of their interfaces, reading
    back gives the record, and every value of an interface is read as a
    record, provided the numbers that the records keep as integers
    ([correct], [response], [trials_completed]) are integers.  They are
    what allows the other files to state the program's behaviour on
    records; an interface value with a fractional [correct] is outside the
    model. *)

From Stdlib Require Import ZArith QArith Qround Lia.
From stdpp Require Import base tactics decidable option list strings.
From S2P Require Import Prelude Stimuli.

Open Scope string_scope.
Open Scope list_scope.

(** ** Values and types *)

#[warnings="-register-all"] Inductive JsValue : Type :=
| Undefined
| Bool (b : bool)
| Num (n : Number)
| Str (s : string)
| Obj (props : list (string * JsValue)).

(** A property of an interface: its name, whether it is optional, its
    type. *)
#[warnings="-register-all"] Inductive Ty : Type :=
| TBoolean
| TNumber
| TString
| TObject (fields : list (string * (bool * Ty))).

(** [o.k], [None] when the object has no such property. *)
Definition get_property (props : list (string * JsValue)) (k : string) : option JsValue :=
  snd <$> List.find (fun kv => String.eqb kv.1 k) props.

(** [v.k] for any value: [undefined] when there is nothing to read. *)
Definition read (v : JsValue) (k : string) : JsValue :=
  match v with
  | Obj props => default Undefined (get_property props k)
  | _ => Undefined
  end.

Fixpoint distinct (ks : list string) : bool :=
  match ks with
  | [] => true
  | k :: ks' => negb (existsb (String.eqb k) ks') && distinct ks'
  end.

Definition known (fields : list (string * (bool * Ty))) (k : string) : bool :=
  existsb (fun f => String.eqb f.1 k) fields.

(** The check of a literal against a type. *)
Fixpoint assignable (t : Ty) (v : JsValue) {struct t} : bool :=
  match t, v with
  | TBoolean, Bool _ | TNumber, Num _ | TString, Str _ => true
  | TObject fields, Obj props =>
      forallb (fun f =>
                 match f with
                 | (k, (optional, t')) =>
                     match get_property props k with
                     | Some Undefined => optional
                     | Some v' => assignable t' v'
                     | None => optional
                     end
                 end) fields
      && distinct props.*1
      && forallb (fun kv => known fields kv.1) props
  | _, _ => false
  end.

(** ** The interfaces, lines 11-38 *)

Definition required (t : Ty) : bool * Ty := (false, t).
Definition optional (t : Ty) : bool * Ty := (true, t).

Definition StimulusT : Ty :=
  TObject [("img", required TString); ("name", required TString);
           ("shape", required TString); ("color", required TString)].

Definition TrialT : Ty :=
  TObject [("target", required StimulusT); ("left", required StimulusT);
           ("right", required StimulusT); ("correct", required TNumber);
           ("dimension", optional TString)].

Definition TrialDataT : Ty :=
  TObject [("response", required TNumber); ("correct", required TBoolean);
           ("rt", required TNumber); ("phase", required TString);
           ("dimension", required TString); ("target", required TString)].

Definition GameStateT : Ty :=
  TObject [("audio_enabled", required TBoolean); ("current_phase", required TString);
           ("trials_completed", required TNumber)].

(** ** The records as values *)

Definition of_Stimulus (s : Stimulus) : JsValue :=
  Obj [("img", Str (img s)); ("name", Str (name s)); ("shape", Str (shape s));
       ("color", Str (color s))].

Definition of_Trial (t : Trial) : JsValue :=
  Obj ([("target", of_Stimulus (target t)); ("left", of_Stimulus (left t));
        ("right", of_Stimulus (right t)); ("correct", Num (inject_Z (correct t)))]
       ++ match dimension t with
          | Some d => [("dimension", Str d)]
          | None => []
          end).

Definition of_TrialData (d : TrialData) : JsValue :=
  Obj [("response", Num (inject_Z (td_response d))); ("correct", Bool (td_correct d));
       ("rt", Num (td_rt d)); ("phase", Str (td_phase d));
       ("dimension", Str (td_dimension d)); ("target", Str (td_target d))].

Definition of_GameState (g : GameState) : JsValue :=
  Obj [("audio_enabled", Bool (audio_enabled g));
       ("current_phase", Str (current_phase g));
       ("trials_completed", Num (inject_Z (trials_completed g)))].

(** ** Reading a value as a record *)

Definition as_string (v : JsValue) : option string :=
  match v with Str s => Some s | _ => None end.

Definition as_bool (v : JsValue) : option bool :=
  match v with Bool b => Some b | _ => None end.

Definition as_number (v : JsValue) : option Number :=
  match v with Num n => Some n | _ => None end.

(** A number that is an integer. *)
Definition as_integer (v : JsValue) : option Z :=
  n ← as_number v;
  if Qeq_bool n (inject_Z (Qfloor n)) then Some (Qfloor n) else None.

Definition to_Stimulus (v : JsValue) : option Stimulus :=
  img ← as_string (read v "img"); name ← as_string (read v "name");
  shape ← as_string (read v "shape"); color ← as_string (read v "color");
  Some {| img := img; name := name; shape := shape; color := color |}.

Definition to_Trial (v : JsValue) : option Trial :=
  target ← to_Stimulus (read v "target"); left ← to_Stimulus (read v "left");
  right ← to_Stimulus (read v "right"); correct ← as_integer (read v "correct");
  dimension ← match read v "dimension" with
              | Undefined => Some None
              | d => Some <$> as_string d
              end;
  Some {| target := target; left := left; right := right; correct := correct;
          dimension := dimension |}.

Definition to_TrialData (v : JsValue) : option TrialData :=
  response ← as_integer (read v "response"); correct ← as_bool (read v "correct");
  rt ← as_number (read v "rt"); phase ← as_string (read v "phase");
  dimension ← as_string (read v "dimension"); target ← as_string (read v "target");
  Some {| td_response := response; td_correct := correct; td_rt := rt;
          td_phase := phase; td_dimension := dimension; td_target := target |}.

Definition to_GameState (v : JsValue) : option GameState :=
  audio_enabled ← as_bool (read v "audio_enabled");
  current_phase ← as_string (read v "current_phase");
  trials_completed ← as_integer (read v "trials_completed");
  Some {| audio_enabled := audio_enabled; current_phase := current_phase;
          trials_completed := trials_completed |}.

(** The numbers of a value that its record keeps as integers are
    integers. *)
Definition integral (v : JsValue) (ks : list string) : Prop :=
  Forall (fun k => is_Some (as_integer (read v k))) ks.

(** ** Lemmas *)

Lemma as_integer_inject (z : Z) : as_integer (Num (inject_Z z)) = Some z.
Proof.
  unfold as_integer. cbn [as_number mbind option_bind]. rewrite Qfloor_Z.
  by rewrite (proj2 (Qeq_bool_iff _ _) (Qeq_refl _)).
Qed.

Lemma assignable_string v : assignable TString v = true -> exists s, v = Str s.
Proof. destruct v; try done. by eexists. Qed.

Lemma assignable_boolean v : assignable TBoolean v = true -> exists b, v = Bool b.
Proof. destruct v; try done. by eexists. Qed.

Lemma assignable_number v : assignable TNumber v = true -> exists n, v = Num n.
Proof. destruct v; try done. by eexists. Qed.

Lemma assignable_object fields v :
  assignable (TObject fields) v = true -> exists props, v = Obj props.
Proof. destruct v; try done. by eexists. Qed.

(** A required property of a value of an interface is there, with a value
    of its type. *)
Lemma assignable_required fields v k t :
  assignable (TObject fields) v = true -> (k, required t) ∈ fields ->
  assignable t (read v k) = true.
Proof.
  intros Ha Hk. destruct (assignable_object _ _ Ha) as [props ->].
  cbn [assignable] in Ha. apply andb_prop in Ha as [[Hf _]%andb_prop _].
  rewrite forallb_forall in Hf. apply list_elem_of_In, Hf in Hk.
  cbn in Hk |- *. destruct (get_property props k) as [[]|]; by destruct t.
Qed.

(** An optional one is undefined or has a value of its type. *)
Lemma assignable_optional fields v k t :
  assignable (TObject fields) v = true -> (k, optional t) ∈ fields ->
  read v k = Undefined \/ assignable t (read v k) = true.
Proof.
  intros Ha Hk. destruct (assignable_object _ _ Ha) as [props ->].
  cbn [assignable] in Ha. apply andb_prop in Ha as [[Hf _]%andb_prop _].
  rewrite forallb_forall in Hf. apply list_elem_of_In, Hf in Hk.
  cbn in Hk |- *. destruct (get_property props k) as [[]|]; auto.
Qed.

(** A value of an interface has no property that the interface lacks. *)
Lemma assignable_known fields props k :
  assignable (TObject fields) (Obj props) = true -> known fields k = false ->
  get_property props k = None.
Proof.
  intros [_ Hk]%andb_prop Hn. rewrite forallb_forall in Hk. unfold get_property.
  destruct (List.find _ props) as [kv|] eqn:E; [|done].
  apply find_some in E as [Hin Heq%String.eqb_eq]. apply Hk in Hin. congruence.
Qed.

(** The property [k] of a value of an interface, by its type. *)
Ltac in_list := solve [repeat first [apply list_elem_of_here | apply list_elem_of_further]].

Tactic Notation "property" constr(H) constr(k) "as" ident(Hk) :=
  eassert (assignable _ (read _ k) = true) as Hk
    by (eapply (assignable_required _ _ k _ H); unfold required; in_list);
  first [apply assignable_string in Hk as [? Hk]
        |apply assignable_boolean in Hk as [? Hk]
        |apply assignable_number in Hk as [? Hk]
        |idtac].

Lemma StimulusT_record v :
  assignable StimulusT v = true -> is_Some (to_Stimulus v).
Proof.
  intros H. property H "img" as H1. property H "name" as H2.
  property H "shape" as H3. property H "color" as H4.
  unfold to_Stimulus. by rewrite H1, H2, H3, H4.
Qed.

Lemma TrialT_record v :
  assignable TrialT v = true -> integral v ["correct"] -> is_Some (to_Trial v).
Proof.
  intros H [[z Hz] _]%Forall_cons_1.
  property H "target" as H1. property H "left" as H2. property H "right" as H3.
  apply StimulusT_record in H1 as [? H1], H2 as [? H2], H3 as [? H3].
  unfold to_Trial. rewrite H1, H2, H3, Hz. cbn [mbind option_bind].
  destruct (assignable_optional _ _ "dimension" TString H ltac:(unfold optional; in_list))
    as [->|[s ->]%assignable_string]; by eexists.
Qed.

Lemma TrialDataT_record v :
  assignable TrialDataT v = true -> integral v ["response"] -> is_Some (to_TrialData v).
Proof.
  intros H [[z Hz] _]%Forall_cons_1.
  property H "correct" as H1. property H "rt" as H2. property H "phase" as H3.
  property H "dimension" as H4. property H "target" as H5.
  unfold to_TrialData. by rewrite Hz, H1, H2, H3, H4, H5.
Qed.

Lemma GameStateT_record v :
  assignable GameStateT v = true -> integral v ["trials_completed"] ->
  is_Some (to_GameState v).
Proof.
  intros H [[z Hz] _]%Forall_cons_1.
  property H "audio_enabled" as H1. property H "current_phase" as H2.
  unfold to_GameState. by rewrite Hz, H1, H2.
Qed.

(** ** Adequacy of the records *)

(** The records of the model are values of the interfaces of the
    program: written as an object literal, a [Stimulus], a [Trial] with or
    without its [dimension], a [TrialData] and a [GameState] pass the check
    of their interface. *)
Lemma records_are_values (s : Stimulus) (t : Trial) (d : TrialData) (g : GameState) :
  assignable StimulusT (of_Stimulus s) = true /\
  assignable TrialT (of_Trial t) = true /\
  assignable TrialDataT (of_TrialData d) = true /\
  assignable GameStateT (of_GameState g) = true.
Proof. repeat split; try done. by destruct t as [? ? ? ? [?|]]. Qed.

(** Reading back the literal of a record gives the record. *)
Lemma literal_read_back (s : Stimulus) (t : Trial) (d : TrialData) (g : GameState) :
  to_Stimulus (of_Stimulus s) = Some s /\
  to_Trial (of_Trial t) = Some t /\
  to_TrialData (of_TrialData d) = Some d /\
  to_GameState (of_GameState g) = Some g.
Proof.
  assert (forall s, to_Stimulus (of_Stimulus s) = Some s) as Hs by (by intros []).
  repeat split; [done| |..].
  - destruct t as [ta le ri co [di|]]; unfold to_Trial, of_Trial, read;
      cbn -[to_Stimulus of_Stimulus as_integer]; by rewrite !Hs, as_integer_inject.
  - destruct d. unfold to_TrialData, of_TrialData, read.
    cbn -[as_integer]. by rewrite as_integer_inject.
  - destruct g. unfold to_GameState, of_GameState, read.
    cbn -[as_integer]. by rewrite as_integer_inject.
Qed.

(** Every value of an interface is read as a record, provided the
    numbers that the record keeps as integers are integers: the records
    lose no value that the program can be given. *)
Lemma values_are_records (v : JsValue) :
  (assignable StimulusT v = true -> is_Some (to_Stimulus v)) /\
  (assignable TrialT v = true -> integral v ["correct"] -> is_Some (to_Trial v)) /\
  (assignable TrialDataT v = true -> integral v ["response"] ->
   is_Some (to_TrialData v)) /\
  (assignable GameStateT v = true -> integral v ["trials_completed"] ->
   is_Some (to_GameState v)).
Proof.
  split; [apply StimulusT_record|]. split; [apply TrialT_record|].
  split; [apply TrialDataT_record|apply GameStateT_record].
Qed.

(** ** Examples *)

Lemma values_are_records_witness :
  is_Some (to_Stimulus (of_Stimulus STIMULI.blueBall)) /\
  is_Some (to_GameState
             (Obj [("trials_completed", Num 5); ("audio_enabled", Bool true);
                   ("current_phase", Str "practice")])).
Proof.
  split.
  - exact (proj1 (values_are_records (of_Stimulus STIMULI.blueBall)) eq_refl).
  - apply (values_are_records
             (Obj [("trials_completed", Num 5); ("audio_enabled", Bool true);
                   ("current_phase", Str "practice")])); [reflexivity|].
    repeat constructor. by eexists.
Defined.
