(* ===== verification/Audio.v ===== *)
(** * The module state and the narration

    The module-level variable [state] of [src/src/index.ts], [resetState]
    and [playAudio], over a model of the global [window]: the speech
    synthesiser, when the browser has one, is the list of the utterances it
    was asked to speak, oldest first. *)

From Stdlib Require Import ZArith QArith.
From stdpp Require Import base tactics decidable option list strings.
From S2P Require Import Prelude Stimuli.

Open Scope string_scope.
Open Scope list_scope.

(** ** State *)

Record Utterance : Type := {
  text : string;
  rate : Number;
  pitch : Number;
  volume : Number;
}.

(** [speechSynthesis] is [None] when ['speechSynthesis' in window] is false;
    [tempaudio_enabled] is the property the welcome screen's checkbox sets,
    [None] while it is undefined. *)
Record Window : Type := {
  speechSynthesis : option (list Utterance);
  tempaudio_enabled : option bool;
}.

Record Globals : Type := {
  state : GameState;
  window : Window;
}.

Definition initial_state : GameState :=
  {| audio_enabled := false; current_phase := ""; trials_completed := 0 |}.

(** ** Operations *)

Definition resetState : M Globals unit :=
  modify (fun g => {| state := initial_state; window := window g |}).

Definition speak (u : Utterance) (w : Window) : Window :=
  {| speechSynthesis := (fun q => q ++ [u]) <$> speechSynthesis w;
     tempaudio_enabled := tempaudio_enabled w |}.

(** [new SpeechSynthesisUtterance(text)], as the setup files of the tests
    define it: the browser's constructor sets the same rate, pitch and
    volume. *)
Definition SpeechSynthesisUtterance (text : string) : Utterance :=
  {| Audio.text := text; Audio.rate := 1; Audio.pitch := 1; Audio.volume := 1 |}.

(** [utterance.rate = r]. *)
Definition set_rate (r : Number) (u : Utterance) : Utterance :=
  {| text := text u; rate := r; pitch := pitch u; volume := volume u |}.

(** What [playAudio(txt)] hands to the synthesiser. *)
Definition uttered (txt : string) : Utterance :=
  set_rate (9 # 10) (SpeechSynthesisUtterance txt).

Definition playAudio (txt : string) : M Globals unit :=
  g <- get ;;
  when (audio_enabled (state g) && bool_decide (is_Some (speechSynthesis (window g))))
    (let utterance := SpeechSynthesisUtterance txt in
     let utterance := set_rate (9 # 10) utterance in
     put {| state := state g; window := speak utterance (window g) |}).

(** The utterances spoken so far. *)
Definition spoken (g : Globals) : list Utterance :=
  default [] (speechSynthesis (window g)).

Definition audible (g : Globals) : bool :=
  audio_enabled (state g) && bool_decide (is_Some (speechSynthesis (window g))).

(** Calls of [playAudio] in a row, and the utterances they queue when the
    narration is on. *)
Definition narrate (txts : list string) (g : Globals) : Globals :=
  foldl (fun g txt => (playAudio txt g).2) g txts.

Definition utterances (txts : list string) : list Utterance :=
  uttered <$> txts.

(** ** Theorems *)

Lemma playAudio_Ok (txt : string) (g : Globals) : (playAudio txt g).1 = Ok tt.
Proof. unfold playAudio. unfold_monad. by case_match. Qed.

(** With audio disabled, or without a synthesiser, nothing changes. *)
Lemma playAudio_silent (txt : string) (g : Globals) :
  audible g = false -> playAudio txt g = (Ok tt, g).
Proof. unfold audible, playAudio. unfold_monad. by intros ->. Qed.

(** Otherwise exactly one utterance is queued, at rate 0.9, and the module
    state is unchanged. *)
Lemma playAudio_audible (txt : string) (g : Globals) :
  audible g = true ->
  spoken (playAudio txt g).2 = spoken g ++ [uttered txt] /\
  state (playAudio txt g).2 = state g.
Proof.
  unfold audible, playAudio, spoken. unfold_monad. intros Ha. rewrite Ha.
  apply andb_prop in Ha as [_ Hs%bool_decide_eq_true]. simpl.
  by destruct Hs as [q ->].
Qed.

Lemma playAudio_state (txt : string) (g : Globals) :
  state (playAudio txt g).2 = state g.
Proof. unfold playAudio. unfold_monad. by case_match. Qed.

Lemma playAudio_spoken_prefix (txt : string) (g : Globals) :
  spoken g `prefix_of` spoken (playAudio txt g).2.
Proof.
  destruct (audible g) eqn:Ha.
  - destruct (playAudio_audible txt g Ha) as [-> _]. by apply prefix_app_r.
  - by rewrite playAudio_silent.
Qed.

(** [playAudio] never throws and never changes the module state; it
    queues exactly one utterance, of the given text at rate 0.9, when audio
    is enabled and the browser has a synthesiser, and nothing otherwise. *)
Theorem playAudio_speaks_once (txt : string) (g : Globals) :
  (playAudio txt g).1 = Ok tt /\
  state (playAudio txt g).2 = state g /\
  spoken (playAudio txt g).2
  = spoken g ++ (if audible g then [uttered txt] else []).
Proof.
  split; [apply playAudio_Ok|]. split; [apply playAudio_state|].
  destruct (audible g) eqn:Ha.
  - by apply playAudio_audible.
  - by rewrite playAudio_silent, app_nil_r.
Qed.

Lemma playAudio_audible_eq (txt : string) (g : Globals) :
  audible (playAudio txt g).2 = audible g.
Proof.
  destruct (audible g) eqn:Ha; [|by rewrite playAudio_silent].
  unfold audible in *. rewrite playAudio_state.
  apply andb_prop in Ha as [-> Hs%bool_decide_eq_true]. cbn.
  apply bool_decide_eq_true. unfold playAudio. unfold_monad.
  destruct Hs as [q Hq]. rewrite Hq. case_match; cbn; unfold speak; rewrite Hq; by eexists.
Qed.

Lemma narrate_app (l k : list string) (g : Globals) :
  narrate (l ++ k) g = narrate k (narrate l g).
Proof. apply foldl_app. Qed.

Lemma narrate_audible (txts : list string) (g : Globals) :
  audible (narrate txts g) = audible g.
Proof.
  revert g. induction txts as [|txt txts IH]; intros g; [done|].
  change (narrate (txt :: txts) g) with (narrate txts (playAudio txt g).2).
  by rewrite IH, playAudio_audible_eq.
Qed.

Lemma narrate_silent (txts : list string) (g : Globals) :
  audible g = false -> narrate txts g = g.
Proof.
  intros Ha. induction txts as [|txt txts IH]; [done|].
  change (narrate (txt :: txts) g) with (narrate txts (playAudio txt g).2).
  by rewrite playAudio_silent.
Qed.

(** What a run of calls adds to the queue of the synthesiser. *)
Lemma narrate_spoken (txts : list string) (g : Globals) :
  spoken (narrate txts g) = spoken g ++ (if audible g then utterances txts else []).
Proof.
  destruct (audible g) eqn:Ha; [|by rewrite narrate_silent, app_nil_r].
  revert g Ha. induction txts as [|txt txts IH]; intros g Ha; [by rewrite app_nil_r|].
  change (narrate (txt :: txts) g) with (narrate txts (playAudio txt g).2).
  rewrite IH by (by rewrite playAudio_audible_eq).
  destruct (playAudio_audible txt g Ha) as [-> _]. by rewrite <- app_assoc.
Qed.

Lemma resetState_state (g : Globals) : state (resetState g).2 = initial_state.
Proof. reflexivity. Qed.

(** After [resetState] the narration is off: a call of [playAudio]
    has no effect until the welcome screen enables audio again. *)
Lemma playAudio_after_resetState (txt : string) (g : Globals) :
  (resetState ;; playAudio txt) g = resetState g.
Proof. reflexivity. Qed.

Lemma resetState_idemp (g : Globals) : (resetState ;; resetState) g = resetState g.
Proof. reflexivity. Qed.
