(* ===== verification/Setup.v ===== *)
(** * The setup files of the test-suite

    [jest.setup.js] exists in two versions ([src/unnamed/part_000] and
    [src/unnamed/part_001]).  Both define the constructor
    [SpeechSynthesisUtterance] ([Audio.SpeechSynthesisUtterance]) and make
    sure that [Date.prototype.toUTCString] exists; the first also replaces
    the global [Date] by a wrapper [SafeDate] that shares the prototype of
    the original.

    The global environment is a store of prototype objects and the value of
    [Date]: a constructor refers to its prototype by address, so that the
    sharing between [SafeDate] and the original constructor is that of the
    code.  The fallback installed for [toUTCString] is a closure of the
    setup file, kept as the constructor [IsoFallback]; it calls
    [toISOString] of the object it is applied to and removes the
    milliseconds with the pattern [/\.\d{3}Z$/], modelled by [replace] on a
    sequence of character classes anchored at the end.

    The theorems show that the scan of the pattern is the test of the
    suffix, that the fallback prints a date as its ISO form without
    the milliseconds (which is not the form of the native [toUTCString]),
    that after either file every date object answers [toUTCString], that
    the two files are equivalent up to the identity of the constructor, and
    that both throw when [Date] has no prototype, as the mock of the
    test-suite has. *)

From Stdlib Require Import ZArith QArith Ascii Lia.
From stdpp Require Import base tactics decidable option list strings.
From S2P Require Import Prelude Audio.

Open Scope string_scope.
Open Scope list_scope.

(** ** Patterns *)

(** The atoms of the pattern: a character, [\d]. *)
Inductive CharClass : Type :=
| Lit (c : ascii)
| Digit.

Definition is_digit (c : ascii) : bool :=
  (48 <=? nat_of_ascii c)%nat && (nat_of_ascii c <=? 57)%nat.

Definition class_matches (cl : CharClass) (c : ascii) : bool :=
  match cl with
  | Lit c' => bool_decide (c = c')
  | Digit => is_digit c
  end.

(** The whole of [s] matches the sequence [p]. *)
Fixpoint matches (p : list CharClass) (s : list ascii) : bool :=
  match p, s with
  | [], [] => true
  | cl :: p, c :: s => class_matches cl c && matches p s
  | _, _ => false
  end.

(** The first position from which the rest of [s] matches [p$], as the
    scan of a regular expression finds it. *)
Fixpoint search (p : list CharClass) (s : list ascii) : option nat :=
  if matches p s then Some 0%nat
  else match s with
       | [] => None
       | _ :: s' => S <$> search p s'
       end.

(** [s.replace(/p$/, r)]: the match, which ends the string, is replaced. *)
Definition replace (p : list CharClass) (r s : list ascii) : list ascii :=
  match search p s with
  | Some i => take i s ++ r
  | None => s
  end.

(** [/\.\d{3}Z$/]. *)
Definition ms_pattern : list CharClass :=
  [Lit "."%char; Digit; Digit; Digit; Lit "Z"%char].

Definition strip_ms (s : list ascii) : list ascii := replace ms_pattern ["Z"%char] s.

(** The test of the suffix that the scan amounts to. *)
Definition ends_with (p : list CharClass) (s : list ascii) : bool :=
  bool_decide (length p <= length s)%nat && matches p (drop (length s - length p) s).

(** ** Dates *)

(** A time in UTC, broken down. *)
Record UTCFields : Type := {
  year : Z;
  month : Z;
  day : Z;
  hours : Z;
  minutes : Z;
  seconds : Z;
  milliseconds : Z;
  weekday : Z;
}.

Definition digit (n : Z) : ascii := ascii_of_nat (48 + Z.to_nat (n mod 10)).

(** The last [w] decimal digits of [n], padded with zeros. *)
Fixpoint digits (w : nat) (n : Z) : list ascii :=
  match w with
  | O => []
  | S w' => digits w' (n / 10) ++ [digit n]
  end.

Definition str (s : string) : list ascii := String.list_ascii_of_string s.

Definition clock_part (d : UTCFields) : list ascii :=
  digits 2 (hours d) ++ str ":" ++ digits 2 (minutes d) ++ str ":" ++ digits 2 (seconds d).

Definition date_time (d : UTCFields) : list ascii :=
  digits 4 (year d) ++ str "-" ++ digits 2 (month d) ++ str "-" ++ digits 2 (day d)
  ++ str "T" ++ clock_part d.

(** [YYYY-MM-DDTHH:mm:ss.sssZ], the native [toISOString] of a date of the
    years 0 to 9999. *)
Definition iso_string (d : UTCFields) : list ascii :=
  date_time d ++ str "." ++ digits 3 (milliseconds d) ++ str "Z".

(** The same without the milliseconds. *)
Definition iso_seconds (d : UTCFields) : list ascii := date_time d ++ str "Z".

Definition day_name (n : Z) : string :=
  nth (Z.to_nat n) ["Sun"; "Mon"; "Tue"; "Wed"; "Thu"; "Fri"; "Sat"] "".

Definition month_name (n : Z) : string :=
  nth (Z.to_nat (n - 1))
    ["Jan"; "Feb"; "Mar"; "Apr"; "May"; "Jun"; "Jul"; "Aug"; "Sep"; "Oct"; "Nov"; "Dec"] "".

(** [Thu, 01 Jan 1970 00:00:00 GMT], the native [toUTCString]. *)
Definition utc_string (d : UTCFields) : list ascii :=
  str (day_name (weekday d)) ++ str ", " ++ digits 2 (day d) ++ str " "
  ++ str (month_name (month d)) ++ str " " ++ digits 4 (year d) ++ str " "
  ++ clock_part d ++ str " GMT".

(** ** The global environment *)

(** A method in the slot [toUTCString]: one of the host, or the function
    that the setup files install (lines 29-31 of the first, 13-15 of the
    second). *)
Inductive Method : Type :=
| Native (f : UTCFields -> list ascii)
| IsoFallback.

Record Prototype : Type := {
  toISOString : UTCFields -> list ascii;
  toUTCString : option Method;
}.

(** A date object: its time and the address of its prototype. *)
Record DateObject : Type := {
  fields : UTCFields;
  proto : nat;
}.

(** The value of [Date]: what [new] builds from the arguments (none when it
    is not a constructor), the address of its [prototype] (none when the
    property is undefined), the value of [now()] (none when it is not a
    function). *)
Record DateValue : Type := {
  construct : option (list Number -> DateObject);
  prototype : option nat;
  now : option Number;
}.

Record Realm : Type := {
  heap : list Prototype;
  Date : DateValue;
  Utterance_ctor : option (string -> Utterance);
}.

Definition with_heap (h : list Prototype) (g : Realm) : Realm :=
  {| heap := h; Date := Date g; Utterance_ctor := Utterance_ctor g |}.

Definition with_Date (d : DateValue) (g : Realm) : Realm :=
  {| heap := heap g; Date := d; Utterance_ctor := Utterance_ctor g |}.

Definition with_Utterance (c : string -> Utterance) (g : Realm) : Realm :=
  {| heap := heap g; Date := Date g; Utterance_ctor := Some c |}.

Definition set_toUTCString (m : Method) (p : Prototype) : Prototype :=
  {| toISOString := toISOString p; toUTCString := Some m |}.

(** [new Date(...args)]. *)
Definition new_Date (args : list Number) : M Realm DateObject :=
  g <- get ;;
  make <- member (construct (Date g)) id "Date is not a constructor" ;;
  ret (make args).

(** What a method does when it is called on an object whose prototype is
    [p]. *)
Definition apply_method (m : Method) (p : Prototype) (d : UTCFields) : list ascii :=
  match m with
  | Native f => f d
  | IsoFallback => strip_ms (toISOString p d)
  end.

(** [o.toUTCString()]. *)
Definition call_toUTCString (o : DateObject) : M Realm (list ascii) :=
  g <- get ;;
  p <- member (heap g !! proto o) id "toUTCString" ;;
  m <- member (toUTCString p) id "toUTCString is not a function" ;;
  ret (apply_method m p (fields o)).

(** ** The setup files *)

(** Lines 4-9 of both files. *)
Definition define_SpeechSynthesisUtterance : M Realm unit :=
  modify (with_Utterance Audio.SpeechSynthesisUtterance).

(** [if (!C.prototype.toUTCString) C.prototype.toUTCString = ...], on the
    prototype at the address [a]; reading a property of [undefined]
    throws. *)
Definition ensure_toUTCString (a : option nat) : M Realm unit :=
  g <- get ;;
  p <- member (a ≫= (heap g !!.)) id "toUTCString" ;;
  when (negb (bool_decide (is_Some (toUTCString p))))
    (modify (with_heap (alter (set_toUTCString IsoFallback) (default 0%nat a) (heap g)))).

(** [function SafeDate(...args)], lines 16-21 of the first file: it returns
    an object built by the original constructor.  Its static properties are
    those of the original (line 24) and its [prototype] is the prototype of
    the original, the same object (line 25). *)
Definition SafeDate (OriginalDate : DateValue) : DateValue :=
  {| construct := (fun make args => if decide (length args = 0%nat) then make []
                                    else make args) <$> construct OriginalDate;
     prototype := prototype OriginalDate;
     now := now OriginalDate |}.

(** [src/unnamed/part_000]. *)
Definition setup_safe_date : M Realm unit :=
  define_SpeechSynthesisUtterance ;;
  g <- get ;;
  let OriginalDate := Date g in
  let SafeDate := SafeDate OriginalDate in
  ensure_toUTCString (prototype SafeDate) ;;
  modify (with_Date SafeDate).

(** [src/unnamed/part_001]. *)
Definition setup_in_place : M Realm unit :=
  define_SpeechSynthesisUtterance ;;
  g <- get ;;
  ensure_toUTCString (prototype (Date g)).

(** ** Observations *)

(** Two values of [Date] that no program tells apart. *)
Definition date_equiv (d1 d2 : DateValue) : Prop :=
  prototype d1 = prototype d2 /\ now d1 = now d2 /\
  option_Forall2 (fun f1 f2 => forall args, f1 args = f2 args)
    (construct d1) (construct d2).

Definition global_equiv (g1 g2 : Realm) : Prop :=
  heap g1 = heap g2 /\ date_equiv (Date g1) (Date g2) /\
  Utterance_ctor g1 = Utterance_ctor g2.

(** A browser whose [Date] is the native one, with or without
    [toUTCString], its prototype at address 0; and the environment after
    the mocks of the test-suite, where [Date] is [{ now: () => 1000000 }]. *)
Definition native_prototype (with_utc : bool) : Prototype :=
  {| toISOString := iso_string;
     toUTCString := if with_utc then Some (Native utc_string) else None |}.

Definition browser (with_utc : bool) (make : list Number -> UTCFields) : Realm :=
  {| heap := [native_prototype with_utc];
     Date := {| construct := Some (fun args => {| fields := make args; proto := 0%nat |});
                prototype := Some 0%nat; now := Some 0%Q |};
     Utterance_ctor := None |}.

(** What [toUTCString] answers on an object of prototype [p] once the
    setup file has run. *)
Definition repaired (p : Prototype) (d : UTCFields) : list ascii :=
  match toUTCString p with
  | Some m => apply_method m p d
  | None => strip_ms (toISOString p d)
  end.

Definition mocked (g : Realm) : Realm :=
  with_Date {| construct := None; prototype := None; now := Some 1000000%Q |} g.

Definition epoch : UTCFields :=
  {| year := 1970; month := 1; day := 1; hours := 0; minutes := 0; seconds := 0;
     milliseconds := 0; weekday := 4 |}.

(** ** Lemmas: patterns *)

Lemma matches_length p s : matches p s = true -> length s = length p.
Proof.
  revert s. induction p as [|cl p IH]; intros [|c s]; cbn; try done.
  intros [_ Hs%IH]%andb_prop. by rewrite Hs.
Qed.

Lemma search_unfold p s :
  search p s = if matches p s then Some 0%nat
               else match s with [] => None | _ :: s' => S <$> search p s' end.
Proof. by destruct s. Qed.

Lemma search_Some p s i :
  search p s = Some i -> (i <= length s)%nat /\ matches p (drop i s) = true.
Proof.
  revert i. induction s as [|c s IH]; intros i; rewrite search_unfold;
    destruct (matches p _) eqn:E; try done.
  1,2: intros [= <-]; split; [cbn; lia|done].
  intros (j & Hj%IH & ->)%fmap_Some. cbn. split; [lia|tauto].
Qed.

(** A match at the end is found after the prefix, whatever the prefix. *)
Lemma search_app p pre suf :
  matches p suf = true -> search p (pre ++ suf) = Some (length pre).
Proof.
  intros Hm. induction pre as [|c pre IH]; rewrite search_unfold; cbn [app].
  - by rewrite Hm.
  - rewrite IH. destruct (matches p (c :: pre ++ suf)) eqn:E; [|done].
    apply matches_length in E, Hm. cbn in E. rewrite length_app in E. lia.
Qed.

Lemma length_digits w n : length (digits w n) = w.
Proof. revert n. induction w as [|w IH]; intros n; cbn; [done|]. rewrite length_app, IH. cbn. lia. Qed.

Lemma digit_is_digit n : is_digit (digit n) = true.
Proof.
  unfold is_digit, digit. pose proof (Z.mod_pos_bound n 10 eq_refl).
  rewrite nat_ascii_embedding by lia.
  apply andb_true_intro. split; apply Nat.leb_le; lia.
Qed.

Lemma matches_ms n : matches ms_pattern (str "." ++ digits 3 n ++ str "Z") = true.
Proof. cbn. by rewrite !digit_is_digit. Qed.

(** ** Lemmas: the setup files, run *)

Lemma ensure_toUTCString_run a g :
  ensure_toUTCString a g
  = match a ≫= (heap g !!.) with
    | Some p =>
        (Ok tt, if bool_decide (is_Some (toUTCString p)) then g
                else with_heap (alter (set_toUTCString IsoFallback)
                                  (default 0%nat a) (heap g)) g)
    | None => (Throw (TypeError "toUTCString"), g)
    end.
Proof.
  unfold ensure_toUTCString. unfold_monad.
  destruct (a ≫= _) as [p|]; [|done]. cbn. by destruct (bool_decide _).
Qed.

Lemma SafeDate_equiv d : date_equiv (SafeDate d) d.
Proof.
  split; [done|]. split; [done|]. cbn. destruct (construct d) as [make|]; constructor.
  intros args. case_decide; [|done]. by destruct args.
Qed.

#[export] Instance date_equiv_equivalence : Equivalence date_equiv.
Proof.
  split.
  - intros d. split; [done|]. split; [done|]. by destruct (construct d); constructor.
  - intros d1 d2 (? & ? & Hc). split; [done|]. split; [done|].
    destruct Hc; constructor. by intros args.
  - intros d1 d2 d3 (? & ? & H12) (? & ? & H23).
    split; [congruence|]. split; [congruence|].
    destruct H12; inversion H23; subst; constructor. intros args. congruence.
Qed.

#[export] Instance global_equiv_equivalence : Equivalence global_equiv.
Proof.
  split.
  - by intros g.
  - intros g1 g2 (? & ? & ?). by split.
  - intros g1 g2 g3 (? & ? & ?) (? & ? & ?).
    split; [congruence|]. split; [by etransitivity|congruence].
Qed.

(** Equivalent environments answer alike. *)
#[export] Instance observe_proper args :
  Proper (global_equiv ==> eq) (fun g => ((o <- new_Date args ;; call_toUTCString o) g).1).
Proof.
  intros g1 g2 (Hh & (_ & _ & Hc) & _). unfold new_Date, call_toUTCString. unfold_monad.
  destruct Hc as [f1 f2 Hf|]; cbn; [|done]. rewrite Hh, Hf.
  destruct (heap g2 !! _) as [p|]; cbn; [|done]. by destruct (toUTCString p).
Qed.

Lemma setup_in_place_run g :
  setup_in_place g
  = ensure_toUTCString (prototype (Date g)) (with_Utterance Audio.SpeechSynthesisUtterance g).
Proof. done. Qed.

Lemma setup_safe_date_run g :
  setup_safe_date g
  = match ensure_toUTCString (prototype (Date g))
            (with_Utterance Audio.SpeechSynthesisUtterance g) with
    | (Ok _, g2) => (Ok tt, with_Date (SafeDate (Date g)) g2)
    | (r, g2) => (r, g2)
    end.
Proof.
  unfold setup_safe_date, define_SpeechSynthesisUtterance, bind, modify, get.
  cbn [prototype SafeDate].
  by destruct (ensure_toUTCString _ _) as [[[]| |] g2].
Qed.

(** On a well-formed environment the repair succeeds, and the prototype of
    the date objects has the method. *)
Lemma ensure_well_formed g make a p :
  construct (Date g) = Some make -> prototype (Date g) = Some a -> heap g !! a = Some p ->
  exists g', ensure_toUTCString (Some a) (with_Utterance Audio.SpeechSynthesisUtterance g)
             = (Ok tt, g') /\
    Date g' = Date g /\
    exists p', heap g' !! a = Some p' /\ toISOString p' = toISOString p /\
      exists m, toUTCString p' = Some m /\ forall d, apply_method m p' d = repaired p d.
Proof.
  intros Hc Ha Hp. rewrite ensure_toUTCString_run. cbn. rewrite Hp.
  eexists. split; [done|]. unfold repaired. destruct (toUTCString p) as [m|] eqn:Hm; cbn.
  - split; [done|]. exists p. split; [done|]. split; [done|]. exists m. by rewrite Hm.
  - split; [done|]. eexists. rewrite list_lookup_alter_eq, Hp. split; [done|].
    split; [done|]. by exists IsoFallback.
Qed.

Lemma ensure_Date a g : Date (ensure_toUTCString a g).2 = Date g.
Proof.
  rewrite ensure_toUTCString_run. destruct (a ≫= _); [|done]. by case_bool_decide.
Qed.

Lemma with_SafeDate_equiv g : global_equiv (with_Date (SafeDate (Date g)) g) g.
Proof. split; [done|]. split; [apply SafeDate_equiv|done]. Qed.

(** A date object answers with the method of its prototype. *)
Lemma observe_run g make p m args :
  construct (Date g) = Some make -> heap g !! proto (make args) = Some p ->
  toUTCString p = Some m ->
  ((o <- new_Date args ;; call_toUTCString o) g).1
  = Ok (apply_method m p (fields (make args))).
Proof.
  intros Hc Hp Hm. unfold new_Date, call_toUTCString. unfold_monad.
  rewrite Hc. cbn. rewrite Hp. cbn. by rewrite Hm.
Qed.

Lemma last_iso_seconds d : last (iso_seconds d) = Some "Z"%char.
Proof. unfold iso_seconds. by rewrite last_app. Qed.

Lemma last_utc_string d : last (utc_string d) = Some "T"%char.
Proof. unfold utc_string. by rewrite !app_assoc, last_app. Qed.

(** ** Theorems *)

(** The scan of a pattern anchored at the end is the test of the
    suffix: [replace] changes a string exactly when its last characters
    match the pattern, and then it replaces them. *)
Theorem replace_at_end (p : list CharClass) (r s : list ascii) :
  replace p r s
  = if ends_with p s then take (length s - length p) s ++ r else s.
Proof.
  unfold replace, ends_with. destruct (search p s) as [i|] eqn:E.
  - apply search_Some in E as [Hi Hm]. pose proof (matches_length _ _ Hm) as Hl.
    rewrite length_drop in Hl. replace (length s - length p)%nat with i by lia.
    by rewrite bool_decide_eq_true_2, Hm by lia.
  - case_bool_decide; [|done]. destruct (matches p (drop _ s)) eqn:Hm; [|done].
    rewrite <- (take_drop (length s - length p) s), (search_app _ _ _ Hm) in E. done.
Qed.

(** C38. The fallback prints a date as its ISO form without the
    milliseconds, [YYYY-MM-DDTHH:mm:ssZ], which is never the form
    [Thu, 01 Jan 1970 00:00:00 GMT] of the native [toUTCString]. *)
Theorem fallback_drops_milliseconds (d : UTCFields) :
  apply_method IsoFallback (native_prototype false) d = iso_seconds d /\
  iso_seconds d <> utc_string d.
Proof.
  split.
  - change (strip_ms (iso_string d) = iso_seconds d).
    unfold strip_ms, replace, iso_string.
    rewrite (search_app _ (date_time d)) by apply matches_ms.
    by rewrite take_app_length.
  - intros E. pose proof (last_iso_seconds d) as Hl.
    by rewrite E, last_utc_string in Hl.
Qed.

(** C24. After either setup file, in an environment whose [Date] builds
    objects of its own prototype, every date object answers
    [toUTCString]: with the method the prototype had, or else with the
    fallback. *)
Theorem setup_repairs (g : Realm) (make : list Number -> DateObject) (a : nat)
    (p : Prototype) (args : list Number) :
  construct (Date g) = Some make -> prototype (Date g) = Some a ->
  heap g !! a = Some p -> (forall args, proto (make args) = a) ->
  Forall (fun setup : M Realm unit =>
            (setup g).1 = Ok tt /\
            ((o <- new_Date args ;; call_toUTCString o) (setup g).2).1
            = Ok (repaired p (fields (make args))))
         [setup_safe_date; setup_in_place].
Proof.
  intros Hc Ha Hp Hproto.
  destruct (ensure_well_formed g make a p Hc Ha Hp)
    as (g' & Hrun & HD & p' & Hp' & _ & m & Hm & Hap).
  assert (((o <- new_Date args ;; call_toUTCString o) g').1
          = Ok (repaired p (fields (make args)))) as Hobs.
  { rewrite <- Hap. apply observe_run; [congruence| |done]. by rewrite Hproto. }
  repeat apply Forall_cons_2; [| |constructor].
  - rewrite setup_safe_date_run, Ha, Hrun. split; [done|]. cbn [snd].
    rewrite <- HD. by rewrite (observe_proper args _ _ (with_SafeDate_equiv g')).
  - by rewrite setup_in_place_run, Ha, Hrun.
Qed.

(** C25. The two setup files are equivalent: they end alike and leave
    environments that differ in the identity of the constructor [Date]
    only, which builds the same objects from the same arguments. *)
Theorem setups_agree (g : Realm) :
  (setup_safe_date g).1 = (setup_in_place g).1 /\
  global_equiv (setup_safe_date g).2 (setup_in_place g).2.
Proof.
  rewrite setup_safe_date_run, setup_in_place_run.
  pose proof (ensure_Date (prototype (Date g))
                (with_Utterance Audio.SpeechSynthesisUtterance g)) as HD.
  destruct (ensure_toUTCString _ _) as [[[]| |] g2]; try done.
  split; [done|]. cbn in HD |- *. rewrite <- HD. apply with_SafeDate_equiv.
Qed.

(** Where [Date] has no prototype, as after the mocks of the
    test-suite, both setup files throw a type error at the test of
    [toUTCString], and [Date] stays what it was: they work only because
    they run before the test file. *)
Theorem setup_after_mocks_throws (g : Realm) :
  Forall (fun setup : M Realm unit =>
            (setup (mocked g)).1 = Throw (TypeError "toUTCString") /\
            Date (setup (mocked g)).2 = Date (mocked g))
         [setup_safe_date; setup_in_place].
Proof. by repeat constructor. Qed.

(** ** Witnesses *)

Lemma setup_repairs_witness :
  Forall (fun setup : M Realm unit =>
            (setup (browser false (fun _ => epoch))).1 = Ok tt /\
            ((o <- new_Date [] ;; call_toUTCString o)
               (setup (browser false (fun _ => epoch))).2).1
            = Ok (str "1970-01-01T00:00:00Z"))
         [setup_safe_date; setup_in_place].
Proof.
  exact (setup_repairs (browser false (fun _ => epoch))
           (fun args => {| fields := epoch; proto := 0 |}) 0
           (native_prototype false) [] eq_refl eq_refl eq_refl (fun _ => eq_refl)).
Defined.

(** The native method of a browser that has it is kept. *)
Example setup_keeps_native :
  ((o <- new_Date [] ;; call_toUTCString o)
     (setup_safe_date (browser true (fun _ => epoch))).2).1
  = Ok (str "Thu, 01 Jan 1970 00:00:00 GMT").
Proof. by vm_compute. Qed.
