(* ===== verification/Screens.v ===== *)
(** * The screens of the task

    The constructors of timeline entries of [src/src/index.ts]:
    [createTrialStimulus] and the eight [create...] functions.  A timeline
    entry is a JavaScript object given to jsPsych; here it is a [Screen], a
    record of the properties these objects have.  The functions the entries
    hold are data: [on_load] is [Narrate] (a call of [playAudio]) or
    [SetupTrial] (a call of [setupTrial] with the arguments the function
    captures), [on_finish] is the welcome screen's function
    [welcome_on_finish], the results screen's [stimulus] is [ResultsTable].
    The markup is character for character that of the template literals,
    with [attr v] for a double-quoted attribute value. *)

From Stdlib Require Import ZArith QArith.
From stdpp Require Import base tactics decidable option list strings.
From S2P Require Import Prelude Stimuli Audio.

Open Scope string_scope.
Open Scope list_scope.

(** ** Quoting *)

(** The double quote, and a double-quoted attribute value. *)
Definition dq : string := String (Ascii.ascii_of_nat 34) EmptyString.

Definition attr (v : string) : string := dq +:+ v +:+ dq.

(** ** Timeline entries *)

Inductive Plugin : Type :=
| jsPsychHtmlButtonResponse
| jsPsychHtmlKeyboardResponse.

(** [choices]: the button labels, or the string ["NO_KEYS"]. *)
Inductive Choices : Type :=
| Buttons (labels : list string)
| NO_KEYS.

(** The [data] property of a trial screen. *)
Record DccsData : Type := {
  d_task : string;
  d_phase : string;
  d_trial_num : Z;
  d_dimension : string;
  d_correct_response : Z;
  d_target : string;
}.

Inductive ScreenData : Type :=
| NoData
| WelcomeData (trial_type : string)
| TrialInfo (d : DccsData).

Inductive Markup : Type :=
| Html (s : string)
| ResultsTable.

Inductive OnLoad : Type :=
| NoOnLoad
| Narrate (text : string)
| SetupTrial (trial : Trial) (phase : string) (trialNum : Z) (dimension : string)
             (withFeedback : bool).

Inductive OnFinish : Type :=
| NoOnFinish
| WelcomeOnFinish.

(** [trial_duration] is [Some None] when the property is [null] and [None]
    when the object has no such property. *)
Record Screen : Type := {
  type : Plugin;
  stimulus : Markup;
  choices : Choices;
  trial_duration : option (option Number);
  data : ScreenData;
  on_load : OnLoad;
  on_finish : OnFinish;
}.

#[export] Instance Plugin_eq_dec : EqDecision Plugin.
Proof. solve_decision. Defined.

#[export] Instance Choices_eq_dec : EqDecision Choices.
Proof. solve_decision. Defined.

#[export] Instance DccsData_eq_dec : EqDecision DccsData.
Proof. solve_decision. Defined.

#[export] Instance ScreenData_eq_dec : EqDecision ScreenData.
Proof. solve_decision. Defined.

#[export] Instance Markup_eq_dec : EqDecision Markup.
Proof. solve_decision. Defined.

(** An instruction screen: a button-response entry that narrates [audio]
    when it loads. *)
Definition instruction (html : string) (label : string) (audio : string) : Screen :=
  {| type := jsPsychHtmlButtonResponse; stimulus := Html html;
     choices := Buttons [label]; trial_duration := None; data := NoData;
     on_load := Narrate audio; on_finish := NoOnFinish |}.

(** ** Markup of a trial *)

Definition createTrialStimulus (target left right : Stimulus) (cueWord : string)
    : string :=
  "
        <div class=" +:+ attr "dccs-trial-container" +:+ ">
            <div class=" +:+ attr "dccs-cue" +:+ ">" +:+ cueWord +:+ "</div>
            <div class=" +:+ attr "dccs-target-container" +:+ ">
                <div class=" +:+ attr "dccs-target-card" +:+ ">
                    <img src=" +:+ attr (img target) +:+ " alt=" +:+ attr (name target) +:+ ">
                </div>
            </div>
            <div class=" +:+ attr "dccs-choices-container" +:+ ">
                <div class=" +:+ attr "dccs-choice-card" +:+ " data-choice=" +:+ attr "0" +:+ ">
                    <img src=" +:+ attr (img left) +:+ " alt=" +:+ attr (name left) +:+ ">
                </div>
                <div class=" +:+ attr "dccs-choice-card" +:+ " data-choice=" +:+ attr "1" +:+ ">
                    <img src=" +:+ attr (img right) +:+ " alt=" +:+ attr (name right) +:+ ">
                </div>
            </div>
            <div class=" +:+ attr "dccs-feedback" +:+ " id=" +:+ attr "feedback" +:+ "></div>
        </div>
    ".

(** ** The welcome screen *)

Definition createWelcome : Screen :=
  {| type := jsPsychHtmlButtonResponse;
     stimulus := Html ("
            <div style=" +:+ attr "max-width: 600px; margin: auto;" +:+ ">
                <h1>Dimensional Change Card Sort</h1>
                <p style=" +:+ attr "font-size: 18px; line-height: 1.5;" +:+ ">
                    Welcome! In this game, you'll match pictures based on their COLOR or SHAPE.
                </p>
                <p style=" +:+ attr "font-size: 18px; line-height: 1.5;" +:+ ">
                    We'll show you a picture at the top, and you'll choose which picture below matches it.
                </p>
                <div class=" +:+ attr "audio-toggle" +:+ ">
                    <label>
                        <input type=" +:+ attr "checkbox" +:+ " id=" +:+
  attr "audioToggle" +:+ " onchange=" +:+ attr "window.tempaudio_enabled = this.checked" +:+ ">
                        Enable audio instructions
                    </label>
                </div>
            </div>
        ");
     choices := Buttons ["Start"];
     trial_duration := None;
     data := WelcomeData "welcome";
     on_load := NoOnLoad;
     on_finish := WelcomeOnFinish |}.

(** The welcome screen's [on_finish]: the value written to
    [data.audio_enabled] is returned. *)
Definition welcome_on_finish : M Globals bool :=
  g <- get ;;
  let audio_enabled := default false (tempaudio_enabled (window g)) in
  put {| state := {| audio_enabled := audio_enabled;
                     current_phase := current_phase (state g);
                     trials_completed := trials_completed (state g) |};
         window := {| speechSynthesis := speechSynthesis (window g);
                      tempaudio_enabled := None |} |} ;;
  ret audio_enabled.

(** ** Instructions *)

Definition createColorInstructions : list Screen :=
  [ instruction
      ("
                <div style=" +:+ attr "max-width: 600px; margin: auto;" +:+ ">
                    <h2>COLOR Game</h2>
                    <p style=" +:+ attr "font-size: 18px;" +:+ ">
                        We are going to play some games. In the COLOR game, choose the picture 
                        that's the same COLOR as the picture at the top of the screen.
                    </p>
                    <div class=" +:+ attr "instructions-card" +:+ ">
                        <p>If it's <strong>BROWN</strong>, choose this picture:</p>
                        <img src=" +:+ attr (img STIMULI.brownBoat) +:+ " alt=" +:+
  attr "brown boat" +:+ ">
                    </div>
                </div>
            ")
      "Next"
      "We are going to play some games. In the COLOR game, choose the picture that's the same COLOR as the picture at the top of the screen. If it's BROWN, choose this picture.";
    instruction
      ("
                <div style=" +:+ attr "max-width: 600px; margin: auto;" +:+ ">
                    <div class=" +:+ attr "instructions-card" +:+ ">
                        <p>If it's <strong>WHITE</strong>, choose this picture:</p>
                        <img src=" +:+ attr (img STIMULI.whiteRabbit) +:+ " alt=" +:+
  attr "white rabbit" +:+ ">
                    </div>
                </div>
            ")
      "Next"
      "If it's WHITE, choose this picture.";
    instruction
      "<h2>Now you try!</h2><p>Click the button when you're ready to practice.</p>"
      "Start Practice"
      "Now you try." ].

Definition createColorTestInstructions : list Screen :=
  [ instruction
      ("
                <div style=" +:+ attr "max-width: 600px; margin: auto;" +:+ ">
                    <h2>Now, let's play with different SHAPES and COLORS</h2>
                    <p style=" +:+ attr "font-size: 18px;" +:+ ">
                        This time we'll use BALLS and TRUCKS that are ORANGE and BLUE.
                    </p>
                    <p style=" +:+ attr "font-size: 18px;" +:+ ">
                        Like before, choose the picture that's the same COLOR.
                    </p>
                    <div style=" +:+
  attr "display: flex; justify-content: center; gap: 30px; margin: 30px 0;" +:+ ">
                        <div class=" +:+ attr "instructions-card" +:+ ">
                            <p>If it's <strong>BLUE</strong>:</p>
                            <img src=" +:+ attr (img STIMULI.blueBall) +:+ " alt=" +:+
  attr "blue ball" +:+ ">
                        </div>
                        <div class=" +:+ attr "instructions-card" +:+ ">
                            <p>If it's <strong>ORANGE</strong>:</p>
                            <img src=" +:+ attr (img STIMULI.orangeTruck) +:+ " alt=" +:+
  attr "orange truck" +:+ ">
                        </div>
                    </div>
                </div>
            ")
      "Start"
      "Now, we're going to play with some different SHAPES and COLORS. This time we'll use BALLS and TRUCKS that are ORANGE and BLUE.";
    instruction
      "<h2>Ready?</h2><p>Go as fast as you can without making mistakes!</p>"
      "Start"
      "Now it's your turn. Go as fast as you can without making mistakes." ].

Definition createShapeInstructions : Screen :=
  instruction
    ("
            <div style=" +:+ attr "max-width: 600px; margin: auto;" +:+ ">
                <h2>Now, we're going to play the SHAPE game</h2>
                <p style=" +:+ attr "font-size: 18px;" +:+ ">
                    In the SHAPE game, choose the picture that's the same SHAPE as the picture at the top.
                </p>
                <div style=" +:+
  attr "display: flex; justify-content: center; gap: 30px; margin: 30px 0;" +:+ ">
                    <div class=" +:+ attr "instructions-card" +:+ ">
                        <p>If it's a <strong>TRUCK</strong>:</p>
                        <img src=" +:+ attr (img STIMULI.orangeTruck) +:+ " alt=" +:+
  attr "truck" +:+ ">
                    </div>
                    <div class=" +:+ attr "instructions-card" +:+ ">
                        <p>If it's a <strong>BALL</strong>:</p>
                        <img src=" +:+ attr (img STIMULI.blueBall) +:+ " alt=" +:+
  attr "ball" +:+ ">
                    </div>
                </div>
            </div>
        ")
    "Start Shape Game"
    "Now, we're going to play the SHAPE game. In the SHAPE game, choose the picture that's the same SHAPE as the picture at the top.".

Definition createMixedInstructions : Screen :=
  instruction
    ("
            <div style=" +:+ attr "max-width: 600px; margin: auto;" +:+ ">
                <h2>Now we'll play both games together!</h2>
                <p style=" +:+ attr "font-size: 18px;" +:+ ">Remember:</p>
                <ul style=" +:+
  attr "font-size: 18px; text-align: left; max-width: 400px; margin: 20px auto;" +:+ ">
                    <li>When you see " +:+ attr "SHAPE" +:+ ", choose the same SHAPE</li>
                    <li>When you see " +:+ attr "COLOR" +:+ ", choose the same COLOR</li>
                </ul>
                <p style=" +:+ attr "font-size: 18px;" +:+ ">Go as fast as you can without making mistakes!</p>
            </div>
        ")
    "Start Mixed Trials"
    "We can also play both games together. Remember, when you see the word SHAPE, choose the picture that is the same shape. When you see the word COLOR, choose the picture that is the same color.".

(** ** Trials *)

Definition createPracticeTrial (trial : Trial) (index : Z) : Screen :=
  {| type := jsPsychHtmlKeyboardResponse;
     stimulus := Html (createTrialStimulus (target trial) (left trial) (right trial)
                                           "COLOR");
     choices := NO_KEYS;
     trial_duration := Some None;
     data := TrialInfo
       {| d_task := "dccs"; d_phase := "color_practice";
          d_trial_num := index + 1; d_dimension := "color";
          d_correct_response := correct trial;
          d_target := name (target trial) |};
     on_load := SetupTrial trial "color_practice" (index + 1) "color" true;
     on_finish := NoOnFinish |}.

Definition createTestTrial (trial : Trial) (phase dimension : string) (index : Z)
    : Screen :=
  {| type := jsPsychHtmlKeyboardResponse;
     stimulus := Html (createTrialStimulus (target trial) (left trial) (right trial)
                                           (toUpperCase dimension));
     choices := NO_KEYS;
     trial_duration := Some None;
     data := TrialInfo
       {| d_task := "dccs"; d_phase := phase;
          d_trial_num := index + 1; d_dimension := dimension;
          d_correct_response := correct trial;
          d_target := name (target trial) |};
     on_load := SetupTrial trial phase (index + 1) dimension false;
     on_finish := NoOnFinish |}.

(** ** Results *)

Definition createResults : Screen :=
  {| type := jsPsychHtmlButtonResponse;
     stimulus := ResultsTable;
     choices := Buttons ["View Data"];
     trial_duration := None;
     data := NoData;
     on_load := NoOnLoad;
     on_finish := NoOnFinish |}.

(** ** What the browser finds in a trial's markup *)

Fixpoint occurrences (needle hay : string) : nat :=
  match hay with
  | EmptyString => 0
  | String _ rest =>
      (if String.prefix needle hay then 1 else 0) + occurrences needle rest
  end.

(** The number of elements [document.querySelectorAll('.dccs-choice-card')]
    returns, and whether [document.getElementById('feedback')] finds one. *)
Definition choice_cards (html : string) : nat :=
  occurrences ("class=" +:+ attr "dccs-choice-card") html.

Definition has_feedback (html : string) : bool :=
  bool_decide (0 < occurrences ("id=" +:+ attr "feedback") html)%nat.

Definition cue_words : list string := ["COLOR"; "SHAPE"].

(** A trial screen whose [data] and [on_load] speak of the same trial. *)
Definition consistent (s : Screen) : Prop :=
  match data s, on_load s with
  | TrialInfo d, SetupTrial t phase trialNum dimension fb =>
      d_task d = "dccs" /\ d_phase d = phase /\ d_trial_num d = trialNum /\
      d_dimension d = dimension /\ d_correct_response d = correct t /\
      d_target d = name (target t) /\
      fb = bool_decide (phase = "color_practice") /\
      stimulus s = Html (createTrialStimulus (target t) (left t) (right t)
                                             (toUpperCase dimension))
  | TrialInfo _, _ | _, SetupTrial _ _ _ _ _ => False
  | _, _ => True
  end.

(** ** Theorems *)

Lemma createPracticeTrial_consistent (trial : Trial) (index : Z) :
  consistent (createPracticeTrial trial index).
Proof. by repeat split. Qed.

Lemma createTestTrial_consistent (trial : Trial) (phase dimension : string) (index : Z) :
  phase <> "color_practice" -> consistent (createTestTrial trial phase dimension index).
Proof. intros Hp. repeat split. cbn. by rewrite bool_decide_eq_false_2. Qed.

Lemma instruction_consistent (html label audio : string) :
  consistent (instruction html label audio).
Proof. done. Qed.

(** The page of a trial on stimuli of the catalogue, under either cue word:
    two cards and the feedback element. *)
Lemma trial_page (t : Trial) (cueWord : string) :
  uses_only catalogue t -> cueWord ∈ cue_words ->
  choice_cards (createTrialStimulus (target t) (left t) (right t) cueWord) = 2%nat /\
  has_feedback (createTrialStimulus (target t) (left t) (right t) cueWord) = true.
Proof.
  intros (Ht & Hl & Hr) Hc.
  assert (Forall (fun t => Forall (fun l => Forall (fun r => Forall (fun c =>
            choice_cards (createTrialStimulus t l r c) = 2%nat /\
            has_feedback (createTrialStimulus t l r c) = true)
          cue_words) catalogue) catalogue) catalogue) as Hall by by_decide.
  rewrite Forall_forall in Hall. specialize (Hall _ Ht).
  rewrite Forall_forall in Hall. specialize (Hall _ Hl).
  rewrite Forall_forall in Hall. specialize (Hall _ Hr).
  rewrite Forall_forall in Hall. by apply Hall.
Qed.

(** C36. The markup of a trial built from stimuli of the catalogue, under
    either cue word, has exactly two elements of class [dccs-choice-card]
    and an element with id [feedback]: the page [setupTrial] finds has a
    card at index 0 and at index 1. *)
Theorem createTrialStimulus_cards (target left right : Stimulus) (cueWord : string) :
  target ∈ catalogue -> left ∈ catalogue -> right ∈ catalogue ->
  cueWord ∈ cue_words ->
  choice_cards (createTrialStimulus target left right cueWord) = 2%nat /\
  has_feedback (createTrialStimulus target left right cueWord) = true.
Proof.
  intros Ht Hl Hr Hc.
  by apply (trial_page {| Stimuli.target := target; Stimuli.left := left;
                          Stimuli.right := right; correct := 0; dimension := None |}).
Qed.

(** When the welcome screen finishes, [state.audio_enabled] becomes the
    state of the checkbox ([false] when it was never touched), that value
    is recorded in the trial's data, and [window.tempaudio_enabled] is
    deleted; the rest of the state is unchanged. *)
Lemma welcome_on_finish_spec (g : Globals) :
  let b := default false (tempaudio_enabled (window g)) in
  (welcome_on_finish g).1 = Ok b /\
  audio_enabled (state (welcome_on_finish g).2) = b /\
  tempaudio_enabled (window (welcome_on_finish g).2) = None /\
  spoken (welcome_on_finish g).2 = spoken g /\
  current_phase (state (welcome_on_finish g).2) = current_phase (state g) /\
  trials_completed (state (welcome_on_finish g).2) = trials_completed (state g).
Proof. done. Qed.

(** After the welcome screen a call of [playAudio] speaks exactly when
    the participant ticked the checkbox and the browser has a speech
    synthesiser. *)
Theorem narration_follows_checkbox (txt : string) (g : Globals) :
  let g' := ((welcome_on_finish ;; playAudio txt) g).2 in
  spoken g' = spoken g ++
    (if bool_decide (tempaudio_enabled (window g) = Some true /\
                     is_Some (speechSynthesis (window g)))
     then [uttered txt] else []).
Proof.
  destruct g as [st [[q|] [[]|]]]; cbn; by rewrite ?app_nil_r.
Qed.

(** ** Witnesses *)

Lemma createTrialStimulus_cards_witness :
  choice_cards (createTrialStimulus STIMULI.blueTruck STIMULI.blueBall
                  STIMULI.orangeTruck "COLOR") = 2%nat /\
  has_feedback (createTrialStimulus STIMULI.blueTruck STIMULI.blueBall
                  STIMULI.orangeTruck "COLOR") = true.
Proof.
  apply (createTrialStimulus_cards STIMULI.blueTruck STIMULI.blueBall
           STIMULI.orangeTruck "COLOR"); by_decide.
Defined.
