(* ===== verification/Results.v ===== *)
(** * The results screen

    The function [stimulus] of the entry [createResults] of
    [src/src/index.ts] returns: it reads the trials jsPsych recorded,
    computes for each of the three test phases the percentage of correct
    answers and the mean reaction time of the correct ones, and prints them
    in a table with [toFixed].  The data store is an interface,
    [DataCollection]; [rows_collection] is jsPsych's behaviour on the rows
    it recorded and [mock_collection] the store of the test-suite.

    The quotients, the product and the sum are those of binary64
    ([js_div], [js_mul] and [sum64] of [Doubles]): each result is the exact
    one rounded to the nearest value.  What [toFixed] prints is the decimal
    nearest to that value, the larger one on a tie; because the value is
    rounded first, a percentage or a mean that is half-way between two
    decimals is shown as either neighbour (23 of 40 as 57, 5 of 8 as 63).
    The functions [exact_accuracy], [exact_seconds] and
    [exact_results_stimulus] are the same computation in exact arithmetic:
    the specification the table is compared with.  [row_eq] identifies rows
    that differ in the representation of the reaction time as a rational;
    the table respects it. *)

From Stdlib Require Import ZArith QArith Qround Lia Lqa.
From stdpp Require Import base tactics decidable option list strings pretty.
From S2P Require Import Prelude Doubles Stimuli Audio Screens.

Open Scope string_scope.
Open Scope list_scope.

(** ** Printing *)

(** The integer nearest to [x], the larger one on a tie, for [x >= 0]. *)
Definition round_half_up (x : Q) : Z := Qfloor (x + (1 # 2)).

Definition pad_left (width : nat) (s : string) : string :=
  String.concat "" (replicate (width - String.length s) "0") +:+ s.

(** [x.toFixed(digits)] for [0 <= x < 1e21]. *)
Definition toFixed_nonneg (digits : nat) (x : Q) : string :=
  let scale := (10 ^ Z.of_nat digits)%Z in
  let n := round_half_up (x * inject_Z scale) in
  match digits with
  | O => pretty n
  | _ => pretty (n / scale)%Z +:+ "." +:+ pad_left digits (pretty (n mod scale)%Z)
  end.

Definition toFixed (digits : nat) (x : JsNumber) : string :=
  match x with
  | NaN => "NaN"
  | Infinity => "Infinity"
  | NegInfinity => "-Infinity"
  | Finite q =>
      if js_lt q 0 then "-" +:+ toFixed_nonneg digits (- q)
      else toFixed_nonneg digits q
  end.

(** ** The data store *)

(** What [createResults] asks of [jsPsych.data.get()]: [filter] by task,
    by phase and by correctness, [count()], and [select('rt').mean()]. *)
Class DataCollection (D : Type) : Type := {
  filter_task : string -> D -> D;
  filter_phase : string -> D -> D;
  filter_correct : bool -> D -> D;
  count : D -> nat;
  mean_rt : D -> JsNumber;
}.

(** A recorded trial: the properties the filters and the column read, each
    absent from the rows of screens that do not set it. *)
Record Row : Type := {
  r_task : option string;
  r_phase : option string;
  r_correct : option bool;
  r_rt : option Number;
}.

(** [DataColumn.mean]: the sum of the column, accumulated from zero, over
    the number of its values; of an empty column it is not a number. *)
Definition mean (values : list Number) : JsNumber :=
  js_div (sum64 values) (of_count (length values)).

#[export] Instance rows_collection : DataCollection (list Row) := {|
  filter_task v := filter (fun r => r_task r = Some v);
  filter_phase v := filter (fun r => r_phase r = Some v);
  filter_correct v := filter (fun r => r_correct r = Some v);
  count := length;
  mean_rt rows := mean (omap r_rt rows);
|}.

(** The store of the test-suite: every count is 5, every mean 2500. *)
#[export] Instance mock_collection : DataCollection unit := {|
  filter_task _ d := d;
  filter_phase _ d := d;
  filter_correct _ d := d;
  count _ := 5%nat;
  mean_rt _ := Finite 2500;
|}.

(** The row jsPsych records for a trial screen: the screen's [data] and
    the argument of [finishTrial]. *)
Definition row_of (d : DccsData) (correct : bool) (rt : Number) : Row :=
  {| r_task := Some (d_task d); r_phase := Some (d_phase d);
     r_correct := Some correct; r_rt := Some rt |}.

(** ** The table *)

(** The table, lines 483-510. *)
Definition results_table
    (colorAccuracy colorRT shapeAccuracy shapeRT mixedAccuracy mixedRT : JsNumber)
    : string :=
  "
                <div style=" +:+ attr "max-width: 600px; margin: auto;" +:+ ">
                    <h1>Great job! You've completed the task!</h1>
                    <h2>Your Results:</h2>
                    <table style=" +:+
  attr "margin: 20px auto; font-size: 18px; border-collapse: collapse;" +:+ ">
                        <tr>
                            <th style=" +:+
  attr "padding: 10px; text-align: left; border-bottom: 2px solid #ddd;" +:+ ">Phase</th>
                            <th style=" +:+
  attr "padding: 10px; text-align: center; border-bottom: 2px solid #ddd;" +:+ ">Accuracy</th>
                            <th style=" +:+
  attr "padding: 10px; text-align: center; border-bottom: 2px solid #ddd;" +:+ ">Avg Response Time</th>
                        </tr>
                        <tr>
                            <td style=" +:+ attr "padding: 10px;" +:+ ">Color Trials</td>
                            <td style=" +:+ attr "padding: 10px; text-align: center;" +:+
  ">" +:+ toFixed 0 colorAccuracy +:+ "%</td>
                            <td style=" +:+ attr "padding: 10px; text-align: center;" +:+
  ">" +:+ toFixed 1 colorRT +:+ "s</td>
                        </tr>
                        <tr>
                            <td style=" +:+ attr "padding: 10px;" +:+ ">Shape Trials</td>
                            <td style=" +:+ attr "padding: 10px; text-align: center;" +:+
  ">" +:+ toFixed 0 shapeAccuracy +:+ "%</td>
                            <td style=" +:+ attr "padding: 10px; text-align: center;" +:+
  ">" +:+ toFixed 1 shapeRT +:+ "s</td>
                        </tr>
                        <tr>
                            <td style=" +:+ attr "padding: 10px;" +:+ ">Mixed Trials</td>
                            <td style=" +:+ attr "padding: 10px; text-align: center;" +:+
  ">" +:+ toFixed 0 mixedAccuracy +:+ "%</td>
                            <td style=" +:+ attr "padding: 10px; text-align: center;" +:+
  ">" +:+ toFixed 1 mixedRT +:+ "s</td>
                        </tr>
                    </table>
                </div>
            ".

Section Results.
Context {D : Type} `{DataCollection D}.

(** [trials.filter({correct: true}).count() / trials.count() * 100]. *)
Definition accuracy (trials : D) : JsNumber :=
  js_mul (js_div (of_count (count (filter_correct true trials)))
                 (of_count (count trials))) (Finite 100).

(** [trials.filter({correct: true}).select('rt').mean() / 1000]. *)
Definition seconds (trials : D) : JsNumber :=
  js_div (mean_rt (filter_correct true trials)) (Finite 1000).

Definition results_stimulus (all : D) : string :=
  let data := filter_task "dccs" all in
  let colorTrials := filter_phase "color_test" data in
  let shapeTrials := filter_phase "shape_test" data in
  let mixedTrials := filter_phase "mixed" data in
  let colorAccuracy := accuracy colorTrials in
  let shapeAccuracy := accuracy shapeTrials in
  let mixedAccuracy := accuracy mixedTrials in
  let colorRT := seconds colorTrials in
  let shapeRT := seconds shapeTrials in
  let mixedRT := seconds mixedTrials in
  results_table colorAccuracy colorRT shapeAccuracy shapeRT mixedAccuracy mixedRT.

(** What jsPsych shows for an entry: its markup, or the value of its
    [stimulus] function on the data recorded so far. *)
Definition shown (s : Screen) (all : D) : string :=
  match stimulus s with
  | Html html => html
  | ResultsTable => results_stimulus all
  end.

End Results.

(** The rows of a phase of the task. *)
Definition phase_rows (phase : string) (rows : list Row) : list Row :=
  filter_phase phase (filter_task "dccs" rows).

(** What the filters of the results screen read of a row. *)
Definition answer (r : Row) : option string * option string * option bool :=
  (r_task r, r_phase r, r_correct r).

(** Rows that differ in the representation of the reaction time only. *)
Definition row_eq (r r' : Row) : Prop :=
  answer r = answer r' /\ option_Forall2 Qeq (r_rt r) (r_rt r').

(** The example of the specification: five results, four correct. *)
Definition four_of_five : list Row :=
  let d := {| d_task := "dccs"; d_phase := "color_test"; d_trial_num := 1;
              d_dimension := "color"; d_correct_response := 0;
              d_target := "blue truck" |} in
  [ row_of d true 700; row_of d true 650; row_of d false 900; row_of d true 820;
    row_of d true 630 ].

(** ** The specification: exact arithmetic *)

Definition exact_mean (values : list Number) : JsNumber :=
  exact_div (Finite (total values)) (of_count (length values)).

Definition exact_accuracy (trials : list Row) : JsNumber :=
  exact_mul (exact_div (of_count (length (filter_correct true trials)))
                       (of_count (length trials))) (Finite 100).

Definition exact_seconds (trials : list Row) : JsNumber :=
  exact_div (exact_mean (omap r_rt (filter_correct true trials))) (Finite 1000).

Definition exact_results_stimulus (all : list Row) : string :=
  let data := filter_task "dccs" all in
  let colorTrials := filter_phase "color_test" data in
  let shapeTrials := filter_phase "shape_test" data in
  let mixedTrials := filter_phase "mixed" data in
  results_table (exact_accuracy colorTrials) (exact_seconds colorTrials)
                (exact_accuracy shapeTrials) (exact_seconds shapeTrials)
                (exact_accuracy mixedTrials) (exact_seconds mixedTrials).

(** ** Cells *)

(** [correct / total * 100] on counts. *)
Definition percent (correct total : nat) : JsNumber :=
  js_mul (js_div (of_count correct) (of_count total)) (Finite 100).

(** The accuracy cell for [correct] of [total] answers, and the one of the
    specification. *)
Definition cell (correct total : nat) : string := toFixed 0 (percent correct total).

Definition exact_cell (correct total : nat) : string :=
  toFixed 0 (exact_mul (exact_div (of_count correct) (of_count total)) (Finite 100)).

(** The percentage is half-way between two integers. *)
Definition tie (correct total : nat) : bool :=
  ((200 * Z.of_nat correct) mod (2 * Z.of_nat total) =? Z.of_nat total)%Z.

(** The two cells agree for every phase of at most [n] trials. *)
Definition cells_agree (n : nat) : bool :=
  forallb (fun t => forallb (fun c => String.eqb (cell c t) (exact_cell c t)) (seq 0 (S t)))
          (seq 0 (S n)).

(** A phase of [total] recorded trials of which the first [correct] are
    correct. *)
Definition phase_of_counts (correct total : nat) : list Row :=
  (fun i => {| r_task := Some "dccs"; r_phase := Some "mixed";
               r_correct := Some (bool_decide (i < correct)%nat); r_rt := Some 600%Q |})
  <$> seq 0 total.

(** The mean of the reaction times, in tenths of a second, is half-way
    between two integers. *)
Definition tenth_tie (values : list Number) : bool :=
  ((2 * Qfloor (total values)) mod (2 * (100 * Z.of_nat (length values)))
   =? 100 * Z.of_nat (length values))%Z.

(** The mean of whole reaction times in tenths of a second, as a fraction
    of integers. *)
Definition tenths (values : list Number) : Q :=
  (inject_Z (Qfloor (total values)) / inject_Z (100 * Z.of_nat (length values)))%Q.

(** A phase whose cells do not depend on the direction in which a tie is
    rounded: fewer than [2 ^ 44] trials, the percentage off the ties or at
    most 39 trials, reaction times in whole milliseconds with a sum below
    [2 ^ 50] and a mean off the ties. *)
Definition plain (trials : list Row) : Prop :=
  let rts := omap r_rt (filter_correct true trials) in
  (Z.of_nat (length trials) < 2 ^ 44)%Z /\
  (tie (length (filter_correct true trials)) (length trials) = false
   \/ (length trials <= 39)%nat) /\
  milliseconds rts /\ (total rts < 2 ^ 50)%Q /\ (rts = [] \/ tenth_tie rts = false).

(** A phase with one correct answer, given after [rt] milliseconds. *)
Definition one_answer (rt : Number) : list Row :=
  [{| r_task := Some "dccs"; r_phase := Some "mixed"; r_correct := Some true;
      r_rt := Some rt |}].
(** ** Lemmas *)

#[export] Instance round_half_up_proper : Proper (Qeq ==> eq) round_half_up.
Proof. intros x y E. unfold round_half_up. apply Qfloor_comp. by rewrite E. Qed.

#[export] Instance toFixed_nonneg_proper digits : Proper (Qeq ==> eq) (toFixed_nonneg digits).
Proof.
  intros x y E. unfold toFixed_nonneg.
  by rewrite (round_half_up_proper (x * _)%Q (y * _)%Q) by by rewrite E.
Qed.

#[export] Instance toFixed_proper digits : Proper (js_eq ==> eq) (toFixed digits).
Proof.
  intros [x| | |] [y| | |]; cbn; try done. intros E. unfold js_lt.
  rewrite (Qleb_comp 0%Q 0%Q (Qeq_refl 0%Q) x y E), (toFixed_nonneg_proper digits x y E).
  by rewrite (toFixed_nonneg_proper digits (- x)%Q (- y)%Q) by by rewrite E.
Qed.

#[export] Instance results_table_proper :
  Proper (js_eq ==> js_eq ==> js_eq ==> js_eq ==> js_eq ==> js_eq ==> eq) results_table.
Proof.
  intros a a' Ea b b' Eb c c' Ec d d' Ed e e' Ee f f' Ef. unfold results_table.
  by rewrite Ea, Eb, Ec, Ed, Ee, Ef.
Qed.

(** The integer [round_half_up] picks is nearest. *)
Lemma round_half_up_nearest (x : Q) :
  (inject_Z (round_half_up x) - (1 # 2) <= x)%Q /\
  (x < inject_Z (round_half_up x) + (1 # 2))%Q.
Proof.
  unfold round_half_up.
  pose proof (Qfloor_le (x + (1 # 2))) as Hlo.
  pose proof (Qlt_floor (x + (1 # 2))) as Hhi.
  rewrite inject_Z_plus in Hhi. split; q_solve.
Qed.

Lemma round_half_up_range (x : Q) (lo hi : Z) :
  (inject_Z lo <= x)%Q -> (x <= inject_Z hi)%Q ->
  (lo <= round_half_up x <= hi)%Z.
Proof.
  intros Hlo Hhi. destruct (round_half_up_nearest x) as [H1 H2].
  split.
  - apply Z.lt_succ_r. rewrite Zlt_Qlt, <- Z.add_1_r, inject_Z_plus. q_solve.
  - apply Z.lt_succ_r. rewrite Zlt_Qlt, <- Z.add_1_r, inject_Z_plus. q_solve.
Qed.

Lemma toFixed_0 (x : Q) :
  (0 <= x)%Q -> toFixed 0 (Finite x) = pretty (round_half_up x).
Proof.
  intros Hx. unfold toFixed. rewrite (proj2 (js_lt_false _ _)) by done.
  unfold toFixed_nonneg. f_equal. apply round_half_up_proper.
  change (inject_Z (10 ^ Z.of_nat 0)) with 1%Q. ring.
Qed.

Lemma round_half_up_nonneg (x : Q) : (0 <= x)%Q -> (0 <= round_half_up x)%Z.
Proof.
  intros Hx. destruct (round_half_up_nearest x) as [_ Hhi].
  apply Z.lt_succ_r. rewrite Zlt_Qlt, <- Z.add_1_r, inject_Z_plus. q_solve.
Qed.

Lemma pad_left_digit (d : Z) : (0 <= d < 10)%Z -> pad_left 1 (pretty d) = pretty d.
Proof.
  intros Hd.
  assert (d = 0 \/ d = 1 \/ d = 2 \/ d = 3 \/ d = 4 \/ d = 5 \/ d = 6 \/ d = 7
          \/ d = 8 \/ d = 9)%Z as Hc by lia.
  repeat (destruct Hc as [->|Hc]; [by vm_compute|]). subst. by vm_compute.
Qed.

Lemma toFixed_1 (x : Q) :
  (0 <= x)%Q ->
  let m := round_half_up (10 * x) in
  toFixed 1 (Finite x) = pretty (m / 10)%Z +:+ "." +:+ pretty (m mod 10)%Z.
Proof.
  intros Hx m. unfold toFixed. rewrite (proj2 (js_lt_false _ _)) by done.
  change (toFixed_nonneg 1 x) with
    (let n := round_half_up (x * inject_Z 10) in
     pretty (n / 10)%Z +:+ "." +:+ pad_left 1 (pretty (n mod 10)%Z)).
  assert (round_half_up (x * inject_Z 10) = m) as ->.
  { apply round_half_up_proper. change (inject_Z 10) with 10%Q. ring. }
  cbv zeta. rewrite pad_left_digit; [done|]. by apply Z.mod_pos_bound.
Qed.

Section Rows.
Implicit Types rows trials : list Row.

Lemma accuracy_range trials :
  (0 < length trials)%nat ->
  let q := (100 * inject_Z (Z.of_nat (length (filter_correct true trials)))
            / inject_Z (Z.of_nat (length trials)))%Q in
  (inject_Z 0 <= q)%Q /\ (q <= inject_Z 100)%Q.
Proof.
  intros Hn q. subst q.
  pose proof (length_filter (fun r => r_correct r = Some true) trials) as Hc.
  pose proof (inject_count_pos _ Hn) as Hq.
  assert (0 <= inject_Z (Z.of_nat (length (filter_correct true trials))))%Q as H0.
  { change 0%Q with (inject_Z 0). rewrite <- Zle_Qle. lia. }
  assert (inject_Z (Z.of_nat (length (filter_correct true trials)))
          <= inject_Z (Z.of_nat (length trials)))%Q as H1.
  { rewrite <- Zle_Qle. cbn [filter_correct rows_collection]. lia. }
  split.
  - apply Qle_shift_div_l; [done|]. q_solve.
  - apply Qle_shift_div_r; [done|]. q_solve.
Qed.

Lemma filter_none {A} (P : A -> Prop) `{forall x, Decision (P x)} (l : list A) :
  Forall (fun x => ~ P x) l -> filter P l = [].
Proof.
  induction 1 as [|x l Hx _ IH]; [done|]. by rewrite filter_cons_False.
Qed.

End Rows.


(** *** Rows up to the representation of the reaction time *)

#[export] Instance row_eq_equiv : Equivalence row_eq.
Proof.
  split.
  - intros r. split; [done|]. by destruct (r_rt r); constructor.
  - intros r r' [Ha Hr]. split; [done|]. destruct Hr; constructor. by symmetry.
  - intros r1 r2 r3 [Ha Hr] [Ha' Hr']. split; [congruence|].
    destruct Hr; inversion Hr'; constructor. by etransitivity.
Qed.

Lemma mean_Forall2 (l l' : list Q) : Forall2 Qeq l l' -> js_eq (mean l) (mean l').
Proof.
  intros E. unfold mean. rewrite (Forall2_length _ _ _ E).
  destruct E as [|v w l l' Ev El]; [done|].
  apply js_div_by_finite; [|by apply sum64_Forall2; constructor].
  pose proof (inject_count_pos (length (w :: l'))) as Hn. cbn [length] in *.
  specialize (Hn ltac:(lia)). lra.
Qed.

Lemma filter_row_eq (P : Row -> Prop) `{forall r, Decision (P r)} (rows rows' : list Row) :
  (forall r r', answer r = answer r' -> P r <-> P r') ->
  Forall2 row_eq rows rows' -> Forall2 row_eq (filter P rows) (filter P rows').
Proof.
  intros HP. apply Forall2_filter_proper. intros r r' [Ha _]. by apply HP.
Qed.

#[export] Instance filter_task_row_eq v :
  Proper (Forall2 row_eq ==> Forall2 row_eq) (filter_task (D := list Row) v).
Proof. intros l l' E. apply filter_row_eq; [|done]. intros r r' [= Ht Hp Hc]. by rewrite Ht. Qed.

#[export] Instance filter_phase_row_eq v :
  Proper (Forall2 row_eq ==> Forall2 row_eq) (filter_phase (D := list Row) v).
Proof. intros l l' E. apply filter_row_eq; [|done]. intros r r' [= Ht Hp Hc]. by rewrite Hp. Qed.

#[export] Instance filter_correct_row_eq v :
  Proper (Forall2 row_eq ==> Forall2 row_eq) (filter_correct (D := list Row) v).
Proof. intros l l' E. apply filter_row_eq; [|done]. intros r r' [= Ht Hp Hc]. by rewrite Hc. Qed.

#[export] Instance accuracy_row_eq :
  Proper (Forall2 row_eq ==> eq) (accuracy (D := list Row)).
Proof.
  intros l l' E. unfold accuracy. cbn [count rows_collection].
  by rewrite (Forall2_length _ _ _ E),
    (Forall2_length _ _ _ (filter_correct_row_eq true _ _ E)).
Qed.

#[export] Instance seconds_row_eq :
  Proper (Forall2 row_eq ==> js_eq) (seconds (D := list Row)).
Proof.
  intros l l' E. unfold seconds. apply js_div_by_finite; [done|].
  cbn [mean_rt rows_collection]. apply mean_Forall2.
  induction (filter_correct_row_eq true _ _ E) as [|r r' k k' [_ Hr] _ IH]; [constructor|].
  cbn. destruct Hr; [by constructor|done].
Qed.

#[export] Instance results_stimulus_row_eq :
  Proper (Forall2 row_eq ==> eq) (results_stimulus (D := list Row)).
Proof.
  intros l l' E. unfold results_stimulus.
  assert (forall p, Forall2 row_eq (filter_phase p (filter_task "dccs" l))
                                   (filter_phase p (filter_task "dccs" l'))) as Hp
    by (intros p; by apply filter_phase_row_eq, filter_task_row_eq).
  rewrite !(accuracy_row_eq _ _ (Hp _)).
  apply results_table_proper; by first [reflexivity | apply seconds_row_eq].
Qed.


Local Open Scope Q_scope.

(** ** The percentage of correct answers *)

Lemma js_div_counts (c t : nat) :
  (0 < t)%nat ->
  js_div (of_count c) (of_count t) = fl (inject_Z (Z.of_nat c) / inject_Z (Z.of_nat t)).
Proof.
  intros Ht%inject_count_pos. unfold js_div, of_count. rewrite exact_div_finite; [done|lra].
Qed.

(** The quotient of the counts of a phase with a correct answer is in the
    normal range. *)
Lemma share_range (c t : nat) :
  (0 < c <= t)%nat -> (Z.of_nat t < 2 ^ 44)%Z ->
  let q := inject_Z (Z.of_nat c) / inject_Z (Z.of_nat t) in
  2 ^ (-44) <= q /\ q <= 1.
Proof.
  intros [Hc Hct] Ht q. subst q.
  assert (0 < inject_Z (Z.of_nat t)) as HT by (apply inject_count_pos; lia).
  assert (1 <= inject_Z (Z.of_nat c)) as HC by (change 1 with (inject_Z 1); rewrite <- Zle_Qle; lia).
  assert (inject_Z (Z.of_nat c) <= inject_Z (Z.of_nat t)) as HCT by (rewrite <- Zle_Qle; lia).
  assert (inject_Z (Z.of_nat t) <= inject_Z (2 ^ 44)) as HT' by (rewrite <- Zle_Qle; lia).
  change (inject_Z (2 ^ 44)) with (17592186044416 # 1) in HT'.
  change (2 ^ (-44)) with (1 # 17592186044416).
  split; [apply Qle_shift_div_l|apply Qle_shift_div_r]; q_solve.
Qed.

(** The percentage computed in binary64 is within [2 ^ (-45)] of the exact
    one. *)
Lemma percent_close (c t : nat) :
  (0 < c <= t)%nat -> (Z.of_nat t < 2 ^ 44)%Z ->
  exists v, percent c t = Finite v /\ 0 <= v /\
    100 * (inject_Z (Z.of_nat c) / inject_Z (Z.of_nat t)) - 2 ^ (-45) <= v /\
    v <= 100 * (inject_Z (Z.of_nat c) / inject_Z (Z.of_nat t)) + 2 ^ (-45).
Proof.
  intros Hc Ht. destruct (share_range c t Hc Ht) as [Hlo Hhi].
  unfold percent. rewrite js_div_counts by lia.
  set (q := inject_Z (Z.of_nat c) / inject_Z (Z.of_nat t)) in *. clearbody q.
  assert (2 ^ (emin + prec - 1) <= 2 ^ (-45)) as Hmin by by apply pow2_mono.
  assert (128 <= 2 ^ (emax + prec - 1)) as Hmax by by apply (pow2_mono 7).
  change (2 ^ (-44)) with (1 # 17592186044416) in *.
  change (2 ^ (-45)) with (1 # 35184372088832) in *.
  destruct (fl_close q 1) as (q' & -> & H1 & H2 & _); [lra..|].
  change (js_mul (Finite q') (Finite 100)) with (fl (q' * 100)).
  change eps with (1 # 9007199254740992) in *.
  destruct (fl_close (q' * 100) 128) as (v & -> & H3 & H4 & H5); [lra..|].
  exists v. split; [done|]. change eps with (1 # 9007199254740992) in *. lra.
Qed.

(** ** The accuracy cell *)

Lemma nearest_Z (a b n : Z) :
  (0 < b)%Z ->
  inject_Z n - (1 # 2) <= inject_Z a / inject_Z b ->
  inject_Z a / inject_Z b <= inject_Z n + (1 # 2) ->
  ((2 * n - 1) * b <= 2 * a <= (2 * n + 1) * b)%Z.
Proof.
  intros Hb Hlo Hhi.
  assert (0 < inject_Z b) as HB by (change 0 with (inject_Z 0); by rewrite <- Zlt_Qlt).
  assert (inject_Z a == inject_Z a / inject_Z b * inject_Z b) as Ha by (field; lra).
  set (s := inject_Z a / inject_Z b) in *. clearbody s.
  apply (Qmult_le_r _ _ (inject_Z b) HB) in Hlo, Hhi.
  split; rewrite Zle_Qle; push_inject; q_solve.
Qed.

(** Off the ties the nearest integer is unique. *)
Lemma nearest_unique (a b k k' : Z) :
  (0 < b)%Z -> ((2 * a) mod (2 * b) <> b)%Z ->
  ((2 * k - 1) * b <= 2 * a <= (2 * k + 1) * b)%Z ->
  ((2 * k' - 1) * b <= 2 * a <= (2 * k' + 1) * b)%Z -> k = k'.
Proof.
  intros Hb Ht H H'. destruct (Z.lt_trichotomy k k') as [Hk|[Hk|Hk]]; [exfalso|done|exfalso].
  - apply Ht. symmetry. apply (Z.mod_unique_pos _ _ k); [lia|nia].
  - apply Ht. symmetry. apply (Z.mod_unique_pos _ _ k'); [lia|nia].
Qed.

Lemma share_of_counts (c t : nat) :
  inject_Z (100 * Z.of_nat c) / inject_Z (Z.of_nat t)
  == 100 * (inject_Z (Z.of_nat c) / inject_Z (Z.of_nat t)).
Proof. rewrite inject_Z_mult. unfold Qdiv. change (inject_Z 100) with 100. ring. Qed.

(** The cell of the exact model shows the nearest percent. *)
Lemma exact_cell_nearest (c t : nat) :
  (0 < t)%nat ->
  let share := inject_Z (100 * Z.of_nat c) / inject_Z (Z.of_nat t) in
  exists k : Z, exact_cell c t = pretty k /\
    inject_Z k - (1 # 2) <= share /\ share <= inject_Z k + (1 # 2).
Proof.
  intros Ht share. pose proof (inject_count_pos t Ht) as HT.
  assert (0 <= inject_Z (Z.of_nat c)) as HC by (change 0 with (inject_Z 0); rewrite <- Zle_Qle; lia).
  assert (0 <= share) as Hs by (apply Qle_shift_div_l; [done|]; rewrite inject_Z_mult; q_solve).
  exists (round_half_up share). unfold exact_cell, of_count. rewrite exact_div_finite by lra.
  cbn [exact_mul]. rewrite (toFixed_proper 0 _ (Finite share)), toFixed_0 by
    first [done | cbn [js_eq]; subst share; rewrite share_of_counts; ring].
  split; [done|]. destruct (round_half_up_nearest share). split; lra.
Qed.

(** No correct answer is 0 percent. *)
Lemma cell_zero (t : nat) : (0 < t)%nat -> cell 0 t = "0".
Proof.
  intros Ht. unfold cell, percent. rewrite js_div_counts by done.
  destruct (fl_zero (inject_Z (Z.of_nat 0) / inject_Z (Z.of_nat t))) as (q & -> & Eq);
    [unfold Qdiv; ring|].
  change (js_mul (Finite q) (Finite 100)) with (fl (q * 100)).
  destruct (fl_zero (q * 100)) as (v & -> & Ev); [rewrite Eq; ring|].
  by rewrite (toFixed_proper 0 _ (Finite 0)).
Qed.

(** So does the cell computed in binary64. *)
Lemma cell_nearest (c t : nat) :
  (0 < t)%nat -> (c <= t)%nat -> (Z.of_nat t < 2 ^ 44)%Z ->
  let share := inject_Z (100 * Z.of_nat c) / inject_Z (Z.of_nat t) in
  exists k : Z, cell c t = pretty k /\
    inject_Z k - (1 # 2) <= share /\ share <= inject_Z k + (1 # 2).
Proof.
  intros Ht Hc Hb share. destruct (decide (c = 0%nat)) as [->|Hc0].
  - exists 0%Z. split; [by apply cell_zero|].
    assert (share == 0) as -> by (subst share; change (inject_Z (100 * Z.of_nat 0)) with 0;
      unfold Qdiv; ring). split; q_solve.
  - unfold cell. destruct (percent_close c t) as (v & -> & Hv & Hlo & Hhi); [lia|done|].
    exists (round_half_up v). rewrite toFixed_0 by done. split; [done|].
    destruct (round_half_up_nearest v) as [H1 H2]. rewrite <- share_of_counts in Hlo, Hhi.
    apply (nearest_of_close v (2 ^ (-45))); [lia| |done|done|done|lra].
    rewrite Zlt_Qlt in Hb. change (inject_Z (2 ^ 44)) with 17592186044416 in Hb.
    change (2 ^ (-45)) with (1 # 35184372088832). q_solve.
Qed.

Lemma cells_agree_spec (n c t : nat) :
  cells_agree n = true -> (c <= t <= n)%nat -> cell c t = exact_cell c t.
Proof.
  intros Ha [Hc Ht]. unfold cells_agree in Ha. rewrite forallb_forall in Ha.
  specialize (Ha t). rewrite forallb_forall in Ha.
  apply String.eqb_eq, Ha; apply in_seq; lia.
Qed.

Lemma cells_agree_39 : cells_agree 39 = true.
Proof. by vm_compute. Qed.

Lemma tie_spec (c t : nat) :
  tie c t = false -> ((2 * (100 * Z.of_nat c)) mod (2 * Z.of_nat t) <> Z.of_nat t)%Z.
Proof. unfold tie. rewrite Z.eqb_neq. by rewrite Z.mul_assoc. Qed.

(** Off the ties the two cells agree. *)
Lemma cells_off_ties (c t : nat) :
  (0 < t)%nat -> (c <= t)%nat -> (Z.of_nat t < 2 ^ 44)%Z -> tie c t = false ->
  cell c t = exact_cell c t.
Proof.
  intros Ht Hc Hb Htie%tie_spec.
  destruct (exact_cell_nearest c t Ht) as (k & -> & Hk1 & Hk2).
  destruct (cell_nearest c t Ht Hc Hb) as (k' & -> & Hk1' & Hk2').
  f_equal. apply (nearest_unique (100 * Z.of_nat c) (Z.of_nat t)); [lia|done|..];
    apply nearest_Z; first [done | lia].
Qed.

Lemma length_filter_correct (trials : list Row) :
  (length (filter_correct true trials) <= length trials)%nat.
Proof. apply length_filter. Qed.

Lemma phase_of_counts_length (c t : nat) : length (phase_of_counts c t) = t.
Proof. unfold phase_of_counts. by rewrite length_fmap, length_seq. Qed.

Lemma accuracy_cell (trials : list Row) :
  toFixed 0 (accuracy trials) = cell (length (filter_correct true trials)) (length trials).
Proof. done. Qed.

Lemma exact_accuracy_cell (trials : list Row) :
  toFixed 0 (exact_accuracy trials) = exact_cell (length (filter_correct true trials)) (length trials).
Proof. done. Qed.

(** ** The reaction-time cell *)

Lemma whole_zero_or_one (x : Q) : whole x -> 0 <= x -> x == 0 \/ 1 <= x.
Proof.
  unfold whole. intros Hx H0. rewrite Hx in H0 |- *.
  change 0 with (inject_Z 0) in *. change 1 with (inject_Z 1).
  rewrite <- Zle_Qle in H0. destruct (Z.eq_dec (Qfloor x) 0%Z) as [->|Hz]; [by left|right].
  rewrite <- Zle_Qle. lia.
Qed.

Section Tenths.
Context (values : list Number).
Hypothesis nonempty : values <> [].
Hypothesis whole_ms : milliseconds values.
Hypothesis total_bound : total values < 2 ^ 50.
Hypothesis length_bound : (Z.of_nat (length values) < 2 ^ 44)%Z.

Lemma length_pos : 1 <= inject_Z (Z.of_nat (length values)).
Proof.
  change 1 with (inject_Z 1). rewrite <- Zle_Qle. destruct values; [done|cbn; lia].
Qed.

Lemma tenths_total :
  tenths values == total values / inject_Z (Z.of_nat (length values)) * (1 # 100).
Proof.
  pose proof length_pos. pose proof (total_whole values whole_ms) as Hw.
  unfold tenths, whole in *. rewrite <- Hw, inject_Z_mult. change (inject_Z 100) with 100.
  field. lra.
Qed.

Lemma mean_values :
  exists y, mean values = fl (y / inject_Z (Z.of_nat (length values))) /\ y == total values.
Proof.
  pose proof length_pos.
  destruct (sum64_milliseconds values whole_ms) as (y & Ey & Hy).
  { eapply Qlt_trans; [exact total_bound|]. by apply (pow2_lt_mono 50 prec). }
  exists y. split; [|done]. unfold mean, js_div, of_count. rewrite Ey, exact_div_finite; [done|lra].
Qed.

(** The cell computed in binary64 is within the fraction [3 eps] of the
    mean. *)
Lemma seconds_close :
  1 <= total values ->
  exists v, js_div (mean values) (Finite 1000) = Finite v /\ 0 <= v /\
    tenths values - tenths values * (3 * eps) <= 10 * v /\
    10 * v <= tenths values + tenths values * (3 * eps).
Proof.
  intros H1. pose proof length_pos as HN. destruct mean_values as (y & -> & Hy).
  pose proof tenths_total as Ht. rewrite <- Hy in Ht, H1.
  pose proof total_bound as Hb. rewrite <- Hy in Hb.
  pose proof length_bound as Hn. rewrite Zlt_Qlt in Hn.
  set (t := tenths values) in *. clearbody t.
  set (N := inject_Z (Z.of_nat (length values))) in *.
  assert (2 ^ (emin + prec - 1) <= 2 ^ (-60)) as Hmin by by apply pow2_mono.
  assert (2 ^ 60 <= 2 ^ (emax + prec - 1)) as Hmax by by apply pow2_mono.
  assert (2 ^ (-44) <= y / N /\ y / N <= 2 ^ 50) as [Hlo Hhi].
  { change (inject_Z (2 ^ 44)) with 17592186044416 in Hn.
    change (2 ^ (-44)) with (1 # 17592186044416). change (2 ^ 50) with 1125899906842624 in *.
    split; [apply Qle_shift_div_l|apply Qle_shift_div_r]; clearbody N; nra. }
  set (m := y / N) in *. clearbody m.
  change (2 ^ (-44)) with (1 # 17592186044416) in *.
  change (2 ^ 50) with 1125899906842624 in *.
  change (2 ^ (-60)) with (1 # 1152921504606846976) in *.
  change (2 ^ 60) with 1152921504606846976 in *.
  destruct (fl_relative m) as (m' & -> & H2 & H3 & H4); [lra..|].
  change eps with (1 # 9007199254740992) in *.
  change (js_div (Finite m') (Finite 1000)) with (fl (m' * (1 # 1000))).
  destruct (fl_relative (m' * (1 # 1000))) as (v & -> & H5 & H6 & H7); [lra..|].
  exists v. split; [done|]. change eps with (1 # 9007199254740992) in *. lra.
Qed.

Lemma tenths_bound : 2 * inject_Z (100 * Z.of_nat (length values)) * (tenths values * (3 * eps)) < 1.
Proof.
  pose proof length_pos as HN. pose proof (total_whole values whole_ms) as Hw.
  pose proof total_bound as Hb. unfold tenths, whole in *. rewrite <- Hw.
  assert (0 < inject_Z (100 * Z.of_nat (length values))) as HB
    by (rewrite inject_Z_mult; change (inject_Z 100) with 100; lra).
  set (B := inject_Z (100 * Z.of_nat (length values))) in *.
  assert (2 * B * (total values / B * (3 * eps)) == 6 * eps * total values) as ->
    by (field; lra).
  change eps with (1 # 9007199254740992). change (2 ^ 50) with 1125899906842624 in Hb. lra.
Qed.

Lemma tenths_zero : total values == 0 -> tenths values == 0.
Proof.
  intros E. unfold tenths. rewrite (Qfloor_comp _ _ E). change (inject_Z (Qfloor 0)) with 0.
  unfold Qdiv. ring.
Qed.

(** The cell computed in binary64 shows a number of tenths nearest to the
    mean. *)
Lemma tenths_nearest :
  exists k : Z,
    toFixed 1 (js_div (mean values) (Finite 1000))
    = pretty (k / 10)%Z +:+ "." +:+ pretty (k mod 10)%Z /\ (0 <= k)%Z /\
    inject_Z k - (1 # 2) <= tenths values /\ tenths values <= inject_Z k + (1 # 2).
Proof.
  destruct (whole_zero_or_one (total values)) as [Hz|H1];
    [by apply total_whole|by apply total_nonneg| |].
  - exists 0%Z. destruct mean_values as (y & -> & Hy). rewrite Hz in Hy.
    destruct (fl_zero (y / inject_Z (Z.of_nat (length values)))) as (m & -> & Em);
      [rewrite Hy; unfold Qdiv; ring|].
    change (js_div (Finite m) (Finite 1000)) with (fl (m * (1 # 1000))).
    destruct (fl_zero (m * (1 # 1000))) as (v & -> & Ev); [rewrite Em; ring|].
    rewrite (toFixed_proper 1 _ (Finite 0)) by done. split; [done|]. split; [done|].
    rewrite (tenths_zero Hz). split; q_solve.
  - destruct (seconds_close H1) as (v & -> & Hv & Hlo & Hhi).
    exists (round_half_up (10 * v)). split; [by apply toFixed_1|].
    split; [apply round_half_up_nonneg; lra|].
    destruct (round_half_up_nearest (10 * v)) as [H2 H3].
    apply (nearest_of_close (10 * v) (tenths values * (3 * eps)));
      [destruct values; [done|cbn; lia]|apply tenths_bound|done|done|done|lra].
Qed.

(** The two cells of a phase whose mean reaction time is [m]. *)
Lemma cells_of_mean (m : Q) :
  total values == m * inject_Z (Z.of_nat (length values)) ->
  toFixed 1 (js_div (mean values) (Finite 1000)) = toFixed 1 (js_div (fl m) (Finite 1000)) /\
  toFixed 1 (exact_div (exact_mean values) (Finite 1000)) = toFixed 1 (Finite (m / 1000)).
Proof.
  intros E. pose proof length_pos as HN. split; apply toFixed_proper.
  - apply js_div_by_finite; [done|]. destruct mean_values as (y & -> & Hy).
    apply fl_proper. rewrite Hy, E. field. lra.
  - unfold exact_mean, of_count. fold (total values). rewrite !exact_div_finite by lra.
    cbn [js_eq]. rewrite E. field. lra.
Qed.

(** So does the cell of the exact model. *)
Lemma exact_tenths_nearest :
  exists k : Z,
    toFixed 1 (exact_div (exact_mean values) (Finite 1000))
    = pretty (k / 10)%Z +:+ "." +:+ pretty (k mod 10)%Z /\ (0 <= k)%Z /\
    inject_Z k - (1 # 2) <= tenths values /\ tenths values <= inject_Z k + (1 # 2).
Proof.
  pose proof length_pos as HN. pose proof (total_nonneg values whole_ms) as HS.
  pose proof tenths_total as Ht. unfold exact_mean, of_count. fold (total values).
  rewrite !exact_div_finite by lra.
  set (s := total values / inject_Z (Z.of_nat (length values))) in *.
  assert (0 <= s) as Hs by (apply Qle_shift_div_l; lra).
  assert (10 * (s / 1000) == tenths values) as E by (rewrite Ht; field).
  exists (round_half_up (10 * (s / 1000))).
  split; [apply toFixed_1, Qle_shift_div_l; lra|].
  split; [apply round_half_up_nonneg; lra|].
  destruct (round_half_up_nearest (10 * (s / 1000))) as [H2 H3].
  set (z := 10 * (s / 1000)) in *. clearbody z. split; q_solve.
Qed.

(** Off the ties the two cells agree. *)
Lemma tenths_off_ties :
  tenth_tie values = false ->
  toFixed 1 (js_div (mean values) (Finite 1000))
  = toFixed 1 (exact_div (exact_mean values) (Finite 1000)).
Proof.
  unfold tenth_tie. rewrite Z.eqb_neq. intros Htie.
  destruct tenths_nearest as (k & -> & _ & H1 & H2).
  destruct exact_tenths_nearest as (k' & -> & _ & H1' & H2').
  assert (0 < 100 * Z.of_nat (length values))%Z as Hb by (destruct values; [done|cbn; lia]).
  by rewrite (nearest_unique _ _ k k' Hb Htie) by by apply nearest_Z.
Qed.
End Tenths.

(** ** The table *)

Lemma results_table_cells (a b c d e f a' b' c' d' e' f' : JsNumber) :
  toFixed 0 a = toFixed 0 a' -> toFixed 1 b = toFixed 1 b' ->
  toFixed 0 c = toFixed 0 c' -> toFixed 1 d = toFixed 1 d' ->
  toFixed 0 e = toFixed 0 e' -> toFixed 1 f = toFixed 1 f' ->
  results_table a b c d e f = results_table a' b' c' d' e' f'.
Proof. unfold results_table. by intros -> -> -> -> -> ->. Qed.

Lemma length_omap_le {A B} (f : A -> option B) (l : list A) :
  (length (omap f l) <= length l)%nat.
Proof. induction l as [|a l IH]; cbn; [done|]. destruct (f a); cbn; lia. Qed.

Lemma length_correct_rts (trials : list Row) :
  (length (omap r_rt (filter_correct true trials)) <= length trials)%nat.
Proof.
  etransitivity; [apply length_omap_le|]. apply length_filter_correct.
Qed.

(** The cells of a plain phase are those of the exact model. *)
Lemma plain_cells (trials : list Row) :
  plain trials ->
  toFixed 0 (accuracy trials) = toFixed 0 (exact_accuracy trials) /\
  toFixed 1 (seconds trials) = toFixed 1 (exact_seconds trials).
Proof.
  intros (Hb & Htie & Hms & Ht & Hrt). pose proof (length_filter_correct trials) as Hle.
  pose proof (length_correct_rts trials) as Hle'. split.
  - rewrite accuracy_cell, exact_accuracy_cell. destruct Htie as [Htie|Hn];
      [destruct (decide (length trials = 0%nat))|];
      first [apply cells_off_ties; [lia|done..]
            | apply (cells_agree_spec 39 _ _ cells_agree_39); lia].
  - unfold seconds, exact_seconds. cbn [mean_rt rows_collection].
    destruct Hrt as [->|Hrt]; [done|]. apply tenths_off_ties; try done; [|lia].
    intros E. by rewrite E in Hrt.
Qed.

(** ** Theorems *)

(** C14. For a phase with at least one and fewer than [2 ^ 44] recorded
    trials the accuracy cell shows an integer between 0 and 100 that is
    nearest to 100 times the share of correct trials: the roundings of the
    quotient and of the product in binary64 never carry the value across a
    whole percent.  On a tie the cell shows either neighbour. *)
Theorem accuracy_nearest_percent (trials : list Row) :
  (0 < length trials)%nat -> (Z.of_nat (length trials) < 2 ^ 44)%Z ->
  let share := 100 * inject_Z (Z.of_nat (length (filter_correct true trials)))
               / inject_Z (Z.of_nat (length trials)) in
  exists k : Z,
    toFixed 0 (accuracy trials) = pretty k /\ (0 <= k <= 100)%Z /\
    inject_Z k - (1 # 2) <= share /\ share <= inject_Z k + (1 # 2).
Proof.
  intros Ht Hb share. destruct (accuracy_range trials Ht) as [Hlo Hhi]. fold share in Hlo, Hhi.
  rewrite accuracy_cell.
  destruct (cell_nearest _ _ Ht (length_filter_correct trials) Hb) as (k & Hk & H1 & H2).
  rewrite inject_Z_mult in H1, H2. change (inject_Z 100) with 100 in H1, H2. fold share in H1, H2.
  exists k. split; [exact Hk|]. split; [|by split].
  assert (inject_Z (-1) < inject_Z k /\ inject_Z k < inject_Z 101) as [Hk0 Hk1] by (split; q_solve).
  rewrite <- Zlt_Qlt in Hk0, Hk1. lia.
Qed.

(** C39. On a tie the cell is rounded as the product of binary64 falls.
    Of any 40 recorded trials with 23 correct answers the share is 57.5
    percent and the cell shows 57, where exact arithmetic shows the larger
    neighbour, 58: the product [0.575 * 100] of binary64 is below 57.5.  Of
    any 8 trials with 5 correct answers the share is 62.5 percent and the
    cell shows 63. *)
Theorem accuracy_tie_rounds_down (trials : list Row) :
  (length trials = 40%nat -> length (filter_correct true trials) = 23%nat ->
   toFixed 0 (accuracy trials) = "57" /\ toFixed 0 (exact_accuracy trials) = "58") /\
  (length trials = 8%nat -> length (filter_correct true trials) = 5%nat ->
   toFixed 0 (accuracy trials) = "63" /\ toFixed 0 (exact_accuracy trials) = "63").
Proof.
  split; intros Hn Hc; rewrite accuracy_cell, exact_accuracy_cell, Hn, Hc; by vm_compute.
Qed.

(** C18. For a phase whose correct answers took whole milliseconds, fewer
    than [2 ^ 44] of them with a sum below [2 ^ 50], the reaction-time
    cell shows [n.d] with one digit [d]: a number of tenths of a second
    nearest to the mean reaction time.  On a tie the cell shows either
    neighbour. *)
Theorem seconds_nearest_tenth (trials : list Row) :
  let rts := omap r_rt (filter_correct true trials) in
  rts <> [] -> milliseconds rts -> total rts < 2 ^ 50 ->
  (Z.of_nat (length rts) < 2 ^ 44)%Z ->
  let s := total rts / inject_Z (Z.of_nat (length rts)) / 1000 in
  exists n d : Z,
    toFixed 1 (seconds trials) = pretty n +:+ "." +:+ pretty d /\
    (0 <= n)%Z /\ (0 <= d < 10)%Z /\
    inject_Z (10 * n + d) - (1 # 2) <= 10 * s /\
    10 * s <= inject_Z (10 * n + d) + (1 # 2).
Proof.
  intros rts Hne Hms Ht Hn s.
  destruct (tenths_nearest rts Hne Hms Ht Hn) as (k & Hk & H0 & H1 & H2).
  assert (tenths rts == 10 * s) as E.
  { rewrite (tenths_total rts Hne Hms Ht Hn). subst s. field.
    pose proof (length_pos rts Hne Hms Ht Hn). lra. }
  rewrite E in H1, H2.
  exists (k / 10)%Z, (k mod 10)%Z. rewrite <- Z.div_mod by done.
  split; [exact Hk|]. split; [by apply Z.div_pos|]. split; [by apply Z.mod_pos_bound|by split].
Qed.

(** C40. On a tie the reaction-time cell is rounded as the quotient of
    binary64 falls.  Whatever the answers of a phase, when the mean
    reaction time of its correct trials is 850 ms the cell shows 0.8, where
    exact arithmetic shows the larger neighbour, 0.9: the quotient
    [850 / 1000] of binary64 is below 0.85.  The same happens at 1450 ms; a
    mean of 1250 ms is 1.25 s in binary64 too and the cell shows 1.3. *)
Theorem seconds_tie_rounds_down (trials : list Row) :
  let rts := omap r_rt (filter_correct true trials) in
  let n := inject_Z (Z.of_nat (length rts)) in
  rts <> [] -> milliseconds rts -> total rts < 2 ^ 50 ->
  (Z.of_nat (length rts) < 2 ^ 44)%Z ->
  (total rts == 850 * n ->
   toFixed 1 (seconds trials) = "0.8" /\ toFixed 1 (exact_seconds trials) = "0.9") /\
  (total rts == 1450 * n ->
   toFixed 1 (seconds trials) = "1.4" /\ toFixed 1 (exact_seconds trials) = "1.5") /\
  (total rts == 1250 * n ->
   toFixed 1 (seconds trials) = "1.3" /\ toFixed 1 (exact_seconds trials) = "1.3").
Proof.
  intros rts n Hne Hms Ht Hn.
  change (toFixed 1 (seconds trials)) with (toFixed 1 (js_div (mean rts) (Finite 1000))).
  change (toFixed 1 (exact_seconds trials))
    with (toFixed 1 (exact_div (exact_mean rts) (Finite 1000))).
  split; [|split]; intros E;
    destruct (cells_of_mean rts Hne Hms Ht Hn _ E) as [-> ->]; by vm_compute.
Qed.

(** C21. The table is the table of the specification whenever the three test
    phases are plain: binary64 and exact arithmetic differ in the
    direction in which a tie is rounded, and in nothing else. *)
Theorem results_stimulus_agrees (rows : list Row) :
  plain (phase_rows "color_test" rows) -> plain (phase_rows "shape_test" rows) ->
  plain (phase_rows "mixed" rows) ->
  results_stimulus rows = exact_results_stimulus rows.
Proof.
  intros [Hc1 Hc2]%plain_cells [Hs1 Hs2]%plain_cells [Hm1 Hm2]%plain_cells.
  unfold results_stimulus, exact_results_stimulus. cbv zeta.
  exact (results_table_cells _ _ _ _ _ _ _ _ _ _ _ _ Hc1 Hc2 Hs1 Hs2 Hm1 Hm2).
Qed.

(** C35. A phase without recorded trials shows [NaN%] and [NaNs]: the
    quotient of the counts is 0/0 and the mean of no reaction time is not a
    number. *)
Theorem empty_phase_shows_NaN (rows : list Row) :
  phase_rows "color_test" rows = [] ->
  results_stimulus rows
  = results_table NaN NaN
      (accuracy (phase_rows "shape_test" rows)) (seconds (phase_rows "shape_test" rows))
      (accuracy (phase_rows "mixed" rows)) (seconds (phase_rows "mixed" rows)) /\
  toFixed 0 NaN = "NaN" /\ toFixed 1 NaN = "NaN".
Proof.
  intros He. split; [|by split]. unfold results_stimulus. fold (phase_rows "color_test" rows).
  by rewrite He.
Qed.

(** A phase in which no answer was correct shows [0%] and, as the mean
    of no reaction time, [NaNs]. *)
Theorem no_correct_answer_shows_NaN (trials : list Row) :
  (0 < length trials)%nat -> filter_correct true trials = [] ->
  toFixed 0 (accuracy trials) = "0" /\ toFixed 1 (seconds trials) = "NaN".
Proof.
  intros Hn Hc. split.
  - rewrite accuracy_cell, Hc. by apply cell_zero.
  - unfold seconds. by rewrite Hc.
Qed.

(** The table depends on the recorded trials of the task only: rows of
    other screens (welcome, instructions) leave it unchanged. *)
Theorem results_stimulus_stable (rows others : list Row) :
  Forall (fun r => r_task r <> Some "dccs") others ->
  results_stimulus (rows ++ others) = results_stimulus rows.
Proof.
  intros Ho. unfold results_stimulus. cbn [filter_task rows_collection].
  by rewrite filter_app, (filter_none _ others Ho), app_nil_r.
Qed.

(** The example of the specification: of five recorded trials of a
    phase four are correct; the table shows 80% and the mean reaction time
    of the four, 0.7s. *)
Theorem results_example :
  toFixed 0 (accuracy four_of_five) = "80" /\
  toFixed 1 (seconds four_of_five) = "0.7" /\
  occurrences (">80%<") (results_stimulus four_of_five) = 1%nat /\
  occurrences (">0.7s<") (results_stimulus four_of_five) = 1%nat.
Proof. by vm_compute. Qed.

(** On the data store of the test-suite every phase shows 100% and
    2.5s. *)
Theorem results_mock :
  results_stimulus tt
  = results_table (Finite 100) (Finite (5 # 2)) (Finite 100) (Finite (5 # 2))
                  (Finite 100) (Finite (5 # 2)).
Proof. by vm_compute. Qed.

(** ** Witnesses *)

Lemma four_of_five_milliseconds :
  milliseconds (omap r_rt (filter_correct true four_of_five)).
Proof. repeat (apply Forall_cons_2 || apply Forall_nil_2); by vm_compute. Qed.

Lemma four_of_five_plain (phase : string) : plain (phase_rows phase four_of_five).
Proof.
  destruct (decide (phase = "color_test")) as [->|Hp].
  - split; [by vm_compute|]. split; [right; vm_compute; lia|].
    split; [exact four_of_five_milliseconds|]. split; [by vm_compute|by right].
  - assert (phase_rows phase four_of_five = []) as ->.
    { unfold phase_rows, four_of_five. cbn [filter_task filter_phase rows_collection].
      apply filter_none. repeat (apply Forall_cons_2 || apply Forall_nil_2); cbn; congruence. }
    split; [by vm_compute|]. split; [right; cbn; lia|].
    split; [apply Forall_nil_2|]. split; [by vm_compute|by left].
Qed.

Lemma accuracy_nearest_percent_witness :
  exists k : Z,
    toFixed 0 (accuracy four_of_five) = pretty k /\ (0 <= k <= 100)%Z /\
    inject_Z k - (1 # 2)
    <= 100 * inject_Z (Z.of_nat (length (filter_correct true four_of_five)))
       / inject_Z (Z.of_nat (length four_of_five)) /\
    100 * inject_Z (Z.of_nat (length (filter_correct true four_of_five)))
    / inject_Z (Z.of_nat (length four_of_five)) <= inject_Z k + (1 # 2).
Proof. apply (accuracy_nearest_percent four_of_five); [vm_compute; lia|by vm_compute]. Defined.

Lemma seconds_nearest_tenth_witness :
  let rts := omap r_rt (filter_correct true four_of_five) in
  let s := total rts / inject_Z (Z.of_nat (length rts)) / 1000 in
  exists n d : Z,
    toFixed 1 (seconds four_of_five) = pretty n +:+ "." +:+ pretty d /\
    (0 <= n)%Z /\ (0 <= d < 10)%Z /\
    inject_Z (10 * n + d) - (1 # 2) <= 10 * s /\
    10 * s <= inject_Z (10 * n + d) + (1 # 2).
Proof.
  apply (seconds_nearest_tenth four_of_five);
    [by vm_compute|exact four_of_five_milliseconds|by vm_compute|by vm_compute].
Defined.

Lemma results_stimulus_agrees_witness :
  results_stimulus four_of_five = exact_results_stimulus four_of_five.
Proof. apply (results_stimulus_agrees four_of_five); apply four_of_five_plain. Defined.

Lemma empty_phase_shows_NaN_witness :
  results_stimulus (filter_phase "mixed" four_of_five)
  = results_table NaN NaN
      (accuracy (phase_rows "shape_test" (filter_phase "mixed" four_of_five)))
      (seconds (phase_rows "shape_test" (filter_phase "mixed" four_of_five)))
      (accuracy (phase_rows "mixed" (filter_phase "mixed" four_of_five)))
      (seconds (phase_rows "mixed" (filter_phase "mixed" four_of_five))) /\
  toFixed 0 NaN = "NaN" /\ toFixed 1 NaN = "NaN".
Proof. by apply (empty_phase_shows_NaN (filter_phase "mixed" four_of_five)). Defined.

Lemma no_correct_answer_shows_NaN_witness :
  toFixed 0 (accuracy (filter_correct false four_of_five)) = "0" /\
  toFixed 1 (seconds (filter_correct false four_of_five)) = "NaN".
Proof.
  apply (no_correct_answer_shows_NaN (filter_correct false four_of_five));
    [vm_compute; lia|done].
Defined.

Lemma results_stimulus_stable_witness :
  results_stimulus
    (four_of_five ++ [{| r_task := None; r_phase := None; r_correct := None;
                         r_rt := Some 1200%Q |}])
  = results_stimulus four_of_five.
Proof. apply (results_stimulus_stable four_of_five); by repeat constructor. Defined.

Lemma accuracy_tie_rounds_down_witness :
  toFixed 0 (accuracy (phase_of_counts 23 40)) = "57" /\
  toFixed 0 (exact_accuracy (phase_of_counts 23 40)) = "58".
Proof.
  apply (proj1 (accuracy_tie_rounds_down (phase_of_counts 23 40))); reflexivity.
Defined.

Lemma seconds_tie_rounds_down_witness :
  toFixed 1 (seconds (one_answer 850)) = "0.8" /\
  toFixed 1 (exact_seconds (one_answer 850)) = "0.9".
Proof.
  apply (proj1 (seconds_tie_rounds_down (one_answer 850) ltac:(done)
                  ltac:(repeat constructor; by vm_compute) ltac:(by vm_compute)
                  ltac:(by vm_compute))).
  by vm_compute.
Defined.
