(* ===== verification/Generator.v ===== *)
(** * The generator of mixed trials

    [generateMixedTrials] of [src/src/index.ts], written as the source
    writes it: a [for] loop that draws two random numbers per iteration,
    picks the target by [Math.floor(Math.random() * 4)], reverses the pair of
    choices when the second draw exceeds 0.5, computes [correct] by comparing
    the first choice with the target and pushes the trial.

    The random source is a function [nat -> Number], the successive results
    of [Math.random()]; the state of the loop is the number of draws
    consumed and the array under construction.  [Spec] states what the
    generator promises as a pure function of the draws, and
    [generateMixedTrials_refines]
    shows that the loop implements it whenever the draws lie in [0,1).

    The count of [generateMixedTrials] is a rational and its loop runs with
    the fuel [loop_count] gives.  [generateMixedTrials_fuel] is the same
    function with the count as a JavaScript number, infinite or not a
    number included, and the fuel as an argument: for every count but
    [Infinity] enough fuel gives the result, that of [generateMixedTrials]
    for a finite count, and for [Infinity] every fuel is exhausted.  The
    product [Math.random() * testStimuli.length] is exact in binary64
    ([target_index_exact]), which is why the loop multiplies rationals. *)

From Stdlib Require Import ZArith QArith Qround Lia Lqa.
From stdpp Require Import base tactics decidable option list strings.
From S2P Require Import Prelude Doubles Stimuli.

Open Scope string_scope.
Open Scope list_scope.

(** ** The loop *)

Record GenState : Type := {
  drawn : nat;
  mixedTrials : list Trial;
}.

Definition testStimuli : list Stimulus :=
  [ STIMULI.blueBall; STIMULI.orangeTruck; STIMULI.blueTruck; STIMULI.orangeBall ].

(** [choices.reverse()] on the two-element array. *)
Definition reverse2 (choices : Stimulus * Stimulus) : Stimulus * Stimulus :=
  (choices.2, choices.1).

Section Generator.
Variable random : nat -> Number.

Definition Math_random : M GenState Number :=
  fun s => (Ok (random (drawn s)),
            {| drawn := S (drawn s); mixedTrials := mixedTrials s |}).

Definition push (t : Trial) : M GenState unit :=
  modify (fun s => {| drawn := drawn s; mixedTrials := mixedTrials s ++ [t] |}).

(** One iteration.  An [undefined] target is noticed when its colour or
    shape is read, after the second draw; the error names that property. *)
Definition loop_body (i : Z) : M GenState unit :=
  let dimension := if (Z.rem i 2 =? 0)%Z then "color" else "shape" in
  r <- Math_random ;;
  let target :=
    js_index testStimuli
      (Math_floor (r * inject_Z (Z.of_nat (length testStimuli)))) in
  let choices := (STIMULI.blueBall, STIMULI.orangeTruck) in
  r' <- Math_random ;;
  let choices := if js_gt r' (1 # 2) then reverse2 choices else choices in
  tgt <- member target id dimension ;;
  let correct :=
    if decide (dimension = "color")
    then (if decide (color choices.1 = color tgt) then 0 else 1)%Z
    else (if decide (shape choices.1 = shape tgt) then 0 else 1)%Z in
  push {| target := tgt; left := choices.1; right := choices.2;
          correct := correct; dimension := Some dimension |}.

(** The function: the state that outlives it is the number of draws. *)
Definition generateMixedTrials (numTrials : Number) : M nat (list Trial) :=
  fun d =>
    let '(r, s) := for_lt (loop_count numTrials) 0 numTrials loop_body
                     {| drawn := d; mixedTrials := [] |} in
    (match r with
     | Ok _ => Ok (mixedTrials s)
     | Throw e => Throw e
     | Timeout => Timeout
     end, drawn s).

(** [Math.random() * testStimuli.length] in binary64. *)
Definition target_index (r : Number) : JsNumber :=
  js_mul (Finite r) (of_count (length testStimuli)).

End Generator.

(** *** The loop with a count that may not be finite *)

(** [i < numTrials]: false for [NaN]. *)
Definition below (i : Z) (n : JsNumber) : bool :=
  match n with
  | Finite q => js_lt (inject_Z i) q
  | Infinity => true
  | NegInfinity | NaN => false
  end.

(** [for (let i = i0; i < n; i++) body(i)], with fuel for the iterations. *)
Fixpoint for_below {S} (fuel : nat) (i : Z) (n : JsNumber) (body : Z -> M S unit)
  : M S unit :=
  if below i n then
    match fuel with
    | O => timeout
    | Datatypes.S fuel' => body i ;; for_below fuel' (i + 1) n body
    end
  else ret tt.

Definition generateMixedTrials_fuel (random : nat -> Number) (fuel : nat)
    (numTrials : JsNumber) : M nat (list Trial) :=
  fun d =>
    let '(r, s) := for_below fuel 0 numTrials (loop_body random)
                     {| drawn := d; mixedTrials := [] |} in
    (match r with
     | Ok _ => Ok (mixedTrials s)
     | Throw e => Throw e
     | Timeout => Timeout
     end, drawn s).

(** ** Specification *)

Module Spec.

Definition dimension_of (i : nat) : string :=
  if Nat.even i then "color" else "shape".

(** The target selected by a draw: the quarter of [0,1) it falls in. *)
Definition target_of (r : Number) : Stimulus :=
  if js_lt r (1 # 4) then STIMULI.blueBall
  else if js_lt r (2 # 4) then STIMULI.orangeTruck
  else if js_lt r (3 # 4) then STIMULI.blueTruck
  else STIMULI.orangeBall.

Definition choices_of (r : Number) : Stimulus * Stimulus :=
  if js_gt r (1 # 2) then (STIMULI.orangeTruck, STIMULI.blueBall)
  else (STIMULI.blueBall, STIMULI.orangeTruck).

Definition trial_of (i : nat) (r r' : Number) : Trial :=
  let dim := dimension_of i in
  let tgt := target_of r in
  let c := choices_of r' in
  {| target := tgt; left := c.1; right := c.2;
     correct := if same_on dim c.1 tgt then 0 else 1;
     dimension := Some dim |}.

(** Trial [i] of a run that starts at draw [d] uses draws [d + 2i] and
    [d + 2i + 1]. *)
Definition trials (random : nat -> Number) (d k : nat) : list Trial :=
  (fun i => trial_of i (random (d + 2 * i)) (random (d + 2 * i + 1))) <$> seq 0 k.

End Spec.

(** The contract of [Math.random]. *)
Definition unit_interval (random : nat -> Number) : Prop :=
  forall k, (0 <= random k)%Q /\ (random k < 1)%Q.

(** The source of the test-suite: [Math.random] mocked to return 0.5. *)
Definition half : nat -> Number := fun _ => (1 # 2)%Q.

(** A source whose third draw breaks the contract of [Math.random]. *)
Definition broken : nat -> Number := fun k => if decide (k = 2%nat) then 1%Q else (1 # 4)%Q.

(** ** Lemmas on the specification *)

Lemma dimension_of_rem (i : nat) :
  (if (Z.rem (Z.of_nat i) 2 =? 0)%Z then "color" else "shape") = Spec.dimension_of i.
Proof.
  unfold Spec.dimension_of.
  rewrite Z.rem_mod_nonneg, <- Zeven_mod by lia.
  destruct (Nat.Even_or_Odd i) as [[k ->] | [k ->]].
  - by rewrite Nat2Z.inj_mul, Z.even_even, Nat.even_even.
  - by rewrite Nat2Z.inj_add, Nat2Z.inj_mul, Z.even_odd, Nat.even_odd.
Qed.

Lemma dimension_of_cases (i : nat) :
  Spec.dimension_of i = "color" \/ Spec.dimension_of i = "shape".
Proof. unfold Spec.dimension_of. case_match; auto. Qed.

(** The index computed by the source selects the quarter the draw is in. *)
Lemma js_index_testStimuli (r : Number) :
  (0 <= r)%Q -> (r < 1)%Q ->
  js_index testStimuli (Math_floor (r * inject_Z (Z.of_nat (length testStimuli))))
  = Some (Spec.target_of r).
Proof.
  intros H0 H1. simpl length. unfold Spec.target_of.
  pose proof (Math_floor_scaled_range r 4 H0 H1 eq_refl) as Hr.
  pose proof (Qfloor_le (r * inject_Z 4)) as Hlo.
  pose proof (Qlt_floor (r * inject_Z 4)) as Hhi.
  unfold Math_floor in *. change (Z.of_nat 4) with 4%Z.
  assert (Qfloor (r * inject_Z 4) ∈ [0; 1; 2; 3]%Z) as Hk
    by (rewrite !elem_of_cons; lia).
  rewrite !elem_of_cons, elem_of_nil in Hk.
  rewrite inject_Z_plus in Hhi.
  destruct Hk as [Hk|[Hk|[Hk|[Hk|[]]]]]; rewrite Hk in *;
    match goal with |- ?l = _ => let v := eval cbv in l in change l with v end;
    repeat (case_match; [rewrite js_lt_spec in *|rewrite js_lt_false in *]);
    first [done | exfalso; q_solve].
Qed.

Lemma target_of_test_stimuli (r : Number) : Spec.target_of r ∈ test_stimuli.
Proof. unfold Spec.target_of. repeat case_match; by_decide. Qed.

Lemma choices_of_cases (r : Number) :
  Spec.choices_of r = (STIMULI.blueBall, STIMULI.orangeTruck) \/
  Spec.choices_of r = (STIMULI.orangeTruck, STIMULI.blueBall).
Proof. unfold Spec.choices_of. case_match; auto. Qed.

(** Whatever the draws, the trial of the specification is well posed: the
    two choices differ in colour and in shape, and every target shares its
    colour with one of them and its shape with one of them. *)
Lemma trial_of_well_posed (i : nat) (r r' : Number) :
  well_posed (Spec.dimension_of i) (Spec.trial_of i r r').
Proof.
  unfold well_posed, matching_index, Spec.trial_of; simpl.
  destruct (dimension_of_cases i) as [-> | ->],
    (choices_of_cases r') as [-> | ->];
    unfold Spec.target_of; repeat case_match; done.
Qed.

Lemma trial_of_uses_test_stimuli (i : nat) (r r' : Number) :
  uses_only test_stimuli (Spec.trial_of i r r').
Proof.
  unfold uses_only, Spec.trial_of; simpl.
  split; [apply target_of_test_stimuli|].
  destruct (choices_of_cases r') as [-> | ->]; split; by_decide.
Qed.

Lemma trials_well_posed random d k :
  Forall (fun t => exists dim, dimension t = Some dim /\ well_posed dim t /\
                               uses_only test_stimuli t)
         (Spec.trials random d k).
Proof.
  apply Forall_fmap, Forall_forall. intros i _. eexists. split; [done|].
  split; [apply trial_of_well_posed|apply trial_of_uses_test_stimuli].
Qed.

Lemma length_trials random d k : length (Spec.trials random d k) = k.
Proof. unfold Spec.trials. by rewrite length_fmap, length_seq. Qed.

Lemma lookup_trials random d k i :
  (i < k)%nat ->
  Spec.trials random d k !! i
  = Some (Spec.trial_of i (random (d + 2 * i)%nat) (random (d + 2 * i + 1)%nat)).
Proof.
  intros Hi. unfold Spec.trials.
  by rewrite list_lookup_fmap, lookup_seq_lt.
Qed.

Lemma trials_snoc random d k :
  Spec.trials random d (S k)
  = Spec.trials random d k
    ++ [Spec.trial_of k (random (d + 2 * k)%nat) (random (d + 2 * k + 1)%nat)].
Proof. unfold Spec.trials. by rewrite seq_S, fmap_app. Qed.

(** ** The loop implements the specification *)

Section Refinement.
Context (random : nat -> Number).

(** One iteration on draws in [0,1) pushes the trial of the specification. *)
Lemma loop_body_spec (i : nat) (s : GenState) :
  (0 <= random (drawn s) /\ random (drawn s) < 1)%Q ->
  loop_body random (Z.of_nat i) s
  = (Ok tt, {| drawn := S (S (drawn s));
               mixedTrials := mixedTrials s
                 ++ [Spec.trial_of i (random (drawn s)) (random (S (drawn s)))] |}).
Proof.
  intros [H0 H1]. unfold loop_body, Math_random, push. unfold_monad.
  rewrite js_index_testStimuli, dimension_of_rem by done. simpl.
  unfold Spec.trial_of, Spec.choices_of, same_on.
  do 2 f_equal. f_equal.
  destruct (dimension_of_cases i) as [-> | ->], (js_gt _ _); simpl;
    f_equal; repeat case_decide; done.
Qed.

(** One iteration on a first draw outside [0,1) throws, after both draws. *)
Lemma loop_body_throws (i : Z) (s : GenState) :
  (random (drawn s) < 0 \/ 1 <= random (drawn s))%Q ->
  exists what, loop_body random i s
  = (Throw (TypeError what),
     {| drawn := S (S (drawn s)); mixedTrials := mixedTrials s |}).
Proof.
  intros Hr. unfold loop_body, Math_random. unfold_monad.
  rewrite js_index_None; [by eexists|]. simpl length.
  unfold Math_floor. change (Z.of_nat 4) with 4%Z.
  pose proof (Qfloor_le (random (drawn s) * inject_Z 4)) as Hlo.
  pose proof (Qlt_floor (random (drawn s) * inject_Z 4)) as Hhi.
  rewrite inject_Z_plus in Hhi. destruct Hr as [Hr|Hr]; [left|right].
  - apply Z.lt_nge. intros Hc. rewrite Zle_Qle in Hc. q_solve.
  - apply Z.lt_succ_r. rewrite Zlt_Qlt, <- Z.add_1_r, inject_Z_plus. q_solve.
Qed.

Context (Hrandom : unit_interval random).

Lemma iterM_loop_body (k i d : nat) (acc : list Trial) :
  iterM (loop_body random) (zrange (Z.of_nat i) k)
    {| drawn := d + 2 * i; mixedTrials := acc ++ Spec.trials random d i |}
  = (Ok tt, {| drawn := d + 2 * (i + k);
               mixedTrials := acc ++ Spec.trials random d (i + k) |}).
Proof.
  revert i. induction k as [|k IH]; intros i.
  - rewrite Nat.add_0_r. reflexivity.
  - rewrite zrange_cons. cbn [iterM]. unfold bind at 1.
    rewrite loop_body_spec by apply Hrandom. cbn [drawn mixedTrials].
    replace (Z.of_nat i + 1)%Z with (Z.of_nat (S i)) by lia.
    replace (S (S (d + 2 * i))) with (d + 2 * S i)%nat by lia.
    replace (S (d + 2 * i)) with (d + 2 * i + 1)%nat by lia.
    rewrite <- app_assoc, <- trials_snoc, IH.
    by replace (S i + k)%nat with (i + S k)%nat by lia.
Qed.

(** The loop of [generateMixedTrials], run with the fuel the function gives
    it. *)
Lemma mixed_loop_run (numTrials : Number) (d : nat) :
  for_lt (loop_count numTrials) 0 numTrials (loop_body random)
    {| drawn := d; mixedTrials := [] |}
  = (Ok tt, {| drawn := d + 2 * loop_count numTrials;
               mixedTrials := Spec.trials random d (loop_count numTrials) |}).
Proof using Hrandom.
  rewrite for_lt_loop_count.
  pose proof (iterM_loop_body (loop_count numTrials) 0 d []) as E.
  change (Z.of_nat 0) with 0%Z in E.
  change (Spec.trials random d 0) with (@nil Trial) in E.
  replace (d + 2 * 0)%nat with d in E by lia.
  cbn [app Nat.add] in E. by rewrite E.
Qed.

End Refinement.

Lemma half_unit_interval : unit_interval half.
Proof. intros k. split; by_compute. Qed.

(** The body of the loop returns or throws: it never runs out of fuel. *)
Lemma loop_body_returns random i : returns (loop_body random i).
Proof.
  intros s. unfold loop_body, Math_random, push. unfold_monad. cbn.
  by destruct (js_index _ _).
Qed.


(** ** The loop with fuel *)

Lemma for_below_finite {S} (fuel : nat) (i : Z) (q : Number) (body : Z -> M S unit) (s : S) :
  for_below fuel i (Finite q) body s = for_lt fuel i q body s.
Proof.
  revert i s. induction fuel as [|fuel IH]; intros i s; [done|].
  cbn [for_below for_lt below]. case_match; [|done]. apply bind_ext. intros _ s'. apply IH.
Qed.

(** A loop whose test is false at once runs no iteration, whatever its
    fuel. *)
Lemma for_below_none {S} (fuel : nat) (i : Z) (n : JsNumber) (body : Z -> M S unit) (s : S) :
  below i n = false -> for_below fuel i n body s = (Ok tt, s).
Proof. intros Hb. destruct fuel; cbn [for_below]; by rewrite Hb. Qed.

(** With enough fuel the function with fuel is [generateMixedTrials]. *)
Lemma generateMixedTrials_fuel_finite random (fuel : nat) (q : Number) (d : nat) :
  (loop_count q <= fuel)%nat ->
  generateMixedTrials_fuel random fuel (Finite q) d = generateMixedTrials random q d.
Proof.
  intros Hf. unfold generateMixedTrials_fuel, generateMixedTrials, loop_count in *.
  rewrite for_below_finite, !for_lt_enough_fuel; rewrite ?Z.sub_0_r; done.
Qed.

(** An unbounded loop whose body returns uses up its fuel. *)
Lemma for_below_infinity random (Hrandom : unit_interval random) (fuel i : nat)
    (s : GenState) :
  exists acc, for_below fuel (Z.of_nat i) Infinity (loop_body random) s
              = (Timeout, {| drawn := drawn s + 2 * fuel; mixedTrials := acc |}).
Proof.
  revert i s. induction fuel as [|fuel IH]; intros i s.
  - exists (mixedTrials s). cbn. destruct s. cbn. do 2 f_equal. lia.
  - cbn [for_below below]. unfold bind at 1. rewrite loop_body_spec by apply Hrandom.
    replace (Z.of_nat i + 1)%Z with (Z.of_nat (S i)) by lia.
    destruct (IH (S i) {| drawn := S (S (drawn s));
                          mixedTrials := mixedTrials s
                            ++ [Spec.trial_of i (random (drawn s)) (random (S (drawn s)))] |})
      as [acc ->].
    exists acc. cbn [drawn]. do 2 f_equal. lia.
Qed.

(** ** The product of the target index *)

Lemma target_index_value (r : Number) :
  is_double r -> (0 <= r)%Q -> (r < 1)%Q ->
  exists p, target_index r = Finite p /\
            (p == r * inject_Z (Z.of_nat (length testStimuli)))%Q.
Proof.
  intros Hd H0 H1. unfold target_index, js_mul, of_count. cbn [exact_mul to_double].
  change (inject_Z _) with 4%Q. apply fl_exact, is_double_times4; [done|].
  by rewrite Qabs.Qabs_pos.
Qed.

(** ** Theorems *)

Section Claims.
Context (random : nat -> Number).

(** C22. For every count but [Infinity], a number or not, there is an
    amount of fuel from which on [generateMixedTrials] gives one and the same
    result, a list or an exception and never [Timeout], whatever
    [Math.random] yields; for a finite count it is the result of
    [generateMixedTrials] with the fuel [loop_count] gives. *)
Theorem generateMixedTrials_terminates (numTrials : JsNumber) (d : nat) :
  numTrials <> Infinity ->
  exists fuel0 r,
    r.1 <> Timeout /\
    (forall fuel, (fuel0 <= fuel)%nat ->
       generateMixedTrials_fuel random fuel numTrials d = r) /\
    (forall q, numTrials = Finite q -> r = generateMixedTrials random q d).
Proof.
  intros Hn. destruct numTrials as [q| | |]; [|done|..].
  - exists (loop_count q), (generateMixedTrials random q d). split; [|split].
    + unfold generateMixedTrials.
      pose proof (for_lt_returns (loop_body random) q (loop_body_returns random)
                    {| drawn := d; mixedTrials := [] |}) as Hr.
      by destruct (for_lt _ _ _ _ _) as [[] s].
    + intros fuel Hf. by apply generateMixedTrials_fuel_finite.
    + by intros q' [= <-].
  - exists 0%nat, (Ok [], d). split; [done|]. split; [|done].
    intros fuel _. unfold generateMixedTrials_fuel. by rewrite for_below_none.
  - exists 0%nat, (Ok [], d). split; [done|]. split; [|done].
    intros fuel _. unfold generateMixedTrials_fuel. by rewrite for_below_none.
Qed.

(** C26. With the count [Infinity] and [Math.random] in [0, 1) the loop of
    [generateMixedTrials] never ends: whatever the fuel, it is exhausted
    after two draws for each unit of it. *)
Theorem generateMixedTrials_diverges (fuel d : nat) :
  unit_interval random ->
  generateMixedTrials_fuel random fuel Infinity d = (Timeout, (d + 2 * fuel)%nat).
Proof.
  intros Hr. unfold generateMixedTrials_fuel.
  destruct (for_below_infinity random Hr fuel 0 {| drawn := d; mixedTrials := [] |})
    as [acc E].
  change (Z.of_nat 0) with 0%Z in E. by rewrite E.
Qed.

(** C27. The target of a trial is the one the program selects.  The
    iteration of the model computes the index with the exact product; the
    program computes [Math.random() * testStimuli.length] in binary64.
    For a draw in [0, 1) the product is exact (a product by four changes
    the exponent only), so the target of the trial that the iteration
    pushes is the stimulus at [Math.floor] of the product of binary64. *)
Theorem target_index_exact (i : nat) (s : GenState) :
  let r := random (drawn s) in
  is_double r -> (0 <= r)%Q -> (r < 1)%Q ->
  exists p t, target_index r = Finite p /\
    loop_body random (Z.of_nat i) s
    = (Ok tt, {| drawn := S (S (drawn s)); mixedTrials := mixedTrials s ++ [t] |}) /\
    js_index testStimuli (Math_floor p) = Some (target t).
Proof.
  intros r Hd H0 H1. destruct (target_index_value r Hd H0 H1) as (p & Hp & E).
  exists p, (Spec.trial_of i r (random (S (drawn s)))).
  split; [done|]. split; [by apply loop_body_spec|].
  unfold Math_floor. rewrite (Qfloor_comp _ _ E). by apply js_index_testStimuli.
Qed.

(** C3. With [Math.random] in [0, 1) the loop of [generateMixedTrials]
    returns the list of the specification, [Spec.trials]: one trial for each
    index below the count, built from the two draws of that index, and it
    consumes two draws for each trial. *)
Theorem generateMixedTrials_refines (numTrials : Number) (d : nat) :
  unit_interval random ->
  generateMixedTrials random numTrials d
  = (Ok (Spec.trials random d (loop_count numTrials)),
     (d + 2 * loop_count numTrials)%nat).
Proof. intros Hr. unfold generateMixedTrials. by rewrite mixed_loop_run. Qed.

(** For a count [n >= 0] that is an integer, [generateMixedTrials]
    returns exactly [n] trials. *)
Theorem generateMixedTrials_length (n : Z) (d : nat) :
  unit_interval random -> (0 <= n)%Z ->
  exists l, (generateMixedTrials random (inject_Z n) d).1 = Ok l /\
            Z.of_nat (length l) = n.
Proof.
  intros Hr Hn. unfold generateMixedTrials. rewrite mixed_loop_run by done.
  cbn [fst snd mixedTrials drawn]. eexists. split; [done|].
  rewrite length_trials, loop_count_inject. lia.
Qed.

(** The trial at an even index of the generated list is a colour
    trial, the trial at an odd index a shape trial. *)
Theorem generateMixedTrials_dimension (numTrials : Number) (d i : nat) (l : list Trial)
    (t : Trial) :
  unit_interval random ->
  (generateMixedTrials random numTrials d).1 = Ok l -> l !! i = Some t ->
  dimension t = Some (if Nat.even i then "color" else "shape").
Proof.
  intros Hr. unfold generateMixedTrials. rewrite mixed_loop_run by done.
  cbn [fst snd mixedTrials drawn]. intros [= <-] Hi.
  pose proof (lookup_lt_Some _ _ _ Hi) as Hlt. rewrite length_trials in Hlt.
  rewrite lookup_trials in Hi by done. by simplify_eq.
Qed.

(** C12. Every generated trial carries its dimension, shows test stimuli
    only, offers exactly one choice that agrees with its target on that
    dimension, and [correct] is the index of that choice. *)
Theorem generateMixedTrials_well_posed (numTrials : Number) (d : nat) (l : list Trial) :
  unit_interval random ->
  (generateMixedTrials random numTrials d).1 = Ok l ->
  Forall (fun t => exists dim, dimension t = Some dim /\ well_posed dim t /\
                               uses_only test_stimuli t) l.
Proof.
  intros Hr. unfold generateMixedTrials. rewrite mixed_loop_run by done.
  cbn [fst snd mixedTrials drawn]. intros [= <-]. apply trials_well_posed.
Qed.

(** C37. When the first draw of a trial is outside [0, 1) the target is
    [undefined]: reading its colour or shape throws a [TypeError], after the
    two draws of that trial. *)
Theorem generateMixedTrials_throws (numTrials : Number) (d : nat) :
  (0 < numTrials)%Q -> (random d < 0 \/ 1 <= random d)%Q ->
  exists what, generateMixedTrials random numTrials d
               = (Throw (TypeError what), (d + 2)%nat).
Proof.
  intros Hn Hr. unfold generateMixedTrials.
  assert (0 < Qceiling numTrials)%Z as Hc by (by apply lt_Qceiling).
  unfold loop_count. destruct (Z.to_nat (Qceiling numTrials)) as [|k] eqn:Ek; [lia|].
  cbn [for_lt]. rewrite (proj2 (js_lt_spec _ _)) by done. unfold bind.
  destruct (loop_body_throws random 0 {| drawn := d; mixedTrials := [] |} Hr)
    as [what ->]. cbn. exists what. do 2 f_equal. lia.
Qed.

(** For a count that is zero or negative the loop body never runs:
    the list is empty and no random number is drawn. *)
Theorem generateMixedTrials_nonpositive (numTrials : Number) (d : nat) :
  (numTrials <= 0)%Q -> generateMixedTrials random numTrials d = (Ok [], d).
Proof.
  intros Hn. unfold generateMixedTrials, loop_count.
  assert (Qceiling numTrials <= 0)%Z as Hc.
  { apply Z.le_ngt. intros Hc%lt_Qceiling. q_solve. }
  replace (Z.to_nat (Qceiling numTrials)) with 0%nat by lia.
  cbn [for_lt]. by rewrite (proj2 (js_lt_false _ _)).
Qed.

End Claims.

(** With [Math.random] fixed to 0.5, as in the test-suite, two
    trials are generated: both show the blue truck over the blue ball and
    the orange truck; the colour trial expects the left card, the shape
    trial the right one. *)
Theorem generateMixedTrials_example :
  generateMixedTrials half 2 0
  = (Ok [ {| target := STIMULI.blueTruck; left := STIMULI.blueBall;
             right := STIMULI.orangeTruck; correct := 0;
             dimension := Some "color" |};
          {| target := STIMULI.blueTruck; left := STIMULI.blueBall;
             right := STIMULI.orangeTruck; correct := 1;
             dimension := Some "shape" |} ], 4%nat).
Proof. by_compute. Qed.

(** A fractional count is rounded up by the loop test [i < numTrials]:
    a count of 2.5 yields three trials. *)
Theorem generateMixedTrials_fractional :
  length <$> (match (generateMixedTrials half (5 # 2) 0).1 with
              | Ok l => Some l | _ => None end) = Some 3%nat.
Proof. by_compute. Qed.

(** ** Witnesses *)

Lemma generateMixedTrials_refines_witness :
  generateMixedTrials half 30 0
  = (Ok (Spec.trials half 0 (loop_count 30)), (0 + 2 * loop_count 30)%nat).
Proof. apply (generateMixedTrials_refines half 30 0), half_unit_interval. Defined.

Lemma generateMixedTrials_length_witness :
  exists l, (generateMixedTrials half (inject_Z 30) 0).1 = Ok l /\
            Z.of_nat (length l) = 30%Z.
Proof.
  apply (generateMixedTrials_length half 30 0); [apply half_unit_interval|lia].
Defined.

Lemma generateMixedTrials_dimension_witness :
  dimension {| target := STIMULI.blueTruck; left := STIMULI.blueBall;
               right := STIMULI.orangeTruck; correct := 1;
               dimension := Some "shape" |}
  = Some (if Nat.even 1 then "color" else "shape").
Proof.
  apply (generateMixedTrials_dimension half 2 0 1
           (Spec.trials half 0 2)); [apply half_unit_interval|by_compute..].
Defined.

Lemma generateMixedTrials_well_posed_witness :
  Forall (fun t => exists dim, dimension t = Some dim /\ well_posed dim t /\
                               uses_only test_stimuli t)
         (Spec.trials half 0 2).
Proof.
  apply (generateMixedTrials_well_posed half 2 0);
    [apply half_unit_interval|by_compute].
Defined.

Lemma generateMixedTrials_throws_witness :
  exists what, generateMixedTrials broken 1 2 = (Throw (TypeError what), (2 + 2)%nat).
Proof. apply (generateMixedTrials_throws broken 1 2); [done|right; by_compute]. Defined.

Lemma generateMixedTrials_nonpositive_witness :
  generateMixedTrials broken (-1) 2 = (Ok [], 2%nat).
Proof. by apply (generateMixedTrials_nonpositive broken (-1) 2). Defined.

Lemma generateMixedTrials_terminates_witness :
  exists fuel0 r,
    r.1 <> Timeout /\
    (forall fuel, (fuel0 <= fuel)%nat ->
       generateMixedTrials_fuel half fuel (Finite (5 # 2)) 0 = r) /\
    (forall q, Finite (5 # 2) = Finite q -> r = generateMixedTrials half q 0).
Proof. by apply (generateMixedTrials_terminates half (Finite (5 # 2)) 0). Defined.

Lemma generateMixedTrials_diverges_witness :
  generateMixedTrials_fuel half 100 Infinity 0 = (Timeout, (0 + 2 * 100)%nat).
Proof. apply (generateMixedTrials_diverges half 100 0), half_unit_interval. Defined.

Lemma half_is_double : is_double (1 # 2).
Proof. exists 1%Z, (-1)%Z. by vm_compute. Qed.

Lemma target_index_exact_witness :
  exists p t, target_index (1 # 2) = Finite p /\
    loop_body half 0 {| drawn := 0; mixedTrials := [] |}
    = (Ok tt, {| drawn := 2; mixedTrials := [] ++ [t] |}) /\
    js_index testStimuli (Math_floor p) = Some (target t).
Proof.
  by apply (target_index_exact half 0 {| drawn := 0; mixedTrials := [] |} half_is_double).
Defined.
