(* ===== verification/Timeline.v ===== *)
(** * The timeline

    [createTimeline] of [src/src/index.ts]: it resets the module state and
    pushes the screens of the five phases on an array, in order.  The array
    is a field of the state the function body runs on, next to the module
    globals and the position in the stream of [Math.random]; the options
    object is a record of optional fields, an absent field taking its
    default.  [Layout] is the specification: the timeline as a list
    expression of the options and of the generated trials.  [sound] and
    [well_formed] are the invariants of an entry, [read_back] reads the
    trial of an entry from its [on_load]. *)

From Stdlib Require Import ZArith QArith Lia.
From stdpp Require Import base tactics decidable option list strings.
From S2P Require Import Prelude Stimuli Audio Screens Generator.

Open Scope string_scope.
Open Scope list_scope.

(** ** Options *)

Definition DEFAULT_PRACTICE_TRIALS : Number := 5.
Definition DEFAULT_TEST_TRIALS : Number := 5.
Definition DEFAULT_MIXED_TRIALS : Number := 30.

Module Options.
Record options : Type := {
  practiceTrials : option Number;
  testTrials : option Number;
  mixedTrials : option Number;
  showInstructions : option bool;
  showResults : option bool;
}.

(** The argument [{}]. *)
Definition empty_options : options :=
  {| practiceTrials := None; testTrials := None; mixedTrials := None;
     showInstructions := None; showResults := None |}.
End Options.

(** ** The builder *)

Record Build : Type := {
  b_globals : Globals;
  b_drawn : nat;
  timeline : list Screen;
}.

Definition with_b_globals (g : Globals) (b : Build) : Build :=
  {| b_globals := g; b_drawn := b_drawn b; timeline := timeline b |}.

Definition with_b_drawn (d : nat) (b : Build) : Build :=
  {| b_globals := b_globals b; b_drawn := d; timeline := timeline b |}.

Definition with_timeline (l : list Screen) (b : Build) : Build :=
  {| b_globals := b_globals b; b_drawn := b_drawn b; timeline := l |}.

(** [timeline.push(s)] and [timeline.push(...l)]. *)
Definition timeline_push (s : Screen) : M Build unit :=
  modify (fun b => with_timeline (timeline b ++ [s]) b).

Definition timeline_push_all (l : list Screen) : M Build unit :=
  modify (fun b => with_timeline (timeline b ++ l) b).

(** [l.forEach((x, index) => f(x, index))]. *)
Definition forEach {A} (l : list A) (f : A -> Z -> M Build unit) : M Build unit :=
  iterM (fun '(index, x) => f x (Z.of_nat index)) (imap pair l).

Section Timeline.
Variable random : nat -> Number.

Definition createTimeline_body (options : Options.options) : M Build (list Screen) :=
  let practiceTrials :=
    default DEFAULT_PRACTICE_TRIALS (Options.practiceTrials options) in
  let testTrials := default DEFAULT_TEST_TRIALS (Options.testTrials options) in
  let mixedTrials := default DEFAULT_MIXED_TRIALS (Options.mixedTrials options) in
  let showInstructions := default true (Options.showInstructions options) in
  let showResults := default true (Options.showResults options) in
  zoom b_globals with_b_globals resetState ;;
  timeline_push createWelcome ;;
  when showInstructions (timeline_push_all createColorInstructions) ;;
  forEach (js_slice0 COLOR_PRACTICE_TRIALS practiceTrials) (fun trial index =>
    timeline_push (createPracticeTrial trial index)) ;;
  when showInstructions (timeline_push_all createColorTestInstructions) ;;
  forEach (js_slice0 COLOR_TEST_TRIALS testTrials) (fun trial index =>
    timeline_push (createTestTrial trial "color_test" "color" index)) ;;
  when showInstructions (timeline_push createShapeInstructions) ;;
  forEach (js_slice0 SHAPE_TEST_TRIALS testTrials) (fun trial index =>
    timeline_push (createTestTrial trial "shape_test" "shape" index)) ;;
  when showInstructions (timeline_push createMixedInstructions) ;;
  mixedTrialsList <-
    zoom b_drawn with_b_drawn (generateMixedTrials random mixedTrials) ;;
  forEach mixedTrialsList (fun trial index =>
    dimension <- member (dimension trial) id "toUpperCase" ;;
    timeline_push (createTestTrial trial "mixed" dimension index)) ;;
  when showResults (timeline_push createResults) ;;
  b <- get ;;
  ret (timeline b).

(** The function: what outlives a call is the module state and the
    position in the random stream. *)
Definition createTimeline (options : Options.options) : M (Globals * nat) (list Screen) :=
  fun s =>
    let '(r, b) := createTimeline_body options
                     {| b_globals := s.1; b_drawn := s.2; timeline := [] |} in
    (r, (b_globals b, b_drawn b)).

End Timeline.

(** ** Specification *)

Module Layout.

Definition practice (n : Number) : list Screen :=
  imap (fun i t => createPracticeTrial t (Z.of_nat i))
       (js_slice0 COLOR_PRACTICE_TRIALS n).

Definition test (table : list Trial) (phase dim : string) (n : Number)
    : list Screen :=
  imap (fun i t => createTestTrial t phase dim (Z.of_nat i)) (js_slice0 table n).

Definition mixed (l : list Trial) : list Screen :=
  imap (fun i t => createTestTrial t "mixed" (default "" (dimension t)) (Z.of_nat i)) l.

Definition screens (practiceTrials testTrials : Number)
    (showInstructions showResults : bool) (mixedList : list Trial) : list Screen :=
  [createWelcome]
  ++ (if showInstructions then createColorInstructions else [])
  ++ practice practiceTrials
  ++ (if showInstructions then createColorTestInstructions else [])
  ++ test COLOR_TEST_TRIALS "color_test" "color" testTrials
  ++ (if showInstructions then [createShapeInstructions] else [])
  ++ test SHAPE_TEST_TRIALS "shape_test" "shape" testTrials
  ++ (if showInstructions then [createMixedInstructions] else [])
  ++ mixed mixedList
  ++ (if showResults then [createResults] else []).

Definition of_options (options : Options.options) (mixedList : list Trial) : list Screen :=
  screens (default DEFAULT_PRACTICE_TRIALS (Options.practiceTrials options))
          (default DEFAULT_TEST_TRIALS (Options.testTrials options))
          (default true (Options.showInstructions options))
          (default true (Options.showResults options))
          mixedList.

End Layout.

(** The trial a trial screen shows, with the dimension it is played on. *)
Definition shown_trial (s : Screen) : option (string * Trial) :=
  match on_load s with
  | SetupTrial t _ _ dimension _ => Some (dimension, t)
  | _ => None
  end.

(** A screen of a sound timeline: its data and its [on_load] agree, and
    the trial it shows, if any, is well posed for its dimension. *)
Definition sound (s : Screen) : Prop :=
  consistent s /\
  match shown_trial s with
  | Some (dim, t) => well_posed dim t
  | None => True
  end.

(** A trial whose screen can be played: it is well posed and its pictures
    are in the catalogue. *)
Definition fair (dim : string) (t : Trial) : Prop :=
  well_posed dim t /\ uses_only catalogue t.

#[export] Instance fair_dec dim t : Decision (fair dim t).
Proof. unfold fair. apply _. Defined.

(** An entry jsPsych can run.  A trial entry is an [html-keyboard-response]
    screen that takes no key and has no time limit, so that only
    [setupTrial]'s call of [finishTrial] ends it; its page has the two
    cards and the feedback element, its trial number counts from 1 and its
    expected response is the index of a card.  Any other entry is an
    [html-button-response] screen with a button. *)
Definition well_formed (s : Screen) : Prop :=
  match on_load s, data s, stimulus s with
  | SetupTrial t _ trialNum _ _, TrialInfo d, Html html =>
      type s = jsPsychHtmlKeyboardResponse /\ choices s = NO_KEYS /\
      trial_duration s = Some None /\
      choice_cards html = 2%nat /\ has_feedback html = true /\
      (1 <= trialNum)%Z /\ (0 <= correct t < 2)%Z
  | SetupTrial _ _ _ _ _, _, _ | _, TrialInfo _, _ => False
  | _, _, _ =>
      type s = jsPsychHtmlButtonResponse /\
      match choices s with Buttons (_ :: _) => True | _ => False end
  end.

(** What a trial entry was built from, read back from its [on_load]: the
    trial, the phase, the dimension and the index. *)
Definition read_back (s : Screen) : option (Trial * string * string * Z) :=
  match on_load s with
  | SetupTrial t phase trialNum dimension _ => Some (t, phase, dimension, (trialNum - 1)%Z)
  | _ => None
  end.

(** The entries a timeline should carry. *)
Module Entries.
Definition table (phase dim : string) (l : list Trial) : list (Trial * string * string * Z) :=
  imap (fun i t => (t, phase, dim, Z.of_nat i)) l.

Definition mixed (l : list Trial) : list (Trial * string * string * Z) :=
  imap (fun i t => (t, "mixed", default "" (dimension t), Z.of_nat i)) l.
End Entries.

Definition reset (g : Globals) : Globals :=
  {| state := initial_state; window := window g |}.

Definition globals_are (g : Globals) (b : Build) : Prop := b_globals b = g.

(** The phase a trial screen records, and the trial screens of a phase. *)
Definition phase_of (s : Screen) : option string :=
  match data s with
  | TrialInfo d => Some (d_phase d)
  | _ => None
  end.

Definition in_phase (phase : string) (s : Screen) : bool :=
  bool_decide (phase_of s = Some phase).

Definition trial_nums (phase : string) (l : list Screen) : list Z :=
  omap (fun s => match data s with
                 | TrialInfo d => if decide (d_phase d = phase)
                                  then Some (d_trial_num d) else None
                 | _ => None
                 end) l.

(** The numbers 1 to [n]. *)
Definition one_to (n : nat) : list Z := (fun i => Z.of_nat i + 1)%Z <$> seq 0 n.

Definition narrates (s : Screen) : bool :=
  match on_load s with
  | Narrate _ => true
  | _ => false
  end.

(** A session to run the theorems on: narration was on in an earlier run
    and the participant's choice is still in [window]. *)
Definition used_globals : Globals :=
  {| state := {| audio_enabled := true; current_phase := "mixed";
                 trials_completed := 45 |};
     window := {| speechSynthesis := Some []; tempaudio_enabled := Some true |} |}.

(** ** Lemmas: running the builder *)

Lemma iterM_push {A} (g : A -> Screen) (l : list A) (b : Build) :
  iterM (fun a => timeline_push (g a)) l b
  = (Ok tt, with_timeline (timeline b ++ (g <$> l)) b).
Proof.
  revert b. induction l as [|a l IH]; intros b.
  - destruct b. cbn. by rewrite app_nil_r.
  - cbn [iterM]. unfold bind, timeline_push at 1, modify. rewrite IH.
    cbn. by rewrite <- app_assoc.
Qed.

Lemma forEach_push {A} (f : A -> Z -> Screen) (l : list A) (b : Build) :
  forEach l (fun x index => timeline_push (f x index)) b
  = (Ok tt, with_timeline (timeline b ++ imap (fun i x => f x (Z.of_nat i)) l) b).
Proof.
  unfold forEach.
  rewrite (iterM_ext _ (fun a => timeline_push (f a.2 (Z.of_nat a.1))))
    by by intros [i x].
  rewrite iterM_push. do 2 f_equal. f_equal. rewrite fmap_imap. by apply imap_ext.
Qed.

(** On trials that carry their dimension the last loop pushes their
    screens. *)
Lemma forEach_mixed (l : list Trial) (b : Build) :
  Forall (fun t => is_Some (dimension t)) l ->
  forEach l (fun trial index =>
    dimension <- member (dimension trial) id "toUpperCase" ;;
    timeline_push (createTestTrial trial "mixed" dimension index)) b
  = (Ok tt, with_timeline (timeline b ++ Layout.mixed l) b).
Proof.
  intros Hl. unfold Layout.mixed.
  rewrite <- (forEach_push
    (fun t index => createTestTrial t "mixed" (default "" (dimension t)) index)).
  unfold forEach.
  apply iterM_ext. intros [i t] s (j & t' & [= -> ->] & Ht)%elem_of_lookup_imap_1.
  destruct (Forall_lookup_1 _ _ _ _ Hl Ht) as [d Hd]. by rewrite Hd.
Qed.

Section Run.
Context (random : nat -> Number) (Hrandom : unit_interval random).

Lemma zoom_generateMixedTrials (n : Number) (b : Build) :
  zoom b_drawn with_b_drawn (generateMixedTrials random n) b
  = (Ok (Spec.trials random (b_drawn b) (loop_count n)),
     with_b_drawn (b_drawn b + 2 * loop_count n) b).
Proof using Hrandom. unfold zoom, generateMixedTrials. by rewrite mixed_loop_run. Qed.

Lemma trials_have_dimension (d k : nat) :
  Forall (fun t => is_Some (dimension t)) (Spec.trials random d k).
Proof. apply Forall_fmap, Forall_forall. by eexists. Qed.

Ltac run_step :=
  first [ erewrite bind_Ok by apply forEach_push
        | erewrite bind_Ok by apply forEach_mixed, trials_have_dimension
        | erewrite bind_Ok by apply zoom_generateMixedTrials
        | erewrite bind_Ok by reflexivity ];
  cbn [timeline b_drawn b_globals with_timeline with_b_drawn with_b_globals].

(** The body, run: the screens of the layout are appended to the array. *)
Lemma createTimeline_body_run (options : Options.options) (b : Build) :
  let m := default DEFAULT_MIXED_TRIALS (Options.mixedTrials options) in
  let l := timeline b ++ Layout.of_options options
                           (Spec.trials random (b_drawn b) (loop_count m)) in
  createTimeline_body random options b
  = (Ok l, {| b_globals := reset (b_globals b);
              b_drawn := b_drawn b + 2 * loop_count m; timeline := l |}).
Proof using Hrandom.
  intros m l. subst l. unfold createTimeline_body, Layout.of_options, Layout.screens.
  fold m.
  destruct (default true (Options.showInstructions options)),
           (default true (Options.showResults options)).
  all: do 12 run_step; unfold Layout.practice, Layout.test, bind, get, ret;
    cbn [timeline b_drawn b_globals with_timeline with_b_drawn with_b_globals];
    rewrite <- ?app_assoc, ?app_nil_r; reflexivity.
Qed.

End Run.

(** ** Lemmas on the layout *)

Lemma sound_practice (n : Number) : Forall sound (Layout.practice n).
Proof.
  apply (Forall_imap_intro (well_posed "color")).
  - eapply Forall_prefix; [apply js_slice0_prefix|].
    apply COLOR_PRACTICE_TRIALS_well_posed.
  - intros i t Ht. split; [apply createPracticeTrial_consistent|done].
Qed.

Lemma sound_test (table : list Trial) (phase dim : string) (n : Number) :
  phase <> "color_practice" -> Forall (well_posed dim) table ->
  Forall sound (Layout.test table phase dim n).
Proof.
  intros Hp Ht. apply (Forall_imap_intro (well_posed dim)).
  - eapply Forall_prefix; [apply js_slice0_prefix|done].
  - intros i t Hw. split; [by apply createTestTrial_consistent|done].
Qed.

Lemma sound_mixed random d k : Forall sound (Layout.mixed (Spec.trials random d k)).
Proof.
  eapply Forall_imap_intro; [apply trials_well_posed|].
  intros i t (dim & Hd & Hw & _). rewrite Hd. split; [by apply createTestTrial_consistent|done].
Qed.

Lemma sound_screens p t si sr random d k :
  Forall sound (Layout.screens p t si sr (Spec.trials random d k)).
Proof.
  unfold Layout.screens.
  repeat (apply Forall_app; split);
    auto using sound_practice, sound_mixed, sound_test,
               COLOR_TEST_TRIALS_well_posed, SHAPE_TEST_TRIALS_well_posed.
  all: try destruct si; try destruct sr; by repeat constructor.
Qed.

(** *** Reading the trials back *)

Lemma read_back_practice (t : Trial) (index : Z) :
  read_back (createPracticeTrial t index) = Some (t, "color_practice", "color", index).
Proof. unfold read_back. cbn. do 2 f_equal. lia. Qed.

Lemma read_back_test (t : Trial) (phase dim : string) (index : Z) :
  read_back (createTestTrial t phase dim index) = Some (t, phase, dim, index).
Proof. unfold read_back. cbn. do 2 f_equal. lia. Qed.

Lemma read_back_screens p t si sr l :
  omap read_back (Layout.screens p t si sr l)
  = Entries.table "color_practice" "color" (js_slice0 COLOR_PRACTICE_TRIALS p)
    ++ Entries.table "color_test" "color" (js_slice0 COLOR_TEST_TRIALS t)
    ++ Entries.table "shape_test" "shape" (js_slice0 SHAPE_TEST_TRIALS t)
    ++ Entries.mixed l.
Proof.
  unfold Layout.screens, Layout.practice, Layout.test, Layout.mixed.
  rewrite !omap_app.
  rewrite (omap_imap_Some _ _ _ _ (fun i x => read_back_practice x (Z.of_nat i))).
  rewrite !(omap_imap_Some _ _ _ _ (fun i x => read_back_test x _ _ (Z.of_nat i))).
  destruct si, sr; cbn [omap list_omap read_back on_load createWelcome createResults]; 
  rewrite ?app_nil_r; reflexivity.
Qed.

(** *** Every entry can be run *)

Lemma fixed_tables_fair :
  Forall (fair "color") COLOR_PRACTICE_TRIALS /\
  Forall (fair "color") COLOR_TEST_TRIALS /\ Forall (fair "shape") SHAPE_TEST_TRIALS.
Proof. by_decide. Qed.

Lemma trials_fair random d k :
  Forall (fun t => exists dim, dimension t = Some dim /\ dim ∈ ["color"; "shape"] /\
                               fair dim t)
         (Spec.trials random d k).
Proof.
  apply Forall_fmap, Forall_forall. intros i _. eexists. split; [done|].
  split; [destruct (dimension_of_cases i) as [-> | ->]; by_decide|].
  split; [apply trial_of_well_posed|].
  destruct (trial_of_uses_test_stimuli i (random (d + 2 * i)%nat)
              (random (d + 2 * i + 1)%nat)) as (Ht & Hl & Hr).
  assert (test_stimuli ⊆ catalogue) as Hsub by by_decide.
  repeat split; by apply Hsub.
Qed.

Lemma trial_screen_well_formed (t : Trial) (dim : string) (i : nat) :
  dim ∈ ["color"; "shape"] -> fair dim t ->
  choice_cards (createTrialStimulus (target t) (left t) (right t) (toUpperCase dim))
  = 2%nat /\
  has_feedback (createTrialStimulus (target t) (left t) (right t) (toUpperCase dim))
  = true /\
  (1 <= Z.of_nat i + 1)%Z /\ (0 <= correct t < 2)%Z.
Proof.
  intros Hd [Hw Hu].
  destruct (trial_page t (toUpperCase dim)) as [Hc Hf]; [done| |].
  { revert Hd. rewrite !elem_of_cons. intros [-> | [-> | []%elem_of_nil]]; by_decide. }
  destruct (well_posed_correct_01 _ _ Hw); repeat split; try done; lia.
Qed.

Lemma well_formed_practice (n : Number) : Forall well_formed (Layout.practice n).
Proof.
  apply (Forall_imap_intro (fair "color")).
  - eapply Forall_prefix; [apply js_slice0_prefix|apply fixed_tables_fair].
  - intros i t Ht. repeat split; try apply (trial_screen_well_formed t "color" i);
      by try by_decide.
Qed.

Lemma well_formed_test (table : list Trial) (phase dim : string) (n : Number) :
  dim ∈ ["color"; "shape"] -> Forall (fair dim) table ->
  Forall well_formed (Layout.test table phase dim n).
Proof.
  intros Hd Ht. apply (Forall_imap_intro (fair dim)).
  - eapply Forall_prefix; [apply js_slice0_prefix|done].
  - intros i t Hf. repeat split; try by apply (trial_screen_well_formed t dim i).
Qed.

Lemma well_formed_mixed random d k :
  Forall well_formed (Layout.mixed (Spec.trials random d k)).
Proof.
  eapply Forall_imap_intro; [apply trials_fair|].
  intros i t (dim & -> & Hd & Hf).
  repeat split; try by apply (trial_screen_well_formed t dim i).
Qed.

Lemma well_formed_screens p t si sr random d k :
  Forall well_formed (Layout.screens p t si sr (Spec.trials random d k)).
Proof.
  unfold Layout.screens.
  repeat (apply Forall_app; split);
    auto using well_formed_practice, well_formed_mixed.
  all: try (apply well_formed_test; [by_decide|apply fixed_tables_fair]).
  all: try destruct si; try destruct sr; by repeat constructor.
Qed.

Lemma length_practice (p : Z) :
  (0 <= p)%Z -> length (Layout.practice (inject_Z p)) = Z.to_nat (Z.min p 5).
Proof.
  intros Hp. unfold Layout.practice.
  rewrite length_imap, length_js_slice0_nonneg by done.
  change (length COLOR_PRACTICE_TRIALS) with 5%nat. lia.
Qed.

Lemma length_test (table : list Trial) (phase dim : string) (t : Z) :
  (0 <= t)%Z -> length table = 5%nat ->
  length (Layout.test table phase dim (inject_Z t)) = Z.to_nat (Z.min t 5).
Proof.
  intros Hp Hl. unfold Layout.test.
  rewrite length_imap, length_js_slice0_nonneg, Hl by done. lia.
Qed.

Lemma length_mixed (l : list Trial) : length (Layout.mixed l) = length l.
Proof. apply length_imap. Qed.

(** ** Lemmas: what the builder leaves alone *)

Lemma forEach_ht {A} (P : Build -> Prop) (l : list A) (f : A -> Z -> M Build unit) :
  (forall x i, ht P (f x i) P) -> ht P (forEach l f) P.
Proof. intros Hf. apply ht_iterM. by intros [i x]. Qed.

Lemma forEach_returns {A} (l : list A) (f : A -> Z -> M Build unit) :
  (forall x i, returns (f x i)) -> returns (forEach l f).
Proof. intros Hf. apply returns_iterM. by intros [i x]. Qed.

Ltac frame :=
  repeat lazymatch goal with
    | |- ht _ (bind get _) _ => apply ht_bind_get_pre; intros ? _
    | |- ht _ (bind _ _) _ => apply ht_seq; [|intros ?]
    | |- ht _ (when _ _) _ => apply ht_when
    | |- ht _ (forEach _ _) _ => apply forEach_ht; intros ? ?
    | |- ht _ (member _ _ _) _ => apply ht_member
    | |- ht _ (ret _) _ => apply ht_ret
    | |- ht _ (timeline_push _) _ => by apply ht_modify
    | |- ht _ (timeline_push_all _) _ => by apply ht_modify
    | |- ht _ (zoom _ _ _) _ => by apply ht_zoom
    end.

Lemma zoom_generateMixedTrials_returns random (n : Number) :
  returns (zoom b_drawn with_b_drawn (generateMixedTrials random n)).
Proof.
  intros b. unfold zoom, generateMixedTrials.
  pose proof (for_lt_returns (loop_body random) n (loop_body_returns random)
                {| drawn := b_drawn b; mixedTrials := [] |}) as Hn.
  by destruct (for_lt _ _ _ _ _) as [[] s].
Qed.

Ltac returning :=
  repeat lazymatch goal with
    | |- returns (bind _ _) => apply returns_bind; [|intros ?]
    | |- returns (when _ _) => apply returns_when
    | |- returns (forEach _ _) => apply forEach_returns; intros ? ?
    | |- returns (member _ _ _) => apply returns_member
    | |- returns (ret _) => apply returns_ret
    | |- returns get => apply returns_get
    | |- returns (timeline_push _) => apply returns_modify
    | |- returns (timeline_push_all _) => apply returns_modify
    | |- returns (zoom _ _ (generateMixedTrials _ _)) =>
        apply zoom_generateMixedTrials_returns
    | |- returns (zoom _ _ _) => by apply returns_zoom
    end.

Lemma createTimeline_body_globals random (options : Options.options) (b : Build) :
  b_globals (createTimeline_body random options b).2 = reset (b_globals b).
Proof.
  set (P := globals_are (reset (b_globals b))).
  cut (ht (eq b) (createTimeline_body random options) P); [by intros Hht; apply Hht|].
  unfold createTimeline_body. apply (ht_bind _ P); [by intros ? <-| |done].
  intros _. frame.
Qed.

Lemma createTimeline_body_returns random (options : Options.options) :
  returns (createTimeline_body random options).
Proof. unfold createTimeline_body. returning. Qed.

Lemma no_narration_imap {A} (f : nat -> A -> Screen) (l : list A) :
  (forall i x, narrates (f i x) = false) ->
  Forall (fun s => narrates s = false) (imap f l).
Proof. intros Hf. by apply (Forall_imap_intro (fun _ => True)); [apply Forall_true|]. Qed.

(** The timeline [createTimeline] returns is a layout. *)
Lemma createTimeline_layout random (options : Options.options) (s : Globals * nat)
    (l : list Screen) :
  unit_interval random -> (createTimeline random options s).1 = Ok l ->
  exists p t si sr d k, l = Layout.screens p t si sr (Spec.trials random d k).
Proof.
  intros Hr. unfold createTimeline. rewrite createTimeline_body_run by done.
  intros [= <-]. by eexists _, _, _, _, _, _.
Qed.

(** *** The trials of each phase *)

Lemma trial_nums_app phase l k :
  trial_nums phase (l ++ k) = trial_nums phase l ++ trial_nums phase k.
Proof. apply omap_app. Qed.

Lemma trial_nums_imap phase phase' (f : nat -> Trial -> Screen) (l : list Trial) :
  (forall i t, exists d, data (f i t) = TrialInfo d /\ d_phase d = phase' /\
                         d_trial_num d = (Z.of_nat i + 1)%Z) ->
  trial_nums phase (imap f l) = if decide (phase' = phase) then one_to (length l) else [].
Proof.
  intros Hf. unfold trial_nums, one_to. case_decide as Hp.
  - rewrite <- (imap_seq_0 l (fun i => (Z.of_nat i + 1)%Z)). apply omap_imap_Some.
    intros i t. destruct (Hf i t) as (d & -> & Hd & ->). by rewrite decide_True by congruence.
  - apply omap_imap_None. intros i t. destruct (Hf i t) as (d & -> & Hd & _).
    by rewrite decide_False by congruence.
Qed.

Lemma trial_nums_instructions phase l :
  Forall (fun s => data s = NoData \/ exists x, data s = WelcomeData x) l ->
  trial_nums phase l = [].
Proof.
  induction 1 as [|s l Hs _ IH]; [done|]. unfold trial_nums in *. cbn.
  by destruct Hs as [->|[x ->]].
Qed.

Lemma trial_nums_screens phase p t si sr (m : list Trial) :
  phase ∈ ["color_practice"; "color_test"; "shape_test"; "mixed"] ->
  trial_nums phase (Layout.screens p t si sr m)
  = one_to (if decide (phase = "color_practice") then slice_count 5 p
            else if decide (phase = "mixed") then length m else slice_count 5 t).
Proof.
  intros Hp. unfold Layout.screens, Layout.practice, Layout.test, Layout.mixed.
  rewrite !trial_nums_app.
  rewrite (trial_nums_imap phase "color_practice"), (trial_nums_imap phase "color_test"),
    (trial_nums_imap phase "shape_test"), (trial_nums_imap phase "mixed"),
    !length_js_slice0 by (intros; by eexists).
  rewrite !(trial_nums_instructions phase)
    by (destruct si; try destruct sr; repeat constructor; eauto).
  revert Hp. rewrite !elem_of_cons.
  intros [-> | [-> | [-> | [-> | []%elem_of_nil]]]]; cbn; by rewrite ?app_nil_r.
Qed.

(** After the welcome screen no entry has an [on_finish]. *)
Lemma screens_after_welcome p t si sr m :
  exists rest, Layout.screens p t si sr m = createWelcome :: rest /\
    Forall (fun s => on_finish s = NoOnFinish) rest.
Proof.
  eexists. split; [done|].
  repeat (apply Forall_app; split); try by apply Forall_imap_all.
  all: destruct si; try destruct sr; by repeat constructor.
Qed.

(** The module state a call leaves behind. *)
Lemma createTimeline_reset random (options : Options.options) (g : Globals) (d : nat) :
  unit_interval random -> (createTimeline random options (g, d)).2.1 = reset g.
Proof. intros Hr. unfold createTimeline. by rewrite createTimeline_body_run. Qed.

(** ** Theorems *)

Section Claims.
Context (random : nat -> Number).

(** C4. With [Math.random] in [0, 1), [createTimeline] returns the
    timeline of the layout: the welcome screen, then for each phase its
    instructions (when shown) and its trial screens, numbered from 1, the
    fixed tables cut by [slice] and the mixed trials as generated, then the
    results screen (when shown); the module state is reset and two random
    numbers are drawn for each mixed trial. *)
Theorem createTimeline_refines (options : Options.options) (g : Globals) (d : nat) :
  unit_interval random ->
  let m := default DEFAULT_MIXED_TRIALS (Options.mixedTrials options) in
  createTimeline random options (g, d)
  = (Ok (Layout.of_options options (Spec.trials random d (loop_count m))),
     (reset g, (d + 2 * loop_count m)%nat)).
Proof. intros Hr m. unfold createTimeline. by rewrite createTimeline_body_run. Qed.

(** C16. Every screen of a timeline is sound: a trial screen records the
    phase, number, dimension, expected response and target of the trial its
    [on_load] gives to [setupTrial], feedback is on in the practice phase
    only, and the trial is well posed for the dimension it is played on. *)
Theorem createTimeline_sound (options : Options.options) (s : Globals * nat)
    (l : list Screen) :
  unit_interval random ->
  (createTimeline random options s).1 = Ok l -> Forall sound l.
Proof.
  intros Hr (p & t & si & sr & d & k & ->)%createTimeline_layout; [|done].
  apply sound_screens.
Qed.

(** C15. Every entry of a timeline is one jsPsych can run.  A trial entry is
    an [html-keyboard-response] screen with [choices: "NO_KEYS"] and
    [trial_duration: null], its markup has exactly two choice cards and the
    feedback element, its trial number is at least 1 and its expected
    response is 0 or 1; every other entry is an [html-button-response]
    screen with a button. *)
Theorem createTimeline_well_formed (options : Options.options) (s : Globals * nat)
    (l : list Screen) :
  unit_interval random ->
  (createTimeline random options s).1 = Ok l -> Forall well_formed l.
Proof.
  intros Hr (p & t & si & sr & d & k & ->)%createTimeline_layout; [|done].
  apply well_formed_screens.
Qed.

(** C29. The trials can be read back from the timeline: the [on_load] of
    the trial entries, in order, hand to [setupTrial] the rows of the
    practice table, of the two test tables (each cut by [slice]) and the
    generated mixed trials, each with its phase, its dimension and its
    index, and nothing else. *)
Theorem createTimeline_read_back (options : Options.options) (g : Globals) (d : nat)
    (l : list Screen) :
  unit_interval random -> (createTimeline random options (g, d)).1 = Ok l ->
  let p := default DEFAULT_PRACTICE_TRIALS (Options.practiceTrials options) in
  let t := default DEFAULT_TEST_TRIALS (Options.testTrials options) in
  let m := default DEFAULT_MIXED_TRIALS (Options.mixedTrials options) in
  omap read_back l
  = Entries.table "color_practice" "color" (js_slice0 COLOR_PRACTICE_TRIALS p)
    ++ Entries.table "color_test" "color" (js_slice0 COLOR_TEST_TRIALS t)
    ++ Entries.table "shape_test" "shape" (js_slice0 SHAPE_TEST_TRIALS t)
    ++ Entries.mixed (Spec.trials random d (loop_count m)).
Proof.
  intros Hr. unfold createTimeline. rewrite createTimeline_body_run by done.
  intros [= <-]. apply read_back_screens.
Qed.

(** For counts that are integers and not negative the timeline has
    one welcome screen, seven instruction screens when instructions are
    shown, [min p 5] practice trials, [min t 5] trials in each of the two
    test phases, [m] mixed trials, and the results screen when it is
    shown. *)
Theorem createTimeline_length (p t m : Z) (si sr : bool) (s : Globals * nat) :
  unit_interval random -> (0 <= p)%Z -> (0 <= t)%Z -> (0 <= m)%Z ->
  let options :=
    {| Options.practiceTrials := Some (inject_Z p);
       Options.testTrials := Some (inject_Z t);
       Options.mixedTrials := Some (inject_Z m);
       Options.showInstructions := Some si; Options.showResults := Some sr |} in
  length <$> value_of (createTimeline random options s).1
  = Some (Z.to_nat (1 + (if si then 7 else 0) + Z.min p 5 + 2 * Z.min t 5 + m
                    + (if sr then 1 else 0))).
Proof.
  intros Hr Hp Ht Hm options. unfold createTimeline.
  rewrite createTimeline_body_run by done. cbn [fst value_of fmap option_fmap option_map].
  f_equal. unfold Layout.of_options, Layout.screens, options.
  cbn [default from_option id timeline b_drawn Options.practiceTrials
       Options.testTrials Options.mixedTrials Options.showInstructions
       Options.showResults].
  rewrite !length_app, length_practice, !length_test, length_mixed, length_trials,
    loop_count_inject by done.
  destruct si, sr; cbn [length createColorInstructions createColorTestInstructions]; lia.
Qed.

(** C30. Whatever the options and whatever [Math.random] does,
    [createTimeline] leaves the module state reset and [window] as it was,
    also when it ends by an exception. *)
Theorem createTimeline_resets_state (options : Options.options) (s : Globals * nat) :
  (createTimeline random options s).2.1 = reset s.1.
Proof.
  unfold createTimeline.
  pose proof (createTimeline_body_globals random options
                {| b_globals := s.1; b_drawn := s.2; timeline := [] |}) as Hg.
  by destruct (createTimeline_body _ _ _).
Qed.

(** [createTimeline] returns, with a timeline or with an exception,
    for all options and every behaviour of [Math.random]. *)
Theorem createTimeline_terminates (options : Options.options) (s : Globals * nat) :
  (createTimeline random options s).1 <> Timeout.
Proof.
  unfold createTimeline.
  pose proof (createTimeline_body_returns random options
                {| b_globals := s.1; b_drawn := s.2; timeline := [] |}) as Hg.
  by destruct (createTimeline_body _ _ _).
Qed.

(** Without instructions no screen of the timeline narrates: it holds
    the welcome screen, trial screens and the results screen only. *)
Theorem createTimeline_no_instructions (options : Options.options) (s : Globals * nat)
    (l : list Screen) :
  unit_interval random -> Options.showInstructions options = Some false ->
  (createTimeline random options s).1 = Ok l ->
  Forall (fun s => narrates s = false) l.
Proof.
  intros Hr Hsi. unfold createTimeline. rewrite createTimeline_body_run by done.
  intros [= <-]. unfold Layout.of_options, Layout.screens. rewrite Hsi.
  cbn [default from_option id].
  repeat (apply Forall_app; split); try by apply no_narration_imap.
  all: try destruct (default true _); by repeat constructor.
Qed.

(** C33. The number of trials of each phase, for every value of the
    counts.  The trial screens of each phase are numbered from 1 without a
    gap; the fixed phases have the [slice_count] of their count out of five
    ([slice_count_cases]: a count that is not negative is cut to its
    integer part and to five, a count of -1 or less counts from the end of
    the table, a count between -1 and 0 gives none), the mixed phase has
    its count rounded up, and none when the count is not positive. *)
Theorem createTimeline_counts (options : Options.options) (s : Globals * nat)
    (l : list Screen) :
  unit_interval random -> (createTimeline random options s).1 = Ok l ->
  let p := default DEFAULT_PRACTICE_TRIALS (Options.practiceTrials options) in
  let t := default DEFAULT_TEST_TRIALS (Options.testTrials options) in
  let m := default DEFAULT_MIXED_TRIALS (Options.mixedTrials options) in
  trial_nums "color_practice" l = one_to (slice_count 5 p) /\
  trial_nums "color_test" l = one_to (slice_count 5 t) /\
  trial_nums "shape_test" l = one_to (slice_count 5 t) /\
  trial_nums "mixed" l = one_to (loop_count m).
Proof.
  intros Hr. unfold createTimeline. rewrite createTimeline_body_run by done.
  intros [= <-]. unfold Layout.of_options.
  rewrite !trial_nums_screens, length_trials by by_decide. done.
Qed.

End Claims.

(** The default timeline, with [Math.random] fixed to 0.5 as in the
    test-suite: 54 screens, five trials numbered 1 to 5 in the practice and
    in each test phase and thirty mixed trials numbered 1 to 30. *)
Theorem createTimeline_default :
  exists l, (createTimeline half Options.empty_options (used_globals, 0%nat)).1 = Ok l /\
    length l = 54%nat /\
    trial_nums "color_practice" l = [1; 2; 3; 4; 5]%Z /\
    trial_nums "color_test" l = [1; 2; 3; 4; 5]%Z /\
    trial_nums "shape_test" l = [1; 2; 3; 4; 5]%Z /\
    trial_nums "mixed" l = Z.of_nat <$> seq 1 30.
Proof. eexists. split; [by vm_compute|]. by vm_compute. Qed.

(** Counts outside the expected range: a negative number of practice
    trials counts from the end of the table (-1 gives four), a fractional
    number of test trials is cut down by [slice] (2.5 gives two in each test
    phase) while the same number of mixed trials is rounded up by the loop
    (2.5 gives three). *)
Theorem createTimeline_odd_counts :
  let options :=
    {| Options.practiceTrials := Some (-1)%Q; Options.testTrials := Some (5 # 2)%Q;
       Options.mixedTrials := Some (5 # 2)%Q;
       Options.showInstructions := None; Options.showResults := None |} in
  exists l, (createTimeline half options (used_globals, 0%nat)).1 = Ok l /\
    trial_nums "color_practice" l = [1; 2; 3; 4]%Z /\
    trial_nums "color_test" l = [1; 2]%Z /\
    trial_nums "shape_test" l = [1; 2]%Z /\
    trial_nums "mixed" l = [1; 2; 3]%Z.
Proof. eexists. split; [by vm_compute|]. by vm_compute. Qed.

(** ** Witnesses *)

Lemma createTimeline_refines_witness :
  createTimeline half Options.empty_options (used_globals, 0%nat)
  = (Ok (Layout.of_options Options.empty_options
           (Spec.trials half 0 (loop_count (default DEFAULT_MIXED_TRIALS
                                              (Options.mixedTrials Options.empty_options))))),
     (reset used_globals,
      (0 + 2 * loop_count (default DEFAULT_MIXED_TRIALS
                             (Options.mixedTrials Options.empty_options)))%nat)).
Proof.
  apply (createTimeline_refines half Options.empty_options used_globals 0), half_unit_interval.
Defined.

Lemma createTimeline_sound_witness :
  Forall sound (Layout.of_options Options.empty_options (Spec.trials half 0 30)).
Proof.
  apply (createTimeline_sound half Options.empty_options (used_globals, 0%nat));
    [apply half_unit_interval|by vm_compute].
Defined.

Lemma createTimeline_well_formed_witness :
  Forall well_formed (Layout.of_options Options.empty_options (Spec.trials half 0 30)).
Proof.
  apply (createTimeline_well_formed half Options.empty_options (used_globals, 0%nat));
    [apply half_unit_interval|by vm_compute].
Defined.

Lemma createTimeline_read_back_witness :
  omap read_back (Layout.of_options Options.empty_options (Spec.trials half 0 30))
  = Entries.table "color_practice" "color" (js_slice0 COLOR_PRACTICE_TRIALS 5)
    ++ Entries.table "color_test" "color" (js_slice0 COLOR_TEST_TRIALS 5)
    ++ Entries.table "shape_test" "shape" (js_slice0 SHAPE_TEST_TRIALS 5)
    ++ Entries.mixed (Spec.trials half 0 30).
Proof.
  apply (createTimeline_read_back half Options.empty_options used_globals 0%nat);
    [apply half_unit_interval|by vm_compute].
Defined.

Lemma createTimeline_counts_witness :
  let options :=
    {| Options.practiceTrials := Some (-1)%Q; Options.testTrials := Some (5 # 2)%Q;
       Options.mixedTrials := Some (5 # 2)%Q;
       Options.showInstructions := None; Options.showResults := None |} in
  let l := Layout.of_options options (Spec.trials half 0 3) in
  trial_nums "color_practice" l = one_to (slice_count 5 (-1)) /\
  trial_nums "color_test" l = one_to (slice_count 5 (5 # 2)) /\
  trial_nums "shape_test" l = one_to (slice_count 5 (5 # 2)) /\
  trial_nums "mixed" l = one_to (loop_count (5 # 2)).
Proof.
  intros options l.
  apply (createTimeline_counts half options (used_globals, 0%nat));
    [apply half_unit_interval|by vm_compute].
Defined.

Lemma createTimeline_length_witness :
  length <$> value_of (createTimeline half
    {| Options.practiceTrials := Some (inject_Z 2);
       Options.testTrials := Some (inject_Z 7);
       Options.mixedTrials := Some (inject_Z 4);
       Options.showInstructions := Some false; Options.showResults := Some true |}
    (used_globals, 0%nat)).1
  = Some (Z.to_nat (1 + 0 + Z.min 2 5 + 2 * Z.min 7 5 + 4 + 1)).
Proof.
  apply (createTimeline_length half 2 7 4 false true (used_globals, 0%nat));
    [apply half_unit_interval|lia..].
Defined.

Lemma createTimeline_no_instructions_witness :
  Forall (fun s => narrates s = false)
    (Layout.screens 5 5 false true (Spec.trials half 0 2)).
Proof.
  apply (createTimeline_no_instructions half
           {| Options.practiceTrials := None; Options.testTrials := None;
              Options.mixedTrials := Some 2%Q;
              Options.showInstructions := Some false; Options.showResults := None |}
           (used_globals, 0%nat));
    [apply half_unit_interval|done|by vm_compute].
Defined.
