(* ===== verification/Evaluator.v ===== *)
(** * The response evaluator

    [setupTrial] of [src/src/index.ts] and the closures it creates.  A call
    of [setupTrial] allocates a [Closure]: the variables its callbacks
    capture ([trial], [withFeedback], [startTime]) and the latch
    [responded].  The functions it creates are data: [OnClick] is the
    listener added to a card, [FinishLater] the function given to
    [setTimeout] on the feedback path, [Prompt] the five second reminder;
    [run_listener] and [run_callback] are their code.

    The environment [Env] holds what these handlers read and write: the
    module state and [window] ([Audio.Globals]), the clock
    ([performance.now()]), the DOM of the trial screen, the closures, the
    pending timers, the host's state and the log of the calls of
    [jsPsych.finishTrial].  The host is any instance of the class
    [JsPsych].

    The event loop is [step_fn] (executable) and [step] (the relation):
    the user clicks a card, a timer whose time has come fires, time passes,
    and the host renders a screen or calls [setupTrial].

    The clock and the reaction times are rationals: a handler reports the
    difference of two readings.  [reaction_time] is the subtraction as the
    program computes it, in binary64, and [reaction_time_exact] shows that
    the report of a click is that number. *)

From Stdlib Require Import ZArith QArith Lia Lqa.
From stdpp Require Import base tactics decidable option list strings.
From S2P Require Import Prelude Doubles Stimuli Audio.

Open Scope string_scope.
Open Scope list_scope.

(** ** Data *)

(** [performance.now() - startTime] in binary64.  The handlers below record
    the difference of the two readings as a rational; [reaction_time_exact]
    states when that is the number the program computes. *)
Definition reaction_time (now startTime : Number) : JsNumber := js_sub now startTime.

(** The argument of [jsPsych.finishTrial]. *)
Record FinishData : Type := {
  fd_response : nat;
  fd_correct : bool;
  fd_rt : Number;
}.

(** The function given to [addEventListener]. *)
Inductive Listener : Type :=
| OnClick (inst : nat) (cardIndex : nat).

(** The functions given to [setTimeout]. *)
Inductive Callback : Type :=
| FinishLater (inst : nat) (cardIndex : nat) (correct : bool)
| Prompt (inst : nat).

#[export] Instance Listener_eq_dec : EqDecision Listener.
Proof. solve_decision. Defined.

#[export] Instance Callback_eq_dec : EqDecision Callback.
Proof. solve_decision. Defined.

Record Closure : Type := {
  trial : Trial;
  withFeedback : bool;
  startTime : Number;
  responded : bool;
}.

Record Card : Type := {
  classList : list string;
  listeners : list Listener;
}.

Record FeedbackDiv : Type := {
  textContent : string;
  className : string;
}.

(** [cards] is [document.querySelectorAll('.dccs-choice-card')] and
    [feedback] is [document.getElementById('feedback')]. *)
Record Dom : Type := {
  cards : list Card;
  feedback : option FeedbackDiv;
}.

Record Env (H : Type) : Type := {
  globals : Globals;
  now : Number;
  dom : Dom;
  closures : list Closure;
  timers : list (Number * Callback);
  finish_log : list (nat * FinishData);
  host : H;
}.
Arguments globals {H} _.
Arguments now {H} _.
Arguments dom {H} _.
Arguments closures {H} _.
Arguments timers {H} _.
Arguments finish_log {H} _.
Arguments host {H} _.

(** What the program asks of the host framework. *)
Class JsPsych (H : Type) : Type := {
  finishTrial : FinishData -> H -> H;
  getCurrentTrial : H -> bool;
}.

Inductive Event : Type :=
| Click (card : nat)
| Fire (timer : nat)
| Elapse (d : Number)
| Render (n : nat) (with_feedback_div : bool)
| Setup (t : Trial) (phase : string) (trialNum : Z) (dimension : string)
        (withFeedback : bool).

(** ** Field updates *)

Section Updates.
Context {H : Type}.
Implicit Type e : Env H.

Definition with_globals (g : Globals) e : Env H :=
  {| globals := g; now := now e; dom := dom e; closures := closures e;
     timers := timers e; finish_log := finish_log e; host := host e |}.

Definition with_now (t : Number) e : Env H :=
  {| globals := globals e; now := t; dom := dom e; closures := closures e;
     timers := timers e; finish_log := finish_log e; host := host e |}.

Definition with_dom (d : Dom) e : Env H :=
  {| globals := globals e; now := now e; dom := d; closures := closures e;
     timers := timers e; finish_log := finish_log e; host := host e |}.

Definition with_closures (c : list Closure) e : Env H :=
  {| globals := globals e; now := now e; dom := dom e; closures := c;
     timers := timers e; finish_log := finish_log e; host := host e |}.

Definition with_timers (t : list (Number * Callback)) e : Env H :=
  {| globals := globals e; now := now e; dom := dom e; closures := closures e;
     timers := t; finish_log := finish_log e; host := host e |}.

Definition with_finish (l : list (nat * FinishData)) (h : H) e : Env H :=
  {| globals := globals e; now := now e; dom := dom e; closures := closures e;
     timers := timers e; finish_log := l; host := h |}.

End Updates.

Definition set_responded (c : Closure) : Closure :=
  {| trial := trial c; withFeedback := withFeedback c;
     startTime := startTime c; responded := true |}.

Definition add_listener (cb : Listener) (c : Card) : Card :=
  {| classList := classList c; listeners := listeners c ++ [cb] |}.

(** [DOMTokenList.add]: the list of classes is a set. *)
Definition add_class (cls : string) (c : Card) : Card :=
  {| classList := if decide (cls ∈ classList c) then classList c
                  else classList c ++ [cls];
     listeners := listeners c |}.

(** A screen just rendered: [n] cards without classes or listeners. *)
Definition fresh_dom (n : nat) (with_feedback_div : bool) : Dom :=
  {| cards := replicate n {| classList := []; listeners := [] |};
     feedback := if with_feedback_div
                 then Some {| textContent := ""; className := "dccs-feedback" |}
                 else None |}.

(** ** The handlers *)

Section Handlers.
Context {H : Type} `{JsPsych H}.

(** A call [playAudio(txt)] made by a handler: [Audio.playAudio] run on the
    globals of the environment. *)
Definition say (txt : string) : M (Env H) unit :=
  zoom globals with_globals (Audio.playAudio txt).

Definition performance_now : M (Env H) Number := fun e => (Ok (now e), e).

Definition setTimeout (cb : Callback) (delay : Number) : M (Env H) unit :=
  modify (fun e => with_timers (timers e ++ [((now e + delay)%Q, cb)]) e).

Definition addEventListener (cardIndex : nat) (cb : Listener) : M (Env H) unit :=
  modify (fun e =>
    with_dom {| cards := alter (add_listener cb) cardIndex (cards (dom e));
                feedback := feedback (dom e) |} e).

Definition set_feedback (txt cls : string) : M (Env H) unit :=
  modify (fun e =>
    with_dom {| cards := cards (dom e);
                feedback := Some {| textContent := txt; className := cls |} |} e).

(** [cards[i].classList.add(cls)]: a type error when [cards[i]] is
    undefined. *)
Definition classList_add (i : Z) (cls : string) : M (Env H) unit :=
  e <- get ;;
  _ <- member (js_index (cards (dom e)) i) id "classList" ;;
  put (with_dom {| cards := alter (add_class cls) (Z.to_nat i) (cards (dom e));
                   feedback := feedback (dom e) |} e).

Definition call_finishTrial (inst : nat) (d : FinishData) : M (Env H) unit :=
  modify (fun e =>
    with_finish (finish_log e ++ [(inst, d)]) (finishTrial d (host e)) e).

Definition mark_responded (inst : nat) : M (Env H) unit :=
  modify (fun e => with_closures (alter set_responded inst (closures e)) e).

(** The listener of card [cardIndex], lines 153-188. *)
Definition clickHandler (inst cardIndex : nat) : M (Env H) unit :=
  e <- get ;;
  match closures e !! inst with
  | None => ret tt
  | Some c =>
    if responded c then ret tt else
    mark_responded inst ;;
    let correct := bool_decide (Z.of_nat cardIndex = Stimuli.correct (trial c)) in
    if withFeedback c then
      e <- get ;;
      when (bool_decide (is_Some (feedback (dom e))))
        (if correct then
           set_feedback "That's right!" "dccs-feedback correct" ;;
           say "That's right!"
         else
           set_feedback "This is the same color." "dccs-feedback incorrect" ;;
           say "This is the same color, so you should choose this picture." ;;
           classList_add (Stimuli.correct (trial c)) "highlight") ;;
      setTimeout (FinishLater inst cardIndex correct)
                 (if correct then 1500 else 2500)
    else
      t <- performance_now ;;
      call_finishTrial inst
        {| fd_response := cardIndex; fd_correct := correct;
           fd_rt := t - startTime c |}
  end.

(** The function passed to [setTimeout] on the feedback path, lines 174-180. *)
Definition finishLater (inst cardIndex : nat) (correct : bool) : M (Env H) unit :=
  e <- get ;;
  match closures e !! inst with
  | None => ret tt
  | Some c =>
    t <- performance_now ;;
    call_finishTrial inst
      {| fd_response := cardIndex; fd_correct := correct;
         fd_rt := t - startTime c |}
  end.

(** The reminder, lines 193-197. *)
Definition prompt (inst : nat) : M (Env H) unit :=
  e <- get ;;
  match closures e !! inst with
  | None => ret tt
  | Some c =>
    when (negb (responded c) && getCurrentTrial (host e))
      (say "Choose one of the pictures.")
  end.

Definition run_listener (l : Listener) : M (Env H) unit :=
  match l with
  | OnClick inst cardIndex => clickHandler inst cardIndex
  end.

Definition run_callback (cb : Callback) : M (Env H) unit :=
  match cb with
  | FinishLater inst cardIndex correct => finishLater inst cardIndex correct
  | Prompt inst => prompt inst
  end.

(** [cards.forEach((card, cardIndex) => card.addEventListener(...))]. *)
Definition forEach_card (inst : nat) (n : nat) : M (Env H) unit :=
  iterM (fun cardIndex => addEventListener cardIndex (OnClick inst cardIndex))
        (seq 0 n).

Definition setupTrial (t : Trial) (phase : string) (trialNum : Z)
    (dimension : string) (withFeedback : bool) : M (Env H) unit :=
  say (toUpperCase dimension) ;;
  e <- get ;;
  let cards := cards (dom e) in
  startTime <- performance_now ;;
  let inst := length (closures e) in
  put (with_closures
         (closures e ++ [{| trial := t; withFeedback := withFeedback;
                            startTime := startTime; responded := false |}]) e) ;;
  forEach_card inst (length cards) ;;
  when (negb withFeedback) (setTimeout (Prompt inst) 5000).

(** ** The event loop *)

(** A callback that throws is reported and the loop goes on: what it wrote
    before stays. *)
Definition invoke (cb : Callback) (e : Env H) : Env H := (run_callback cb e).2.

Definition dispatch (ls : list Listener) (e : Env H) : Env H :=
  foldl (fun e l => (run_listener l e).2) e ls.

Definition step_fn (ev : Event) (e : Env H) : option (Env H) :=
  match ev with
  | Click i =>
      c ← cards (dom e) !! i; Some (dispatch (listeners c) e)
  | Fire k =>
      '(due, cb) ← timers e !! k;
      if Qle_bool due (now e)
      then Some (invoke cb (with_timers (delete k (timers e)) e))
      else None
  | Elapse d =>
      if Qle_bool 0 d then Some (with_now (now e + d)%Q e) else None
  | Render n fb => Some (with_dom (fresh_dom n fb) e)
  | Setup t phase trialNum dimension fb =>
      Some (setupTrial t phase trialNum dimension fb e).2
  end.

Inductive step : Env H -> Event -> Env H -> Prop :=
| step_click e i c :
    cards (dom e) !! i = Some c ->
    step e (Click i) (dispatch (listeners c) e)
| step_fire e k due cb :
    timers e !! k = Some (due, cb) -> (due <= now e)%Q ->
    step e (Fire k) (invoke cb (with_timers (delete k (timers e)) e))
| step_elapse e d :
    (0 <= d)%Q -> step e (Elapse d) (with_now (now e + d)%Q e)
| step_render e n fb :
    step e (Render n fb) (with_dom (fresh_dom n fb) e)
| step_setup e t phase trialNum dimension fb :
    step e (Setup t phase trialNum dimension fb)
         (setupTrial t phase trialNum dimension fb e).2.

(** Runs: a list of events, oldest first. *)
Inductive steps : Env H -> list Event -> Env H -> Prop :=
| steps_nil e : steps e [] e
| steps_cons e ev e' evs e'' :
    step e ev e' -> steps e' evs e'' -> steps e (ev :: evs) e''.

Fixpoint run (evs : list Event) (e : Env H) : option (Env H) :=
  match evs with
  | [] => Some e
  | ev :: evs' => e' ← step_fn ev e; run evs' e'
  end.

End Handlers.

Arguments clickHandler : simpl never.
Arguments finishLater : simpl never.
Arguments prompt : simpl never.
Arguments setupTrial : simpl never.
Arguments say : simpl never.

(** The environment before any trial. *)
Definition initial_env {H} (g : Globals) (h : H) : Env H :=
  {| globals := g; now := 0; dom := fresh_dom 0 false; closures := [];
     timers := []; finish_log := []; host := h |}.

(** The delay between a click and the report, on the feedback path. *)
Definition feedback_delay (correct : bool) : Number :=
  if correct then 1500 else 2500.

(** The host of the test-suite: it records the calls of [finishTrial] and
    always has a current trial. *)
#[export] Instance mockJsPsych : JsPsych (list FinishData) := {|
  finishTrial d h := h ++ [d];
  getCurrentTrial _ := true;
|}.

(** A session to run the theorems on: narration on, the first colour test
    trial shown on two cards, answered after 700 ms and clicked twice more. *)
Definition demo_globals : Globals :=
  {| state := {| audio_enabled := true; current_phase := ""; trials_completed := 0 |};
     window := {| speechSynthesis := Some []; tempaudio_enabled := None |} |}.

Definition demo_trial : Trial :=
  fixed_trial STIMULI.blueTruck STIMULI.blueBall STIMULI.orangeTruck 0.

Definition demo_env : Env (list FinishData) := initial_env demo_globals [].

Definition demo_test_events : list Event :=
  [ Render 2 false; Setup demo_trial "color_test" 1 "color" false;
    Elapse 700; Click 0; Click 1; Elapse 5000; Fire 0 ].

(** A practice screen that lost its right card, on a trial whose answer is
    the right card: the situation in which the click handler throws. *)
Definition demo_one_card_events : list Event :=
  [ Render 1 true;
    Setup (fixed_trial STIMULI.orangeBall STIMULI.blueBall STIMULI.orangeTruck 1)
          "color_practice" 1 "color" true;
    Elapse 700 ].

Definition demo_one_card : Env (list FinishData) :=
  default demo_env (run demo_one_card_events demo_env).

(** The trial on screen and 700 ms old, without and with feedback. *)
Definition demo_test_ready : Env (list FinishData) :=
  default demo_env
    (run [Render 2 false; Setup demo_trial "color_test" 1 "color" false;
          Elapse 700] demo_env).

Definition demo_practice_ready : Env (list FinishData) :=
  default demo_env
    (run [Render 2 true; Setup demo_trial "color_practice" 1 "color" true;
          Elapse 700] demo_env).

(** The test trial after a click on the left card. *)
Definition demo_test_answered : Env (list FinishData) :=
  default demo_env (step_fn (Click 0) demo_test_ready).

(** The cards after the first [n] of them were given their listener. *)
Definition listen (inst n : nat) (cs : list Card) : list Card :=
  imap (fun i c => if decide (i < n)%nat then add_listener (OnClick inst i) c else c) cs.

(** ** Lemmas: what the handlers compute *)

Lemma listen_0 inst cs : listen inst 0 cs = cs.
Proof.
  unfold listen. rewrite (imap_ext _ (const id) cs).
  - by rewrite imap_const, list_fmap_id.
  - intros i c _. by rewrite decide_False by lia.
Qed.

Lemma listen_S inst n cs :
  alter (add_listener (OnClick inst n)) n (listen inst n cs) = listen inst (S n) cs.
Proof.
  apply list_eq. intros j. unfold listen. destruct (decide (j = n)) as [->|Hne].
  - rewrite list_lookup_alter_eq, !list_lookup_imap.
    destruct (cs !! n); [|done]. cbn [fmap option_fmap option_map].
    by rewrite decide_False, decide_True by lia.
  - rewrite list_lookup_alter_ne, !list_lookup_imap by done.
    destruct (cs !! j); [|done]. cbn [fmap option_fmap option_map].
    destruct (decide (j < n)%nat).
    + by rewrite decide_True by lia.
    + by rewrite decide_False by lia.
Qed.

Lemma listen_all inst cs :
  listen inst (length cs) cs = imap (fun i c => add_listener (OnClick inst i) c) cs.
Proof.
  apply imap_ext. intros i c Hi%lookup_lt_Some. by rewrite decide_True.
Qed.

Section Run.
Context {H : Type} `{JsPsych H}.
Implicit Type e : Env H.

Lemma playAudio_run txt e :
  say txt e = (Ok tt, with_globals (Audio.playAudio txt (globals e)).2 e).
Proof.
  unfold say, zoom. pose proof (playAudio_Ok txt (globals e)).
  destruct (Audio.playAudio txt (globals e)) as [r g]. simpl in *. by subst.
Qed.

Lemma forEach_card_run inst n e :
  forEach_card inst n e
  = (Ok tt, with_dom {| cards := listen inst n (cards (dom e));
                        feedback := feedback (dom e) |} e).
Proof.
  unfold forEach_card. induction n as [|n IH].
  - rewrite listen_0. by destruct e as [? ? [] ? ? ? ?].
  - rewrite seq_S, iterM_app. unfold bind at 1. rewrite IH. cbn.
    unfold addEventListener. unfold_monad. cbn. by rewrite listen_S.
Qed.

Lemma setupTrial_run t phase trialNum dimension fb e :
  setupTrial t phase trialNum dimension fb e
  = (Ok tt,
     let inst := length (closures e) in
     let g := (Audio.playAudio (toUpperCase dimension) (globals e)).2 in
     let c := {| trial := t; withFeedback := fb; startTime := now e;
                 responded := false |} in
     let d := {| cards := imap (fun i c => add_listener (OnClick inst i) c)
                               (cards (dom e));
                 feedback := feedback (dom e) |} in
     {| globals := g; now := now e; dom := d; closures := closures e ++ [c];
        timers := timers e ++ (if fb then [] else [((now e + 5000)%Q, Prompt inst)]);
        finish_log := finish_log e; host := host e |}).
Proof.
  unfold setupTrial. unfold bind at 1. rewrite playAudio_run.
  unfold performance_now. unfold_monad. cbn. rewrite forEach_card_run. cbn.
  rewrite listen_all. destruct fb; cbn; [by rewrite app_nil_r|done].
Qed.

End Run.

Section Click.
Context {H : Type} `{JsPsych H}.
Implicit Type e : Env H.

Ltac unfold_handlers :=
  unfold clickHandler, finishLater, prompt, classList_add, set_feedback,
    setTimeout, mark_responded, call_finishTrial, performance_now;
  unfold_monad.

Lemma finishLater_run inst i c e :
  finishLater inst i c e =
  (Ok tt, match closures e !! inst with
          | Some cl =>
              let d := {| fd_response := i; fd_correct := c;
                          fd_rt := now e - startTime cl |} in
              with_finish (finish_log e ++ [(inst, d)]) (finishTrial d (host e)) e
          | None => e
          end).
Proof. unfold finishLater. unfold_monad. by case_match. Qed.

Lemma clickHandler_responded inst i e c :
  closures e !! inst = Some c -> responded c = true ->
  clickHandler inst i e = (Ok tt, e).
Proof. intros Hc Hr. unfold clickHandler. unfold_monad. by rewrite Hc, Hr. Qed.

Lemma clickHandler_no_feedback inst i e c :
  closures e !! inst = Some c -> responded c = false -> withFeedback c = false ->
  clickHandler inst i e =
  (Ok tt,
   let d := {| fd_response := i;
               fd_correct := bool_decide (Z.of_nat i = correct (trial c));
               fd_rt := now e - startTime c |} in
   with_finish (finish_log e ++ [(inst, d)]) (finishTrial d (host e))
     (with_closures (alter set_responded inst (closures e)) e)).
Proof. intros Hc Hr Hf. unfold_handlers. by rewrite Hc, Hr, Hf. Qed.

(** On the feedback path nothing is reported at the click: the call is
    scheduled, 1500 ms later for a correct answer and 2500 ms later for a
    wrong one. *)
Lemma clickHandler_feedback inst i e c :
  closures e !! inst = Some c -> responded c = false -> withFeedback c = true ->
  is_Some (js_index (cards (dom e)) (correct (trial c))) ->
  let b := bool_decide (Z.of_nat i = correct (trial c)) in
  let r := clickHandler inst i e in
  r.1 = Ok tt /\
  timers r.2 = timers e ++ [((now e + feedback_delay b)%Q, FinishLater inst i b)] /\
  closures r.2 = alter set_responded inst (closures e) /\
  finish_log r.2 = finish_log e /\ now r.2 = now e /\ host r.2 = host e.
Proof.
  intros Hc Hr Hf [card Hcard]. unfold_handlers. rewrite Hc, Hr, Hf. cbn.
  destruct (bool_decide (is_Some _)), (bool_decide (_ = _)); cbn;
    rewrite ?playAudio_run; cbn; rewrite ?Hcard; cbn; done.
Qed.

(** What the feedback path says: the phrase of the answer, when the page
    has the feedback element. *)
Lemma clickHandler_feedback_says inst i e c :
  closures e !! inst = Some c -> responded c = false -> withFeedback c = true ->
  is_Some (feedback (dom e)) ->
  globals (clickHandler inst i e).2
  = (Audio.playAudio (if bool_decide (Z.of_nat i = correct (trial c))
                      then "That's right!"
                      else "This is the same color, so you should choose this picture.")
                     (globals e)).2.
Proof.
  intros Hc Hr Hf Hfb. unfold_handlers. rewrite Hc, Hr, Hf. cbn.
  rewrite bool_decide_eq_true_2 by done.
  destruct (bool_decide (_ = _)); cbn; rewrite ?playAudio_run; cbn; [done|].
  by destruct (js_index _ _).
Qed.

Lemma clickHandler_throws inst i e c :
  closures e !! inst = Some c -> responded c = false -> withFeedback c = true ->
  is_Some (feedback (dom e)) -> Z.of_nat i <> correct (trial c) ->
  js_index (cards (dom e)) (correct (trial c)) = None ->
  let r := clickHandler inst i e in
  r.1 = Throw (TypeError "classList") /\
  timers r.2 = timers e /\
  closures r.2 = alter set_responded inst (closures e) /\
  finish_log r.2 = finish_log e /\ host r.2 = host e.
Proof.
  intros Hc Hr Hf Hfb Hi Hcard. unfold_handlers. rewrite Hc, Hr, Hf. cbn.
  rewrite bool_decide_eq_true_2, bool_decide_eq_false_2 by done. cbn.
  rewrite playAudio_run. cbn. rewrite Hcard. done.
Qed.

Lemma prompt_run inst e c :
  closures e !! inst = Some c ->
  prompt inst e =
  (Ok tt, if negb (responded c) && getCurrentTrial (host e)
          then with_globals (Audio.playAudio "Choose one of the pictures." (globals e)).2 e
          else e).
Proof.
  intros Hc. unfold prompt. unfold_monad. rewrite Hc.
  case_match; [apply playAudio_run|done].
Qed.

End Click.

Section Loop.
Context {H : Type} `{JsPsych H}.
Implicit Type e : Env H.

(** *** The executable event loop and the relation agree *)

Lemma step_fn_step ev e e' : step_fn ev e = Some e' <-> step e ev e'.
Proof.
  split.
  - destruct ev; simpl; intros Hs.
    + destruct (cards (dom e) !! card) eqn:E; simplify_eq/=. by constructor.
    + destruct (timers e !! timer) as [[due cb]|] eqn:E; simplify_eq/=.
      case_match eqn:Hd; simplify_eq. apply Qle_bool_iff in Hd. by econstructor.
    + case_match eqn:Hd; simplify_eq. apply Qle_bool_iff in Hd. by constructor.
    + simplify_eq. constructor.
    + simplify_eq. constructor.
  - destruct 1 as [e i c Hc|e k due cb Hk Hd|e d Hd| |]; simpl; try done.
    + by rewrite Hc.
    + rewrite Hk. simpl. by rewrite (proj2 (Qle_bool_iff _ _) Hd).
    + by rewrite (proj2 (Qle_bool_iff _ _) Hd).
Qed.

Lemma run_steps evs e e' : run evs e = Some e' <-> steps e evs e'.
Proof.
  revert e. induction evs as [|ev evs IH]; intros e; simpl.
  - split; [intros [= ->]; constructor|by inversion 1].
  - split.
    + intros Hr. destruct (step_fn ev e) as [e1|] eqn:E; [|done]. simpl in Hr.
      econstructor; [by apply step_fn_step|by apply IH].
    + inversion 1; subst. rewrite (proj2 (step_fn_step _ _ _)) by done. by apply IH.
Qed.

Lemma steps_one ev e e' : step_fn ev e = Some e' -> steps e [ev] e'.
Proof. intros Hs%step_fn_step. econstructor; [done|constructor]. Qed.

Lemma steps_app e evs e1 evs' e2 :
  steps e evs e1 -> steps e1 evs' e2 -> steps e (evs ++ evs') e2.
Proof. induction 1; [done|]. intros Hs. econstructor; eauto. Qed.

(** The event loop is deterministic: in a given environment an event
    has at most one outcome. *)
Lemma step_deterministic e ev e1 e2 : step e ev e1 -> step e ev e2 -> e1 = e2.
Proof. rewrite <- !step_fn_step. congruence. Qed.

End Loop.

Ltac invert_steps :=
  repeat match goal with
         | Hs : steps _ (_ :: _) _ |- _ => inversion Hs; clear Hs; subst
         | Hs : steps _ [] _ |- _ => inversion Hs; clear Hs; subst
         | Hs : step _ (Click _) _ |- _ => inversion Hs; clear Hs; subst
         | Hs : step _ (Fire _) _ |- _ => inversion Hs; clear Hs; subst
         | Hs : step _ (Elapse _) _ |- _ => inversion Hs; clear Hs; subst
         | Hs : step _ (Render _ _) _ |- _ => inversion Hs; clear Hs; subst
         | Hs : step _ (Setup _ _ _ _ _) _ |- _ => inversion Hs; clear Hs; subst
         end; simplify_eq.

(** ** Theorems *)

Section Claims.
Context {H : Type} `{JsPsych H}.
Implicit Type e : Env H.

Lemma step_click_inv e (i : nat) (card : Card) e' :
  cards (dom e) !! i = Some card -> step e (Click i) e' ->
  e' = dispatch (listeners card) e.
Proof. intros Hcard Hs. inversion Hs; by simplify_eq. Qed.

(** C7. A click on a card of a test trial that awaits its answer reports at
    once: the index of the card, whether it is the trial's [correct] index,
    and the time since [setupTrial]; the latch closes. *)
Theorem click_reports e (i : nat) (card : Card) (inst : nat) (c : Closure) e' :
  cards (dom e) !! i = Some card -> listeners card = [OnClick inst i] ->
  closures e !! inst = Some c -> responded c = false -> withFeedback c = false ->
  step e (Click i) e' ->
  let d := {| fd_response := i;
              fd_correct := bool_decide (Z.of_nat i = correct (trial c));
              fd_rt := now e - startTime c |} in
  finish_log e' = finish_log e ++ [(inst, d)] /\
  host e' = finishTrial d (host e) /\
  (responded <$> closures e' !! inst) = Some true.
Proof.
  intros Hcard Hl Hc Hr Hf ->%(step_click_inv _ _ card); [|done].
  rewrite Hl. unfold dispatch. cbn [foldl run_listener].
  rewrite (clickHandler_no_feedback _ _ _ _ Hc Hr Hf). cbn.
  by rewrite list_lookup_alter_eq, Hc.
Qed.

(** C32. Clicks on a card whose listeners belong to answered trials change
    nothing. *)
Theorem second_click_ignored e (i : nat) (card : Card) e' :
  cards (dom e) !! i = Some card ->
  Forall (fun '(OnClick inst _) => (responded <$> closures e !! inst) = Some true)
         (listeners card) ->
  step e (Click i) e' -> e' = e.
Proof.
  intros Hcard Hl ->%(step_click_inv _ _ card); [|done]. unfold dispatch.
  induction Hl as [|[inst j] ls Hr _ IH]; [done|]. cbn [foldl run_listener].
  destruct (closures e !! inst) as [c|] eqn:Hc; simplify_eq/=.
  by rewrite (clickHandler_responded _ _ _ c).
Qed.

(** A test trial from screen to report: the screen is rendered with [n]
    cards, [setupTrial] runs, [d] milliseconds pass and card [i] is
    clicked.  The host receives one report, with reaction time [d]. *)
Theorem test_trial_reports e (n : nat) (t : Trial) (phase dimension : string)
    (trialNum : Z) (d : Number) (i : nat) :
  (i < n)%nat -> (0 <= d)%Q ->
  exists e' r,
    run [Render n false; Setup t phase trialNum dimension false; Elapse d; Click i] e
      = Some e' /\
    finish_log e' = finish_log e ++ [(length (closures e), r)] /\
    host e' = finishTrial r (host e) /\
    fd_response r = i /\
    fd_correct r = bool_decide (Z.of_nat i = correct t) /\
    (fd_rt r == d)%Q.
Proof.
  intros Hi Hd. cbn [run step_fn]. cbn [mbind option_bind].
  rewrite setupTrial_run. cbn.
  rewrite (proj2 (Qle_bool_iff 0 d) Hd). cbn.
  rewrite list_lookup_imap, lookup_replicate_2 by done. cbn.
  erewrite clickHandler_no_feedback; [|by apply list_lookup_middle|done..].
  eexists _, _. split; [done|]. cbn. repeat split. cbn. ring.
Qed.

(** C19. On the feedback path the report is made when the delayed call fires,
    and its reaction time is measured then: it exceeds the time of the
    click by the feedback delay at least. *)
Theorem feedback_rt_includes_delay e (i : nat) (card : Card) (inst : nat)
    (c : Closure) (d : Number) e' :
  cards (dom e) !! i = Some card -> listeners card = [OnClick inst i] ->
  closures e !! inst = Some c -> responded c = false -> withFeedback c = true ->
  is_Some (js_index (cards (dom e)) (correct (trial c))) ->
  steps e [Click i; Elapse d; Fire (length (timers e))] e' ->
  exists r,
    finish_log e' = finish_log e ++ [(inst, r)] /\
    fd_response r = i /\
    fd_correct r = bool_decide (Z.of_nat i = correct (trial c)) /\
    (fd_rt r == (now e - startTime c) + d)%Q /\
    (feedback_delay (fd_correct r) <= d)%Q.
Proof.
  intros Hcard Hl Hc Hr Hf Hidx Hs. invert_steps.
  revert select (timers _ !! _ = _). revert select (_ <= now _)%Q.
  rewrite Hl. unfold dispatch, invoke. cbn [foldl run_listener].
  destruct (clickHandler_feedback inst i e c) as (_ & Hts & Hcs & Hlog & Hnow & Hhost);
    [done..|].
  destruct (clickHandler inst i e) as [r [g1 now1 dom1 cs1 ts1 log1 h1]].
  simplify_eq/=. rewrite lookup_app_r, Nat.sub_diag by done. intros Hdue [= <- <-].
  cbn [run_callback]. rewrite finishLater_run. cbn.
  rewrite list_lookup_alter_eq, Hc. cbn.
  eexists. split; [done|]. cbn. repeat split; cbn; [ring|lra].
Qed.

(** The reminder is silent once the trial was answered or when the host has
    no current trial; otherwise it is one call of [playAudio]. *)
Theorem prompt_only_while_waiting e (inst : nat) (c : Closure) :
  closures e !! inst = Some c ->
  (responded c = true \/ getCurrentTrial (host e) = false ->
   prompt inst e = (Ok tt, e)) /\
  (responded c = false -> getCurrentTrial (host e) = true ->
   prompt inst e = say "Choose one of the pictures." e).
Proof.
  intros Hc. rewrite (prompt_run _ _ _ Hc), playAudio_run. split.
  - by intros [-> | ->]; rewrite ?andb_false_r.
  - by intros -> ->.
Qed.

(** With a card at index [correct] the click handler does not throw. *)
Theorem clickHandler_no_throw e (inst i : nat) :
  (forall c, closures e !! inst = Some c ->
             is_Some (js_index (cards (dom e)) (correct (trial c)))) ->
  (clickHandler inst i e).1 = Ok tt.
Proof.
  intros Hidx. destruct (closures e !! inst) as [c|] eqn:Hc.
  - destruct (responded c) eqn:Hr; [by erewrite clickHandler_responded|].
    destruct (withFeedback c) eqn:Hf.
    + by apply (clickHandler_feedback inst i e c); [..|apply Hidx].
    + by erewrite clickHandler_no_feedback.
  - unfold clickHandler. unfold_monad. by rewrite Hc.
Qed.

(** C13. On a trial that is well posed for its dimension, a click on the
    card that agrees with the target on that dimension is reported as
    correct and a click on the other card as incorrect. *)
Theorem matching_card_is_correct e (i : nat) (card : Card) (inst : nat)
    (c : Closure) (dim : string) e' :
  cards (dom e) !! i = Some card -> listeners card = [OnClick inst i] ->
  closures e !! inst = Some c -> responded c = false -> withFeedback c = false ->
  well_posed dim (trial c) -> (i < 2)%nat ->
  step e (Click i) e' ->
  exists d, finish_log e' = finish_log e ++ [(inst, d)] /\
    fd_response d = i /\
    fd_correct d = same_on dim (if decide (i = 0%nat) then left (trial c)
                                else right (trial c)) (target (trial c)).
Proof.
  intros Hcard Hl Hc Hr Hf Hw Hi ->%(step_click_inv _ _ card); [|done].
  rewrite Hl. unfold dispatch. cbn [foldl run_listener].
  rewrite (clickHandler_no_feedback _ _ _ _ Hc Hr Hf). cbn.
  eexists. split; [done|]. split; [done|]. cbn.
  destruct (well_posed_sides _ _ Hw) as [Hyes Hno].
  destruct (well_posed_correct_01 _ _ Hw) as [Hz|Hz]; rewrite Hz in *;
    destruct i as [|[|i]]; try lia; cbn in *; by rewrite ?Hyes, ?Hno.
Qed.

(** C28. The reported [rt] is the number the program computes.  The
    handlers of the model report the difference of the two clock readings
    as a rational; the program subtracts in binary64.  For a click on a
    test trial that awaits its answer the two agree: the subtraction
    [performance.now() - startTime] is exact when the clock counts whole
    milliseconds, and whatever its resolution when the answer comes before
    the reading at the start of the trial has doubled. *)
Theorem reaction_time_exact e (i : nat) (card : Card) (inst : nat) (c : Closure) e' :
  cards (dom e) !! i = Some card -> listeners card = [OnClick inst i] ->
  closures e !! inst = Some c -> responded c = false -> withFeedback c = false ->
  step e (Click i) e' ->
  is_double (now e) -> is_double (startTime c) ->
  (0 <= startTime c)%Q -> (startTime c <= now e)%Q ->
  (now e <= 2 * startTime c)%Q \/
  (whole (now e) /\ whole (startTime c) /\ (now e < 2 ^ 53)%Q) ->
  exists d, finish_log e' = finish_log e ++ [(inst, d)] /\
            js_eq (reaction_time (now e) (startTime c)) (Finite (fd_rt d)).
Proof.
  intros Hcard Hl Hc Hr Hf ->%(step_click_inv _ _ card) Hn Hs Hlo Hhi Hx; [|done].
  rewrite Hl. unfold dispatch. cbn [foldl run_listener].
  rewrite (clickHandler_no_feedback _ _ _ _ Hc Hr Hf). cbn.
  eexists. split; [done|]. by apply js_sub_exact.
Qed.

End Claims.

(** ** Witnesses *)

Lemma click_reports_witness :
  finish_log demo_test_answered
  = [(0%nat, {| fd_response := 0; fd_correct := true; fd_rt := 700 |})] /\
  host demo_test_answered = [{| fd_response := 0; fd_correct := true; fd_rt := 700 |}] /\
  (responded <$> closures demo_test_answered !! 0%nat) = Some true.
Proof.
  pose proof (click_reports demo_test_ready 0
                {| classList := []; listeners := [OnClick 0 0] |} 0
                {| trial := demo_trial; withFeedback := false; startTime := 0;
                   responded := false |} demo_test_answered) as Hw.
  vm_compute in Hw |- *. apply Hw; try reflexivity.
  apply (step_fn_step (H := list FinishData)). reflexivity.
Defined.

Lemma second_click_ignored_witness :
  step_fn (Click 1) demo_test_answered = Some demo_test_answered.
Proof.
  destruct (step_fn (Click 1) demo_test_answered) as [e'|] eqn:E; [|by vm_compute in E].
  f_equal. refine (second_click_ignored demo_test_answered 1 _ e' _ _ _).
  - by_compute.
  - repeat constructor.
  - by apply step_fn_step.
Defined.

Lemma test_trial_reports_witness :
  exists e' r,
    run [Render 2 false; Setup demo_trial "color_test" 1 "color" false; Elapse 700;
         Click 1] demo_env = Some e' /\
    finish_log e' = finish_log demo_env ++ [(length (closures demo_env), r)] /\
    host e' = finishTrial r (host demo_env) /\
    fd_response r = 1%nat /\
    fd_correct r = bool_decide (Z.of_nat 1 = correct demo_trial) /\
    (fd_rt r == 700)%Q.
Proof.
  apply (test_trial_reports demo_env 2 demo_trial "color_test" "color" 1 700 1);
    [lia|done].
Defined.

Lemma feedback_rt_includes_delay_witness :
  exists r,
    finish_log (default demo_env (run [Click 1; Elapse 2600; Fire 0] demo_practice_ready))
    = finish_log demo_practice_ready ++ [(0%nat, r)] /\
    fd_response r = 1%nat /\
    fd_correct r = bool_decide (Z.of_nat 1 = correct demo_trial) /\
    (fd_rt r == (now demo_practice_ready - 0) + 2600)%Q /\
    (feedback_delay (fd_correct r) <= 2600)%Q.
Proof.
  apply (feedback_rt_includes_delay demo_practice_ready 1
           {| classList := []; listeners := [OnClick 0 1] |} 0
           {| trial := demo_trial; withFeedback := true; startTime := 0;
              responded := false |} 2600); try by_compute.
  - by eexists; vm_compute.
  - apply run_steps. by_compute.
Defined.

Lemma prompt_only_while_waiting_witness :
  prompt 0 demo_test_answered = (Ok tt, demo_test_answered) /\
  prompt 0 demo_test_ready = say "Choose one of the pictures." demo_test_ready.
Proof.
  split.
  - refine (proj1 (prompt_only_while_waiting demo_test_answered 0 _ _) _);
      [by_compute|left; by_compute].
  - refine (proj2 (prompt_only_while_waiting demo_test_ready 0 _ _) _ _); by_compute.
Defined.

Lemma clickHandler_no_throw_witness :
  (clickHandler 1 0 demo_practice_ready).1 = Ok tt /\
  (clickHandler 0 1 demo_practice_ready).1 = Ok tt.
Proof.
  split; apply clickHandler_no_throw; intros c Hc; vm_compute in Hc; simplify_eq;
    by eexists; vm_compute.
Defined.

Lemma step_deterministic_witness :
  default demo_env (step_fn (Click 0) demo_test_ready) = demo_test_answered.
Proof.
  apply (step_deterministic demo_test_ready (Click 0)); apply step_fn_step; by_compute.
Defined.

Lemma matching_card_is_correct_witness :
  exists d, finish_log demo_test_answered = finish_log demo_test_ready ++ [(0%nat, d)] /\
    fd_response d = 0%nat /\
    fd_correct d = same_on "color" (if decide (0%nat = 0%nat) then left demo_trial
                                    else right demo_trial) (target demo_trial).
Proof.
  apply (matching_card_is_correct demo_test_ready 0
           {| classList := []; listeners := [OnClick 0 0] |} 0
           {| trial := demo_trial; withFeedback := false; startTime := 0;
              responded := false |} "color" demo_test_answered);
    [by_compute..|by_decide|lia|].
  apply (step_fn_step (H := list FinishData)). reflexivity.
Defined.

Lemma reaction_time_exact_witness :
  exists d, finish_log demo_test_answered = finish_log demo_test_ready ++ [(0%nat, d)] /\
            js_eq (reaction_time (now demo_test_ready) 0) (Finite (fd_rt d)).
Proof.
  apply (reaction_time_exact demo_test_ready 0
           {| classList := []; listeners := [OnClick 0 0] |} 0
           {| trial := demo_trial; withFeedback := false; startTime := 0;
              responded := false |} demo_test_answered);
    [reflexivity..|apply (step_fn_step (H := list FinishData)); reflexivity
    |by exists 700%Z, 0%Z|by exists 0%Z, 0%Z|done|done|right; by vm_compute].
Defined.
