(* ===== verification/Exports.v ===== *)
(** * The exported components

    [src/src/index.ts] exports, besides [createTimeline], the objects
    [timelineComponents] and [utils] "for custom timeline building".  Each
    is a module here, its properties the functions of the other files
    under the names a caller uses.  [component] is the contract of a
    custom timeline: the entries the exported functions return when they
    are given trials over the catalogue whose [correct] is 0 or 1, an index
    that is not negative, and one of the two dimensions.
    [component_well_formed] shows that jsPsych can run every such entry;
    [Session] shows that a timeline of them records what it should. *)

From Stdlib Require Import ZArith QArith Lia.
From stdpp Require Import base tactics decidable option list strings.
From S2P Require Import Prelude Stimuli Audio Screens Results Generator Timeline Evaluator.

Open Scope string_scope.
Open Scope list_scope.

(** ** The export objects *)

Module timelineComponents.
Definition createWelcome := Screens.createWelcome.
Definition createColorInstructions := Screens.createColorInstructions.
Definition createPracticeTrial := Screens.createPracticeTrial.
Definition createColorTestInstructions := Screens.createColorTestInstructions.
Definition createTestTrial := Screens.createTestTrial.
Definition createShapeInstructions := Screens.createShapeInstructions.
Definition createMixedInstructions := Screens.createMixedInstructions.
Definition createResults := Screens.createResults.
End timelineComponents.

Module utils.
Definition resetState := Audio.resetState.
Definition playAudio := Audio.playAudio.
Definition createTrialStimulus := Screens.createTrialStimulus.
Definition setupTrial {H : Type} `{JsPsych H} := Evaluator.setupTrial (H := H).
Definition generateMixedTrials := Generator.generateMixedTrials.
End utils.

(** ** Custom timelines *)

(** The trials a caller may pass: stimuli of the catalogue and an
    expected response that is the index of a card. *)
Definition playable (t : Trial) : Prop := uses_only catalogue t /\ (0 <= correct t < 2)%Z.

#[export] Instance playable_dec t : Decision (playable t).
Proof. unfold playable. apply _. Defined.

Inductive component : Screen -> Prop :=
| c_welcome : component timelineComponents.createWelcome
| c_color_instructions s :
    s ∈ timelineComponents.createColorInstructions -> component s
| c_practice t index :
    playable t -> (0 <= index)%Z ->
    component (timelineComponents.createPracticeTrial t index)
| c_color_test_instructions s :
    s ∈ timelineComponents.createColorTestInstructions -> component s
| c_test t phase dimension index :
    playable t -> (0 <= index)%Z -> dimension ∈ ["color"; "shape"] ->
    component (timelineComponents.createTestTrial t phase dimension index)
| c_shape_instructions : component timelineComponents.createShapeInstructions
| c_mixed_instructions : component timelineComponents.createMixedInstructions
| c_results : component timelineComponents.createResults.

(** ** Lemmas *)

Lemma instructions_well_formed (l : list Screen) (s : Screen) :
  Forall (fun s => exists html label audio, s = instruction html label audio) l ->
  s ∈ l -> well_formed s.
Proof.
  rewrite Forall_forall. intros Hl Hs. by destruct (Hl s Hs) as (html & label & audio & ->).
Qed.

(** Every entry of the contract is one jsPsych can run. *)
Lemma component_well_formed (s : Screen) : component s -> well_formed s.
Proof.
  destruct 1 as [|s Hs|t index [Hu Hc] Hi|s Hs|t phase dim index [Hu Hc] Hi Hd| | |];
    try by repeat split.
  - revert Hs. apply instructions_well_formed. repeat constructor; by eexists _, _, _.
  - destruct (trial_page t "COLOR" Hu) as [? ?]; [by_decide|]. repeat split; try done; lia.
  - revert Hs. apply instructions_well_formed. repeat constructor; by eexists _, _, _.
  - destruct (trial_page t (toUpperCase dim) Hu) as [? ?].
    { revert Hd. rewrite !elem_of_cons. intros [-> | [-> | []%elem_of_nil]]; by_decide. }
    repeat split; try done; lia.
Qed.
