(* ===== verification/Ledger.v ===== *)
(** * The ledger of the response evaluator

    For each call of [setupTrial] (an instance) the ledger counts the calls
    of [jsPsych.finishTrial] made for it and the delayed calls still
    pending, against its latch [responded].  [ledger_ok] says that nothing
    is made or pending while the latch is open and at most one call once it
    is closed.  [LedgerStable] is the interface between the event loop and
    the properties of the ledger: a property that is kept by the seven
    transitions of the ledger is kept by every step of the event loop
    ([step_stable]), whatever the handlers do to the DOM, the narration and
    the host.  [ledger_ok], [grows], [stuck] and [settled] are instances;
    [settled inst T] says that an answered trial has its report made or
    pending with a due time of at most [T], so that in a [quiescent]
    environment, where no timer is overdue, the report has been made. *)

From Stdlib Require Import ZArith QArith Lia Lqa.
From stdpp Require Import base tactics decidable option list strings.
From S2P Require Import Prelude Stimuli Audio Evaluator.

Open Scope string_scope.
Open Scope list_scope.

(** ** The ledger of a trial instance *)

Definition finishes_for (inst : nat) (cb : Callback) : bool :=
  match cb with
  | FinishLater i _ _ => bool_decide (i = inst)
  | _ => false
  end.

(** The calls of [finishTrial] made for an instance. *)
Definition finished (inst : nat) (log : list (nat * FinishData)) : nat :=
  count_if (fun p => bool_decide (p.1 = inst)) log.

(** The delayed calls of [finishTrial] still pending for it. *)
Definition scheduled (inst : nat) (ts : list (Number * Callback)) : nat :=
  count_if (fun t => finishes_for inst t.2) ts.

Definition is_responded (inst : nat) (cs : list Closure) : bool :=
  match cs !! inst with Some c => responded c | None => false end.

(** Calls made and calls pending are covered by the latch: none while it is
    open, at most one once it is closed. *)
Definition ledger_ok (cs : list Closure) (ts : list (Number * Callback))
    (log : list (nat * FinishData)) : Prop :=
  forall inst, (finished inst log + scheduled inst ts
                <= if is_responded inst cs then 1 else 0)%nat.

Definition on_ledger {H}
    (P : list Closure -> list (Number * Callback) -> list (nat * FinishData) -> Prop)
    (e : Env H) : Prop :=
  P (closures e) (timers e) (finish_log e).

Definition inv {H} : Env H -> Prop := on_ledger ledger_ok.

(** An instance that answered and for which nothing was or will be
    reported. *)
Definition stuck (inst : nat) (cs : list Closure)
    (ts : list (Number * Callback)) (log : list (nat * FinishData)) : Prop :=
  is_responded inst cs = true /\ finished inst log = 0%nat /\
  scheduled inst ts = 0%nat.

(** The latches closed in [cs0] are closed. *)
Definition grows (cs0 cs : list Closure) : Prop :=
  forall j, is_responded j cs0 = true -> is_responded j cs = true.

(** Between closing the latch and scheduling or making the call: the ledger
    is that of a state where [P] held, with one more latch closed. *)
Definition closing
    (P : list Closure -> list (Number * Callback) -> list (nat * FinishData) -> Prop)
    (inst : nat) (c : Closure) (cs : list Closure) (ts : list (Number * Callback))
    (log : list (nat * FinishData)) : Prop :=
  exists cs0, P cs0 ts log /\ cs0 !! inst = Some c /\ responded c = false /\
              cs = alter set_responded inst cs0.

(** An instance that answered, whose report is made or pending, and is
    due by the time [T] if pending. *)
Definition settled (inst : nat) (T : Number) (cs : list Closure)
    (ts : list (Number * Callback)) (log : list (nat * FinishData)) : Prop :=
  is_responded inst cs = true /\ (finished inst log + scheduled inst ts = 1)%nat /\
  Forall (fun t => finishes_for inst t.2 = true -> (t.1 <= T)%Q) ts.

(** No pending timer is due. *)
Definition quiescent {H} (e : Env H) : Prop :=
  Forall (fun t => (now e < t.1)%Q) (timers e).

(** The verdict of the click handler on card [i], line 157. *)
Definition judge (c : Closure) (i : nat) : bool :=
  bool_decide (Z.of_nat i = correct (trial c)).

(** A property of the ledger that every transition of the event loop
    keeps: closing a latch together with scheduling the call (with
    feedback), making it (without) or, when the handler throws before it
    schedules, neither; firing a delayed call, which reports what the timer
    carries; dropping a timer (a reminder, or a delayed call whose closure
    does not exist); allocating a closure; adding a reminder. *)
Class LedgerStable
    (P : list Closure -> list (Number * Callback) -> list (nat * FinishData) -> Prop)
    : Prop := {
  stable_click_schedule cs ts log inst c due i :
    P cs ts log -> cs !! inst = Some c -> responded c = false ->
    withFeedback c = true ->
    P (alter set_responded inst cs)
      (ts ++ [(due, FinishLater inst i (judge c i))]) log;
  stable_click_finish cs ts log inst c i rt :
    P cs ts log -> cs !! inst = Some c -> responded c = false ->
    withFeedback c = false ->
    P (alter set_responded inst cs) ts
      (log ++ [(inst, {| fd_response := i; fd_correct := judge c i; fd_rt := rt |})]);
  stable_click_only cs ts log inst c :
    P cs ts log -> cs !! inst = Some c -> responded c = false ->
    withFeedback c = true ->
    P (alter set_responded inst cs) ts log;
  stable_fire_finish cs ts log k due inst i b c rt :
    P cs ts log -> ts !! k = Some (due, FinishLater inst i b) ->
    cs !! inst = Some c ->
    P cs (delete k ts)
      (log ++ [(inst, {| fd_response := i; fd_correct := b; fd_rt := rt |})]);
  stable_fire_drop cs ts log k t :
    P cs ts log -> ts !! k = Some t ->
    (forall inst, finishes_for inst t.2 = true -> cs !! inst = None) ->
    P cs (delete k ts) log;
  stable_alloc cs ts log c :
    P cs ts log -> responded c = false -> P (cs ++ [c]) ts log;
  stable_prompt cs ts log due inst :
    P cs ts log -> P cs (ts ++ [(due, Prompt inst)]) log;
}.

(** ** Lemmas: the ledger *)

Ltac ledger_arith :=
  unfold finished, scheduled in *; rewrite ?count_if_snoc; simpl;
  repeat first [case_bool_decide | case_decide]; simplify_eq; try lia.

Lemma is_responded_alter cs inst j :
  is_responded j (alter set_responded inst cs)
  = is_responded j cs || (bool_decide (j = inst) && bool_decide (inst < length cs)%nat).
Proof.
  unfold is_responded. destruct (decide (j = inst)) as [->|Hne].
  - rewrite list_lookup_alter_eq, bool_decide_eq_true_2 by done.
    destruct (cs !! inst) eqn:E; simpl.
    + apply lookup_lt_Some in E. by rewrite bool_decide_eq_true_2, orb_true_r.
    + apply lookup_ge_None in E. by rewrite bool_decide_eq_false_2 by lia.
  - rewrite list_lookup_alter_ne, (bool_decide_eq_false_2 (j = inst)) by done.
    by rewrite orb_false_r.
Qed.

Lemma is_responded_alter_mono cs inst j :
  is_responded j cs = true -> is_responded j (alter set_responded inst cs) = true.
Proof. intros Hj. by rewrite is_responded_alter, Hj. Qed.

Lemma is_responded_alter_eq cs inst c :
  cs !! inst = Some c -> is_responded inst (alter set_responded inst cs) = true.
Proof.
  intros Hc%lookup_lt_Some.
  by rewrite is_responded_alter, !bool_decide_eq_true_2, orb_true_r.
Qed.

Lemma is_responded_app cs c j :
  is_responded j cs = true -> is_responded j (cs ++ [c]) = true.
Proof.
  unfold is_responded. destruct (cs !! j) eqn:E; [|done].
  by rewrite (lookup_app_l_Some _ _ _ _ E).
Qed.

Lemma is_responded_open cs inst c :
  cs !! inst = Some c -> responded c = false -> is_responded inst cs = false.
Proof. unfold is_responded. by intros -> ->. Qed.

Lemma scheduled_delete ts k t j :
  ts !! k = Some t ->
  scheduled j ts = (scheduled j (delete k ts) + if finishes_for j t.2 then 1 else 0)%nat.
Proof. intros Hk. unfold scheduled. by rewrite (count_if_delete _ ts k t Hk). Qed.

Lemma scheduled_none inst ts :
  scheduled inst ts = 0%nat -> Forall (fun t => finishes_for inst t.2 = false) ts.
Proof.
  intros Hs. apply Forall_forall. intros t Ht.
  destruct (finishes_for inst t.2) eqn:E; [|done].
  assert (0 < scheduled inst ts)%nat; [|lia]. apply count_if_pos. eauto.
Qed.

(** The invariant only needs the latches to grow and the debt to shrink. *)
Lemma ledger_ok_mono cs cs' ts ts' log log' :
  ledger_ok cs ts log ->
  grows cs cs' ->
  (forall j, finished j log' + scheduled j ts' <= finished j log + scheduled j ts)%nat ->
  ledger_ok cs' ts' log'.
Proof.
  intros Hok Hcs Hle j. specialize (Hok j). specialize (Hle j). specialize (Hcs j).
  destruct (is_responded j cs); [rewrite Hcs by done; lia|]. case_match; lia.
Qed.

(** Closing the latch of [inst] pays for one call, made or scheduled. *)
Lemma ledger_ok_close cs ts ts' log log' inst c :
  ledger_ok cs ts log -> cs !! inst = Some c -> responded c = false ->
  (forall j, finished j log' + scheduled j ts'
             <= finished j log + scheduled j ts + if decide (j = inst) then 1 else 0)%nat ->
  ledger_ok (alter set_responded inst cs) ts' log'.
Proof.
  intros Hok Hc Hr Hle j. specialize (Hok j). specialize (Hle j).
  destruct (decide (j = inst)) as [->|Hne].
  - rewrite (is_responded_alter_eq _ _ _ Hc).
    rewrite (is_responded_open _ _ _ Hc Hr) in Hok. lia.
  - rewrite is_responded_alter, (bool_decide_eq_false_2 (j = inst)), orb_false_r by done.
    lia.
Qed.

#[export] Instance grows_preorder : PreOrder grows.
Proof. split; [by intros cs j|]. intros cs1 cs2 cs3 H12 H23 j Hj. auto. Qed.

Lemma grows_alter cs inst : grows cs (alter set_responded inst cs).
Proof. intros j. apply is_responded_alter_mono. Qed.

Lemma grows_app cs c : grows cs (cs ++ [c]).
Proof. intros j. apply is_responded_app. Qed.

#[export] Instance ledger_ok_stable : LedgerStable ledger_ok.
Proof.
  split; intros.
  - eapply ledger_ok_close; [done..|]. intros j. ledger_arith.
  - eapply ledger_ok_close; [done..|]. intros j. ledger_arith.
  - eapply ledger_ok_close; [done..|]. intros j. ledger_arith.
  - eapply ledger_ok_mono; [done..|]. intros j.
    rewrite (scheduled_delete ts k _ j) by done. ledger_arith.
  - eapply ledger_ok_mono; [done..|]. intros j.
    rewrite (scheduled_delete ts k _ j) by done. lia.
  - eapply ledger_ok_mono; [done|apply grows_app|done].
  - eapply ledger_ok_mono; [done..|]. intros j. ledger_arith.
Qed.

#[export] Instance grows_stable cs0 : LedgerStable (fun cs _ _ => grows cs0 cs).
Proof.
  split; intros; try done.
  1-3: by etransitivity; [|apply grows_alter].
  by etransitivity; [|apply grows_app].
Qed.

#[export] Instance stuck_stable j : LedgerStable (stuck j).
Proof.
  split; unfold stuck.
  - intros cs ts log inst c due i (Hr & Hf & Hs) Hc Hc' _.
    assert (inst <> j) by (intros ->; by rewrite (is_responded_open _ _ _ Hc Hc') in Hr).
    split; [by apply is_responded_alter_mono|]. ledger_arith.
  - intros cs ts log inst c i rt (Hr & Hf & Hs) Hc Hc' _.
    assert (inst <> j) by (intros ->; by rewrite (is_responded_open _ _ _ Hc Hc') in Hr).
    split; [by apply is_responded_alter_mono|]. ledger_arith.
  - intros cs ts log inst c (Hr & Hf & Hs) Hc Hc' _.
    split; [by apply is_responded_alter_mono|done].
  - intros cs ts log k due inst i b c rt (Hr & Hf & Hs) Hk _.
    rewrite (scheduled_delete ts k _ j Hk) in Hs. simpl in Hs.
    split; [done|]. ledger_arith.
  - intros cs ts log k t (Hr & Hf & Hs) Hk _.
    rewrite (scheduled_delete ts k _ j Hk) in Hs. split; [done|]. lia.
  - intros cs ts log c (Hr & Hf & Hs) _. split; [by apply is_responded_app|done].
  - intros cs ts log due inst (Hr & Hf & Hs). split; [done|]. ledger_arith.
Qed.

#[export] Instance settled_stable j T : LedgerStable (settled j T).
Proof.
  split; unfold settled.
  - intros cs ts log inst c due i (Hr & Hn & Hd) Hc Hc' _.
    assert (inst <> j) by (intros ->; by rewrite (is_responded_open _ _ _ Hc Hc') in Hr).
    split; [by apply is_responded_alter_mono|]. split; [ledger_arith|].
    apply Forall_app. split; [done|]. repeat constructor. cbn. by case_bool_decide.
  - intros cs ts log inst c i rt (Hr & Hn & Hd) Hc Hc' _.
    assert (inst <> j) by (intros ->; by rewrite (is_responded_open _ _ _ Hc Hc') in Hr).
    split; [by apply is_responded_alter_mono|]. split; [ledger_arith|done].
  - intros cs ts log inst c (Hr & Hn & Hd) Hc Hc' _.
    split; [by apply is_responded_alter_mono|done].
  - intros cs ts log k due inst i b c rt (Hr & Hn & Hd) Hk _.
    rewrite (scheduled_delete ts k _ j Hk) in Hn. simpl in Hn.
    split; [done|]. split; [ledger_arith|by apply Forall_delete].
  - intros cs ts log k t (Hr & Hn & Hd) Hk Hnone.
    rewrite (scheduled_delete ts k _ j Hk) in Hn.
    split; [done|]. split; [|by apply Forall_delete].
    destruct (finishes_for j t.2) eqn:E; [|lia].
    unfold is_responded in Hr. by rewrite (Hnone j E) in Hr.
  - intros cs ts log c (Hr & Hn & Hd) _. split; [by apply is_responded_app|done].
  - intros cs ts log due inst (Hr & Hn & Hd). split; [done|]. split; [ledger_arith|].
    apply Forall_app. split; [done|]. by repeat constructor.
Qed.

(** The log only grows: a count of reports that was reached stays
    reached. *)
#[export] Instance reported_stable j n :
  LedgerStable (fun _ _ log => (n <= finished j log)%nat).
Proof. split; intros; ledger_arith. Qed.

#[export] Instance and_stable P Q :
  LedgerStable P -> LedgerStable Q -> LedgerStable (fun cs ts log => P cs ts log /\ Q cs ts log).
Proof.
  intros HP HQ. split; intros; destruct_and!; split.
  1,2: by eapply stable_click_schedule.
  1,2: by eapply stable_click_finish.
  1,2: by eapply stable_click_only.
  1,2: by eapply stable_fire_finish.
  1,2: by eapply stable_fire_drop.
  1,2: by eapply stable_alloc.
  1,2: by eapply stable_prompt.
Qed.

Lemma ledger_ok_finished cs ts log inst :
  ledger_ok cs ts log -> (finished inst log <= 1)%nat.
Proof. intros Hok. specialize (Hok inst). case_match; lia. Qed.

(** ** Lemmas: the handlers keep every stable property *)

Section Stable.
Context {H : Type} `{JsPsych H}.
Context (P : list Closure -> list (Number * Callback) -> list (nat * FinishData) -> Prop).
Implicit Type e : Env H.

(** *** Operations that leave the ledger alone *)

Lemma playAudio_ledger txt : ht (on_ledger (H:=H) P) (say txt) (on_ledger P).
Proof. by apply ht_zoom. Qed.

Lemma set_feedback_ledger txt cls :
  ht (on_ledger (H:=H) P) (set_feedback txt cls) (on_ledger P).
Proof. by apply ht_modify. Qed.

Lemma addEventListener_ledger i cb :
  ht (on_ledger (H:=H) P) (addEventListener i cb) (on_ledger P).
Proof. by apply ht_modify. Qed.

Lemma classList_add_ledger i cls :
  ht (on_ledger (H:=H) P) (classList_add i cls) (on_ledger P).
Proof.
  apply ht_bind_get_pre. intros e0 HP.
  apply ht_seq; [apply ht_member|intros _]. by apply ht_put.
Qed.

Lemma forEach_card_ledger inst n :
  ht (on_ledger (H:=H) P) (forEach_card inst n) (on_ledger P).
Proof. apply ht_iterM. intros. apply addEventListener_ledger. Qed.

Lemma prompt_ledger inst : ht (on_ledger (H:=H) P) (prompt inst) (on_ledger P).
Proof.
  apply ht_bind_get_pre. intros e0 HP.
  case_match; [|apply ht_ret]. apply ht_when, playAudio_ledger.
Qed.

End Stable.

Section StableSteps.
Context {H : Type} `{JsPsych H}.
Context (P : list Closure -> list (Number * Callback) -> list (nat * FinishData) -> Prop).
Context `{!LedgerStable P}.
Implicit Type e : Env H.

Lemma clickHandler_stable inst i :
  ht (on_ledger (H:=H) P) (clickHandler inst i) (on_ledger P).
Proof using Type*.
  apply ht_bind_get. intros e0 HP.
  destruct (closures e0 !! inst) as [c|] eqn:Hc; [|by intros ? ->].
  destruct (responded c) eqn:Hr; [by intros ? ->|].
  apply (ht_bind_modify _ (on_ledger (closing P inst c))).
  { intros ? ->. by exists (closures e0). }
  destruct (withFeedback c) eqn:Hfb.
  - assert (forall e, on_ledger (closing P inst c) e -> on_ledger P e) as Hdone.
    { intros e (cs0 & HP' & Hc' & _ & E). unfold on_ledger. rewrite E.
      by eapply stable_click_only. }
    apply ht_bind_get_pre. intros e1 H1.
    apply (ht_bind _ (on_ledger (closing P inst c))); [|intros _|done].
    + apply ht_when, ht_if.
      * apply ht_seq; [apply set_feedback_ledger|intros; apply playAudio_ledger].
      * apply ht_seq; [apply set_feedback_ledger|intros].
        apply ht_seq; [apply playAudio_ledger|intros; apply classList_add_ledger].
    + apply ht_modify. intros e2 (cs0 & HP' & Hc' & Hr' & E).
      unfold on_ledger; cbn. rewrite E. by eapply stable_click_schedule.
  - apply (ht_bind_reads _ _ now). intros t.
    apply ht_modify. intros e2 (cs0 & HP' & Hc' & Hr' & E).
    unfold on_ledger; cbn. rewrite E. by eapply stable_click_finish.
Qed.

Lemma setupTrial_stable t phase trialNum dimension fb :
  ht (on_ledger (H:=H) P) (setupTrial t phase trialNum dimension fb) (on_ledger P).
Proof using Type*.
  apply ht_seq; [apply playAudio_ledger|intros _].
  apply ht_bind_get_pre. intros e0 HP.
  apply ht_seq; [by intros ?|intros st].
  apply ht_seq; [apply ht_put; by apply stable_alloc|intros _].
  apply ht_seq; [apply forEach_card_ledger|intros _].
  apply ht_when, ht_modify. intros e. unfold on_ledger; cbn. apply stable_prompt.
Qed.

Lemma fire_stable e k due cb :
  on_ledger P e -> timers e !! k = Some (due, cb) ->
  on_ledger P (invoke cb (with_timers (delete k (timers e)) e)).
Proof using Type*.
  intros HP Hk. destruct cb as [inst i c|inst]; unfold invoke; cbn [run_callback].
  - rewrite finishLater_run. cbn. case_match eqn:Hc; cbn.
    + by eapply stable_fire_finish.
    + eapply stable_fire_drop; [done..|]. by intros j ->%bool_decide_eq_true.
  - apply prompt_ledger. by eapply stable_fire_drop.
Qed.

Lemma dispatch_stable ls e : on_ledger P e -> on_ledger P (dispatch ls e).
Proof using Type*.
  revert e. induction ls as [|[inst i] ls IH]; intros e He; [done|].
  apply IH. by apply clickHandler_stable.
Qed.

Lemma step_stable e ev e' : step e ev e' -> on_ledger P e -> on_ledger P e'.
Proof using Type*.
  destruct 1; intros HP; try done.
  - by apply dispatch_stable.
  - by eapply fire_stable.
  - by apply setupTrial_stable.
Qed.

Lemma steps_stable e evs e' : steps e evs e' -> on_ledger P e -> on_ledger P e'.
Proof using Type*. induction 1; eauto using step_stable. Qed.

End StableSteps.

(** ** Lemmas: an answer settles its trial *)

Section Live.
Context {H : Type} `{JsPsych H}.
Implicit Type e : Env H.

(** Once nothing is due after [T], the report has been made. *)
Lemma settled_quiescent e inst T :
  on_ledger (settled inst T) e -> (T <= now e)%Q -> quiescent e ->
  finished inst (finish_log e) = 1%nat.
Proof.
  intros (_ & Hn & Hd) HT Hq. destruct (scheduled inst (timers e)) eqn:Hs; [lia|].
  assert (0 < scheduled inst (timers e))%nat as (t & Ht & Hf)%count_if_pos by lia.
  unfold quiescent in Hq. rewrite Forall_forall in Hd, Hq.
  specialize (Hd t Ht Hf). specialize (Hq t Ht). lra.
Qed.

(** A click on a trial that awaits its answer settles it. *)
Lemma click_settles e inst i c :
  inv e -> closures e !! inst = Some c -> responded c = false ->
  is_Some (js_index (cards (dom e)) (correct (trial c))) ->
  on_ledger (settled inst (now e + 2500)) (clickHandler inst i e).2.
Proof.
  intros Hinv Hc Hr Hidx. pose proof (Hinv inst) as Hi.
  rewrite (is_responded_open _ _ _ Hc Hr) in Hi.
  assert (scheduled inst (timers e) = 0%nat) as Hs by lia.
  unfold on_ledger, settled. destruct (withFeedback c) eqn:Hf.
  - destruct (clickHandler_feedback inst i e c) as (_ & -> & -> & -> & _); [done..|].
    rewrite (is_responded_alter_eq _ _ _ Hc). split; [done|]. split; [ledger_arith|].
    apply Forall_app. split.
    + eapply Forall_impl; [by apply scheduled_none|]. intros t ->. done.
    + repeat constructor. intros _. cbn. unfold feedback_delay. case_bool_decide; lra.
  - rewrite (clickHandler_no_feedback _ _ _ _ Hc Hr Hf). cbn.
    rewrite (is_responded_alter_eq _ _ _ Hc). split; [done|]. split; [ledger_arith|].
    eapply Forall_impl; [by apply scheduled_none|]. intros t ->. done.
Qed.

End Live.

Section Initial.
Context {H : Type} `{JsPsych H}.

Lemma initial_env_inv g (h : H) : inv (initial_env g h).
Proof. intros inst. unfold is_responded. cbn. by rewrite lookup_nil. Qed.

End Initial.

(** ** Theorems *)

Section Claims.
Context {H : Type} `{JsPsych H}.
Implicit Type e : Env H.

(** C1. Whatever the clicks, timers and screens of a session, [finishTrial]
    is called at most once for each call of [setupTrial]. *)
Theorem at_most_once (g : Globals) (h : H) (evs : list Event) e (inst : nat) :
  steps (initial_env g h) evs e -> (finished inst (finish_log e) <= 1)%nat.
Proof.
  intros Hs. eapply ledger_ok_finished.
  apply (steps_stable ledger_ok _ _ _ Hs), initial_env_inv.
Qed.

(** The latch of an instance never reopens. *)
Theorem latch_never_reopens e (evs : list Event) e' (inst : nat) :
  steps e evs e' -> is_responded inst (closures e) = true ->
  is_responded inst (closures e') = true.
Proof.
  intros Hs.
  apply (steps_stable (fun cs _ _ => grows (closures e) cs) _ _ _ Hs).
  by unfold on_ledger.
Qed.

(** Once a trial has been reported, the number of its reports stays
    exactly one whatever happens afterwards: later clicks, late timers, new
    screens. *)
Theorem reported_exactly_once e (evs : list Event) e' (inst : nat) :
  inv e -> (1 <= finished inst (finish_log e))%nat -> steps e evs e' ->
  finished inst (finish_log e') = 1%nat.
Proof.
  intros Hinv Hone Hs.
  destruct (steps_stable (fun cs ts log => ledger_ok cs ts log /\
                                           (1 <= finished inst log)%nat)
              _ _ _ Hs) as [Hok Hge]; [by split|].
  pose proof (ledger_ok_finished _ _ _ inst Hok). lia.
Qed.

(** C34. An instance whose click handler threw never reports. *)
Theorem thrown_click_never_reports e (i inst : nat) (c : Closure)
    (evs : list Event) e' :
  inv e -> closures e !! inst = Some c -> responded c = false ->
  withFeedback c = true -> is_Some (feedback (dom e)) ->
  Z.of_nat i <> correct (trial c) ->
  js_index (cards (dom e)) (correct (trial c)) = None ->
  (clickHandler inst i e).1 = Throw (TypeError "classList") /\
  (steps (clickHandler inst i e).2 evs e' -> finished inst (finish_log e') = 0%nat).
Proof.
  intros Hinv Hc Hr Hf Hfb Hi Hcard.
  destruct (clickHandler_throws inst i e c) as (Ht & Hts & Hcs & Hlog & _); [done..|].
  split; [done|]. intros Hs.
  apply (steps_stable (stuck inst) _ _ _ Hs). unfold on_ledger, stuck.
  rewrite Hts, Hcs, Hlog, (is_responded_alter_eq _ _ _ Hc).
  pose proof (Hinv inst) as Hi'. rewrite (is_responded_open _ _ _ Hc Hr) in Hi'.
  split; [done|]. lia.
Qed.

(** C9. An answer is always reported.  After a click on a card of a trial
    that awaits its answer, whatever happens next (further clicks, timers
    in any order, new screens and trials), once 2500 ms have passed and no
    pending timer is due, [finishTrial] has been called for the trial,
    exactly once. *)
Theorem click_leads_to_report e (i : nat) (card : Card) (inst : nat) (c : Closure)
    (evs : list Event) e' :
  inv e -> cards (dom e) !! i = Some card -> listeners card = [OnClick inst i] ->
  closures e !! inst = Some c -> responded c = false ->
  is_Some (js_index (cards (dom e)) (correct (trial c))) ->
  steps e (Click i :: evs) e' -> (now e + 2500 <= now e')%Q -> quiescent e' ->
  finished inst (finish_log e') = 1%nat.
Proof.
  intros Hinv Hcard Hl Hc Hr Hidx Hs Ht Hq. inversion Hs as [|? ? e1 ? ? Hclick Hrest]; subst.
  apply (step_click_inv _ _ card) in Hclick as ->; [|done].
  rewrite Hl in Hrest. unfold dispatch in Hrest. cbn [foldl run_listener] in Hrest.
  apply (settled_quiescent e' inst (now e + 2500)); [|done..].
  apply (steps_stable _ _ _ _ Hrest). by apply (click_settles e inst i c).
Qed.

End Claims.

(** ** Witnesses *)

Lemma at_most_once_witness :
  (finished 0 (finish_log (default demo_env (run demo_test_events demo_env))) <= 1)%nat.
Proof.
  apply (at_most_once demo_globals [] demo_test_events). apply run_steps. by_compute.
Defined.

Lemma latch_never_reopens_witness :
  is_responded 0
    (closures (default demo_env
                 (run [Click 1; Elapse 5000; Fire 0] demo_test_answered))) = true.
Proof.
  apply (latch_never_reopens demo_test_answered [Click 1; Elapse 5000; Fire 0]);
    [apply run_steps|]; by_compute.
Defined.

Lemma thrown_click_never_reports_witness :
  (clickHandler 0 0 demo_one_card).1 = Throw (TypeError "classList") /\
  (steps (clickHandler 0 0 demo_one_card).2 [Elapse 2500; Click 0]
     (default demo_env (run [Elapse 2500; Click 0] (clickHandler 0 0 demo_one_card).2)) ->
   finished 0 (finish_log
     (default demo_env (run [Elapse 2500; Click 0] (clickHandler 0 0 demo_one_card).2)))
   = 0%nat).
Proof.
  apply (thrown_click_never_reports demo_one_card 0 0
           {| trial := fixed_trial STIMULI.orangeBall STIMULI.blueBall
                         STIMULI.orangeTruck 1;
              withFeedback := true; startTime := 0; responded := false |});
    try by_compute.
  - apply (steps_stable ledger_ok demo_env demo_one_card_events);
      [apply run_steps; by_compute|apply initial_env_inv].
  - by eexists; vm_compute.
Defined.

Lemma reported_exactly_once_witness :
  finished 0 (finish_log (default demo_env
    (run [Click 1; Click 0; Elapse 5000; Fire 0] demo_test_answered))) = 1%nat.
Proof.
  apply (reported_exactly_once demo_test_answered [Click 1; Click 0; Elapse 5000; Fire 0]);
    [|by_compute|apply run_steps; by_compute].
  apply (steps_stable ledger_ok demo_env
           [Render 2 false; Setup demo_trial "color_test" 1 "color" false;
            Elapse 700; Click 0]);
    [apply run_steps; by_compute|apply initial_env_inv].
Defined.

Lemma click_leads_to_report_witness :
  finished 0 (finish_log (default demo_env
    (run [Click 1; Click 0; Elapse 2600; Fire 0] demo_practice_ready))) = 1%nat.
Proof.
  apply (click_leads_to_report demo_practice_ready 1
           {| classList := []; listeners := [OnClick 0 1] |} 0
           {| trial := demo_trial; withFeedback := true; startTime := 0;
              responded := false |} [Click 0; Elapse 2600; Fire 0]); try by_compute.
  - apply (steps_stable ledger_ok demo_env
             [Render 2 true; Setup demo_trial "color_practice" 1 "color" true; Elapse 700]);
      [apply run_steps; by_compute|apply initial_env_inv].
  - by eexists; vm_compute.
  - apply run_steps. by_compute.
Defined.
