(* ===== verification/Lifecycle.v ===== *)
(** * The life cycle of a trial

    What [setupTrial] promises for each of its calls, as an automaton, and
    the proof that the event loop implements it.

    The refinement has two levels.  [ledger_step] is the transition
    relation of the ledger (closures, timers, log of [finishTrial]): its
    seven rules are the seven fields of [Ledger.LedgerStable], so every run
    of the event loop is a sequence of ledger transitions ([steps_ledger]).
    [phase_of] abstracts the ledger of one instance to its [Phase], and
    every ledger transition from a ledger that satisfies [ledger_ok] moves
    each instance by at most one transition of the automaton [phase_step]
    ([ledger_step_phase]):

      Absent -> Waiting c -> Reported d              (no feedback)
                Waiting c -> Pending i b -> Reported d   (feedback)
                Waiting c -> Stuck                   (the handler threw)

    [Reported] and [Stuck] are final, the automaton has no cycle ([rank]),
    and the verdict of a report is the one of the click handler on the card
    that was clicked first ([judged], an invariant of the ledger in its own
    right). *)

From Stdlib Require Import ZArith QArith Lia.
From stdpp Require Import base tactics decidable option list strings relations.
From S2P Require Import Prelude Stimuli Audio Evaluator Ledger.

Open Scope string_scope.
Open Scope list_scope.

(** ** The ledger as a transition system *)

Definition LedgerState : Type :=
  list Closure * list (Number * Callback) * list (nat * FinishData).

Definition ledger {H} (e : Env H) : LedgerState := (closures e, timers e, finish_log e).

(** What the handlers do to the ledger: the click handler (lines 153-188)
    closes the latch and schedules the report, makes it, or throws between
    the two; a timer fires (lines 174-180, 193-197); [setupTrial] allocates
    its closure (lines 140-151) and its reminder (lines 191-198). *)
Inductive ledger_step : LedgerState -> LedgerState -> Prop :=
| click_schedule cs ts log inst c due i :
    cs !! inst = Some c -> responded c = false -> withFeedback c = true ->
    ledger_step (cs, ts, log)
      (alter set_responded inst cs,
       ts ++ [(due, FinishLater inst i (judge c i))], log)
| click_finish cs ts log inst c i rt :
    cs !! inst = Some c -> responded c = false -> withFeedback c = false ->
    ledger_step (cs, ts, log)
      (alter set_responded inst cs, ts,
       log ++ [(inst, {| fd_response := i; fd_correct := judge c i; fd_rt := rt |})])
| click_only cs ts log inst c :
    cs !! inst = Some c -> responded c = false -> withFeedback c = true ->
    ledger_step (cs, ts, log) (alter set_responded inst cs, ts, log)
| fire_finish cs ts log k due inst i b c rt :
    ts !! k = Some (due, FinishLater inst i b) -> cs !! inst = Some c ->
    ledger_step (cs, ts, log)
      (cs, delete k ts,
       log ++ [(inst, {| fd_response := i; fd_correct := b; fd_rt := rt |})])
| fire_drop cs ts log k t :
    ts !! k = Some t ->
    (forall inst, finishes_for inst t.2 = true -> cs !! inst = None) ->
    ledger_step (cs, ts, log) (cs, delete k ts, log)
| alloc cs ts log c :
    responded c = false -> ledger_step (cs, ts, log) (cs ++ [c], ts, log)
| add_prompt cs ts log due inst :
    ledger_step (cs, ts, log) (cs, ts ++ [(due, Prompt inst)], log).

(** ** The automaton of one trial *)

Inductive Phase : Type :=
| Absent                          (* [setupTrial] has not been called *)
| Waiting (c : Closure)           (* listening, the latch is open *)
| Pending (i : nat) (b : bool)    (* answered, the report is scheduled *)
| Reported (d : FinishData)       (* [finishTrial] was called *)
| Stuck                           (* answered, nothing will be reported *)
| Broken.                         (* more than one report made or pending *)

Inductive phase_step : relation Phase :=
| ps_setup c : responded c = false -> phase_step Absent (Waiting c)
| ps_feedback c i :
    withFeedback c = true -> phase_step (Waiting c) (Pending i (judge c i))
| ps_answer c i rt :
    withFeedback c = false ->
    phase_step (Waiting c)
      (Reported {| fd_response := i; fd_correct := judge c i; fd_rt := rt |})
| ps_throw c : withFeedback c = true -> phase_step (Waiting c) Stuck
| ps_report i b rt :
    phase_step (Pending i b)
      (Reported {| fd_response := i; fd_correct := b; fd_rt := rt |}).

(** The reports made for an instance, oldest first. *)
Definition reports (inst : nat) (log : list (nat * FinishData)) : list FinishData :=
  omap (fun p => if decide (p.1 = inst) then Some p.2 else None) log.

Definition pending_of (inst : nat) (t : Number * Callback) : option (nat * bool) :=
  match t.2 with
  | FinishLater j i b => if decide (j = inst) then Some (i, b) else None
  | Prompt _ => None
  end.

(** The delayed reports pending for an instance. *)
Definition pending (inst : nat) (ts : list (Number * Callback)) : list (nat * bool) :=
  omap (pending_of inst) ts.

(** The abstraction function. *)
Definition phase_of (inst : nat) (l : LedgerState) : Phase :=
  match l.1.1 !! inst with
  | None => Absent
  | Some c =>
      match reports inst l.2, pending inst l.1.2 with
      | [], [] => if responded c then Stuck else Waiting c
      | [d], [] => Reported d
      | [], [(i, b)] => Pending i b
      | _, _ => Broken
      end
  end.

Definition phase {H} (inst : nat) (e : Env H) : Phase := phase_of inst (ledger e).

(** At most one transition. *)
Definition moves (p q : Phase) : Prop := p = q \/ phase_step p q.

(** The automaton has no cycle: every transition raises the rank. *)
Definition rank (p : Phase) : nat :=
  match p with
  | Absent => 0
  | Waiting _ => 1
  | Pending _ _ => 2
  | Reported _ | Stuck | Broken => 3
  end.

Definition final (p : Phase) : bool :=
  match p with Reported _ | Stuck | Broken => true | _ => false end.

(** What can become of a trial that waits for its answer. *)
Definition outcome (c : Closure) (q : Phase) : Prop :=
  match q with
  | Waiting c' => c' = c
  | Pending i b => withFeedback c = true /\ b = judge c i
  | Reported d => fd_correct d = judge c (fd_response d)
  | Stuck => withFeedback c = true
  | Absent | Broken => False
  end.

(** A report is judged: its closure exists and its verdict is the one of
    the click handler for the card it names.  The same for a delayed
    report; a reminder carries no verdict. *)
Definition report_judged (cs : list Closure) (p : nat * FinishData) : bool :=
  match cs !! p.1 with
  | Some c => bool_decide (fd_correct p.2 = judge c (fd_response p.2))
  | None => false
  end.

Definition timer_judged (cs : list Closure) (t : Number * Callback) : bool :=
  match t.2 with
  | FinishLater inst i b =>
      match cs !! inst with Some c => bool_decide (b = judge c i) | None => false end
  | Prompt _ => true
  end.

Definition judged (cs : list Closure) (ts : list (Number * Callback))
    (log : list (nat * FinishData)) : Prop :=
  Forall (fun p => report_judged cs p = true) log /\
  Forall (fun t => timer_judged cs t = true) ts.

(** The closures of [cs] are in [cs'], with their trials. *)
Definition extends (cs cs' : list Closure) : Prop :=
  forall j c, cs !! j = Some c -> exists c', cs' !! j = Some c' /\ trial c' = trial c.

(** ** Lemmas: reports and pending calls *)

Lemma pending_of_finishes inst t :
  is_Some (pending_of inst t) <-> finishes_for inst t.2 = true.
Proof.
  destruct t as [due [j i b|j]]; unfold pending_of; cbn.
  - case_decide; [by rewrite bool_decide_eq_true_2|].
    rewrite bool_decide_eq_false_2 by done. split; [by intros [? ?]|done].
  - split; [by intros [? ?]|done].
Qed.

Lemma reports_length inst log : length (reports inst log) = finished inst log.
Proof.
  apply length_omap_count_if. intros p. rewrite bool_decide_eq_true.
  case_decide; [done|]. split; [by intros [? ?]|done].
Qed.

Lemma pending_length inst ts : length (pending inst ts) = scheduled inst ts.
Proof. apply length_omap_count_if, pending_of_finishes. Qed.

Lemma reports_snoc inst log j d :
  reports inst (log ++ [(j, d)])
  = reports inst log ++ (if decide (j = inst) then [d] else []).
Proof. unfold reports. rewrite omap_snoc. cbn. by case_decide. Qed.

Lemma pending_snoc inst ts t :
  pending inst (ts ++ [t]) = pending inst ts ++ option_list (pending_of inst t).
Proof. apply omap_snoc. Qed.

(** Under the invariant an instance has at most one report, made or
    pending, and none while its latch is open. *)
Lemma ledger_ok_one cs ts log inst :
  ledger_ok cs ts log ->
  (length (reports inst log) + length (pending inst ts) <= 1)%nat.
Proof.
  intros Hok. specialize (Hok inst).
  rewrite reports_length, pending_length. case_match; lia.
Qed.

Lemma ledger_ok_none cs ts log inst :
  ledger_ok cs ts log -> is_responded inst cs = false ->
  reports inst log = [] /\ pending inst ts = [].
Proof.
  intros Hok Hr. specialize (Hok inst).
  rewrite Hr, <- reports_length, <- pending_length in Hok.
  split; apply nil_length_inv; lia.
Qed.

(** The phase of an instance depends on its closure, its reports and its
    pending calls only. *)
Lemma phase_of_ext inst l l' :
  l'.1.1 !! inst = l.1.1 !! inst -> reports inst l'.2 = reports inst l.2 ->
  pending inst l'.1.2 = pending inst l.1.2 ->
  phase_of inst l = phase_of inst l'.
Proof. unfold phase_of. by intros -> -> ->. Qed.

Lemma phase_of_waiting cs ts log inst c :
  ledger_ok cs ts log -> cs !! inst = Some c -> responded c = false ->
  phase_of inst (cs, ts, log) = Waiting c.
Proof.
  intros Hok Hc Hr.
  destruct (ledger_ok_none cs ts log inst Hok) as [Hl Hp];
    [by apply (is_responded_open _ _ c)|].
  unfold phase_of. cbn [fst snd]. by rewrite Hc, Hl, Hp, Hr.
Qed.

Lemma phase_of_closed cs ts log inst c :
  cs !! inst = Some c ->
  phase_of inst (alter set_responded inst cs, ts, log)
  = match reports inst log, pending inst ts with
    | [], [] => Stuck
    | [d], [] => Reported d
    | [], [(i, b)] => Pending i b
    | _, _ => Broken
    end.
Proof. intros Hc. unfold phase_of. cbn [fst snd]. by rewrite list_lookup_alter_eq, Hc. Qed.

Lemma pending_of_eq inst due i b :
  pending_of inst (due, FinishLater inst i b) = Some (i, b).
Proof. unfold pending_of. cbn. by rewrite decide_True. Qed.

Lemma pending_of_ne inst due j i b :
  inst <> j -> pending_of inst (due, FinishLater j i b) = None.
Proof. intros Hne. unfold pending_of. cbn. by rewrite decide_False. Qed.

Lemma pending_fire cs ts log k due inst i b :
  ledger_ok cs ts log -> ts !! k = Some (due, FinishLater inst i b) ->
  reports inst log = [] /\ pending inst ts = [(i, b)] /\
  pending inst (delete k ts) = [].
Proof.
  intros Hok Hk. pose proof (ledger_ok_one cs ts log inst Hok) as Hone.
  unfold pending in *. rewrite omap_delete.
  rewrite (omap_lookup _ ts k _ Hk), pending_of_eq in Hone |- *.
  rewrite !length_app in Hone. cbn in Hone |- *.
  destruct (reports inst log), (omap _ (take k ts)), (omap _ (drop (S k) ts));
    cbn in Hone; by try lia.
Qed.

(** ** Lemmas: a transition of the ledger is at most one of the automaton *)

Ltac phase_frame :=
  left; apply phase_of_ext; cbn [fst snd];
  rewrite ?reports_snoc, ?pending_snoc, ?pending_of_ne, ?decide_False by done;
  cbn [option_list]; rewrite ?app_nil_r;
  by rewrite ?list_lookup_alter_ne by done.

Section Simulation.
Context (inst : nat) (cs : list Closure) (ts : list (Number * Callback))
  (log : list (nat * FinishData)).
Context (Hok : ledger_ok cs ts log).

Lemma click_schedule_phase j c due i :
  cs !! j = Some c -> responded c = false -> withFeedback c = true ->
  moves (phase_of inst (cs, ts, log))
    (phase_of inst (alter set_responded j cs,
                    ts ++ [(due, FinishLater j i (judge c i))], log)).
Proof using Hok.
  intros Hc Hr Hfb. destruct (decide (inst = j)) as [->|Hne]; [right|phase_frame].
  rewrite (phase_of_waiting _ _ _ _ c), (phase_of_closed _ _ _ _ c), pending_snoc by done.
  destruct (ledger_ok_none cs ts log j Hok (is_responded_open _ _ _ Hc Hr)) as [-> ->].
  rewrite pending_of_eq. by constructor.
Qed.

Lemma click_finish_phase j c i rt :
  cs !! j = Some c -> responded c = false -> withFeedback c = false ->
  moves (phase_of inst (cs, ts, log))
    (phase_of inst (alter set_responded j cs, ts,
       log ++ [(j, {| fd_response := i; fd_correct := judge c i; fd_rt := rt |})])).
Proof using Hok.
  intros Hc Hr Hfb. destruct (decide (inst = j)) as [->|Hne]; [right|phase_frame].
  rewrite (phase_of_waiting _ _ _ _ c), (phase_of_closed _ _ _ _ c), reports_snoc by done.
  destruct (ledger_ok_none cs ts log j Hok (is_responded_open _ _ _ Hc Hr)) as [-> ->].
  rewrite decide_True by done. by constructor.
Qed.

Lemma click_only_phase j c :
  cs !! j = Some c -> responded c = false -> withFeedback c = true ->
  moves (phase_of inst (cs, ts, log)) (phase_of inst (alter set_responded j cs, ts, log)).
Proof using Hok.
  intros Hc Hr Hfb. destruct (decide (inst = j)) as [->|Hne]; [right|phase_frame].
  rewrite (phase_of_waiting _ _ _ _ c), (phase_of_closed _ _ _ _ c) by done.
  destruct (ledger_ok_none cs ts log j Hok (is_responded_open _ _ _ Hc Hr)) as [-> ->].
  by constructor.
Qed.

Lemma fire_finish_phase k due j i b c rt :
  ts !! k = Some (due, FinishLater j i b) -> cs !! j = Some c ->
  moves (phase_of inst (cs, ts, log))
    (phase_of inst (cs, delete k ts,
       log ++ [(j, {| fd_response := i; fd_correct := b; fd_rt := rt |})])).
Proof using Hok.
  intros Hk Hc. destruct (decide (inst = j)) as [->|Hne].
  - right. destruct (pending_fire cs ts log k due j i b Hok Hk) as (Hl & Hp & Hd).
    unfold phase_of. cbn [fst snd].
    rewrite Hc, reports_snoc, Hl, Hp, Hd, decide_True by done. constructor.
  - left. apply phase_of_ext; cbn [fst snd]; [done|..].
    + by rewrite reports_snoc, decide_False, app_nil_r.
    + by apply (omap_delete_None _ _ _ _ Hk), pending_of_ne.
Qed.

Lemma fire_drop_phase k t :
  ts !! k = Some t ->
  (forall inst, finishes_for inst t.2 = true -> cs !! inst = None) ->
  moves (phase_of inst (cs, ts, log)) (phase_of inst (cs, delete k ts, log)).
Proof.
  intros Hk Hnone. left. destruct (pending_of inst t) eqn:E.
  - unfold phase_of. cbn [fst snd]. rewrite Hnone; [done|].
    apply pending_of_finishes. by rewrite E.
  - apply phase_of_ext; [done..|]. by apply (omap_delete_None _ _ _ _ Hk).
Qed.

Lemma alloc_phase c :
  responded c = false ->
  moves (phase_of inst (cs, ts, log)) (phase_of inst (cs ++ [c], ts, log)).
Proof using Hok.
  intros Hr. destruct (cs !! inst) as [c'|] eqn:E.
  { left. apply phase_of_ext; [|done..]. cbn. rewrite E. by apply lookup_app_l_Some. }
  destruct (ledger_ok_none cs ts log inst Hok) as [Hl Hp]; [unfold is_responded; by rewrite E|].
  unfold phase_of. cbn [fst snd]. rewrite E, Hl, Hp.
  destruct (decide (inst = length cs)) as [->|Hne].
  - right. rewrite list_lookup_middle, Hr by done. by constructor.
  - left. apply lookup_ge_None in E. rewrite (proj2 (lookup_ge_None _ _)); [done|].
    rewrite length_app. cbn. lia.
Qed.

Lemma add_prompt_phase due j :
  moves (phase_of inst (cs, ts, log)) (phase_of inst (cs, ts ++ [(due, Prompt j)], log)).
Proof. phase_frame. Qed.

End Simulation.

Lemma ledger_step_phase inst l l' :
  uncurry3 ledger_ok l -> ledger_step l l' ->
  moves (phase_of inst l) (phase_of inst l').
Proof.
  intros Hok. destruct 1; cbn in Hok;
    eauto using click_schedule_phase, click_finish_phase, click_only_phase,
      fire_finish_phase, fire_drop_phase, alloc_phase, add_prompt_phase.
Qed.

(** A property kept by the seven transitions is a property kept by
    [ledger_step], and the ledgers reachable from one are such a property. *)
Lemma ledger_step_stable P `{!LedgerStable P} l l' :
  ledger_step l l' -> uncurry3 P l -> uncurry3 P l'.
Proof.
  destruct 1; cbn; intros HP.
  - by eapply stable_click_schedule.
  - by eapply stable_click_finish.
  - by eapply stable_click_only.
  - by eapply stable_fire_finish.
  - by eapply stable_fire_drop.
  - by eapply stable_alloc.
  - by eapply stable_prompt.
Qed.

#[export] Instance reachable_stable l0 : LedgerStable (curry3 (rtc ledger_step l0)).
Proof.
  split; unfold curry3; intros; (eapply rtc_r; [done|]); by econstructor.
Qed.

Lemma ledger_steps_phase inst l l' :
  uncurry3 ledger_ok l -> rtc ledger_step l l' ->
  rtc phase_step (phase_of inst l) (phase_of inst l').
Proof.
  intros Hok Hs. induction Hs as [|l1 l2 l3 H12 _ IH]; [done|].
  etransitivity; [|apply IH; by eapply (ledger_step_stable ledger_ok)].
  destruct (ledger_step_phase inst l1 l2 Hok H12) as [->|?]; [done|by apply rtc_once].
Qed.

(** ** Lemmas: the automaton *)

Lemma phase_step_rank p q : phase_step p q -> (rank p < rank q)%nat.
Proof. destruct 1; cbn; lia. Qed.

Lemma rank_le p : (rank p <= 3)%nat.
Proof. destruct p; cbn; lia. Qed.

Lemma nsteps_rank n p q : nsteps phase_step n p q -> (rank p + n <= rank q)%nat.
Proof. induction 1 as [|n p q r Hpq%phase_step_rank _ IH]; lia. Qed.

Lemma final_nf p : final p = true -> nf phase_step p.
Proof. intros Hf [q Hq]. by destruct Hq. Qed.

Lemma final_stays p q : final p = true -> rtc phase_step p q -> q = p.
Proof. intros Hf Hs. symmetry. eapply rtc_nf; [done|by apply final_nf]. Qed.

Lemma phase_step_sn p : sn phase_step p.
Proof.
  assert (forall n q, (3 - rank q < n)%nat -> sn phase_step q) as Hacc.
  { induction n as [|n IH]; intros q Hq; [lia|]. constructor.
    intros r Hr%phase_step_rank. apply IH. pose proof (rank_le r). lia. }
  by apply (Hacc 4%nat); lia.
Qed.

Lemma pending_steps i b q :
  rtc phase_step (Pending i b) q ->
  q = Pending i b \/
  exists rt, q = Reported {| fd_response := i; fd_correct := b; fd_rt := rt |}.
Proof.
  intros [<-|(p & Hp & Hs)]%rtc_inv; [by left|right].
  inversion Hp; subst. apply final_stays in Hs; [by eexists|done].
Qed.

Lemma waiting_steps c q : rtc phase_step (Waiting c) q -> outcome c q.
Proof.
  intros [<-|(p & Hp & Hs)]%rtc_inv; [done|]. inversion Hp; subst.
  - apply pending_steps in Hs as [->|[rt ->]]; by cbn.
  - by apply final_stays in Hs as ->.
  - by apply final_stays in Hs as ->.
Qed.

Lemma phase_of_not_broken inst l : uncurry3 ledger_ok l -> phase_of inst l <> Broken.
Proof.
  destruct l as [[cs ts] log]. intros Hone%(ledger_ok_one _ _ _ inst).
  unfold phase_of. cbn [fst snd].
  destruct (cs !! inst) as [c|]; [|done].
  destruct (reports inst log) as [|? [|? ?]], (pending inst ts) as [|[? ?] [|? ?]];
    cbn in Hone; try lia; try done. by destruct (responded c).
Qed.

(** ** Lemmas: the verdicts *)

Lemma judge_trial c c' i : trial c' = trial c -> judge c' i = judge c i.
Proof. unfold judge. by intros ->. Qed.

#[export] Instance extends_preorder : PreOrder extends.
Proof.
  split; [by eexists|]. intros cs1 cs2 cs3 H12 H23 j c Hc.
  destruct (H12 j c Hc) as (c2 & Hc2 & E2). destruct (H23 j c2 Hc2) as (c3 & Hc3 & E3).
  exists c3. split; [done|congruence].
Qed.

Lemma extends_alter cs inst : extends cs (alter set_responded inst cs).
Proof.
  intros j c Hc. rewrite list_lookup_alter. case_decide; subst; [|by eexists].
  rewrite Hc. by eexists.
Qed.

Lemma extends_app cs c : extends cs (cs ++ [c]).
Proof. intros j c' Hc. exists c'. split; [by apply lookup_app_l_Some|done]. Qed.

Lemma report_judged_mono cs cs' p :
  extends cs cs' -> report_judged cs p = true -> report_judged cs' p = true.
Proof.
  intros He. unfold report_judged. destruct (cs !! p.1) as [c|] eqn:E; [|done].
  destruct (He _ _ E) as (c' & -> & Ht). by rewrite (judge_trial c c').
Qed.

Lemma timer_judged_mono cs cs' t :
  extends cs cs' -> timer_judged cs t = true -> timer_judged cs' t = true.
Proof.
  intros He. unfold timer_judged. destruct (t.2) as [inst i b|]; [|done].
  destruct (cs !! inst) as [c|] eqn:E; [|done].
  destruct (He _ _ E) as (c' & -> & Ht). by rewrite (judge_trial c c').
Qed.

Lemma judged_mono cs cs' ts log : judged cs ts log -> extends cs cs' -> judged cs' ts log.
Proof.
  intros [Hl Ht] He.
  split; (eapply Forall_impl; [done|]); eauto using report_judged_mono, timer_judged_mono.
Qed.

Lemma judged_schedule cs ts log inst c due i :
  judged cs ts log -> cs !! inst = Some c ->
  judged cs (ts ++ [(due, FinishLater inst i (judge c i))]) log.
Proof.
  intros [Hl Ht] Hc. split; [done|]. apply Forall_app. split; [done|].
  repeat constructor. unfold timer_judged. cbn. rewrite Hc. by apply bool_decide_eq_true_2.
Qed.

Lemma judged_report cs ts log inst c i b rt :
  judged cs ts log -> cs !! inst = Some c -> b = judge c i ->
  judged cs ts (log ++ [(inst, {| fd_response := i; fd_correct := b; fd_rt := rt |})]).
Proof.
  intros [Hl Ht] Hc ->. split; [|done]. apply Forall_app. split; [done|].
  repeat constructor. unfold report_judged. cbn. rewrite Hc. by apply bool_decide_eq_true_2.
Qed.

Lemma judged_delete cs ts log k : judged cs ts log -> judged cs (delete k ts) log.
Proof. intros [Hl Ht]. split; [done|by apply Forall_delete]. Qed.

(** The verdict that a pending timer carries. *)
Lemma judged_timer cs ts log k due inst i b c :
  judged cs ts log -> ts !! k = Some (due, FinishLater inst i b) ->
  cs !! inst = Some c -> b = judge c i.
Proof.
  intros [_ Ht] Hk Hc. rewrite Forall_lookup in Ht. specialize (Ht k _ Hk).
  unfold timer_judged in Ht. cbn in Ht. rewrite Hc in Ht. by apply bool_decide_eq_true in Ht.
Qed.

#[export] Instance judged_stable : LedgerStable judged.
Proof.
  split; intros.
  - eapply judged_mono; [by apply judged_schedule|apply extends_alter].
  - eapply judged_mono; [by eapply judged_report|apply extends_alter].
  - eapply judged_mono; [done|apply extends_alter].
  - eapply judged_report; [by apply judged_delete|done|by eapply judged_timer].
  - by apply judged_delete.
  - eapply judged_mono; [done|apply extends_app].
  - destruct H as [Hl Ht]. split; [done|]. apply Forall_app. by repeat constructor.
Qed.

(** ** Lemmas: the event loop *)

Section Loop.
Context {H : Type} `{JsPsych H}.
Implicit Type e : Env H.

Lemma steps_ledger e evs e' : steps e evs e' -> rtc ledger_step (ledger e) (ledger e').
Proof.
  intros Hs. change (on_ledger (curry3 (rtc ledger_step (ledger e))) e').
  apply (steps_stable _ _ _ _ Hs), rtc_refl.
Qed.

Lemma steps_phase e evs e' inst :
  inv e -> steps e evs e' -> rtc phase_step (phase inst e) (phase inst e').
Proof. intros Hinv Hs. by apply ledger_steps_phase, (steps_ledger e evs). Qed.

Lemma initial_env_judged g (h : H) : on_ledger judged (initial_env g h).
Proof. by split. Qed.

End Loop.

(** ** Theorems *)

Section Claims.
Context {H : Type} `{JsPsych H}.
Implicit Type e : Env H.

(** C5. The event loop implements the life cycle of a trial.  Whatever the
    events (clicks, timers, time, new screens and trials), a run from an
    environment whose ledger is consistent is a sequence of ledger
    transitions, and it moves every instance of [setupTrial] along the
    automaton [phase_step]: from absent to waiting, from waiting to
    reported, pending or stuck, from pending to reported, never back and
    never to an inconsistent ledger. *)
Theorem lifecycle_refines e (evs : list Event) e' (inst : nat) :
  inv e -> steps e evs e' ->
  rtc ledger_step (ledger e) (ledger e') /\
  rtc phase_step (phase inst e) (phase inst e') /\
  phase inst e' <> Broken.
Proof.
  intros Hinv Hs. split; [by eapply steps_ledger|]. split; [by eapply steps_phase|].
  apply phase_of_not_broken. exact (steps_stable ledger_ok _ _ _ Hs Hinv).
Qed.

(** C17. What becomes of a trial that waits for its answer, whatever happens
    next: it still waits, or its report is pending or made with the verdict
    of the click handler for the card that was clicked (pending only with
    feedback), or, with feedback only, it is stuck. *)
Theorem waiting_trial_outcome e (evs : list Event) e' (inst : nat) (c : Closure) :
  inv e -> phase inst e = Waiting c -> steps e evs e' ->
  outcome c (phase inst e').
Proof.
  intros Hinv Hp Hs. apply waiting_steps. rewrite <- Hp. by eapply steps_phase.
Qed.

(** C11. In every run from the initial environment, every report made and
    every report scheduled is for a trial that was set up and carries the
    verdict of the click handler: [correct] is true exactly when the card
    reported is the correct card of that trial. *)
Theorem reports_judged (g : Globals) (h : H) (evs : list Event) e :
  steps (initial_env g h) evs e ->
  judged (closures e) (timers e) (finish_log e).
Proof. intros Hs. apply (steps_stable judged _ _ _ Hs), initial_env_judged. Qed.

(** A report is final: once [finishTrial] was called for a trial, no
    click, timer or new screen changes what was reported or adds to it. *)
Theorem report_is_final e (evs : list Event) e' (inst : nat) (d : FinishData) :
  inv e -> phase inst e = Reported d -> steps e evs e' ->
  phase inst e' = Reported d.
Proof.
  intros Hinv Hp Hs. apply (final_stays (Reported d)); [done|].
  rewrite <- Hp. by eapply steps_phase.
Qed.

(** A pending report reports the answer that scheduled it, whatever is
    clicked in between. *)
Theorem pending_keeps_answer e (evs : list Event) e' (inst i : nat) (b : bool) :
  inv e -> phase inst e = Pending i b -> steps e evs e' ->
  phase inst e' = Pending i b \/
  exists rt, phase inst e'
             = Reported {| fd_response := i; fd_correct := b; fd_rt := rt |}.
Proof.
  intros Hinv Hp Hs. apply pending_steps. rewrite <- Hp. by eapply steps_phase.
Qed.

(** However long the run, the phase of a trial changes at most three
    times, and fewer the further it is. *)
Theorem lifecycle_bounded e (evs : list Event) e' (inst : nat) :
  inv e -> steps e evs e' ->
  exists n, (rank (phase inst e) + n <= 3)%nat /\
            nsteps phase_step n (phase inst e) (phase inst e').
Proof.
  intros Hinv Hs. pose proof (steps_phase e evs e' inst Hinv Hs) as [n Hn]%rtc_nsteps.
  exists n. split; [|done]. apply nsteps_rank in Hn.
  pose proof (rank_le (phase inst e')). lia.
Qed.

End Claims.

(** ** Witnesses *)

Lemma demo_test_ready_inv : inv demo_test_ready.
Proof.
  apply (steps_stable ledger_ok demo_env
           [Render 2 false; Setup demo_trial "color_test" 1 "color" false; Elapse 700]);
    [apply run_steps; by_compute|apply initial_env_inv].
Defined.

Lemma demo_practice_ready_inv : inv demo_practice_ready.
Proof.
  apply (steps_stable ledger_ok demo_env
           [Render 2 true; Setup demo_trial "color_practice" 1 "color" true; Elapse 700]);
    [apply run_steps; by_compute|apply initial_env_inv].
Defined.

Lemma lifecycle_refines_witness :
  let e' := default demo_env (run demo_test_events demo_env) in
  rtc ledger_step (ledger demo_env) (ledger e') /\
  rtc phase_step (phase 0 demo_env) (phase 0 e') /\ phase 0 e' <> Broken.
Proof.
  apply (lifecycle_refines demo_env demo_test_events);
    [apply initial_env_inv|apply run_steps; by_compute].
Defined.

Lemma waiting_trial_outcome_witness :
  outcome {| trial := demo_trial; withFeedback := true; startTime := 0;
             responded := false |}
    (phase 0 (default demo_env
                (run [Click 1; Click 0; Elapse 2600; Fire 0] demo_practice_ready))).
Proof.
  apply (waiting_trial_outcome demo_practice_ready [Click 1; Click 0; Elapse 2600; Fire 0]);
    [apply demo_practice_ready_inv|by_compute|apply run_steps; by_compute].
Defined.

Lemma reports_judged_witness :
  let e := default demo_env (run demo_test_events demo_env) in
  judged (closures e) (timers e) (finish_log e).
Proof.
  apply (reports_judged demo_globals [] demo_test_events). apply run_steps. by_compute.
Defined.

Lemma report_is_final_witness :
  phase 0 (default demo_env
             (run [Click 1; Click 0; Elapse 5000; Fire 0] demo_test_answered))
  = Reported {| fd_response := 0; fd_correct := true; fd_rt := 700 |}.
Proof.
  apply (report_is_final demo_test_answered [Click 1; Click 0; Elapse 5000; Fire 0]);
    [|by_compute|apply run_steps; by_compute].
  apply (steps_stable ledger_ok demo_test_ready [Click 0]);
    [apply run_steps; by_compute|apply demo_test_ready_inv].
Defined.

Lemma pending_keeps_answer_witness :
  let e' := default demo_env (run [Click 0; Elapse 2600; Fire 0]
                                (default demo_env (step_fn (Click 1) demo_practice_ready))) in
  phase 0 e' = Pending 1 false \/
  exists rt, phase 0 e' = Reported {| fd_response := 1; fd_correct := false; fd_rt := rt |}.
Proof.
  apply (pending_keeps_answer (default demo_env (step_fn (Click 1) demo_practice_ready))
           [Click 0; Elapse 2600; Fire 0]);
    [|by_compute|apply run_steps; by_compute].
  apply (steps_stable ledger_ok demo_practice_ready [Click 1]);
    [apply run_steps; by_compute|apply demo_practice_ready_inv].
Defined.

Lemma lifecycle_bounded_witness :
  let e' := default demo_env (run demo_test_events demo_env) in
  exists n, (rank (phase 0 demo_env) + n <= 3)%nat /\
            nsteps phase_step n (phase 0 demo_env) (phase 0 e').
Proof.
  apply (lifecycle_bounded demo_env demo_test_events);
    [apply initial_env_inv|apply run_steps; by_compute].
Defined.
