(* ===== verification/Browser.v ===== *)
(** * The browser between events

    When no click arrives, time passes until the pending timer that is due
    first fires ([fire_earliest]); timers due together fire in the order
    they were set.  [wait] lets a given time pass and [await] lets time
    pass until a condition holds; both are runs of the event loop of
    [Evaluator] ([Elapse] and [Fire] events).  A callback of the program
    sets no timer, so the number of pending timers is fuel enough.

    [wait_until_rule], [await_rule] and [await_never] reduce a property of
    the state reached to an invariant of one firing.  A reminder is [live]
    while its trial waits for an answer and [stale] once it was answered:
    [wait_until_reminders] says which timers are left after a wait and what
    was said, one reminder for each live one that was due. *)

From Stdlib Require Import ZArith QArith Lia Lqa.
From stdpp Require Import base tactics decidable option list strings.
From S2P Require Import Prelude Stimuli Audio Evaluator Ledger.

Open Scope string_scope.
Open Scope list_scope.

(** ** The timer that fires next *)

(** The smallest due time of the pending timers, and the first timer that
    has it. *)
Definition min_due (ts : list (Number * Callback)) : option Number :=
  foldr (fun t m => Some (match m with
                          | Some m => if Qle_bool t.1 m then t.1 else m
                          | None => t.1
                          end)) None ts.

Definition earliest (ts : list (Number * Callback)) : option (nat * (Number * Callback)) :=
  m ← min_due ts; list_find (fun t => Is_true (Qle_bool t.1 m)) ts.

Section Browser.
Context {H : Type} `{JsPsych H}.

(** The time until [due], none when it has passed. *)
Definition lag (due : Number) (e : Env H) : Number :=
  if Qle_bool due (now e) then 0 else (due - now e)%Q.

Definition fire_earliest (e : Env H) : option (Env H) :=
  '(k, (due, _)) ← earliest (timers e);
  e ← step_fn (Elapse (lag due e)) e;
  step_fn (Fire k) e.

(** Time passes up to [t]: the timers due by then fire, each at its
    time. *)
Fixpoint wait_until (fuel : nat) (t : Number) (e : Env H) : option (Env H) :=
  match earliest (timers e) with
  | Some (_, (due, _)) =>
      if Qle_bool due t then
        match fuel with
        | O => None
        | S fuel => e ← fire_earliest e; wait_until fuel t e
        end
      else step_fn (Elapse (lag t e)) e
  | None => step_fn (Elapse (lag t e)) e
  end.

Definition wait (d : Number) (e : Env H) : option (Env H) :=
  wait_until (length (timers e)) (now e + d)%Q e.

(** Time passes until [stop] holds: [None] when the timers run out
    first. *)
Fixpoint await (stop : Env H -> bool) (fuel : nat) (e : Env H) : option (Env H) :=
  if stop e then Some e
  else match fuel with
       | O => None
       | S fuel => e ← fire_earliest e; await stop fuel e
       end.

(** ** Specification *)

(** The environment when timer [k], due at [due], has fired. *)
Definition fired (k : nat) (due : Number) (cb : Callback) (e : Env H) : Env H :=
  invoke cb (with_timers (delete k (timers e)) (with_now (now e + lag due e)%Q e)).

End Browser.

(** ** Reminders *)

Definition is_prompt (cb : Callback) : bool :=
  match cb with Prompt _ => true | FinishLater _ _ _ => false end.

Definition reminders_only (ts : list (Number * Callback)) : Prop :=
  Forall (fun t => is_prompt t.2 = true) ts.

(** A step that the host and the page do not see. *)
Definition quiet {H} (e e' : Env H) : Prop :=
  closures e' = closures e /\ finish_log e' = finish_log e /\ host e' = host e /\
  dom e' = dom e.

Definition reminder : string := "Choose one of the pictures.".

(** A reminder of a trial that waits for its answer: it speaks when it
    fires. *)
Definition live (cs : list Closure) (t : Number * Callback) : bool :=
  match t.2 with
  | Prompt inst => match cs !! inst with Some c => negb (responded c) | None => false end
  | FinishLater _ _ _ => false
  end.

(** The live reminders due by [t], and the timers due later. *)
Definition overdue (t : Number) (cs : list Closure) (ts : list (Number * Callback)) : nat :=
  count_if (fun x => live cs x && Qle_bool x.1 t) ts.

Definition pending_after (t : Number) (ts : list (Number * Callback)) :
    list (Number * Callback) :=
  filter (fun x => ~ (x.1 <= t)%Q) ts.

(** From [e0] to [e] reminders due by [t] have fired: what was said and
    what is still to be said add up. *)
Definition drains {H} (t : Number) (e0 e : Env H) : Prop :=
  quiet e0 e /\ reminders_only (timers e) /\
  pending_after t (timers e) = pending_after t (timers e0) /\
  narrate (replicate (overdue t (closures e) (timers e)) reminder) (globals e)
  = narrate (replicate (overdue t (closures e0) (timers e0)) reminder) (globals e0).

(** A reminder of a trial that was answered. *)
Definition stale (cs : list Closure) (t : Number * Callback) : bool :=
  match t.2 with
  | Prompt inst => is_responded inst cs
  | FinishLater _ _ _ => false
  end.

(** Every pending timer is a stale reminder. *)
Definition stale_only {H} (e : Env H) : Prop :=
  Forall (fun t => stale (closures e) t = true) (timers e).

(** ** Lemmas: the timer that fires next *)

Lemma min_due_spec ts m :
  min_due ts = Some m ->
  (exists k cb, ts !! k = Some (m, cb)) /\ Forall (fun t => (m <= t.1)%Q) ts.
Proof.
  revert m. induction ts as [|[due cb] ts IH]; intros m; [done|].
  unfold min_due. cbn [foldr fst]. fold (min_due ts).
  destruct (min_due ts) as [m'|] eqn:E.
  - destruct (IH m' eq_refl) as [(k & cb' & Hk) Hall].
    destruct (Qle_bool due m') eqn:Hle; intros [= <-].
    + apply Qle_bool_iff in Hle. split; [by exists 0%nat, cb|].
      constructor; [apply Qle_refl|].
      eapply Forall_impl; [done|]. intros t Ht. cbn in *. by eapply Qle_trans.
    + split; [by exists (S k), cb'|]. constructor; [|done]. cbn.
      apply Qlt_le_weak, Qnot_le_lt. intros Hc%Qle_bool_iff. congruence.
  - intros [= <-]. destruct ts; [|done]. split; [by exists 0%nat, cb|].
    constructor; [apply Qle_refl|done].
Qed.

Lemma earliest_spec ts k due cb :
  earliest ts = Some (k, (due, cb)) ->
  ts !! k = Some (due, cb) /\ Forall (fun t => (due <= t.1)%Q) ts.
Proof.
  unfold earliest. destruct (min_due ts) as [m|] eqn:E; [|done]. cbn.
  destruct (min_due_spec _ _ E) as [_ Hall].
  intros (Hk & Hle%Is_true_true%Qle_bool_iff & _)%list_find_Some. split; [done|].
  eapply Forall_impl; [done|]. intros t Ht. cbn in *. by eapply Qle_trans.
Qed.

Lemma earliest_is_Some ts : ts <> [] -> is_Some (earliest ts).
Proof.
  intros Hne. unfold earliest. destruct (min_due ts) as [m|] eqn:E.
  - destruct (min_due_spec _ _ E) as [(k & cb & Hk) _]. cbn.
    destruct (list_find _ ts) eqn:Hf; [done|].
    rewrite list_find_None, Forall_lookup in Hf. destruct (Hf _ _ Hk).
    apply Is_true_true, Qle_bool_iff, Qle_refl.
  - by destruct ts.
Qed.

Lemma earliest_None ts : earliest ts = None -> ts = [].
Proof.
  intros E. destruct ts as [|t ts]; [done|].
  destruct (earliest_is_Some (t :: ts)) as [x Hx]; [done|congruence].
Qed.

#[export] Instance quiet_preorder {H} : PreOrder (@quiet H).
Proof.
  split; [done|]. intros e1 e2 e3 (? & ? & ? & ?) (? & ? & ? & ?).
  repeat split; congruence.
Qed.

(** ** Lemmas: one firing *)

Section Firing.
Context {H : Type} `{JsPsych H}.
Implicit Type e : Env H.

Lemma lag_nonneg due e : (0 <= lag due e)%Q.
Proof.
  unfold lag. destruct (Qle_bool due (now e)) eqn:E; [done|].
  assert (~ (due <= now e)%Q) by (rewrite <- Qle_bool_iff; congruence). lra.
Qed.

Lemma lag_reaches due e : (due <= now e + lag due e)%Q.
Proof.
  unfold lag. destruct (Qle_bool due (now e)) eqn:E; [|lra].
  apply Qle_bool_iff in E. lra.
Qed.

Lemma lag_exact t e : (now e <= t)%Q -> (now e + lag t e == t)%Q.
Proof.
  unfold lag. destruct (Qle_bool t (now e)) eqn:E; [|lra].
  apply Qle_bool_iff in E. lra.
Qed.

Lemma lag_le due t e : (due <= t)%Q -> (now e <= t)%Q -> (now e + lag due e <= t)%Q.
Proof.
  unfold lag. destruct (Qle_bool due (now e)) eqn:E; [|lra]. lra.
Qed.

Lemma elapse_lag t e : step_fn (Elapse (lag t e)) e = Some (with_now (now e + lag t e) e).
Proof. cbn. by rewrite (proj2 (Qle_bool_iff _ _) (lag_nonneg t e)). Qed.

Lemma fire_earliest_run e k due cb :
  earliest (timers e) = Some (k, (due, cb)) -> fire_earliest e = Some (fired k due cb e).
Proof.
  intros E. destruct (earliest_spec _ _ _ _ E) as [Hk _].
  unfold fire_earliest. rewrite E. cbn [mbind option_bind]. rewrite elapse_lag.
  cbn. rewrite Hk. cbn. by rewrite (proj2 (Qle_bool_iff _ _) (lag_reaches due e)).
Qed.

(** A callback sets no timer and leaves the clock, the closures and the
    page alone. *)
Lemma invoke_frame cb e :
  timers (invoke cb e) = timers e /\ now (invoke cb e) = now e /\
  closures (invoke cb e) = closures e /\ dom (invoke cb e) = dom e.
Proof.
  destruct cb as [inst i b|inst]; unfold invoke; cbn [run_callback].
  - rewrite finishLater_run. cbn. by case_match.
  - unfold prompt. unfold_monad. case_match; [|done]. case_match; [|done].
    by rewrite playAudio_run.
Qed.

Lemma fired_frame k due cb e :
  timers (fired k due cb e) = delete k (timers e) /\
  now (fired k due cb e) = (now e + lag due e)%Q /\
  closures (fired k due cb e) = closures e /\ dom (fired k due cb e) = dom e.
Proof. unfold fired. by destruct (invoke_frame cb (with_timers (delete k (timers e))
  (with_now (now e + lag due e)%Q e))) as (-> & -> & -> & ->). Qed.

(** ** Lemmas: the rules of [wait] and [await] *)

(** A property [Q] of the state reached by [wait_until] follows from an
    invariant of the firings: the timer that fires is due first and due by
    [t], and at the end no pending timer is due by [t]. *)
Lemma wait_until_rule (I Q : Env H -> Prop) (t : Number) :
  (forall e k due cb, I e -> (now e <= t)%Q -> timers e !! k = Some (due, cb) ->
     (due <= t)%Q -> Forall (fun x => (due <= x.1)%Q) (timers e) ->
     I (fired k due cb e)) ->
  (forall e, I e -> (now e <= t)%Q -> Forall (fun x => (t < x.1)%Q) (timers e) ->
     Q (with_now (now e + lag t e)%Q e)) ->
  forall fuel e, I e -> (now e <= t)%Q -> (length (timers e) <= fuel)%nat ->
    exists e', wait_until fuel t e = Some e' /\ Q e'.
Proof.
  intros Hfire Hend fuel. induction fuel as [|fuel IH]; intros e HI Hn Hl.
  all: cbn [wait_until];
    destruct (earliest (timers e)) as [[k [due cb]]|] eqn:E;
    [destruct (earliest_spec _ _ _ _ E) as [Hk Hmin];
     destruct (Qle_bool due t) eqn:Hd|].
  all: try (rewrite elapse_lag; eexists; split; [done|]; apply Hend; [done..|]).
  - apply lookup_lt_Some in Hk. lia.
  - eapply Forall_impl; [done|]. intros x Hx. cbn in Hx.
    assert (~ (due <= t)%Q) by (rewrite <- Qle_bool_iff; congruence). lra.
  - by rewrite (earliest_None _ E).
  - apply Qle_bool_iff in Hd. rewrite (fire_earliest_run _ _ _ _ E).
    cbn [mbind option_bind]. destruct (fired_frame k due cb e) as (Hts & Hnow & _).
    apply IH; [by apply Hfire|rewrite Hnow; by apply lag_le|].
    rewrite Hts, length_delete by done. lia.
  - eapply Forall_impl; [done|]. intros x Hx. cbn in Hx.
    assert (~ (due <= t)%Q) by (rewrite <- Qle_bool_iff; congruence). lra.
  - by rewrite (earliest_None _ E).
Qed.

Lemma await_stop (stop : Env H -> bool) fuel e :
  stop e = true -> await stop fuel e = Some e.
Proof. intros Hs. destruct fuel; cbn; by rewrite Hs. Qed.

(** [await] reaches a state where [stop] holds when an invariant of the
    firings says that something is pending as long as it does not. *)
Lemma await_rule (I : Env H -> Prop) (stop : Env H -> bool) :
  (forall e k due cb, I e -> stop e = false -> timers e !! k = Some (due, cb) ->
     Forall (fun x => (due <= x.1)%Q) (timers e) -> I (fired k due cb e)) ->
  (forall e, I e -> stop e = false -> timers e <> []) ->
  forall fuel e, I e -> (length (timers e) <= fuel)%nat ->
    exists e', await stop fuel e = Some e' /\ I e' /\ stop e' = true.
Proof.
  intros Hfire Hlive fuel. induction fuel as [|fuel IH]; intros e HI Hl.
  all: destruct (stop e) eqn:Hs; [rewrite await_stop by done; by exists e|].
  all: pose proof (Hlive e HI Hs) as Hne.
  { destruct (timers e); [done|cbn in Hl; lia]. }
  destruct (earliest_is_Some _ Hne) as [[k [due cb]] E].
  destruct (earliest_spec _ _ _ _ E) as [Hk Hmin].
  cbn [await]. rewrite Hs, (fire_earliest_run _ _ _ _ E). cbn [mbind option_bind].
  apply IH; [by eapply Hfire|].
  destruct (fired_frame k due cb e) as (-> & _). rewrite length_delete by done. lia.
Qed.

(** [await] never returns when an invariant of the firings excludes
    [stop]. *)
Lemma await_never (I : Env H -> Prop) (stop : Env H -> bool) :
  (forall e k due cb, I e -> timers e !! k = Some (due, cb) -> I (fired k due cb e)) ->
  (forall e, I e -> stop e = false) ->
  forall fuel e, I e -> await stop fuel e = None.
Proof.
  intros Hfire Hstop fuel. induction fuel as [|fuel IH]; intros e HI; cbn;
    rewrite (Hstop e HI); [done|].
  destruct (earliest (timers e)) as [[k [due cb]]|] eqn:E;
    [|by unfold fire_earliest; rewrite E].
  rewrite (fire_earliest_run _ _ _ _ E). cbn [mbind option_bind].
  destruct (earliest_spec _ _ _ _ E) as [Hk _]. by eapply IH, Hfire.
Qed.

(** ** Lemmas: the scheduler runs the event loop *)

Lemma fire_earliest_steps e e' :
  fire_earliest e = Some e' -> exists evs, steps e evs e'.
Proof.
  unfold fire_earliest. destruct (earliest (timers e)) as [[k [due cb]]|]; [|done].
  cbn [mbind option_bind]. destruct (step_fn (Elapse _) e) as [e1|] eqn:E1; [|done].
  intros E2. exists ([Elapse (lag due e)] ++ [Fire k]).
  eapply steps_app; by apply steps_one.
Qed.

Lemma wait_until_steps fuel t e e' :
  wait_until fuel t e = Some e' -> exists evs, steps e evs e'.
Proof.
  revert e. induction fuel as [|fuel IH]; intros e; cbn [wait_until].
  all: destruct (earliest (timers e)) as [[k [due cb]]|];
    [destruct (Qle_bool due t)|]; try done.
  all: try (intros Hs%steps_one; by eexists).
  destruct (fire_earliest e) as [e1|] eqn:E; [|done]. cbn [mbind option_bind].
  intros (evs' & Hs')%IH. destruct (fire_earliest_steps _ _ E) as [evs Hs].
  exists (evs ++ evs'). by eapply steps_app.
Qed.

Lemma wait_steps d e e' : wait d e = Some e' -> exists evs, steps e evs e'.
Proof. apply wait_until_steps. Qed.

Lemma await_steps (stop : Env H -> bool) fuel e e' :
  await stop fuel e = Some e' -> exists evs, steps e evs e'.
Proof.
  revert e. induction fuel as [|fuel IH]; intros e; cbn [await];
    (destruct (stop e); [intros [= <-]; exists []; constructor|]); [done|].
  destruct (fire_earliest e) as [e1|] eqn:E; [|done]. cbn [mbind option_bind].
  intros (evs' & Hs')%IH. destruct (fire_earliest_steps _ _ E) as [evs Hs].
  exists (evs ++ evs'). by eapply steps_app.
Qed.

(** ** Lemmas: reminders *)

(** A reminder that fires speaks when it is live, and does nothing
    else. *)
Lemma fired_prompt k due j e :
  getCurrentTrial (host e) = true ->
  fired k due (Prompt j) e
  = with_globals (narrate (if live (closures e) (due, Prompt j) then [reminder] else [])
                          (globals e))
      (with_timers (delete k (timers e)) (with_now (now e + lag due e)%Q e)).
Proof.
  intros Hh. unfold fired, invoke, live. cbn [run_callback snd].
  destruct (closures e !! j) as [c|] eqn:Hc.
  - rewrite (prompt_run _ _ c) by done. cbn. rewrite Hh, andb_true_r.
    by destruct (responded c), e.
  - unfold prompt. unfold_monad. cbn. rewrite Hc. by destruct e.
Qed.

(** Whatever reminder fires, the host and the page do not see it. *)
Lemma fired_reminder k due cb e :
  reminders_only (timers e) -> timers e !! k = Some (due, cb) ->
  quiet e (fired k due cb e) /\ reminders_only (timers (fired k due cb e)).
Proof.
  intros Hp Hk. pose proof (Forall_lookup_1 _ _ _ _ Hp Hk) as Hcb.
  destruct cb as [|j]; [done|]. destruct (fired_frame k due (Prompt j) e) as (-> & _).
  split; [|by apply Forall_delete]. unfold fired, invoke; cbn [run_callback].
  unfold prompt. unfold_monad. case_match; [|done]. case_match; [|done].
  by rewrite playAudio_run.
Qed.

Lemma drains_fired t e0 e k due cb :
  drains t e0 e -> getCurrentTrial (host e0) = true ->
  timers e !! k = Some (due, cb) -> (due <= t)%Q -> drains t e0 (fired k due cb e).
Proof.
  intros ((Hcs & Hlog & Hh & Hdom) & Hp & Hf & Hg) Hcur Hk Hdue.
  pose proof (Forall_lookup_1 _ _ _ _ Hp Hk) as Hcb. destruct cb as [|j]; [done|].
  rewrite fired_prompt by (by rewrite Hh). unfold drains. rewrite <- Hg, <- Hf.
  unfold overdue. rewrite (count_if_delete _ (timers e) k _ Hk). cbn [fst].
  rewrite (proj2 (Qle_bool_iff _ _) Hdue), andb_true_r, Nat.add_comm.
  repeat split; try done; cbn [timers with_globals with_timers with_now].
  - by apply Forall_delete.
  - unfold pending_after. apply filter_delete_False with (a := (due, Prompt j)); [done|].
    cbn. by intros [].
  - cbn [closures globals with_globals with_timers with_now]. by case_match.
Qed.

Lemma drains_done t e0 e :
  drains t e0 e -> Forall (fun x => (t < x.1)%Q) (timers e) ->
  timers e = pending_after t (timers e0) /\
  globals e = narrate (replicate (overdue t (closures e0) (timers e0)) reminder) (globals e0).
Proof.
  intros (_ & _ & <- & <-) Hall. unfold pending_after, overdue. split.
  - symmetry. apply filter_Forall_id. eapply Forall_impl; [done|].
    intros x Hx. cbn in *. by apply Qlt_not_le.
  - rewrite count_if_none; [done|]. eapply Forall_impl; [done|]. intros x Hx. cbn in *.
    apply andb_false_intro2, not_true_is_false. intros Hc%Qle_bool_iff. lra.
Qed.

(** [wait_until] with reminders only: the reminders due by [t] fire, the
    live ones speak, and nothing else changes. *)
Lemma wait_until_reminders fuel t e :
  reminders_only (timers e) -> getCurrentTrial (host e) = true ->
  (now e <= t)%Q -> (length (timers e) <= fuel)%nat ->
  exists e', wait_until fuel t e = Some e' /\ quiet e e' /\ (now e' == t)%Q /\
    timers e' = pending_after t (timers e) /\
    globals e'
    = narrate (replicate (overdue t (closures e) (timers e)) reminder) (globals e).
Proof.
  intros Hp Hcur Hn Hl.
  apply (wait_until_rule (drains t e)); [| |done..].
  - intros e1 k due cb Hd _ Hk Hdue _. by apply drains_fired.
  - intros e1 Hd Hn1 Hall. destruct (drains_done _ _ _ Hd Hall) as [Hts Hg].
    destruct Hd as (Hq & _). cbn. split; [done|]. split; [by apply lag_exact|done].
Qed.

Lemma pending_after_Forall (P : Number * Callback -> Prop) t ts :
  Forall P ts -> Forall P (pending_after t ts).
Proof.
  rewrite !Forall_forall. intros Hp x [_ Hx]%list_elem_of_filter. by apply Hp.
Qed.

(** ** Lemmas: stale reminders *)

Lemma stale_not_live cs t : stale cs t = true -> live cs t = false.
Proof.
  destruct t as [due [|j]]; [done|]. unfold stale, live, is_responded. cbn.
  by destruct (cs !! j) as [c|]; [intros ->|].
Qed.

Lemma overdue_stale t cs ts : Forall (fun x => stale cs x = true) ts -> overdue t cs ts = 0%nat.
Proof.
  intros Hs. apply count_if_none. eapply Forall_impl; [done|].
  intros x Hx. cbn. by rewrite stale_not_live.
Qed.

Lemma overdue_app t cs l k : overdue t cs (l ++ k) = (overdue t cs l + overdue t cs k)%nat.
Proof. apply count_if_app. Qed.

(** Stale reminders and a delayed report: once the report has fired the
    stale reminders are left. *)
Lemma stale_or_finisher cs ts f :
  is_prompt f.2 = false -> reminders_only ts ->
  Forall (fun x => stale cs x = true \/ x = f) ts -> Forall (fun x => stale cs x = true) ts.
Proof.
  unfold reminders_only. rewrite !Forall_forall. intros Hf Hp Hs x Hx.
  destruct (Hs x Hx) as [?| ->]; [done|]. specialize (Hp _ Hx). congruence.
Qed.

Lemma stale_reminders ts cs : Forall (fun x => stale cs x = true) ts -> reminders_only ts.
Proof. intros Hs. eapply Forall_impl; [done|]. by intros [due [|j]]. Qed.

Lemma reminders_scheduled inst ts : reminders_only ts -> scheduled inst ts = 0%nat.
Proof.
  intros Hp. apply count_if_none. eapply Forall_impl; [done|]. by intros [due [|j]].
Qed.

End Firing.

Lemma stale_alter cs inst t :
  stale cs t = true -> stale (alter set_responded inst cs) t = true.
Proof. destruct t as [due [|j]]; [done|]. apply is_responded_alter_mono. Qed.

Lemma stale_app cs c t : stale cs t = true -> stale (cs ++ [c]) t = true.
Proof. destruct t as [due [|j]]; [done|]. apply is_responded_app. Qed.
