(* ===== verification/Session.v ===== *)
(** * A session

    The timeline of [createTimeline] run by the host framework: for each
    entry jsPsych starts a trial, renders the markup, calls [on_load],
    waits for the trial to end and records a row; the results screen reads
    the rows recorded so far.  [Host] is jsPsych as the program sees it
    (modelled from its documented behaviour, the framework is not part of
    the repository): the rows recorded, the [data] of the current trial and
    whether it has ended.  The browser is that of [Browser]: when nothing
    else happens, time passes until the pending timer that is due first
    fires.  A participant is a list of [Move]s, one for each screen.

    [expected_rows] is what a session should record and [script] what
    it should say ([narration] gives the globals screen by screen): the
    theorems show that the run of the event loop, with its timers and
    closures, records and says exactly that, for the timelines of
    [createTimeline] and for custom timelines of exported components. *)

From Stdlib Require Import ZArith QArith Lia Lqa.
From stdpp Require Import base tactics decidable option list strings.
From S2P Require Import Prelude Stimuli Audio Screens Results Generator Timeline.
From S2P Require Import Evaluator Exports Ledger Browser.

Open Scope string_scope.
Open Scope list_scope.

(** ** The host *)

Record Host : Type := {
  recorded : list Row;
  current : option ScreenData;
  ended : bool;
}.

Definition initial_host : Host := {| recorded := []; current := None; ended := false |}.

(** The row of a trial: the [data] of its screen, and what the plugin or
    [finishTrial] reported. *)
Definition row_for (d : ScreenData) (correct : option bool) (rt : Number) : Row :=
  match d, correct with
  | TrialInfo i, Some c => row_of i c rt
  | TrialInfo i, None =>
      {| r_task := Some (d_task i); r_phase := Some (d_phase i);
         r_correct := None; r_rt := Some rt |}
  | _, _ => {| r_task := None; r_phase := None; r_correct := correct; r_rt := Some rt |}
  end.

Definition begin_trial (d : ScreenData) (h : Host) : Host :=
  {| recorded := recorded h; current := Some d; ended := false |}.

(** The end of the current trial; a trial ends once. *)
Definition end_trial (correct : option bool) (rt : Number) (h : Host) : Host :=
  match current h with
  | Some d =>
      if ended h then h
      else {| recorded := recorded h ++ [row_for d correct rt];
              current := current h; ended := true |}
  | None => h
  end.

#[export] Instance session_host : JsPsych Host := {|
  finishTrial d := end_trial (Some (fd_correct d)) (fd_rt d);
  getCurrentTrial h := bool_decide (is_Some (current h));
|}.

Definition with_host {H} (h : H) (e : Env H) : Env H := with_finish (finish_log e) h e.

(** ** The participant and the run of a timeline *)

(** What the participant does on a screen: a click on a card of a trial
    after some time, or a press of the button of an instruction screen, the
    checkbox of the welcome screen first set to [tick] or left alone. *)
Inductive Move : Type :=
| Answer (card : nat) (after : Number)
| Press (after : Number) (tick : option bool).

Definition page (html : string) : Event := Render (choice_cards html) (has_feedback html).

(** The welcome screen has the checkbox; the results table has none. *)
Definition has_checkbox (s : Screen) : bool :=
  match stimulus s with
  | Html html => bool_decide (0 < occurrences ("id=" +:+ attr "audioToggle") html)%nat
  | ResultsTable => false
  end.

(** [onchange="window.tempaudio_enabled = this.checked"]. *)
Definition onchange (checked : bool) (g : Globals) : Globals :=
  {| state := state g;
     window := {| speechSynthesis := speechSynthesis (window g);
                  tempaudio_enabled := Some checked |} |}.

Definition load (s : Screen) (e : Env Host) : option (Env Host) :=
  match on_load s with
  | NoOnLoad => Some e
  | Narrate txt => Some (say txt e).2
  | SetupTrial t phase trialNum dimension fb =>
      step_fn (Setup t phase trialNum dimension fb) e
  end.

Definition finish_screen (s : Screen) (e : Env Host) : Env Host :=
  match on_finish s with
  | NoOnFinish => e
  | WelcomeOnFinish => with_globals (welcome_on_finish (globals e)).2 e
  end.

Definition await_end (e : Env Host) : option (Env Host) :=
  await (fun e => ended (host e)) (length (timers e)) e.

(** One entry of the timeline, from the start of its trial to its end:
    [None] when the trial never ends. *)
Definition play (s : Screen) (mv : Move) (e : Env Host) : option (Env Host) :=
  let html := shown s (recorded (host e)) in
  e ← step_fn (page html) (with_host (begin_trial (data s) (host e)) e);
  e ← load s e;
  match type s, mv with
  | jsPsychHtmlKeyboardResponse, Answer card after =>
      e ← wait after e; e ← step_fn (Click card) e; await_end e
  | jsPsychHtmlButtonResponse, Press after tick =>
      let e := match tick with
               | Some b => if has_checkbox s then with_globals (onchange b (globals e)) e
                           else e
               | None => e
               end in
      e ← wait after e;
      Some (with_host (end_trial None after (host e)) (finish_screen s e))
  | _, _ => None
  end.

Fixpoint session (l : list Screen) (mvs : list Move) (e : Env Host) : option (Env Host) :=
  match l, mvs with
  | [], _ => Some e
  | s :: l, mv :: mvs => e ← play s mv e; session l mvs e
  | _ :: _, [] => None
  end.

(** ** Pending timers *)

(** The pending timers are reminders and the delayed report [f] of an instance. *)
Definition awaiting (inst : nat) (f : Number * Callback) (ts : list (Number * Callback)) : Prop :=
  Forall (fun t => is_prompt t.2 = true \/ t = f) ts /\ scheduled inst ts = 1%nat.

(** The environment when a trial screen has been rendered and
    [setupTrial] has run. *)
Definition on_screen (d : ScreenData) (n : nat) (fbdiv : bool) (t : Trial)
    (dimension : string) (fb : bool) (e : Env Host) : Env Host :=
  let inst := length (closures e) in
  {| globals := (Audio.playAudio (toUpperCase dimension) (globals e)).2;
     now := now e;
     dom := {| cards := imap (fun i c => add_listener (OnClick inst i) c)
                             (cards (fresh_dom n fbdiv));
               feedback := feedback (fresh_dom n fbdiv) |};
     closures := closures e ++ [{| trial := t; withFeedback := fb; startTime := now e;
                                   responded := false |}];
     timers := timers e ++ (if fb then [] else [((now e + 5000)%Q, Prompt inst)]);
     finish_log := finish_log e;
     host := begin_trial d (host e) |}.

(** While the delayed report [(df, FinishLater inst i b)] of a trial is
    awaited, from [e0] on: reminders fire until the report does, which ends
    the trial with the row of the answer. *)
Definition finishing (inst i : nat) (b : bool) (df : Number) (c : Closure)
    (d : ScreenData) (e0 e : Env Host) : Prop :=
  let f := (df, FinishLater inst i b) in
  let stale_or_f x := stale (closures e0) x = true \/ x = f in
  closures e = closures e0 /\ dom e = dom e0 /\
  (Forall stale_or_f (timers e0) -> globals e = globals e0 /\ Forall stale_or_f (timers e)) /\
  if ended (host e) then
    reminders_only (timers e) /\
    exists rt, (rt == df - startTime c)%Q /\
      host e = {| recorded := recorded (host e0) ++ [row_for d (Some b) rt];
                  current := Some d; ended := true |} /\
      finish_log e = finish_log e0 ++ [(inst, {| fd_response := i; fd_correct := b;
                                                 fd_rt := rt |})]
  else
    host e = host e0 /\ finish_log e = finish_log e0 /\ (now e <= df)%Q /\
    awaiting inst f (timers e).

(** ** What a session should say *)

Definition feedback_phrase (correct : bool) : string :=
  if correct then "That's right!"
  else "This is the same color, so you should choose this picture.".

(** The calls of [playAudio] on a screen: the text of an instruction; on a
    trial the cue word, then on a practice trial the phrase of the answer,
    and on a test trial the reminder when the answer took five seconds. *)
Definition heard (s : Screen) (mv : Move) : list string :=
  match on_load s, mv with
  | Narrate txt, _ => [txt]
  | SetupTrial t _ _ dimension fb, Answer card after =>
      toUpperCase dimension ::
      (if fb then [feedback_phrase (bool_decide (Z.of_nat card = correct t))]
       else if Qle_bool 5000 after then [reminder] else [])
  | _, _ => []
  end.

(** The globals after a screen: what was said, the checkbox, and the
    welcome screen's [on_finish]. *)
Definition told (s : Screen) (mv : Move) (g : Globals) : Globals :=
  let g := narrate (heard s mv) g in
  match mv with
  | Answer _ _ => g
  | Press _ tick =>
      let g := match tick with
               | Some b => if has_checkbox s then onchange b g else g
               | None => g
               end in
      match on_finish s with
      | NoOnFinish => g
      | WelcomeOnFinish => (welcome_on_finish g).2
      end
  end.

Definition narration (l : list Screen) (mvs : list Move) (g : Globals) : Globals :=
  foldl (fun g p => told p.1 p.2 g) g (zip l mvs).

(** What is said along a timeline, and what the welcome screen takes the
    checkbox to be: the last value the participant set, or, when the
    checkbox was not touched, what [window.tempaudio_enabled] was before
    ([resetState] does not clear it). *)
Definition script (l : list Screen) (mvs : list Move) : list string :=
  mjoin (zip_with heard l mvs).

Definition ticked (mvs : list Move) (g : Globals) : bool :=
  match mvs with
  | Press _ (Some b) :: _ => b
  | _ => default false (tempaudio_enabled (window g))
  end.

(** From [e], where the pending timers are stale, to [e'], where they are
    again, the globals became [g]. *)
Definition narrated (g : Globals) (e e' : Env Host) : Prop :=
  stale_only e -> globals e' = g /\ stale_only e'.

(** ** What a session should record *)

(** A move the screen allows: a click on one of the two cards of a trial,
    a press of the button of another screen. *)
Definition fits (s : Screen) (mv : Move) : Prop :=
  match type s, mv with
  | jsPsychHtmlKeyboardResponse, Answer card after => (card < 2)%nat /\ (0 <= after)%Q
  | jsPsychHtmlButtonResponse, Press after _ => (0 <= after)%Q
  | _, _ => False
  end.

Definition verdict (s : Screen) (mv : Move) : option bool :=
  match on_load s, mv with
  | SetupTrial t _ _ _ _, Answer card _ => Some (bool_decide (Z.of_nat card = correct t))
  | _, _ => None
  end.

(** The time from the start of the trial to its end: on a practice trial
    the feedback delay is part of it. *)
Definition elapsed (s : Screen) (mv : Move) : Number :=
  match mv, on_load s with
  | Answer card after, SetupTrial t _ _ _ true =>
      after + feedback_delay (bool_decide (Z.of_nat card = correct t))
  | Answer _ after, _ | Press after _, _ => after
  end.

Definition expected (s : Screen) (mv : Move) : Row :=
  row_for (data s) (verdict s mv) (elapsed s mv).

(** The rows a timeline should record when played with given moves. *)
Definition expected_rows (l : list Screen) (mvs : list Move) : list Row :=
  zip_with expected l mvs.

#[export] Instance fits_dec s mv : Decision (fits s mv).
Proof. unfold fits. destruct (type s), mv; apply _. Defined.

(** ** A session to run the theorems on *)

(** The default timeline with [Math.random] fixed to 0.5, and a participant
    who ticks the checkbox, reads each instruction for 0.3 s and answers each
    trial correctly after 1.2 s. *)
Definition demo_timeline : list Screen :=
  Layout.of_options Options.empty_options (Spec.trials half 0 30).

Definition careful (s : Screen) : Move :=
  match on_load s with
  | SetupTrial t _ _ _ _ => Answer (Z.to_nat (correct t)) 1200
  | _ => Press 300 (Some true)
  end.

Definition demo_start : Env Host := initial_env used_globals initial_host.

(** A timeline of the caller's own: one practice trial, the table, a
    shape trial out of any phase, and the table again. *)
Definition custom_timeline : list Screen :=
  [ timelineComponents.createWelcome;
    timelineComponents.createPracticeTrial demo_trial 0;
    timelineComponents.createResults;
    timelineComponents.createTestTrial demo_trial "warm_up" "shape" 7;
    timelineComponents.createResults ].

(** A practice trial whose expected response is not the index of a card. *)
Definition ill_posed_trial : Trial :=
  fixed_trial STIMULI.blueTruck STIMULI.blueBall STIMULI.orangeTruck 2.

(** ** Lemmas: waiting for the delayed report *)

Lemma awaiting_delete_prompt inst f ts k due j :
  awaiting inst f ts -> ts !! k = Some (due, Prompt j) -> awaiting inst f (delete k ts).
Proof.
  intros [Hall Hs] Hk. split; [by apply Forall_delete|].
  rewrite (scheduled_delete _ _ _ inst Hk) in Hs. cbn in Hs. lia.
Qed.

Lemma awaiting_delete_finisher inst i b df ts k :
  awaiting inst (df, FinishLater inst i b) ts -> ts !! k = Some (df, FinishLater inst i b) ->
  reminders_only (delete k ts).
Proof.
  intros [Hall Hs] Hk. rewrite (scheduled_delete _ _ _ inst Hk) in Hs. cbn in Hs.
  rewrite bool_decide_eq_true_2 in Hs by done.
  apply Forall_delete with (i := k) in Hall. unfold reminders_only.
  rewrite Forall_forall in *. intros t Ht. destruct (Hall t Ht) as [?| ->]; [done|].
  assert (0 < scheduled inst (delete k ts))%nat; [|lia].
  apply count_if_pos. eexists. split; [done|]. cbn. by rewrite bool_decide_eq_true_2.
Qed.

Lemma awaiting_elem inst f ts : awaiting inst f ts -> f ∈ ts.
Proof.
  intros [Hall Hs].
  assert (0 < scheduled inst ts)%nat as ([due cb] & Hin & Hf)%count_if_pos by lia.
  rewrite Forall_forall in Hall. destruct (Hall _ Hin) as [Hp| <-]; [|done].
  by destruct cb.
Qed.

Lemma current_trial (h : Host) d : current h = Some d -> getCurrentTrial h = true.
Proof. intros Hd. cbn. rewrite Hd. by apply bool_decide_eq_true_2. Qed.

Section Finishing.
Context (inst i : nat) (b : bool) (df : Number) (c : Closure) (d : ScreenData)
        (e0 : Env Host).
Context (Hc : closures e0 !! inst = Some c) (Hd : current (host e0) = Some d)
        (He0 : ended (host e0) = false).
Let f := (df, FinishLater inst i b).

Lemma finishing_fired e k due cb :
  finishing inst i b df c d e0 e -> ended (host e) = false ->
  timers e !! k = Some (due, cb) -> Forall (fun x => (due <= x.1)%Q) (timers e) ->
  finishing inst i b df c d e0 (fired k due cb e).
Proof using All.
  intros (Hcs & Hdom & Hn & Hrest) He Hk Hmin. rewrite He in Hrest.
  destruct Hrest as (Hh & Hlog & Hnow & Ha).
  pose proof (awaiting_elem _ _ _ Ha) as Hin.
  rewrite Forall_forall in Hmin. specialize (Hmin _ Hin). cbn in Hmin.
  destruct (Forall_lookup_1 _ _ _ _ (proj1 Ha) Hk) as [Hp|Hf].
  - destruct cb as [|j]; [done|].
    rewrite fired_prompt by (rewrite Hh; by eapply current_trial).
    unfold finishing. cbn [closures dom host timers globals finish_log now
                           with_globals with_timers with_now]. rewrite He.
    split; [done|]. split; [done|]. split.
    { intros Hs. destruct (Hn Hs) as [Hg Hall]. split; [|by apply Forall_delete].
      rewrite <- Hg. destruct (Forall_lookup_1 _ _ _ _ Hall Hk) as [Hst|?]; [|done].
      by rewrite Hcs, (stale_not_live _ _ Hst). }
    split; [done|]. split; [done|]. split; [by apply lag_le|].
    by eapply awaiting_delete_prompt.
  - simplify_eq. unfold fired, invoke. cbn [run_callback]. rewrite finishLater_run.
    cbn [closures with_timers with_now]. rewrite Hcs, Hc.
    unfold finishing. cbn. unfold end_trial. rewrite Hh, Hd, He0. cbn.
    split; [done|]. split; [done|]. split.
    { intros Hs. destruct (Hn Hs) as [Hg Hall]. split; [done|by apply Forall_delete]. }
    split; [by eapply awaiting_delete_finisher|].
    eexists. split; [|by rewrite Hlog]. by rewrite (lag_exact df e Hnow).
Qed.

Lemma await_finisher fuel :
  awaiting inst f (timers e0) -> (now e0 <= df)%Q -> (length (timers e0) <= fuel)%nat ->
  exists e', await (fun e => ended (host e)) fuel e0 = Some e' /\
    finishing inst i b df c d e0 e' /\ ended (host e') = true.
Proof using All.
  intros Ha Hn Hl. apply await_rule; [| |by unfold finishing; rewrite He0|done].
  - intros e k due cb. apply finishing_fired.
  - intros e (_ & _ & _ & Hrest) He. rewrite He in Hrest.
    destruct Hrest as (_ & _ & _ & Hin%awaiting_elem).
    intros Hnil. rewrite Hnil in Hin. by apply elem_of_nil in Hin.
Qed.

End Finishing.

(** ** Lemmas: one screen *)

Lemma play_trial_unfold s html t phase trialNum dimension fb card after e :
  type s = jsPsychHtmlKeyboardResponse -> stimulus s = Html html ->
  on_load s = SetupTrial t phase trialNum dimension fb ->
  play s (Answer card after) e =
  (e ← wait after (on_screen (data s) (choice_cards html) (has_feedback html) t
                             dimension fb e);
   e ← step_fn (Click card) e; await_end e).
Proof.
  intros Ht Hs Hl. unfold play, load, shown. rewrite Ht, Hs, Hl.
  cbn [page step_fn mbind option_bind]. by rewrite setupTrial_run.
Qed.

Lemma click_listening {H} `{JsPsych H} (e : Env H) inst n card :
  cards (dom e) = imap (fun i c => add_listener (OnClick inst i) c)
                       (replicate n {| classList := []; listeners := [] |}) ->
  (card < n)%nat ->
  step_fn (Click card) e = Some (clickHandler inst card e).2.
Proof.
  intros Hc Hn. cbn. by rewrite Hc, list_lookup_imap, lookup_replicate_2.
Qed.

(** With stale reminders pending when a trial is set up, the only live
    reminder is its own, and all are stale once it is answered. *)
Section OnScreen.
Context (d : ScreenData) (n : nat) (fbdiv : bool) (t : Trial) (dimension : string)
        (fb : bool) (e : Env Host) (Hs : stale_only e).
Let e2 := on_screen d n fbdiv t dimension fb e.

Lemma on_screen_overdue after :
  overdue (now e + after) (closures e2) (timers e2)
  = if fb then 0%nat else if Qle_bool 5000 after then 1%nat else 0%nat.
Proof using Hs.
  subst e2. cbn [on_screen closures timers]. rewrite overdue_app, overdue_stale.
  - destruct fb; [done|]. unfold overdue, live. cbn.
    rewrite list_lookup_middle by done. cbn. rewrite Qle_bool_add_l. by case_match.
  - eapply Forall_impl; [exact Hs|]. intros x. apply stale_app.
Qed.

Lemma on_screen_stale :
  Forall (fun x => stale (alter set_responded (length (closures e)) (closures e2)) x = true)
         (timers e2).
Proof using Hs.
  subst e2. cbn [on_screen closures timers]. apply Forall_app. split.
  - eapply Forall_impl; [exact Hs|]. intros x Hx. by apply stale_alter, stale_app.
  - destruct fb; repeat constructor. unfold stale, is_responded. cbn.
    by rewrite list_lookup_alter_eq, list_lookup_middle.
Qed.

End OnScreen.

Section Answer.
Context (e e3 : Env Host) (d : DccsData) (t : Trial) (fb : bool) (card : nat)
        (after : Number).
Let inst := length (closures e).
Let c := {| trial := t; withFeedback := fb; startTime := now e; responded := false |}.
Let b := bool_decide (Z.of_nat card = correct t).
Context (Hcs : closures e3 = closures e ++ [c])
        (Hhost : host e3 = begin_trial (TrialInfo d) (host e))
        (Hlog : finish_log e3 = finish_log e)
        (Hnow : (now e3 == now e + after)%Q)
        (Hp : reminders_only (timers e3))
        (Hst : stale_only e ->
               Forall (fun x => stale (alter set_responded inst (closures e3)) x = true)
                      (timers e3)).

Lemma answer_test :
  fb = false ->
  exists e' rt,
    await_end (clickHandler inst card e3).2 = Some e' /\ (rt == after)%Q /\
    host e' = {| recorded := recorded (host e) ++ [row_of d b rt];
                 current := Some (TrialInfo d); ended := true |} /\
    finish_log e' = finish_log e ++ [(inst, {| fd_response := card; fd_correct := b;
                                               fd_rt := rt |})] /\
    reminders_only (timers e') /\ narrated (globals e3) e e'.
Proof using All.
  intros Hfb. erewrite clickHandler_no_feedback;
    [|by rewrite Hcs; apply list_lookup_middle|done..].
  cbn. unfold await_end. rewrite await_stop by (cbn; by rewrite Hhost).
  eexists _, _. split; [done|]. cbn. rewrite Hhost, Hlog. cbn.
  split; [|do 3 (split; [done|]); intros Hs; split; [done|exact (Hst Hs)]].
  rewrite Hnow. ring.
Qed.

Lemma answer_practice :
  fb = true -> is_Some (js_index (cards (dom e3)) (correct t)) ->
  is_Some (feedback (dom e3)) ->
  exists e' rt,
    await_end (clickHandler inst card e3).2 = Some e' /\
    (rt == after + feedback_delay b)%Q /\
    host e' = {| recorded := recorded (host e) ++ [row_of d b rt];
                 current := Some (TrialInfo d); ended := true |} /\
    finish_log e' = finish_log e ++ [(inst, {| fd_response := card; fd_correct := b;
                                               fd_rt := rt |})] /\
    reminders_only (timers e') /\
    narrated (Audio.playAudio (feedback_phrase b) (globals e3)).2 e e'.
Proof using All.
  intros Hfb Hidx Hdiv.
  assert (closures e3 !! inst = Some c) as Hc by (by rewrite Hcs; apply list_lookup_middle).
  destruct (clickHandler_feedback inst card e3 c)
    as (_ & Hts & Hcs4 & Hlog4 & Hnow4 & Hhost4); [done..|].
  pose proof (clickHandler_feedback_says inst card e3 c Hc eq_refl Hfb Hdiv) as Hg4.
  cbn [trial] in *. fold b in Hts, Hg4.
  set (e4 := (clickHandler inst card e3).2) in *.
  destruct (await_finisher inst card b (now e3 + feedback_delay b)%Q (set_responded c)
              (TrialInfo d) e4) with (fuel := length (timers e4))
    as (e' & Ha & (Hcs' & _ & Hn & Hrest) & He'); rewrite ?Hhost4, ?Hhost; try done.
  - by rewrite Hcs4, list_lookup_alter_eq, Hc.
  - rewrite Hts. split.
    + apply Forall_app. split; [|by repeat constructor; right].
      eapply Forall_impl; [done|]. by left.
    + unfold scheduled. rewrite count_if_snoc. fold (scheduled inst (timers e3)).
      rewrite (reminders_scheduled _ _ Hp). cbn. by rewrite bool_decide_eq_true_2.
  - rewrite Hnow4. destruct b; cbn; lra.
  - rewrite He' in Hrest. destruct Hrest as (Hp' & rt & Hrt & Hh & Hl).
    exists e', rt. split; [done|]. rewrite Hh, Hl, Hhost4, Hhost, Hlog4, Hlog.
    split; [rewrite Hrt, Hnow; cbn; ring|]. do 3 (split; [done|]).
    intros Hs. destruct Hn as [-> Hall].
    + rewrite Hts, Hcs4. apply Forall_app. split; [|by repeat constructor; right].
      eapply Forall_impl; [exact (Hst Hs)|]. by left.
    + split; [exact Hg4|]. unfold stale_only. rewrite Hcs'.
      exact (stale_or_finisher _ _ (_, FinishLater _ _ _) eq_refl Hp' Hall).
Qed.

End Answer.

(** A trial screen up to the click: the page is rendered, [setupTrial]
    runs, the time [after] passes (reminders may fire) and the click reaches
    the listener of the card. *)
Lemma play_to_click s html t phase trialNum dimension fb card after e :
  type s = jsPsychHtmlKeyboardResponse -> stimulus s = Html html ->
  choice_cards html = 2%nat ->
  on_load s = SetupTrial t phase trialNum dimension fb ->
  (card < 2)%nat -> (0 <= after)%Q -> reminders_only (timers e) ->
  exists e3,
    play s (Answer card after) e
    = await_end (clickHandler (length (closures e)) card e3).2 /\
    closures e3 = closures e ++ [{| trial := t; withFeedback := fb;
                                    startTime := now e; responded := false |}] /\
    host e3 = begin_trial (data s) (host e) /\ finish_log e3 = finish_log e /\
    (now e3 == now e + after)%Q /\ reminders_only (timers e3) /\
    length (cards (dom e3)) = 2%nat /\
    feedback (dom e3) = feedback (fresh_dom 2 (has_feedback html)) /\
    (stale_only e ->
     globals e3 = narrate (toUpperCase dimension ::
                           if fb then [] else if Qle_bool 5000 after then [reminder] else [])
                          (globals e) /\
     Forall (fun x => stale (alter set_responded (length (closures e)) (closures e3)) x = true)
            (timers e3)).
Proof.
  intros Ht Hs Hn Hl Hcard Hafter Hp.
  rewrite (play_trial_unfold _ _ _ _ _ _ _ _ _ _ Ht Hs Hl), Hn.
  set (e2 := on_screen _ _ _ _ _ _ _).
  destruct (wait_until_reminders (length (timers e2)) (now e2 + after)%Q e2)
    as (e3 & Hw & (Hcs & Hlog & Hhost & Hdom) & Hnow & Hts & Hg); [|done|cbn; lra|done|].
  { apply Forall_app. split; [done|]. destruct fb; by repeat constructor. }
  exists e3. unfold wait. rewrite Hw. cbn [mbind option_bind].
  rewrite (click_listening e3 (length (closures e)) 2 card) by by rewrite ?Hdom.
  rewrite Hdom. do 5 (split; [done|]).
  split; [rewrite Hts; apply pending_after_Forall, Forall_app; split; [done|];
          destruct fb; by repeat constructor|].
  do 2 (split; [done|]). intros Hst. rewrite Hg, Hts, Hcs. split.
  - change (now e2) with (now e). subst e2. rewrite on_screen_overdue by done.
    by destruct fb, (Qle_bool 5000 after).
  - by apply pending_after_Forall, on_screen_stale.
Qed.

Lemma play_trial s html d t phase trialNum dimension fb card after e :
  type s = jsPsychHtmlKeyboardResponse -> stimulus s = Html html ->
  choice_cards html = 2%nat -> has_feedback html = true -> data s = TrialInfo d ->
  on_load s = SetupTrial t phase trialNum dimension fb ->
  (0 <= correct t < 2)%Z -> (card < 2)%nat -> (0 <= after)%Q ->
  reminders_only (timers e) ->
  let b := bool_decide (Z.of_nat card = correct t) in
  exists e' rt,
    play s (Answer card after) e = Some e' /\
    (rt == after + if fb then feedback_delay b else 0)%Q /\
    host e' = {| recorded := recorded (host e) ++ [row_of d b rt];
                 current := Some (TrialInfo d); ended := true |} /\
    finish_log e' = finish_log e ++ [(length (closures e),
                                      {| fd_response := card; fd_correct := b;
                                         fd_rt := rt |})] /\
    reminders_only (timers e') /\
    narrated (narrate (heard s (Answer card after)) (globals e)) e e'.
Proof.
  intros Ht Hs Hn Hdiv Hd Hl Hc Hcard Hafter Hp b.
  destruct (play_to_click s html t phase trialNum dimension fb card after e)
    as (e3 & -> & Hcs & Hhost & Hlog & Hnow & Hp3 & Hlen & Hfb & Hst); [done..|].
  rewrite Hd in Hhost. unfold heard. rewrite Hl. destruct fb.
  - destruct (answer_practice e e3 d t true card after)
      as (e' & rt & ? & ? & ? & ? & ? & Hg); try done.
    + intros Hs'. by apply Hst.
    + apply js_index_Some. lia.
    + by rewrite Hfb, Hdiv.
    + exists e', rt. do 5 (split; [done|]). intros Hs'.
      destruct (Hst Hs') as [Hg3 _]. rewrite Hg3 in Hg. by apply Hg.
  - destruct (answer_test e e3 d t false card after)
      as (e' & rt & ? & Hrt & ? & ? & ? & Hg); try done.
    + intros Hs'. by apply Hst.
    + exists e', rt. split; [done|]. split; [rewrite Hrt; ring|]. do 3 (split; [done|]).
      intros Hs'. destruct (Hst Hs') as [Hg3 _]. rewrite Hg3 in Hg. by apply Hg.
Qed.

Lemma play_button s after tick e :
  type s = jsPsychHtmlButtonResponse ->
  match on_load s with SetupTrial _ _ _ _ _ => False | _ => True end ->
  (0 <= after)%Q -> reminders_only (timers e) ->
  exists e', play s (Press after tick) e = Some e' /\
    host e' = {| recorded := recorded (host e) ++ [row_for (data s) None after];
                 current := Some (data s); ended := true |} /\
    finish_log e' = finish_log e /\ reminders_only (timers e') /\
    narrated (told s (Press after tick) (globals e)) e e'.
Proof.
  intros Ht Hl Ha Hp. unfold play. rewrite Ht. cbn [page step_fn mbind option_bind].
  match goal with |- context [load s ?x] => set (e2 := x) end.
  assert (load s e2 = Some (with_globals (narrate (heard s (Press after tick)) (globals e)) e2))
    as ->.
  { unfold load, heard. destruct (on_load s); [by destruct e| |done].
    by rewrite playAudio_run. }
  cbn [mbind option_bind].
  match goal with |- context [wait after ?x] => set (e3 := x) end.
  set (g := match tick with
            | Some b => if has_checkbox s
                        then onchange b (narrate (heard s (Press after tick)) (globals e))
                        else narrate (heard s (Press after tick)) (globals e)
            | None => narrate (heard s (Press after tick)) (globals e)
            end).
  assert (e3 = with_globals g e2) as ->.
  { subst e3 g. destruct tick as [b|]; [destruct (has_checkbox _)|]; done. }
  destruct (wait_until_reminders (length (timers e)) (now e + after)%Q (with_globals g e2))
    as (e4 & Hw & (Hcs & Hlog & Hhost & Hdom) & Hnow & Hts & Hg); [done|done|cbn; lra|done|].
  unfold wait. cbn [timers now with_globals]. change (timers e2) with (timers e).
  change (now e2) with (now e). rewrite Hw. cbn [mbind option_bind].
  eexists. split; [done|]. unfold finish_screen, told. fold g.
  assert (reminders_only (timers e4)) by (rewrite Hts; by apply pending_after_Forall).
  assert (stale_only e -> globals e4 = g /\ stale_only e4) as Hn.
  { intros Hs. rewrite Hg. unfold stale_only. rewrite Hts, Hcs.
    split; [|by apply pending_after_Forall]. by rewrite overdue_stale by exact Hs. }
  destruct (on_finish s); cbn; rewrite ?Hhost, ?Hlog; cbn; do 3 (split; [done|]);
    intros Hs; destruct (Hn Hs) as [Hg4 ?]; cbn; by rewrite Hg4.
Qed.

Lemma play_well_formed s mv e :
  well_formed s -> fits s mv -> reminders_only (timers e) ->
  exists e' r, play s mv e = Some e' /\
    host e' = {| recorded := recorded (host e) ++ [r]; current := Some (data s);
                 ended := true |} /\
    row_eq r (expected s mv) /\ reminders_only (timers e') /\
    narrated (told s mv (globals e)) e e'.
Proof.
  unfold well_formed, fits, expected, verdict, elapsed. intros Hw Hf Hp.
  destruct (on_load s) as [|txt|t phase trialNum dim fb] eqn:Hl.
  3: { destruct (data s) as [| |d] eqn:Hd; try done.
       destruct (stimulus s) as [html|] eqn:Hs; [|done].
       destruct Hw as (Ht & _ & _ & Hn & Hdiv & _ & Hc). rewrite Ht in Hf.
       destruct mv as [card after|]; [|done]. destruct Hf as [Hcard Ha].
       destruct (play_trial s html d t phase trialNum dim fb card after e)
         as (e' & rt & Hplay & Hrt & Hrec & _ & Hp' & Hg); try done.
       exists e', (row_of d (bool_decide (Z.of_nat card = correct t)) rt).
       do 2 (split; [done|]). split; [|done]. split; [done|].
       cbn. constructor. by destruct fb; rewrite Hrt; ring. }
  all: assert (type s = jsPsychHtmlButtonResponse) as Ht
         by (by destruct (data s), (stimulus s), Hw).
  all: rewrite Ht in Hf; destruct mv as [|after tick]; [done|].
  all: destruct (play_button s after tick e) as (e' & Hplay & Hrec & _ & Hp' & Hg);
         [by rewrite ?Hl..|].
  all: by exists e', (row_for (data s) None after).
Qed.

Lemma session_well_formed l mvs e :
  Forall well_formed l -> Forall2 fits l mvs -> reminders_only (timers e) ->
  exists e', session l mvs e = Some e' /\
    Forall2 row_eq (recorded (host e')) (recorded (host e) ++ expected_rows l mvs) /\
    reminders_only (timers e') /\ narrated (narration l mvs (globals e)) e e'.
Proof.
  intros Hw Hf. revert e Hw. induction Hf as [|s mv l mvs Hfit _ IH]; intros e Hw Hp.
  { exists e. rewrite app_nil_r. by repeat split. }
  apply Forall_cons in Hw as [Hs Hw].
  destruct (play_well_formed s mv e) as (e1 & r & Hplay & Hrec & Hr & Hp1 & Hg1); [done..|].
  destruct (IH e1) as (e' & Hsess & Hrows & Hp' & Hg'); [done..|].
  exists e'. cbn [session]. rewrite Hplay. cbn [mbind option_bind].
  split; [done|]. split; [|split; [done|]].
  - etransitivity; [done|]. rewrite Hrec. cbn [recorded]. rewrite <- app_assoc.
    apply Forall2_app; [done|]. by constructor.
  - intros Hst. destruct (Hg1 Hst) as [Hg Hst1]. rewrite Hg in Hg'. by apply Hg'.
Qed.

(** What a screen adds to the queue of the synthesiser. *)
Lemma told_spoken s mv g :
  spoken (told s mv g)
  = spoken g ++ (if audible g then utterances (heard s mv) else []).
Proof.
  rewrite <- narrate_spoken. unfold told. destruct mv as [|after [b|]]; [done|..];
    destruct (on_finish s), (has_checkbox s); done.
Qed.

(** With reminders only, a trial that has not ended never ends. *)
Lemma await_reminders fuel e :
  reminders_only (timers e) -> ended (host e) = false ->
  await (fun e => ended (host e)) fuel e = None.
Proof.
  intros Hp He.
  apply (await_never (fun e => reminders_only (timers e) /\ ended (host e) = false));
    [|by intros ? []|done].
  intros e1 k due cb [Hp1 He1] Hk.
  destruct (fired_reminder k due cb e1) as [(_ & _ & -> & _) ?]; done.
Qed.

(** ** Lemmas: the script of a timeline *)

Lemma told_audible s mv g : on_finish s = NoOnFinish -> audible (told s mv g) = audible g.
Proof.
  intros Hf. unfold told. rewrite Hf. rewrite <- (narrate_audible (heard s mv) g).
  destruct mv as [|after [b|]]; [done| |done]. by destruct (has_checkbox s).
Qed.

Lemma narration_spoken l mvs g :
  Forall (fun s => on_finish s = NoOnFinish) l ->
  spoken (narration l mvs g)
  = spoken g ++ (if audible g then utterances (script l mvs) else []).
Proof.
  intros Hl. revert mvs g. induction Hl as [|s l Hs _ IH]; intros [|mv mvs] g;
    try by destruct (audible g); rewrite app_nil_r.
  change (narration (s :: l) (mv :: mvs) g) with (narration l mvs (told s mv g)).
  rewrite IH, told_spoken, told_audible, <- app_assoc by done.
  unfold script. cbn. unfold utterances. rewrite fmap_app. by destruct (audible g).
Qed.

(** The welcome screen of a fresh timeline says nothing and turns the
    narration on when the checkbox is ticked. *)
Lemma told_welcome mv mvs g :
  fits createWelcome mv ->
  let g' := told createWelcome mv (reset g) in
  spoken g' = spoken g /\
  audible g' = ticked (mv :: mvs) g && bool_decide (is_Some (speechSynthesis (window g))).
Proof.
  destruct mv as [|after [b|]]; [done|..]; intros _; by destruct g as [st [[q|] [[]|]]].
Qed.

(** The delayed report tests no latch: when it fires it ends the trial
    that is current then, with that trial's data, whichever trial set
    it. *)
Lemma late_report_ends_current_trial inst i b c d (e : Env Host) :
  closures e !! inst = Some c -> current (host e) = Some d -> ended (host e) = false ->
  host (invoke (FinishLater inst i b) e)
  = {| recorded := recorded (host e) ++ [row_for d (Some b) (now e - startTime c)];
       current := Some d; ended := true |}.
Proof.
  intros Hc Hd He. unfold invoke. cbn [run_callback]. rewrite finishLater_run, Hc.
  cbn. unfold end_trial. by rewrite Hd, He.
Qed.

(** ** Theorems *)

(** C2. A timeline played to its end records what the participant did.
    For a timeline [createTimeline] returned and moves that fit its screens
    (a click on one of the two cards of each trial, a press of the button
    of every other screen), the session reaches the end of the timeline, and
    the rows jsPsych has recorded are the expected ones, one for each
    screen in order: a trial's row has the task, the phase, whether the
    card clicked is the trial's [correct] card, and as reaction time the
    time to the click, plus the feedback delay on a practice trial.  This
    holds with reminders of earlier trials still pending. *)
Theorem session_records (random : nat -> Number) (options : Options.options)
    (s : Globals * nat) (l : list Screen) (mvs : list Move) (e : Env Host) :
  unit_interval random -> (createTimeline random options s).1 = Ok l ->
  Forall2 fits l mvs -> reminders_only (timers e) ->
  exists e', session l mvs e = Some e' /\
    Forall2 row_eq (recorded (host e')) (recorded (host e) ++ expected_rows l mvs).
Proof.
  intros Hr (p & t & si & sr & d & k & ->)%createTimeline_layout Hf Hp; [|done].
  destruct (session_well_formed _ mvs e (well_formed_screens p t si sr random d k))
    as (e' & ? & ? & _); eauto.
Qed.

(** C8. Every screen that is well formed ends: whatever reminders are
    pending, a move that fits the screen leads, after finitely many timer
    firings, to the end of the trial and to exactly one more recorded
    row. *)
Theorem screen_ends (s : Screen) (mv : Move) (e : Env Host) :
  well_formed s -> fits s mv -> reminders_only (timers e) ->
  exists e', play s mv e = Some e' /\ ended (host e') = true /\
    length (recorded (host e')) = S (length (recorded (host e))).
Proof.
  intros Hw Hf Hp.
  destruct (play_well_formed s mv e) as (e' & r & Hplay & Hh & _); [done..|].
  exists e'. rewrite Hh. cbn. by rewrite length_app, Nat.add_1_r.
Qed.

(** C23. A custom timeline records what the participant did.  A timeline
    assembled in any order from the entries the exported
    [timelineComponents] return, for trials over the catalogue whose
    [correct] is 0 or 1, indices that are not negative and the dimensions
    ["color"] and ["shape"], runs to its end with moves that fit, and the
    rows recorded are the expected ones, one for each entry in order. *)
Theorem custom_timeline_records (l : list Screen) (mvs : list Move) (e : Env Host) :
  Forall component l -> Forall2 fits l mvs -> reminders_only (timers e) ->
  exists e', session l mvs e = Some e' /\
    Forall2 row_eq (recorded (host e')) (recorded (host e) ++ expected_rows l mvs).
Proof.
  intros Hc Hf Hp.
  destruct (session_well_formed l mvs e) as (e' & ? & ? & _); [|done|done|by exists e'].
  eapply Forall_impl; [done|]. apply component_well_formed.
Qed.

(** C20. What the participant hears on a screen.  On a well-formed screen
    played with a fitting move, when the reminders still pending are those
    of trials that were answered, the utterances queued are, if the
    narration is on, exactly those of [heard] in order: the text of an
    instruction; on a trial the cue word in capitals, then on a practice
    trial the phrase for the answer given, and on a test trial the reminder
    exactly when the answer took five seconds or more.  Nothing is queued
    when the narration is off, and the reminders pending afterwards are
    again stale: a reminder never speaks on a later screen. *)
Theorem screen_narration (s : Screen) (mv : Move) (e : Env Host) :
  well_formed s -> fits s mv -> stale_only e ->
  exists e', play s mv e = Some e' /\
    spoken (globals e')
    = spoken (globals e) ++ (if audible (globals e) then utterances (heard s mv) else []) /\
    stale_only e'.
Proof.
  intros Hw Hf Hs.
  destruct (play_well_formed s mv e) as (e' & _ & Hplay & _ & _ & _ & Hg);
    [done|done|by eapply stale_reminders|].
  destruct (Hg Hs) as [Hg' Hs']. exists e'. by rewrite Hg', told_spoken.
Qed.

(** C10. What a session says.  After [createTimeline], which resets the
    module state, a session on the timeline it returned queues, from the
    first screen to the last, exactly the utterances of the [script] (for
    each screen after the welcome screen the texts of [heard], in order)
    when the checkbox of the welcome screen is [ticked] (set by the
    participant and left ticked, or untouched with
    [window.tempaudio_enabled] still true from before) and the browser has
    a speech synthesiser, and nothing at all otherwise: the welcome screen itself is silent, a reminder speaks only
    on the test trial that set it, and only when the answer takes five
    seconds or more. *)
Theorem session_script (random : nat -> Number) (options : Options.options)
    (g : Globals) (d : nat) (l : list Screen) (mvs : list Move) (e : Env Host) :
  unit_interval random ->
  (createTimeline random options (g, d)).1 = Ok l ->
  globals e = (createTimeline random options (g, d)).2.1 ->
  Forall2 fits l mvs -> stale_only e ->
  exists e', session l mvs e = Some e' /\
    spoken (globals e')
    = spoken g ++ (if ticked mvs g && bool_decide (is_Some (speechSynthesis (window g)))
                   then utterances (script (tail l) (tail mvs)) else []) /\
    stale_only e'.
Proof.
  intros Hr Hl Hg Hf Hs. rewrite createTimeline_reset in Hg by done.
  apply createTimeline_layout in Hl as (p & t & si & sr & d' & k & ->); [|done].
  destruct (session_well_formed _ mvs e (well_formed_screens p t si sr random d' k))
    as (e' & Hsess & _ & _ & Hn); [done|by eapply stale_reminders|].
  destruct (Hn Hs) as [Hg' Hs']. exists e'. split; [done|]. split; [|done].
  rewrite Hg', Hg.
  destruct (screens_after_welcome p t si sr (Spec.trials random d' k))
    as (rest & Hrest & Hfin).
  rewrite Hrest in *. inversion Hf as [|? mv ? mvs' Hfit Hf']; subst.
  change (narration (createWelcome :: rest) (mv :: mvs') (reset g))
    with (narration rest mvs' (told createWelcome mv (reset g))).
  rewrite narration_spoken by done.
  by destruct (told_welcome mv mvs' g Hfit) as [-> ->].
Qed.

(** C31. A practice trial whose [correct] is not the index of a card never
    ends: every click is a wrong answer, the handler throws at
    [cards[trial.correct].classList] after it closed the latch and before
    it scheduled [finishTrial], and no timer is left that would end the
    trial. *)
Theorem ill_posed_practice_hangs (t : Trial) (index : Z) (card : nat) (after : Number)
    (e : Env Host) :
  uses_only catalogue t -> ~ (0 <= correct t < 2)%Z -> (card < 2)%nat ->
  (0 <= after)%Q -> reminders_only (timers e) ->
  play (createPracticeTrial t index) (Answer card after) e = None.
Proof.
  intros Hu Hc Hcard Ha Hp.
  destruct (trial_page t "COLOR" Hu) as [Hn Hfb]; [by_decide|].
  edestruct (play_to_click (createPracticeTrial t index))
    as (e3 & -> & Hcs & Hhost & _ & _ & Hp3 & Hlen & Hdiv & _); [done..|].
  edestruct (clickHandler_throws (length (closures e)) card e3)
    as (_ & Hts & _ & _ & Hhost4);
    [by rewrite Hcs; apply list_lookup_middle|done|done| |cbn; lia| |].
  - by rewrite Hdiv, Hfb.
  - apply js_index_None. cbn. lia.
  - apply await_reminders; [by rewrite Hts|by rewrite Hhost4, Hhost].
Qed.

(** ** Witnesses *)

Lemma session_records_witness :
  exists e', session demo_timeline (careful <$> demo_timeline) demo_start = Some e' /\
    Forall2 row_eq (recorded (host e'))
      (recorded (host demo_start)
       ++ expected_rows demo_timeline (careful <$> demo_timeline)).
Proof.
  apply (session_records half Options.empty_options (used_globals, 0%nat));
    [apply half_unit_interval|by vm_compute|by_decide|constructor].
Defined.

Lemma screen_ends_witness :
  exists e', play (createPracticeTrial demo_trial 0) (Answer 1 700) demo_start = Some e' /\
    ended (host e') = true /\
    length (recorded (host e')) = S (length (recorded (host demo_start))).
Proof.
  apply (screen_ends (createPracticeTrial demo_trial 0) (Answer 1 700) demo_start);
    [|by_decide|constructor].
  repeat split; by_compute.
Defined.

Lemma custom_timeline_records_witness :
  exists e', session custom_timeline (careful <$> custom_timeline) demo_start = Some e' /\
    Forall2 row_eq (recorded (host e'))
      (recorded (host demo_start)
       ++ expected_rows custom_timeline (careful <$> custom_timeline)).
Proof.
  apply custom_timeline_records; [|by_decide|constructor].
  unfold custom_timeline.
  repeat apply Forall_cons_2;
    [apply c_welcome|apply c_practice|apply c_results|apply c_test|apply c_results
    |constructor]; try by_decide; lia.
Defined.

Lemma screen_narration_witness :
  exists e', play (createTestTrial demo_trial "test" "shape" 3) (Answer 0 5200) demo_start
             = Some e' /\
    spoken (globals e')
    = spoken (globals demo_start)
      ++ (if audible (globals demo_start)
          then utterances (heard (createTestTrial demo_trial "test" "shape" 3) (Answer 0 5200))
          else []) /\
    stale_only e'.
Proof.
  apply (screen_narration (createTestTrial demo_trial "test" "shape" 3) (Answer 0 5200)
           demo_start); [|by_decide|constructor].
  repeat split; by_compute.
Defined.

Lemma session_script_witness :
  exists e', session demo_timeline (careful <$> demo_timeline)
               (initial_env (reset used_globals) initial_host) = Some e' /\
    spoken (globals e')
    = spoken used_globals
      ++ (if ticked (careful <$> demo_timeline) used_globals
             && bool_decide (is_Some (speechSynthesis (window used_globals)))
          then utterances (script (tail demo_timeline) (tail (careful <$> demo_timeline)))
          else []) /\
    stale_only e'.
Proof.
  apply (session_script half Options.empty_options used_globals 0);
    [apply half_unit_interval|by vm_compute|by vm_compute|by_decide|constructor].
Defined.

Lemma ill_posed_practice_hangs_witness :
  play (createPracticeTrial ill_posed_trial 0) (Answer 0 700) demo_start = None.
Proof.
  apply ill_posed_practice_hangs; [by_decide|cbn; lia|lia|done|constructor].
Defined.
