(* ===== verification/Conduct.v ===== *)
(** * The ledger over a session

    A session of [Session] is the event loop driven by the host and the
    browser: between the events the host only touches its own state and
    the globals.  So everything that [Ledger] and [Lifecycle] show for the
    runs of the event loop holds for the sessions of any timeline and any
    participant, whether the moves fit the screens or not: a property kept
    by the seven transitions of the ledger is kept by [play] and [session]
    ([session_stable]), every trial moves along its life cycle and is
    reported at most once, with the verdict of its click handler.  When the
    entries are well formed and the moves fit them, every trial of the
    session is reported, in the order of the screens, with the card and
    the verdict of the participant's answer ([session_reports]). *)

From Stdlib Require Import ZArith QArith Lia.
From stdpp Require Import base tactics decidable option list strings relations.
From S2P Require Import Prelude Stimuli Audio Screens Results Generator Timeline.
From S2P Require Import Evaluator Exports Ledger Lifecycle Browser Session.

Open Scope string_scope.
Open Scope list_scope.

(** ** Definitions *)

(** The answer a move gives to a trial screen: the trial and the card. *)
Definition answer_of (s : Screen) (mv : Move) : option (Trial * nat) :=
  match on_load s, mv with
  | SetupTrial t _ _ _ _, Answer card _ => Some (t, card)
  | _, _ => None
  end.

(** The answers to the trial screens of a timeline, in order. *)
Definition answers (l : list Screen) (mvs : list Move) : list (Trial * nat) :=
  omap (fun sm => answer_of sm.1 sm.2) (zip l mvs).

(** The report [p] is that of the answer [a], and its trial has reached
    the end of its life cycle with it. *)
Definition answered (e : Env Host) (p : nat * FinishData) (a : Trial * nat) : Prop :=
  fd_response p.2 = a.2 /\
  fd_correct p.2 = bool_decide (Z.of_nat a.2 = correct a.1) /\
  phase p.1 e = Reported p.2.

(** ** Lemmas: the host and the browser keep the stable properties *)

Section Stable.
Context (P : list Closure -> list (Number * Callback) -> list (nat * FinishData) -> Prop).
Context `{!LedgerStable P}.
Implicit Type e : Env Host.

Lemma step_fn_stable ev e e' : on_ledger P e -> step_fn ev e = Some e' -> on_ledger P e'.
Proof using Type*. intros HP Hs%steps_one. by eapply steps_stable. Qed.

Lemma load_stable s e e' : on_ledger P e -> load s e = Some e' -> on_ledger P e'.
Proof using Type*.
  unfold load. intros HP. destruct (on_load s).
  - by intros [= <-].
  - intros [= <-]. by apply playAudio_ledger.
  - by apply step_fn_stable.
Qed.

Lemma wait_stable d e e' : on_ledger P e -> wait d e = Some e' -> on_ledger P e'.
Proof using Type*. intros HP [evs Hs]%wait_steps. by eapply steps_stable. Qed.

Lemma await_end_stable e e' : on_ledger P e -> await_end e = Some e' -> on_ledger P e'.
Proof using Type*. intros HP [evs Hs]%await_steps. by eapply steps_stable. Qed.

Lemma play_stable s mv e e' : on_ledger P e -> play s mv e = Some e' -> on_ledger P e'.
Proof using Type*.
  intros HP. unfold play. intros (e1 & H1 & (e2 & H2 & Hmv)%bind_Some)%bind_Some.
  apply step_fn_stable in H1; [|done]. apply load_stable in H2; [|done].
  destruct (type s), mv as [card after|after tick]; try done.
  - apply bind_Some in Hmv as (e3 & H3 & [= <-]).
    apply wait_stable in H3; [unfold finish_screen; by destruct (on_finish s)|].
    destruct tick as [b|]; [|done]. by destruct (has_checkbox s).
  - apply bind_Some in Hmv as (e3 & H3 & (e4 & H4 & Hmv)%bind_Some).
    apply wait_stable in H3; [|done]. apply step_fn_stable in H4; [|done].
    by eapply await_end_stable.
Qed.

Lemma session_stable l mvs e e' :
  on_ledger P e -> session l mvs e = Some e' -> on_ledger P e'.
Proof using Type*.
  revert mvs e. induction l as [|s l IH]; intros [|mv mvs] e HP; cbn; try done.
  1,2: by intros [= <-].
  intros (e1 & H1 & Hs)%bind_Some. apply (IH mvs e1); [|done].
  exact (play_stable s mv e e1 HP H1).
Qed.

End Stable.

(** ** Lemmas: the reports of a session *)

Lemma play_phase s mv e e' inst :
  inv e -> play s mv e = Some e' -> rtc phase_step (phase inst e) (phase inst e').
Proof.
  intros Hinv Hp. apply ledger_steps_phase; [done|].
  exact (play_stable (curry3 (rtc ledger_step (ledger e))) s mv e e' (rtc_refl _ _) Hp).
Qed.

Lemma session_phase l mvs e e' inst :
  inv e -> session l mvs e = Some e' -> rtc phase_step (phase inst e) (phase inst e').
Proof.
  intros Hinv Hs. apply ledger_steps_phase; [done|].
  exact (session_stable (curry3 (rtc ledger_step (ledger e))) l mvs e e' (rtc_refl _ _) Hs).
Qed.

Lemma answered_stays l mvs e e' p a :
  inv e -> session l mvs e = Some e' -> answered e p a -> answered e' p a.
Proof.
  intros Hinv Hs (? & ? & Hp). do 2 (split; [done|]).
  apply (final_stays (Reported p.2)); [done|]. rewrite <- Hp. by eapply session_phase.
Qed.

Lemma reminders_pending inst ts : reminders_only ts -> pending inst ts = [].
Proof.
  intros Hr. apply nil_length_inv. by rewrite pending_length, reminders_scheduled.
Qed.

(** A report on the log, with nothing pending, is the phase of its
    trial. *)
Lemma phase_reported (e : Env Host) n d :
  on_ledger judged e -> reports n (finish_log e) = [d] ->
  pending n (timers e) = [] -> phase n e = Reported d.
Proof.
  intros [Hj _] Hr Hp.
  assert (d ∈ reports n (finish_log e)) as ([j d'] & Hin & Hd)%list_elem_of_omap
    by (rewrite Hr; left).
  cbn in Hd. case_decide; simplify_eq.
  rewrite Forall_forall in Hj. specialize (Hj _ Hin). unfold report_judged in Hj.
  cbn in Hj. destruct (closures e !! n) as [c|] eqn:Hc; [|done].
  unfold phase, phase_of, ledger. cbn [fst snd]. by rewrite Hc, Hr, Hp.
Qed.

Lemma answers_one s mv : answers [s] [mv] = option_list (answer_of s mv).
Proof. unfold answers. cbn. by destruct (answer_of s mv). Qed.

Lemma answers_cons s l mv mvs :
  answers (s :: l) (mv :: mvs) = answers [s] [mv] ++ answers l mvs.
Proof. unfold answers. cbn. by destruct (answer_of s mv). Qed.

(** One screen: what it adds to the log. *)
Lemma play_reports s mv e :
  well_formed s -> fits s mv -> reminders_only (timers e) -> inv e ->
  on_ledger judged e ->
  exists e' new, play s mv e = Some e' /\ finish_log e' = finish_log e ++ new /\
    reminders_only (timers e') /\ Forall2 (answered e') new (answers [s] [mv]).
Proof.
  rewrite answers_one. unfold well_formed, fits, answer_of. intros Hw Hf Hp Hinv Hj.
  destruct (on_load s) as [|txt|t phase trialNum dim fb] eqn:Hl.
  3: { destruct (data s) as [| |d] eqn:Hd; try done.
       destruct (stimulus s) as [html|] eqn:Hs; [|done].
       destruct Hw as (Ht & _ & _ & Hn & Hdiv & _ & Hc). rewrite Ht in Hf.
       destruct mv as [card after|]; [|done]. destruct Hf as [Hcard Ha].
       destruct (play_trial s html d t phase trialNum dim fb card after e)
         as (e' & rt & Hplay & _ & _ & Hlog & Hp' & _); try done.
       eexists e', [_]. do 3 (split; [done|]). repeat constructor. cbn [fst snd].
       apply phase_reported; [exact (play_stable judged _ _ _ _ Hj Hplay)| |
                              by apply reminders_pending].
       rewrite Hlog, reports_snoc, decide_True by done.
       destruct (ledger_ok_none _ _ _ (length (closures e)) Hinv) as [-> _]; [|done].
       unfold is_responded. by rewrite (proj2 (lookup_ge_None _ _)). }
  all: assert (type s = jsPsychHtmlButtonResponse) as Ht
         by (by destruct (data s), (stimulus s), Hw).
  all: rewrite Ht in Hf; destruct mv as [|after tick]; [done|].
  all: destruct (play_button s after tick e) as (e' & Hplay & _ & Hlog & Hp' & _);
         [by rewrite ?Hl..|].
  all: exists e', []; rewrite app_nil_r; by repeat split.
Qed.

(** ** Theorems *)

(** C6. Every trial of a session is answered and reported.  On a
    timeline of well-formed entries, played with moves that fit them from
    an environment whose ledger is consistent and holds reminders only,
    the session runs to its end, [finishTrial] is called once for each
    trial screen, in the order of the screens, with the card of the
    participant's move and its comparison with [correct], and at the end
    each of these trials is at the end of its life cycle with that
    report. *)
Theorem session_reports (l : list Screen) (mvs : list Move) (e : Env Host) :
  Forall well_formed l -> Forall2 fits l mvs -> reminders_only (timers e) ->
  inv e -> on_ledger judged e ->
  exists e' new, session l mvs e = Some e' /\
    finish_log e' = finish_log e ++ new /\ reminders_only (timers e') /\
    Forall2 (answered e') new (answers l mvs).
Proof.
  intros Hw Hf. revert e Hw.
  induction Hf as [|s mv l mvs Hfit _ IH]; intros e Hw Hp Hinv Hj.
  { exists e, []. rewrite app_nil_r. by repeat split. }
  apply Forall_cons in Hw as [Hs Hw].
  destruct (play_reports s mv e) as (e1 & new1 & Hplay & Hlog1 & Hp1 & H1); [done..|].
  destruct (IH e1) as (e' & new & Hsess & Hlog & Hp' & Hnew); [done..| | |].
  { exact (play_stable ledger_ok _ _ _ _ Hinv Hplay). }
  { exact (play_stable judged _ _ _ _ Hj Hplay). }
  exists e', (new1 ++ new). cbn [session]. rewrite Hplay. cbn [mbind option_bind].
  split; [done|]. split; [by rewrite Hlog, Hlog1, app_assoc|]. split; [done|].
  rewrite answers_cons.
  apply Forall2_app; [|done]. eapply Forall2_impl; [done|].
  intros p a. apply (answered_stays l mvs e1); [|done].
  exact (play_stable ledger_ok _ _ _ _ Hinv Hplay).
Qed.

(** ** Witnesses *)

Lemma session_reports_witness :
  exists e' new, session demo_timeline (careful <$> demo_timeline) demo_start = Some e' /\
    finish_log e' = finish_log demo_start ++ new /\ reminders_only (timers e') /\
    Forall2 (answered e') new (answers demo_timeline (careful <$> demo_timeline)).
Proof.
  apply (session_reports demo_timeline (careful <$> demo_timeline) demo_start);
    [apply well_formed_screens|by_decide|constructor|apply initial_env_inv
    |apply initial_env_judged].
Defined.

