(* ===== verification/Tests.v ===== *)
(** * The test-suite

    The Jest suite of the repository ([src/unnamed/part_002]) run on the
    model: its mocks, its [beforeEach] hook and its tests, each test a
    boolean that is the conjunction of its expectations, under the name of
    the test.  A call that throws fails its test.  The tests reach the
    program as the suite does, through [timelineComponents] and [utils] of
    [Exports].

    The mocks are states of the environment of [Evaluator]: the mocked
    [document] is a [Dom], the mocked [jsPsych] is [mockJsPsych] (the list
    of the arguments of [finishTrial]) and [mock_collection], a mocked card
    is a [Card] whose [listeners] are the calls of its [addEventListener]
    and whose [classList] holds the arguments of [classList.add].  Two
    mocks behave unlike the browser and are emulated: [setTimeout] calls its
    function at once, which is [mock_setTimeout] applied when the handler
    has returned (the handlers call [setTimeout] last), and
    [performance.now] answers 1000 and then 2000 in one test, which is a
    clock that advanced between [setupTrial] and the click
    ([mockReturnValueOnce]).  An expectation on the arguments of
    [document.querySelectorAll] has no counterpart (the selector is part of
    the model of [setupTrial]) and is left out where it occurs.

    The tests of the type exports build object literals and read them
    back: the literals are [JsValue]s of [Objects], checked there against the
    interfaces they are declared with.

    [JestConfig] is [src/jest.config.js] as data; the setup files are in
    [Setup].

    The evaluations at the end of the file ([suite_verdicts],
    [type_export_literals]) compare the model with the suite: they are a
    check of the translation, and they locate the one test that fails and
    the literal that is no value of its interface.  They are no properties
    of the program; the only statement of this file about the program is
    the second half of [welcome_test_fails]. *)

From Stdlib Require Import ZArith QArith Lia.
From stdpp Require Import base tactics decidable option list strings.
From S2P Require Import Prelude Stimuli Objects Audio Screens Results Generator Timeline.
From S2P Require Import Evaluator Exports.

Open Scope string_scope.
Open Scope list_scope.

(** ** Matchers *)

Definition toContain (s sub : string) : bool := bool_decide (0 < occurrences sub s)%nat.

Definition toBe {A} `{EqDecision A} (x y : A) : bool := bool_decide (x = y).

Definition toEqual {A} `{EqDecision A} (x y : A) : bool := bool_decide (x = y).

Definition toBeDefined {A} (x : option A) : bool := bool_decide (is_Some x).

Definition toHaveLength {A} (l : list A) (n : nat) : bool := bool_decide (length l = n).

Definition toBeGreaterThan (x y : nat) : bool := bool_decide (y < x)%nat.

(** [Array.prototype.includes] and [expect(array).toContain(x)]. *)
Definition includes {A} `{EqDecision A} (l : list A) (x : A) : bool := bool_decide (x ∈ l).

(** [expect(f).toHaveBeenCalled()], [toHaveBeenCalledTimes(n)] and
    [toHaveBeenCalledWith(x)] on the calls of a mock function. *)
Definition toHaveBeenCalled {A} (calls : list A) : bool := negb (bool_decide (calls = [])).

Definition toHaveBeenCalledTimes {A} (calls : list A) (n : nat) : bool :=
  bool_decide (length calls = n).

Definition toHaveBeenCalledWith {A} `{EqDecision A} (calls : list A) (x : A) : bool :=
  bool_decide (x ∈ calls).

(** [toBe] and [toEqual] on numbers. *)
Definition toBeNumber (x y : Number) : bool := Qeq_bool x y.

(** [Array.isArray] of the value of a call: a call that returned returned
    an array. *)
Definition isArray {A} (x : option (list A)) : bool := bool_decide (is_Some x).

(** ** Mocks *)

(** [document]: no card and no feedback element until a test provides
    them. *)
Definition mock_document : Dom := {| cards := []; feedback := None |}.

Definition mock_Date_now : Number := 1000000.

Definition mock_performance_now : Number := 1000.

(** [window]: a synthesiser whose [speak] records its calls. *)
Definition mock_window : Window :=
  {| speechSynthesis := Some []; tempaudio_enabled := None |}.

Section Mocks.
Context {H : Type} `{JsPsych H}.

(** [setTimeout: jest.fn((fn) => fn())]: the function runs at once. *)
Definition mock_setTimeout (e : Env H) : Env H :=
  foldl (fun e t => invoke t.2 e) (with_timers [] e) (timers e).

(** A call of [utils.setupTrial] under the mocks. *)
Definition call_setupTrial (t : Trial) (phase : string) (trialNum : Z)
    (dimension : string) (withFeedback : bool) (e : Env H) : result unit * Env H :=
  let r := utils.setupTrial t phase trialNum dimension withFeedback e in
  (r.1, mock_setTimeout r.2).

(** [mockCard.addEventListener.mock.calls.find(call => call[0] === 'click')]
    and the call of the handler found, if any. *)
Definition call_clickHandler (card : nat) (e : Env H) : Env H :=
  match cards (dom e) !! card ≫= (fun c => head (listeners c)) with
  | Some l => mock_setTimeout (run_listener l e).2
  | None => e
  end.

End Mocks.

(** A page of mocked cards and a mocked feedback element. *)
Definition mockCard : Card := {| classList := []; listeners := [] |}.

Definition mockFeedback : FeedbackDiv := {| textContent := ""; className := "" |}.

Definition mock_page (cards : list Card) (feedback : option FeedbackDiv)
    (e : Env (list FinishData)) : Env (list FinishData) :=
  with_dom {| Evaluator.cards := cards; Evaluator.feedback := feedback |} e.

(** [jest.clearAllMocks()]: the calls recorded by the mocks are forgotten
    ([speak], [setTimeout], [finishTrial]); what the mocks return stays. *)
Definition clearAllMocks (e : Env (list FinishData)) : Env (list FinishData) :=
  {| globals :=
       {| state := state (globals e);
          window := {| speechSynthesis := (fun _ => []) <$> speechSynthesis (window (globals e));
                       tempaudio_enabled := tempaudio_enabled (window (globals e)) |} |};
     now := now e; dom := dom e; closures := closures e;
     timers := []; finish_log := []; host := [] |}.

(** [beforeEach]: the calls of the mocks are cleared, the module state is
    reset, [Math.random] returns 0.5 and [performance.now] 1000. *)
Definition beforeEach (e : Env (list FinishData)) : Env (list FinishData) :=
  let e := clearAllMocks e in
  with_now mock_performance_now (with_globals (utils.resetState (globals e)).2 e).

(** The environment a test starts in. *)
Definition fixture : Env (list FinishData) :=
  beforeEach {| globals := {| state := initial_state; window := mock_window |};
                now := mock_performance_now; dom := mock_document; closures := [];
                timers := []; finish_log := []; host := [] |}.

(** [createTimeline(mockJsPsych, options)]: the array, when the call
    returns. *)
Definition call_createTimeline (options : Options.options) : option (list Screen) :=
  value_of (createTimeline half options (globals fixture, 0%nat)).1.

(** ** Constants and Types *)

Definition should_have_correct_default_values : bool :=
  let timeline := call_createTimeline Options.empty_options in
  toBeDefined timeline && toBe (isArray timeline) true.

Definition should_export_all_required_stimulus_objects : bool :=
  match call_createTimeline Options.empty_options with
  | Some timeline => toBeGreaterThan (length timeline) 0
  | None => false
  end.

(** ** createTimeline *)

Definition should_create_timeline_with_default_parameters : bool :=
  let timeline := call_createTimeline Options.empty_options in
  toBeDefined timeline && toBe (isArray timeline) true &&
  match timeline with
  | Some timeline => toBeGreaterThan (length timeline) 0
  | None => false
  end.

Definition should_create_timeline_with_custom_parameters : bool :=
  let timeline :=
    call_createTimeline
      {| Options.practiceTrials := Some 3%Q; Options.testTrials := Some 4%Q;
         Options.mixedTrials := Some 10%Q; Options.showInstructions := Some false;
         Options.showResults := Some false |} in
  toBeDefined timeline && toBe (isArray timeline) true.

Definition should_include_welcome_screen_as_first_element : bool :=
  match call_createTimeline Options.empty_options with
  | Some timeline =>
      toBeDefined (timeline !! 0%nat) &&
      match timeline !! 0%nat with
      | Some first => toEqual (choices first) (Buttons ["Start"])
      | None => false
      end
  | None => false
  end.

Definition should_exclude_instructions_when_showInstructions_is_false : bool :=
  match call_createTimeline
          {| Options.practiceTrials := None; Options.testTrials := None;
             Options.mixedTrials := None; Options.showInstructions := Some false;
             Options.showResults := None |} with
  | Some timeline =>
      let instructionCount :=
        count_if (fun item =>
                    match choices item with
                    | Buttons labels =>
                        includes labels "Next" || includes labels "Start Practice"
                    | NO_KEYS => false
                    end) timeline in
      toBe instructionCount 0%nat
  | None => false
  end.

Definition should_include_results_when_showResults_is_true : bool :=
  match call_createTimeline
          {| Options.practiceTrials := None; Options.testTrials := None;
             Options.mixedTrials := None; Options.showInstructions := None;
             Options.showResults := Some true |} with
  | Some timeline =>
      let lastElement := last timeline in
      toBeDefined lastElement &&
      match lastElement with
      | Some lastElement => toEqual (choices lastElement) (Buttons ["View Data"])
      | None => false
      end
  | None => false
  end.

Definition should_exclude_results_when_showResults_is_false : bool :=
  match call_createTimeline
          {| Options.practiceTrials := None; Options.testTrials := None;
             Options.mixedTrials := None; Options.showInstructions := None;
             Options.showResults := Some false |} with
  | Some timeline =>
      match last timeline with
      | Some lastElement => negb (toEqual (choices lastElement) (Buttons ["View Data"]))
      | None => false
      end
  | None => false
  end.

(** ** timelineComponents *)

(** The [stimulus] of an entry when it is a string, and the [data] of a
    trial entry. *)
Definition stimulus_string (s : Screen) : option string :=
  match stimulus s with
  | Html html => Some html
  | ResultsTable => None
  end.

Definition trial_data (s : Screen) : option DccsData :=
  match data s with
  | TrialInfo d => Some d
  | _ => None
  end.

Definition expect_stimulus (s : Screen) (expectations : string -> bool) : bool :=
  match stimulus_string s with
  | Some html => expectations html
  | None => false
  end.

Definition expect_data (s : Screen) (expectations : DccsData -> bool) : bool :=
  match trial_data s with
  | Some d => expectations d
  | None => false
  end.

(** *** createWelcome *)

Definition should_create_welcome_component : bool :=
  let welcome := timelineComponents.createWelcome in
  toBeDefined (Some welcome) && toBeDefined (Some (type welcome)) &&
  toEqual (choices welcome) (Buttons ["Start"]) &&
  toEqual (data welcome) (WelcomeData "welcome").

Definition should_contain_DCCS_title : bool :=
  let welcome := timelineComponents.createWelcome in
  expect_stimulus welcome (fun stimulus =>
    toContain stimulus "Dimensional Change Card Sort").

Definition should_include_audio_toggle : bool :=
  let welcome := timelineComponents.createWelcome in
  expect_stimulus welcome (fun stimulus =>
    toContain stimulus "audioToggle" && toContain stimulus "Enable audio instructions").

(** The test sets [window.tempAudioEnabled], a property the program
    neither reads nor deletes. *)
Definition should_set_audio_state_on_finish : bool :=
  let welcome := timelineComponents.createWelcome in
  let tempAudioEnabled := Some true in
  match on_finish welcome with
  | WelcomeOnFinish =>
      let audio_enabled := value_of (welcome_on_finish (globals fixture)).1 in
      toBe audio_enabled (Some true) && toBe tempAudioEnabled None
  | NoOnFinish => false
  end.

(** *** createColorInstructions *)

Definition should_create_color_instructions_array : bool :=
  let instructions := timelineComponents.createColorInstructions in
  toBeDefined (Some instructions) && toBe (isArray (Some instructions)) true &&
  toBe (length instructions) 3%nat.

Definition should_contain_COLOR_game_instructions : bool :=
  let instructions := timelineComponents.createColorInstructions in
  match instructions !! 0%nat with
  | Some first =>
      expect_stimulus first (fun stimulus =>
        toContain stimulus "COLOR Game" && toContain stimulus "same COLOR")
  | None => false
  end.

Definition should_have_on_load_functions_for_audio : bool :=
  let instructions := timelineComponents.createColorInstructions in
  forallb (fun instruction =>
             match on_load instruction with
             | NoOnLoad => false
             | _ => true
             end) instructions.

(** *** createPracticeTrial *)

Definition stimulus_literal (img name shape color : string) : Stimulus :=
  {| Stimuli.img := img; Stimuli.name := name; Stimuli.shape := shape;
     Stimuli.color := color |}.

Definition should_create_practice_trial_component : bool :=
  let trial :=
    {| target := stimulus_literal "test.svg" "test" "rabbit" "brown";
       left := stimulus_literal "left.svg" "left" "boat" "brown";
       right := stimulus_literal "right.svg" "right" "rabbit" "white";
       correct := 0; dimension := None |} in
  let practiceTrial := timelineComponents.createPracticeTrial trial 0 in
  toBeDefined (Some practiceTrial) && toBeDefined (Some (type practiceTrial)) &&
  toBe (choices practiceTrial) NO_KEYS &&
  expect_data practiceTrial (fun data => toBe (d_phase data) "color_practice").

Definition should_set_correct_trial_data : bool :=
  let trial :=
    {| target := stimulus_literal "test.svg" "brown rabbit" "rabbit" "brown";
       left := stimulus_literal "left.svg" "left" "boat" "brown";
       right := stimulus_literal "right.svg" "right" "rabbit" "white";
       correct := 1; dimension := None |} in
  let practiceTrial := timelineComponents.createPracticeTrial trial 2 in
  expect_data practiceTrial (fun data =>
    toBe (d_trial_num data) 3%Z && toBe (d_dimension data) "color" &&
    toBe (d_correct_response data) 1%Z && toBe (d_target data) "brown rabbit").

(** *** createTestTrial *)

Definition should_create_test_trial_component : bool :=
  let trial :=
    {| target := stimulus_literal "test.svg" "test" "ball" "blue";
       left := stimulus_literal "left.svg" "left" "ball" "blue";
       right := stimulus_literal "right.svg" "right" "truck" "orange";
       correct := 0; dimension := None |} in
  let testTrial := timelineComponents.createTestTrial trial "color_test" "color" 0 in
  toBeDefined (Some testTrial) && toBeDefined (Some (type testTrial)) &&
  toBe (choices testTrial) NO_KEYS &&
  expect_data testTrial (fun data => toBe (d_phase data) "color_test").

Definition should_handle_different_phases_and_dimensions : bool :=
  let trial :=
    {| target := stimulus_literal "test.svg" "test" "ball" "blue";
       left := stimulus_literal "left.svg" "left" "ball" "blue";
       right := stimulus_literal "right.svg" "right" "truck" "orange";
       correct := 1; dimension := Some "shape" |} in
  let testTrial := timelineComponents.createTestTrial trial "shape_test" "shape" 3 in
  expect_data testTrial (fun data =>
    toBe (d_phase data) "shape_test" && toBe (d_dimension data) "shape" &&
    toBe (d_trial_num data) 4%Z).

(** *** createResults *)

Definition should_create_results_component : bool :=
  let results := timelineComponents.createResults in
  toBeDefined (Some results) && toBeDefined (Some (stimulus results)) &&
  toEqual (choices results) (Buttons ["View Data"]).

(** [typeof results.stimulus === 'function' ? results.stimulus() :
    results.stimulus], on the mocked data store. *)
Definition should_calculate_and_display_results : bool :=
  let results := timelineComponents.createResults in
  let stimulus := shown (D := unit) results tt in
  toContain stimulus "Great job!" && toContain stimulus "Your Results:" &&
  toContain stimulus "Color Trials" && toContain stimulus "Shape Trials" &&
  toContain stimulus "Mixed Trials".

(** ** utils *)

(** *** resetState *)

Definition should_reset_state_to_initial_values : bool :=
  match (utils.resetState (globals fixture)).1 with
  | Ok _ => toBe true true
  | _ => false
  end.

(** *** playAudio *)

Definition should_not_play_audio_when_audio_is_disabled : bool :=
  let g := ((utils.resetState ;; utils.playAudio "Test message") (globals fixture)).2 in
  negb (toHaveBeenCalled (spoken g)).

(** *** createTrialStimulus *)

Definition should_create_trial_stimulus_HTML : bool :=
  let target := stimulus_literal "target.svg" "target" "ball" "blue" in
  let left := stimulus_literal "left.svg" "left" "ball" "blue" in
  let right := stimulus_literal "right.svg" "right" "truck" "orange" in
  let html := utils.createTrialStimulus target left right "COLOR" in
  toContain html "dccs-trial-container" && toContain html "COLOR" &&
  toContain html "target.svg" && toContain html "left.svg" &&
  toContain html "right.svg" &&
  toContain html ("data-choice=" +:+ attr "0") &&
  toContain html ("data-choice=" +:+ attr "1").

(** *** setupTrial *)

(** The trial of the tests of [setupTrial]. *)
Definition test_trial : Trial :=
  {| target := stimulus_literal "test.svg" "test" "ball" "blue";
     left := stimulus_literal "left.svg" "left" "ball" "blue";
     right := stimulus_literal "right.svg" "right" "truck" "orange";
     correct := 0; dimension := None |}.

(** [querySelectorAll] returns the same mocked card twice: the calls of
    its [addEventListener] are those made on either entry of the array. *)
Definition should_setup_trial_with_DOM_elements : bool :=
  let e := mock_page [mockCard; mockCard] (Some mockFeedback) fixture in
  let r := call_setupTrial test_trial "color_test" 1 "color" false e in
  match r.1 with
  | Ok _ => toHaveBeenCalled (mjoin (listeners <$> cards (dom r.2)))
  | _ => false
  end.

Definition should_handle_correct_response_with_feedback : bool :=
  let e := mock_page [mockCard] (Some mockFeedback) fixture in
  let r := call_setupTrial test_trial "practice" 1 "color" true e in
  match r.1 with
  | Ok _ =>
      let e := call_clickHandler 0 r.2 in
      match feedback (dom e) with
      | Some mockFeedback =>
          toBe (textContent mockFeedback) "That's right!" &&
          toBe (className mockFeedback) "dccs-feedback correct"
      | None => false
      end
  | _ => false
  end.

Definition should_handle_incorrect_response_with_feedback : bool :=
  let e := mock_page [mockCard; mockCard] (Some mockFeedback) fixture in
  let r := call_setupTrial test_trial "practice" 1 "color" true e in
  match r.1 with
  | Ok _ =>
      let e := call_clickHandler 1 r.2 in
      match feedback (dom e), cards (dom e) !! 0%nat with
      | Some mockFeedback, Some card0 =>
          toBe (textContent mockFeedback) "This is the same color." &&
          toBe (className mockFeedback) "dccs-feedback incorrect" &&
          toHaveBeenCalledWith (classList card0) "highlight"
      | _, _ => false
      end
  | _ => false
  end.

(** *** generateMixedTrials *)

Definition call_generateMixedTrials (numTrials : Number) : option (list Trial) :=
  value_of (utils.generateMixedTrials half numTrials 0%nat).1.

Definition should_generate_correct_number_of_mixed_trials : bool :=
  match call_generateMixedTrials 10 with
  | Some trials =>
      toHaveLength trials 10 &&
      toBe (forallb (fun t => bool_decide (is_Some (dimension t))) trials) true
  | None => false
  end.

Definition should_alternate_between_color_and_shape_dimensions : bool :=
  match call_generateMixedTrials 6 with
  | Some trials =>
      toBe (trials !! 0%nat ≫= dimension) (Some "color") &&
      toBe (trials !! 1%nat ≫= dimension) (Some "shape") &&
      toBe (trials !! 2%nat ≫= dimension) (Some "color") &&
      toBe (trials !! 3%nat ≫= dimension) (Some "shape") &&
      toBe (trials !! 4%nat ≫= dimension) (Some "color") &&
      toBe (trials !! 5%nat ≫= dimension) (Some "shape")
  | None => false
  end.

Definition should_set_correct_response_based_on_dimension : bool :=
  match call_generateMixedTrials 2 with
  | Some trials =>
      let colorTrial := trials !! 0%nat in
      let shapeTrial := trials !! 1%nat in
      toBe (colorTrial ≫= dimension) (Some "color") &&
      toBe (shapeTrial ≫= dimension) (Some "shape")
  | None => false
  end.

Definition should_use_only_test_stimuli_for_mixed_trials : bool :=
  match call_generateMixedTrials 20 with
  | Some trials =>
      let validStimuli := ["blue ball"; "orange truck"; "blue truck"; "orange ball"] in
      forallb (fun trial =>
                 includes validStimuli (name (target trial)) &&
                 includes validStimuli (name (left trial)) &&
                 includes validStimuli (name (right trial))) trials
  | None => false
  end.

(** ** Card Click Simulation *)

(** A report with the given fields among the calls of [finishTrial]. *)
Definition toHaveBeenCalledWithReport (calls : list FinishData)
    (response : nat) (correct : bool) (rt : Number) : bool :=
  existsb (fun d => bool_decide (fd_response d = response) &&
                    bool_decide (fd_correct d = correct) &&
                    toBeNumber (fd_rt d) rt) calls.

(** [performance.now] answers 1000 to [setupTrial] and 2000 to the
    handler. *)
Definition should_handle_card_click_without_feedback : bool :=
  let e := mock_page [mockCard] None fixture in
  let r := call_setupTrial test_trial "test" 1 "color" false (with_now 1000 e) in
  match r.1 with
  | Ok _ =>
      let e := call_clickHandler 0 (with_now 2000 r.2) in
      toHaveBeenCalledWithReport (host e) 0 true 1000
  | _ => false
  end.

Definition should_prevent_multiple_clicks_on_same_trial : bool :=
  let e := mock_page [mockCard] None fixture in
  let r := call_setupTrial test_trial "test" 1 "color" false e in
  match r.1 with
  | Ok _ =>
      let e := call_clickHandler 0 r.2 in
      let e := call_clickHandler 0 e in
      let e := call_clickHandler 0 e in
      toHaveBeenCalledTimes (host e) 1
  | _ => false
  end.

(** ** Type Exports *)

(** The object literals of the four tests, as written: the tests read
    their properties back.  [same] is the comparison of [toBe] on values
    that are not objects. *)
Definition same (v w : JsValue) : bool :=
  match v, w with
  | Undefined, Undefined => true
  | Bool a, Bool b => Bool.eqb a b
  | Num a, Num b => Qeq_bool a b
  | Str a, Str b => String.eqb a b
  | _, _ => false
  end.

Definition defined (v : JsValue) : bool :=
  match v with Undefined => false | _ => true end.

Definition stimulus_object (img name shape color : string) : JsValue :=
  Obj [("img", Str img); ("name", Str name); ("shape", Str shape); ("color", Str color)].

Definition trial_object : JsValue :=
  Obj [("target", stimulus_object "target.svg" "target" "ball" "blue");
       ("left", stimulus_object "left.svg" "left" "ball" "blue");
       ("right", stimulus_object "right.svg" "right" "truck" "orange");
       ("correct", Num 0); ("dimension", Str "color")].

Definition data_object : JsValue :=
  Obj [("response", Num 1); ("correct", Bool true); ("rt", Num 2500);
       ("phase", Str "color_test"); ("dimension", Str "color");
       ("target", Str "blue ball")].

Definition state_object : JsValue :=
  Obj [("audioEnabled", Bool true); ("currentPhase", Str "practice");
       ("trialsCompleted", Num 5)].

Definition should_export_Stimulus_type : bool :=
  let stimulus := stimulus_object "test.svg" "test item" "ball" "blue" in
  same (read stimulus "img") (Str "test.svg") &&
  same (read stimulus "name") (Str "test item") &&
  same (read stimulus "shape") (Str "ball") && same (read stimulus "color") (Str "blue").

Definition should_export_Trial_type : bool :=
  let trial := trial_object in
  defined (read trial "target") && defined (read trial "left") &&
  defined (read trial "right") && same (read trial "correct") (Num 0) &&
  same (read trial "dimension") (Str "color").

Definition should_export_TrialData_type : bool :=
  let data := data_object in
  same (read data "response") (Num 1) && same (read data "correct") (Bool true) &&
  same (read data "rt") (Num 2500) && same (read data "phase") (Str "color_test") &&
  same (read data "dimension") (Str "color") && same (read data "target") (Str "blue ball").

Definition should_export_GameState_type : bool :=
  let state := state_object in
  same (read state "audioEnabled") (Bool true) &&
  same (read state "currentPhase") (Str "practice") &&
  same (read state "trialsCompleted") (Num 5).

(** ** Edge Cases *)

Definition options_with (practiceTrials testTrials mixedTrials : option Number)
    : Options.options :=
  {| Options.practiceTrials := practiceTrials; Options.testTrials := testTrials;
     Options.mixedTrials := mixedTrials; Options.showInstructions := None;
     Options.showResults := None |}.

Definition should_handle_zero_practice_trials : bool :=
  let timeline := call_createTimeline (options_with (Some 0%Q) None None) in
  toBeDefined timeline && toBe (isArray timeline) true.

Definition should_handle_zero_test_trials : bool :=
  let timeline := call_createTimeline (options_with None (Some 0%Q) None) in
  toBeDefined timeline && toBe (isArray timeline) true.

Definition should_handle_zero_mixed_trials : bool :=
  let timeline := call_createTimeline (options_with None None (Some 0%Q)) in
  toBeDefined timeline && toBe (isArray timeline) true.

Definition should_handle_all_parameters_as_zero : bool :=
  let timeline :=
    call_createTimeline
      {| Options.practiceTrials := Some 0%Q; Options.testTrials := Some 0%Q;
         Options.mixedTrials := Some 0%Q; Options.showInstructions := Some false;
         Options.showResults := Some false |} in
  toBeDefined timeline && toBe (isArray timeline) true &&
  match timeline with
  | Some timeline => toBeGreaterThan (length timeline) 0
  | None => false
  end.

(** [global.setTimeout] is replaced by a mock that records its calls and
    runs nothing: the calls are the timers of the environment. *)
Definition should_handle_timeout_prompt_for_test_trials : bool :=
  let e := mock_page [mockCard] None fixture in
  let mockSetTimeout := timers (utils.setupTrial test_trial "test" 1 "color" false e).2 in
  existsb (fun call => toBeNumber (call.1 - now e) 5000) mockSetTimeout.

(** A host whose [getCurrentTrial] returns [null]. *)
Record NullHost : Type := { null_calls : list FinishData }.

#[export] Instance mockJsPsychNull : JsPsych NullHost := {|
  finishTrial d h := {| null_calls := null_calls h ++ [d] |};
  getCurrentTrial _ := false;
|}.

Definition should_handle_getCurrentTrial_returning_null : bool :=
  let e : Env NullHost :=
    {| globals := globals fixture; now := now fixture;
       dom := {| cards := [mockCard]; feedback := None |};
       closures := []; timers := []; finish_log := [];
       host := {| null_calls := [] |} |} in
  match (call_setupTrial test_trial "test" 1 "color" false e).1 with
  | Ok _ => true
  | _ => false
  end.

(** ** The suite *)

(** The tests by name, in the order of the file.  ['should export GameState
    type'] is missing: its object literal has the properties
    [audioEnabled], [currentPhase] and [trialsCompleted], which [GameState]
    does not have, so it is not a value of the type. *)
Definition suite : list (string * bool) :=
  [ ("should have correct default values", should_have_correct_default_values);
    ("should export all required stimulus objects",
     should_export_all_required_stimulus_objects);
    ("should create timeline with default parameters",
     should_create_timeline_with_default_parameters);
    ("should create timeline with custom parameters",
     should_create_timeline_with_custom_parameters);
    ("should include welcome screen as first element",
     should_include_welcome_screen_as_first_element);
    ("should exclude instructions when showInstructions is false",
     should_exclude_instructions_when_showInstructions_is_false);
    ("should include results when showResults is true",
     should_include_results_when_showResults_is_true);
    ("should exclude results when showResults is false",
     should_exclude_results_when_showResults_is_false);
    ("should create welcome component", should_create_welcome_component);
    ("should contain DCCS title", should_contain_DCCS_title);
    ("should include audio toggle", should_include_audio_toggle);
    ("should set audio state on finish", should_set_audio_state_on_finish);
    ("should create color instructions array", should_create_color_instructions_array);
    ("should contain COLOR game instructions", should_contain_COLOR_game_instructions);
    ("should have on_load functions for audio", should_have_on_load_functions_for_audio);
    ("should create practice trial component", should_create_practice_trial_component);
    ("should set correct trial data", should_set_correct_trial_data);
    ("should create test trial component", should_create_test_trial_component);
    ("should handle different phases and dimensions",
     should_handle_different_phases_and_dimensions);
    ("should create results component", should_create_results_component);
    ("should calculate and display results", should_calculate_and_display_results);
    ("should reset state to initial values", should_reset_state_to_initial_values);
    ("should not play audio when audio is disabled",
     should_not_play_audio_when_audio_is_disabled);
    ("should create trial stimulus HTML", should_create_trial_stimulus_HTML);
    ("should setup trial with DOM elements", should_setup_trial_with_DOM_elements);
    ("should handle correct response with feedback",
     should_handle_correct_response_with_feedback);
    ("should handle incorrect response with feedback",
     should_handle_incorrect_response_with_feedback);
    ("should generate correct number of mixed trials",
     should_generate_correct_number_of_mixed_trials);
    ("should alternate between color and shape dimensions",
     should_alternate_between_color_and_shape_dimensions);
    ("should set correct response based on dimension",
     should_set_correct_response_based_on_dimension);
    ("should use only test stimuli for mixed trials",
     should_use_only_test_stimuli_for_mixed_trials);
    ("should handle card click without feedback",
     should_handle_card_click_without_feedback);
    ("should prevent multiple clicks on same trial",
     should_prevent_multiple_clicks_on_same_trial);
    ("should export Stimulus type", should_export_Stimulus_type);
    ("should export Trial type", should_export_Trial_type);
    ("should export TrialData type", should_export_TrialData_type);
    ("should export GameState type", should_export_GameState_type);
    ("should handle zero practice trials", should_handle_zero_practice_trials);
    ("should handle zero test trials", should_handle_zero_test_trials);
    ("should handle zero mixed trials", should_handle_zero_mixed_trials);
    ("should handle all parameters as zero", should_handle_all_parameters_as_zero);
    ("should handle timeout prompt for test trials",
     should_handle_timeout_prompt_for_test_trials);
    ("should handle getCurrentTrial returning null",
     should_handle_getCurrentTrial_returning_null) ].

Definition failing (tests : list (string * bool)) : list string :=
  (filter (fun t => t.2 = false) tests).*1.

(** ** The configuration *)

Module JestConfig.

(** The values of the file: a string, an array of strings, an object
    with one pattern mapped to a string, and the [transform] entry, a
    pattern mapped to a transformer and its options. *)
Inductive Value : Type :=
| Str (s : string)
| Strs (l : list string)
| Mapping (pattern replacement : string)
| Transform (pattern transformer : string) (useESM : bool).

(** The object [src/jest.config.js] exports. *)
Definition config : list (string * Value) :=
  [ ("preset", Str "ts-jest/presets/default-esm");
    ("extensionsToTreatAsEsm", Strs [".ts"]);
    ("testEnvironment", Str "jsdom");
    ("moduleNameMapping", Mapping "^(\.{1,2}/.*)\.js$" "$1");
    ("transform", Transform "^.+\.ts$" "ts-jest" true);
    ("testMatch", Strs ["**/*.spec.ts"; "**/*.test.ts"]);
    ("collectCoverageFrom", Strs ["src/**/*.ts"; "!src/**/*.d.ts"]);
    ("setupFilesAfterEnv", Strs ["<rootDir>/jest.setup.js"]) ].

(** The options of Jest the keys of the file could be. *)
Definition known_options : list string :=
  [ "preset"; "extensionsToTreatAsEsm"; "testEnvironment"; "moduleNameMapper";
    "moduleFileExtensions"; "moduleDirectories"; "modulePaths"; "transform";
    "transformIgnorePatterns"; "testMatch"; "testRegex"; "collectCoverage";
    "collectCoverageFrom"; "setupFiles"; "setupFilesAfterEnv"; "roots"; "rootDir" ].

Definition unknown_options : list string :=
  filter (fun k => k ∉ known_options) config.*1.

End JestConfig.

(** ** Theorems *)

Section Mocked.
Context {H : Type} `{JsPsych H}.
Implicit Type e : Env H.

Lemma mock_setTimeout_snoc e due cb :
  mock_setTimeout (with_timers (timers e ++ [(due, cb)]) e)
  = invoke cb (mock_setTimeout e).
Proof. unfold mock_setTimeout. cbn. by rewrite foldl_app. Qed.

(** Under the mocked [setTimeout] a click on a practice trial reports
    before the handler's caller goes on, and the reaction time is the time
    of the click: the suite cannot see that in the browser the report waits
    for the feedback delay and counts it. *)
Theorem mock_reports_at_click e (inst i : nat) (c : Closure) :
  closures e !! inst = Some c -> responded c = false -> withFeedback c = true ->
  is_Some (js_index (cards (dom e)) (correct (trial c))) -> timers e = [] ->
  let d := {| fd_response := i;
              fd_correct := bool_decide (Z.of_nat i = correct (trial c));
              fd_rt := now e - startTime c |} in
  let e' := mock_setTimeout (clickHandler inst i e).2 in
  host e' = finishTrial d (host e) /\ finish_log e' = finish_log e ++ [(inst, d)] /\
  timers e' = [].
Proof.
  intros Hc Hr Hf Hidx Hts.
  destruct (clickHandler_feedback inst i e c) as (_ & Hts' & Hcs & Hlog & Hnow & Hhost);
    [done..|].
  destruct (clickHandler inst i e) as [r [g1 now1 dom1 cs1 ts1 log1 h1]]. simplify_eq/=.
  rewrite Hts. unfold mock_setTimeout, invoke. cbn. rewrite finishLater_run. cbn.
  by rewrite list_lookup_alter_eq, Hc.
Qed.

End Mocked.

(** Run on the model, every test of the suite passes but one: ['should
    set audio state on finish'] fails. *)
Example suite_verdicts : failing suite = ["should set audio state on finish"].
Proof. by vm_compute. Qed.

(** ['should set audio state on finish'] cannot pass: the test sets
    [window.tempAudioEnabled], and the welcome screen's [on_finish] turns
    audio on exactly when [window.tempaudio_enabled] is true. *)
Theorem welcome_test_fails (g : Globals) :
  should_set_audio_state_on_finish = false /\
  ((welcome_on_finish g).1 = Ok true <-> tempaudio_enabled (window g) = Some true).
Proof.
  split; [by vm_compute|]. destruct g as [st [q [[]|]]]; cbn; naive_solver.
Qed.

(** The literals of the tests of the type exports against the
    interfaces they are declared with.  Those of [Stimulus], [Trial] and
    [TrialData] are values of their interfaces and are read as the records
    of the model.  The literal of ['should export GameState type'] is not a
    [GameState]: it spells the properties [audioEnabled], [currentPhase]
    and [trialsCompleted], which the interface does not have, and has none
    of the properties it requires; no record of the model is written so.
    The test passes all the same when it runs, since it only reads back
    what it wrote. *)
Example type_export_literals :
  (assignable StimulusT (stimulus_object "test.svg" "test item" "ball" "blue") = true /\
   to_Stimulus (stimulus_object "test.svg" "test item" "ball" "blue")
   = Some (stimulus_literal "test.svg" "test item" "ball" "blue")) /\
  (assignable TrialT trial_object = true /\ is_Some (to_Trial trial_object)) /\
  (assignable TrialDataT data_object = true /\ is_Some (to_TrialData data_object)) /\
  (assignable GameStateT state_object = false /\ to_GameState state_object = None /\
   (forall g, of_GameState g <> state_object) /\
   should_export_GameState_type = true).
Proof.
  repeat split; try by vm_compute. all: by eexists; vm_compute.
Qed.

(** The configuration has a key that is no option of Jest: the mapping of
    module names it declares is ignored. *)
Lemma moduleNameMapping_unknown : JestConfig.unknown_options = ["moduleNameMapping"].
Proof. by vm_compute. Qed.

(** ** Witnesses *)

Lemma mock_reports_at_click_witness :
  let e' := mock_setTimeout (clickHandler 0 1 demo_practice_ready).2 in
  host e' = [{| fd_response := 1; fd_correct := false; fd_rt := 700 |}] /\
  finish_log e' = [(0%nat, {| fd_response := 1; fd_correct := false; fd_rt := 700 |})] /\
  timers e' = [].
Proof.
  pose proof (mock_reports_at_click demo_practice_ready 0 1
                {| trial := demo_trial; withFeedback := true; startTime := 0;
                   responded := false |}) as Hw.
  vm_compute in Hw |- *. apply Hw; try reflexivity. by eexists.
Defined.
